(** * Budgeting tool: the aggregation engine of [src/analysis.py]

    A shallow embedding of the pandas-based analysis module and of the
    worksheet reader of [src/data_fetch.py], with the properties of both
    stated and proved over it.

    Layout:
    - [F64]    : IEEE-754 binary64 numbers (Python [float], numpy [float64]);
    - [Py]     : the Python string built-ins the code calls ([str.replace],
                 [str.strip], [in], [float]);
    - [Pd]     : cells, Series and DataFrames, and the store of DataFrame
                 objects together with the monad the engine runs in;
    - [Analysis] : the functions of [analysis.py], one definition each;
    - [DataFetch] : the functions of [data_fetch.py], one definition each;
    - the theorems. *)

From Stdlib Require Import ZArith List String Ascii Bool Lia Arith.
From Stdlib Require Import DecimalString.
From Stdlib Require Import Floats.SpecFloat.
From Stdlib Require Import Sorting.Sorted Sorting.Permutation.
Import ListNotations.

Set Implicit Arguments.
Local Open Scope string_scope.

(* ================================================================== *)
(** ** Binary64 arithmetic *)

Module F64.

Definition prec : Z := 53.
Definition emax : Z := 1024.

(** A Python [float]: the specification floats of the Standard Library at
    the binary64 format. *)
Definition float : Type := spec_float.

Definition zero : float := S754_zero false.
Definition inf : float := S754_infinity false.
Definition nan : float := S754_nan.

Definition add : float -> float -> float := SFadd prec emax.
Definition sub : float -> float -> float := SFsub prec emax.
Definition div : float -> float -> float := SFdiv prec emax.
Definition abs : float -> float := SFabs.
Definition opp : float -> float := SFopp.
Definition eqb : float -> float -> bool := SFeqb.
Definition ltb : float -> float -> bool := SFltb.
Definition leb : float -> float -> bool := SFleb.

Definition is_nan (x : float) : bool :=
  match x with S754_nan => true | _ => false end.

(** [a > b], [a >= b], [a != b] as Python evaluates them on floats. *)
Definition gtb (a b : float) : bool := ltb b a.
Definition geb (a b : float) : bool := leb b a.
Definition neqb (a b : float) : bool := negb (eqb a b).

(** [y] is the opposite of [x], the sign of a zero apart. *)
Definition mirror (x y : float) : Prop :=
  y = opp x \/ (exists s s', x = S754_zero s /\ y = S754_zero s').

(** The float nearest to the integer [z]. *)
Definition of_Z (z : Z) : float := binary_normalize prec emax z 0 false.

(** The float nearest to [(-1)^s * m * 10^e] (round to nearest, ties to
    even): the value a correctly rounded decimal-to-binary conversion
    returns. *)
Definition of_decimal (s : bool) (m : N) (e : Z) : float :=
  match m with
  | N0 => S754_zero s
  | Npos p =>
      match e with
      | Zneg k =>
          SFdiv prec emax (S754_finite s p 0)
                (S754_finite false (Pos.pow 10 k) 0)
      | _ => binary_round prec emax s (p * Z.to_pos (10 ^ e)) 0
      end
  end.

End F64.

(* ================================================================== *)
(** ** Python strings and the built-ins used by the engine

    A Python [str] is modelled by its UTF-8 bytes: [str.replace], [in] and
    prefix tests on code points and on UTF-8 bytes agree, because UTF-8 is
    self-synchronising. *)

Module Py.

Definition bytes (l : list nat) : string :=
  fold_right (fun n s => String (ascii_of_nat n) s) EmptyString l.

Fixpoint drop (n : nat) (s : string) : string :=
  match n, s with
  | S k, String _ r => drop k r
  | _, _ => s
  end.

Fixpoint rev_append (s acc : string) : string :=
  match s with
  | EmptyString => acc
  | String c r => rev_append r (String c acc)
  end.

Definition rev (s : string) : string := rev_append s EmptyString.

(** [sub in s] *)
Fixpoint contains (sub s : string) : bool :=
  String.prefix sub s ||
  match s with
  | EmptyString => false
  | String _ r => contains sub r
  end.

(** [s.replace(old, new)] for a non-empty [old]: the occurrences are found
    from left to right and do not overlap.  [skip] counts the bytes of the
    current occurrence that are still to be dropped. *)
Fixpoint replace_from (old new : string) (skip : nat) (s : string) : string :=
  match s with
  | EmptyString => EmptyString
  | String c r =>
      match skip with
      | S k => replace_from old new k r
      | O =>
          if String.prefix old s
          then new ++ replace_from old new (String.length old - 1) r
          else String c (replace_from old new 0 r)
      end
  end.

(** With an empty [old], Python puts [new] before every character and at
    the end. *)
Fixpoint intersperse (new s : string) : string :=
  match s with
  | EmptyString => new
  | String c r => new ++ String c (intersperse new r)
  end.

Definition replace (old new s : string) : string :=
  match old with
  | EmptyString => intersperse new s
  | _ => replace_from old new 0 s
  end.

(** The characters [str.isspace] accepts, in UTF-8: U+0009..U+000D,
    U+001C..U+0020, U+0085, U+00A0, U+1680, U+2000..U+200A, U+2028, U+2029,
    U+202F, U+205F, U+3000. *)
Definition whitespace : list string :=
  map bytes
    ([[9]; [10]; [11]; [12]; [13]; [28]; [29]; [30]; [31]; [32];
      [194; 133]; [194; 160]; [225; 154; 128]]
     ++ map (fun k => [226; 128; 128 + k]) (seq 0 11)
     ++ [[226; 128; 168]; [226; 128; 169]; [226; 128; 175];
         [226; 129; 159]; [227; 128; 128]])%list.

(** The length of the whitespace character [s] starts with, if any. *)
Definition space_prefix (ws : list string) (s : string) : option nat :=
  option_map String.length (find (fun w => String.prefix w s) ws).

Fixpoint lstrip_from (ws : list string) (skip : nat) (s : string) : string :=
  match s with
  | EmptyString => EmptyString
  | String _ r =>
      match skip with
      | S k => lstrip_from ws k r
      | O =>
          match space_prefix ws s with
          | Some n => lstrip_from ws (n - 1) r
          | None => s
          end
      end
  end.

Definition lstrip (s : string) : string := lstrip_from whitespace 0 s.

Definition rstrip (s : string) : string :=
  rev (lstrip_from (map rev whitespace) 0 (rev s)).

(** [s.strip()] *)
Definition strip (s : string) : string := rstrip (lstrip s).

(** *** [float(s)] *)

Definition is_digit (c : ascii) : bool :=
  let n := nat_of_ascii c in Nat.leb 48 n && Nat.leb n 57.

Definition digit_val (c : ascii) : N := N.of_nat (nat_of_ascii c - 48).

(** The longest prefix of digits, and what follows it. *)
Fixpoint span_digits (s : string) : string * string :=
  match s with
  | String c r =>
      if is_digit c
      then let '(d, rest) := span_digits r in (String c d, rest)
      else (EmptyString, s)
  | EmptyString => (EmptyString, EmptyString)
  end.

Fixpoint digits_value (acc : N) (s : string) : N :=
  match s with
  | EmptyString => acc
  | String c r => digits_value (10 * acc + digit_val c) r
  end.

Definition lower (c : ascii) : ascii :=
  let n := nat_of_ascii c in
  if Nat.leb 65 n && Nat.leb n 90 then ascii_of_nat (n + 32) else c.

Fixpoint lowercase (s : string) : string :=
  match s with
  | EmptyString => EmptyString
  | String c r => String (lower c) (lowercase r)
  end.

(** An underscore is accepted only between two digits; the accepted
    underscores are removed before the number is read. *)
Fixpoint drop_underscores (prev : ascii) (s : string) : option string :=
  match s with
  | EmptyString => if Ascii.eqb prev "_" then None else Some EmptyString
  | String c r =>
      if Ascii.eqb c "_"
      then if is_digit prev then drop_underscores c r else None
      else if Ascii.eqb prev "_" && negb (is_digit c) then None
      else option_map (String c) (drop_underscores c r)
  end.

Definition split_sign (s : string) : bool * string :=
  match s with
  | String "+" r => (false, r)
  | String "-" r => (true, r)
  | _ => (false, s)
  end.

(** The exponent part: [e] or [E], an optional sign, at least one digit,
    and nothing after it. *)
Definition read_exponent (s : string) : option Z :=
  match s with
  | EmptyString => Some 0%Z
  | String c r =>
      if Ascii.eqb (lower c) "e"
      then let '(neg, r1) := split_sign r in
           let '(ds, rest) := span_digits r1 in
           match ds, rest with
           | String _ _, EmptyString =>
               let v := Z.of_N (digits_value 0 ds) in
               Some (if neg then (- v)%Z else v)
           | _, _ => None
           end
      else None
  end.

Definition read_number (s : string) : option F64.float :=
  let '(neg, body) := split_sign s in
  let word := lowercase body in
  if String.eqb word "inf" || String.eqb word "infinity"
  then Some (S754_infinity neg)
  else if String.eqb word "nan" then Some F64.nan
  else
    let '(ip, s1) := span_digits body in
    let '(fp, s2) :=
      match s1 with
      | String "." r => span_digits r
      | _ => (EmptyString, s1)
      end in
    match (ip ++ fp)%string with
    | EmptyString => None
    | String _ _ as ds =>
        match read_exponent s2 with
        | Some e =>
            Some (F64.of_decimal neg (digits_value 0 ds)
                    (e - Z.of_nat (String.length fp)))
        | None => None
        end
    end.

(** The whitespace [float] skips at both ends of an ASCII text. *)
Definition float_spaces : list string :=
  map bytes [[9]; [10]; [11]; [12]; [13]; [32]].

(** The number an ASCII text stands for. *)
Definition float_of_ascii (s : string) : option F64.float :=
  let t := lstrip_from float_spaces 0 s in
  let t := rev (lstrip_from (map rev float_spaces) 0 (rev t)) in
  match drop_underscores " " t with
  | Some t => read_number t
  | None => None
  end.

(** Before it reads a text, [float] puts the ASCII digit in the place of
    every decimal digit, a space in the place of every whitespace character
    that is not ASCII, and gives up at any other character that is not
    ASCII.  The decimal digits are those of Unicode 15 (Python 3.12 and
    3.13): they come in runs of ten, listed here by the code point of their
    zero. *)
Definition decimal_zeros : list N :=
  [1632; 1776; 1984; 2406; 2534; 2662; 2790; 2918; 3046; 3174; 3302; 3430;
   3558; 3664; 3792; 3872; 4160; 4240; 6112; 6160; 6470; 6608; 6784; 6800;
   6992; 7088; 7232; 7248; 42528; 43216; 43264; 43472; 43504; 43600; 44016;
   65296; 66720; 68912; 69734; 69872; 69942; 70096; 70384; 70736; 70864;
   71248; 71360; 71472; 71904; 72016; 72784; 73040; 73120; 73552; 92768;
   92864; 93008; 120782; 120792; 120802; 120812; 120822; 123200; 123632;
   124144; 125264; 130032]%N.

Definition unicode_spaces : list N :=
  [133; 160; 5760; 8192; 8193; 8194; 8195; 8196; 8197; 8198; 8199; 8200;
   8201; 8202; 8232; 8233; 8239; 8287; 12288]%N.

(** The ASCII character [float] reads in the place of a code point that
    is not ASCII; [?] when it gives up. *)
Definition transform (cp : N) : ascii :=
  match find (fun z => N.leb z cp && N.ltb cp (z + 10)) decimal_zeros with
  | Some z => ascii_of_N (48 + (cp - z))
  | None => if existsb (N.eqb cp) unicode_spaces then " "%char else "?"%char
  end.

(** [pending] counts the bytes still to come of the code point that is
    being read, [cp] holds the bits read so far. *)
Fixpoint to_ascii (pending : nat) (cp : N) (s : string) : string :=
  match s with
  | EmptyString => EmptyString
  | String c r =>
      let n := N_of_ascii c in
      match pending with
      | O =>
          if N.ltb n 128 then String c (to_ascii 0 0 r)
          else if N.ltb n 224 then to_ascii 1 (n - 192) r
          else if N.ltb n 240 then to_ascii 2 (n - 224) r
          else to_ascii 3 (n - 240) r
      | S O =>
          let a := transform (cp * 64 + (n - 128)) in
          if Ascii.eqb a "?" then String a EmptyString
          else String a (to_ascii 0 0 r)
      | S k => to_ascii k (cp * 64 + (n - 128)) r
      end
  end.

(** [float(s)]: [None] stands for the [ValueError] Python raises. *)
Definition float_of_string (s : string) : option F64.float :=
  float_of_ascii (to_ascii 0 0 s).

(** [str(n)] for a natural number (used in the log messages). *)
Definition str_of_nat (n : nat) : string :=
  NilEmpty.string_of_uint (Nat.to_uint n).

End Py.

(* ================================================================== *)
(** ** pandas: cells, Series, DataFrames and the store of objects *)

Module Pd.

(** What a cell of a table holds: a Python [str], a float, or the missing
    value [None]. *)
Inductive cell : Type :=
| Str (s : string)
| Num (x : F64.float)
| Missing.

Definition Series : Type := list cell.

(** A DataFrame: the row labels and the named columns, each column as long
    as the index. *)
Record DataFrame : Type := mkDF {
  index : list nat;
  columns : list (string * Series)
}.

(** The library behaviours the engine relies on and that are not defined
    in this repository: how a float is printed by [str]; which rows
    [DataFrame.query] selects for an expression ([None] when [query]
    raises); and in which order the default sort of numpy
    ([kind='quicksort'], which is not stable) leaves equal values:
    [quicksort_rank a i] is the rank that the sort gives to the value at
    position [i] of the array [a] among the values equal to it, the lower
    rank coming first. *)
Class Runtime : Type := {
  float_repr : F64.float -> string;
  eval_query : string -> DataFrame -> option (list bool);
  quicksort_rank : list F64.float -> nat -> nat
}.

(** *** Pure operations on Series *)

Fixpoint select (A : Type) (mask : list bool) (xs : list A) : list A :=
  match mask, xs with
  | b :: m, x :: r => if b then x :: select m r else select m r
  | _, _ => []
  end.

(** [s == v] against a string. *)
Definition eq_str (v : string) (c : cell) : bool :=
  match c with Str s => String.eqb s v | _ => false end.

(** [s == v] against a value taken from a column. *)
Definition eq_cell (v c : cell) : bool :=
  match v, c with
  | Str a, Str b => String.eqb a b
  | Num a, Num b => F64.eqb a b
  | _, _ => false
  end.

Definition notna (c : cell) : bool :=
  match c with
  | Str _ => true
  | Num x => negb (F64.is_nan x)
  | Missing => false
  end.

(** [s.isin(values)] for a list of strings. *)
Definition isin (values : list string) (c : cell) : bool :=
  match c with
  | Str s => existsb (String.eqb s) values
  | _ => false
  end.

(** [s.astype(str)] *)
Definition astype_str `{Runtime} (c : cell) : cell :=
  match c with
  | Str s => Str s
  | Num x => Str (float_repr x)
  | Missing => Str "None"
  end.

(** An [s.str] method applied to one cell: only strings are transformed. *)
Definition str_method (f : string -> string) (c : cell) : cell :=
  match c with
  | Str s => Str (f s)
  | Num _ => Num F64.nan
  | Missing => Missing
  end.

(** [float(c)], as [s.astype(float)] applies it to a cell. *)
Definition cell_to_float (c : cell) : option F64.float :=
  match c with
  | Str s => Py.float_of_string s
  | Num x => Some x
  | Missing => Some F64.nan
  end.

(** [s.astype(float)]: [None] when one cell is not a number. *)
Fixpoint astype_float (s : Series) : option (list F64.float) :=
  match s with
  | [] => Some []
  | c :: r =>
      match cell_to_float c, astype_float r with
      | Some x, Some xs => Some (x :: xs)
      | _, _ => None
      end
  end.

(** The floats of a numeric column: [None] when a cell is not a float. *)
Fixpoint floats (s : Series) : option (list F64.float) :=
  match s with
  | [] => Some []
  | Num x :: r => option_map (cons x) (floats r)
  | _ :: _ => None
  end.

(** *** Sums: [s.sum()]

    [s.sum()] on floats ([skipna=True]): pandas puts [0.0] in the place of
    every NaN and calls the [sum] of numpy, which adds to the initial value
    [0.0] the pairwise sum of the array.  In the pairwise sum, fewer than
    eight values are added in order; up to 128 values go to eight lanes,
    lane [j] adding up the values at the positions [j], [j + 8], ... of the
    full blocks of eight, then the lanes are added two by two and the
    values after the last full block one by one; a longer array is cut in
    two at a multiple of eight and the sums of the two parts are added. *)
Definition nan_to_zero (x : F64.float) : F64.float :=
  if F64.is_nan x then F64.zero else x.

(** [r[j] += a[j]] on the lanes. *)
Fixpoint add_lanes (r a : list F64.float) : list F64.float :=
  match r, a with
  | x :: r', y :: a' => F64.add x y :: add_lanes r' a'
  | _, _ => r
  end.

(** The loop over the full blocks of eight: the lanes, and the values
    after the last full block. *)
Fixpoint lanes (fuel : nat) (r a : list F64.float)
  : list F64.float * list F64.float :=
  match fuel with
  | O => (r, a)
  | S f =>
      if Nat.leb 8 (List.length a)
      then lanes f (add_lanes r (firstn 8 a)) (skipn 8 a)
      else (r, a)
  end.

(** From 8 to 128 values. *)
Definition block_sum (a : list F64.float) : F64.float :=
  let '(r, rest) := lanes (List.length a) (firstn 8 a) (skipn 8 a) in
  let r := fun j => nth j r F64.zero in
  fold_left F64.add rest
    (F64.add (F64.add (F64.add (r 0) (r 1)) (F64.add (r 2) (r 3)))
             (F64.add (F64.add (r 4) (r 5)) (F64.add (r 6) (r 7)))).

(** The sign of the zero that the sum of fewer than eight values starts
    from does not show in [fsum]: the result is added to [0.0]. *)
Fixpoint pairwise_sum (fuel : nat) (a : list F64.float) : F64.float :=
  let n := List.length a in
  if Nat.ltb n 8 then fold_left F64.add a F64.zero
  else if Nat.leb n 128 then block_sum a
  else
    match fuel with
    | O => F64.zero
    | S f =>
        let n2 := n / 2 - (n / 2) mod 8 in
        F64.add (pairwise_sum f (firstn n2 a)) (pairwise_sum f (skipn n2 a))
    end.

Definition fsum (xs : list F64.float) : F64.float :=
  F64.add F64.zero
          (pairwise_sum (List.length xs) (map nan_to_zero xs)).

(** The sum of one group of [groupby(key)[value].sum()]: pandas adds the
    values of a group by Kahan summation, skipping NaN; a compensation that
    is NaN (after an infinite value) is put back to [0.0]. *)
Definition kahan_step (acc : F64.float * F64.float) (val : F64.float)
  : F64.float * F64.float :=
  let '(sumx, compensation) := acc in
  if F64.is_nan val then acc
  else
    let y := F64.sub val compensation in
    let t := F64.add sumx y in
    let c := F64.sub (F64.sub t sumx) y in
    (t, if F64.is_nan c then F64.zero else c).

Definition group_sum (xs : list F64.float) : F64.float :=
  fst (fold_left kahan_step xs (F64.zero, F64.zero)).

(** [s.unique()]: the distinct values in order of first appearance. *)
Definition same_cell (a b : cell) : bool :=
  match a, b with
  | Str x, Str y => String.eqb x y
  | Num x, Num y => F64.eqb x y || (F64.is_nan x && F64.is_nan y)
  | Missing, Missing => true
  | _, _ => false
  end.

Fixpoint unique_from (seen : list cell) (s : Series) : list cell :=
  match s with
  | [] => []
  | c :: r =>
      if existsb (same_cell c) seen then unique_from seen r
      else c :: unique_from (c :: seen) r
  end.

Definition unique (s : Series) : list cell := unique_from [] s.

(** *** Pure operations on DataFrames *)

Definition nrows (df : DataFrame) : nat := List.length (index df).

Definition column_names (df : DataFrame) : list string :=
  map fst (columns df).

Definition has_column (c : string) (df : DataFrame) : bool :=
  existsb (String.eqb c) (column_names df).

(** [df.empty] *)
Definition is_empty (df : DataFrame) : bool :=
  match index df, columns df with
  | _ :: _, _ :: _ => false
  | _, _ => true
  end.

Fixpoint lookup (c : string) (cols : list (string * Series)) : option Series :=
  match cols with
  | [] => None
  | (n, s) :: r => if String.eqb n c then Some s else lookup c r
  end.

(** [df[c] = s]: an existing column is replaced where it stands, a new
    one is added at the end. *)
Fixpoint assign (c : string) (s : Series) (cols : list (string * Series))
  : list (string * Series) :=
  match cols with
  | [] => [(c, s)]
  | (n, old) :: r =>
      if String.eqb n c then (n, s) :: r else (n, old) :: assign c s r
  end.

Definition set_column (c : string) (s : Series) (df : DataFrame) : DataFrame :=
  mkDF (index df) (assign c s (columns df)).

(** [df[mask]] *)
Definition select_rows (mask : list bool) (df : DataFrame) : DataFrame :=
  mkDF (select mask (index df))
       (map (fun '(n, s) => (n, select mask s)) (columns df)).

(** [df.iloc[positions]] *)
Definition take (A : Type) (d : A) (positions : list nat) (xs : list A)
  : list A :=
  map (fun i => nth i xs d) positions.

Definition take_rows (positions : list nat) (df : DataFrame) : DataFrame :=
  mkDF (take 0 positions (index df))
       (map (fun '(n, s) => (n, take Missing positions s)) (columns df)).

(** [df.drop(c, axis=1)] *)
Definition drop_column (c : string) (df : DataFrame) : DataFrame :=
  mkDF (index df)
       (filter (fun '(n, _) => negb (String.eqb n c)) (columns df)).

(** *** Ranking rows: [nlargest]

    On a column of more than [n] rows, [nlargest] ranks the rows.
    [before x y] holds when a row of value [x] is ranked before a row of
    value [y] that comes later in the table: larger values first, NaN
    last, and the earlier row first among equal values. *)
Definition before (x y : F64.float) : bool :=
  F64.is_nan y || F64.leb y x.

(** A row is put in front of the first ranked row it may come before. *)
Fixpoint insert_ranked (p : nat * F64.float) (l : list (nat * F64.float))
  : list (nat * F64.float) :=
  match l with
  | [] => [p]
  | q :: r =>
      if before (snd p) (snd q) then p :: q :: r else q :: insert_ranked p r
  end.

(** The rows, as (position, value), from the largest value to the
    smallest.  The rows are inserted from the last to the first, so rows
    of equal value keep the order of the table. *)
Definition ranked (l : list (nat * F64.float)) : list (nat * F64.float) :=
  fold_right insert_ranked [] l.

(** On a column of [n] rows or fewer, [nlargest] does not rank: it
    returns [s.sort_values(ascending=False).head(n)], and [sort_values]
    sorts with the default sort of numpy, which is not stable.

    [sorts_before a p q]: in the array [a], the default sort puts the
    (position, value) [p] before [q]. *)
Definition sorts_before `{Runtime} (a : list F64.float)
           (p q : nat * F64.float) : bool :=
  F64.ltb (snd p) (snd q)
  || (F64.eqb (snd p) (snd q)
      && Nat.leb (quicksort_rank a (fst p)) (quicksort_rank a (fst q))).

Fixpoint insert_by (A : Type) (le : A -> A -> bool) (p : A) (l : list A)
  : list A :=
  match l with
  | [] => [p]
  | q :: r => if le p q then p :: q :: r else q :: insert_by le p r
  end.

(** [a.argsort()] on an array without NaN: the positions, from the
    smallest value to the largest. *)
Definition argsort `{Runtime} (a : list F64.float) : list nat :=
  map fst (fold_right (insert_by (sorts_before a)) []
                      (combine (seq 0 (List.length a)) a)).

(** The positions in the order of [s.sort_values(ascending=False)]: the
    values that are not NaN are reversed, sorted from the smallest to the
    largest and reversed again; the NaN come last, in the order of the
    table. *)
Definition sort_descending `{Runtime} (xs : list F64.float) : list nat :=
  let idx := seq 0 (List.length xs) in
  let mask := map F64.is_nan xs in
  let non_nans := rev (select (map negb mask) xs) in
  let non_nan_idx := rev (select (map negb mask) idx) in
  let nan_idx := select mask idx in
  (rev (take 0 (argsort non_nans) non_nan_idx) ++ nan_idx)%list.

(** The positions of the [n] largest values, largest first
    ([keep='first']). *)
Definition nlargest_positions `{Runtime} (n : nat) (xs : list F64.float)
  : list nat :=
  if Nat.leb (List.length xs) n
  then firstn n (sort_descending xs)
  else map fst (firstn n (ranked (combine (seq 0 (List.length xs)) xs))).

(** *** Grouping: [groupby(key)[value].sum()]

    The groups are the distinct keys in sorted order; rows whose key is
    missing belong to no group.  Numbers sort before strings, strings by
    code point. *)
Definition key_leb (a b : cell) : bool :=
  match a, b with
  | Num x, Num y => F64.leb x y
  | Num _, Str _ => true
  | Str x, Str y => String.leb x y
  | _, _ => false
  end.

Fixpoint insert_key (k : cell) (l : list cell) : list cell :=
  match l with
  | [] => [k]
  | q :: r => if key_leb k q then k :: q :: r else q :: insert_key k r
  end.

Definition sorted_keys (s : Series) : list cell :=
  fold_right insert_key [] (unique (filter notna s)).

Definition group_sums (keys : Series) (values : list F64.float)
  : list (cell * F64.float) :=
  map (fun k => (k, group_sum (select (map (eq_cell k) keys) values)))
      (sorted_keys keys).

(** *** The store of DataFrame objects

    Python variables hold references: a DataFrame is an object in a store
    and [df[c] = s] changes the object for everybody who holds it.  The
    engine runs in a monad that threads the store and the log and
    propagates exceptions. *)

Definition ref : Type := nat.

Inductive exn : Type :=
| ValueError
| KeyError (key : string)
| TypeError
| IndexError
| QueryError
| DanglingRef.

Inductive level : Type := INFO | WARNING.

Record state : Type := mkState {
  heap : list DataFrame;
  log : list (level * string)
}.

Inductive outcome (A : Type) : Type :=
| Ok (a : A)
| Raise (e : exn).
Arguments Raise {A} e.

Definition M (A : Type) : Type := state -> outcome A * state.

Definition ret {A : Type} (a : A) : M A := fun st => (Ok a, st).

Definition bind {A B : Type} (m : M A) (k : A -> M B) : M B :=
  fun st =>
    match m st with
    | (Ok a, st') => k a st'
    | (Raise e, st') => (Raise e, st')
    end.

Definition raise {A : Type} (e : exn) : M A := fun st => (Raise e, st).

(** [try: m  except Exception as e: handler e] *)
Definition try_except {A : Type} (m : M A) (handler : exn -> M A) : M A :=
  fun st =>
    match m st with
    | (Ok a, st') => (Ok a, st')
    | (Raise e, st') => handler e st'
    end.

Definition lift {A : Type} (e : exn) (o : option A) : M A :=
  match o with Some a => ret a | None => raise e end.

Definition load (r : ref) : M DataFrame :=
  fun st =>
    match nth_error (heap st) r with
    | Some df => (Ok df, st)
    | None => (Raise DanglingRef, st)
    end.

(** A new object, at the next free reference. *)
Definition alloc (df : DataFrame) : M ref :=
  fun st => (Ok (List.length (heap st)),
             mkState (heap st ++ [df])%list (log st)).

Fixpoint update (A : Type) (i : nat) (x : A) (l : list A) : list A :=
  match l, i with
  | [], _ => []
  | _ :: r, O => x :: r
  | y :: r, S j => y :: update j x r
  end.

Definition store (r : ref) (df : DataFrame) : M unit :=
  fun st => (Ok tt, mkState (update r df (heap st)) (log st)).

Definition emit (l : level) (msg : string) : M unit :=
  fun st => (Ok tt, mkState (heap st) (log st ++ [(l, msg)])%list).

Declare Scope pd_scope.
Delimit Scope pd_scope with pd.
Notation "x <- m ;; k" := (bind m (fun x => k))
  (at level 61, m at next level, right associativity) : pd_scope.
Notation "m ;; k" := (bind m (fun _ => k))
  (at level 61, right associativity) : pd_scope.
Local Open Scope pd_scope.

(** *** The DataFrame methods the engine calls, on references *)

Section Methods.
Context `{Runtime}.

(** [df.copy()] *)
Definition copy (r : ref) : M ref :=
  df <- load r ;; alloc df.

(** [df.empty] *)
Definition empty (r : ref) : M bool :=
  df <- load r ;; ret (is_empty df).

(** [c in df.columns] *)
Definition in_columns (c : string) (r : ref) : M bool :=
  df <- load r ;; ret (has_column c df).

(** [df[c]] *)
Definition getitem (r : ref) (c : string) : M Series :=
  df <- load r ;; lift (KeyError c) (lookup c (columns df)).

(** [df[c] = s]: the object itself is changed. *)
Definition setitem (r : ref) (c : string) (s : Series) : M unit :=
  df <- load r ;; store r (set_column c s df).

(** [df[mask]]: a new object. *)
Definition getrows (r : ref) (mask : list bool) : M ref :=
  df <- load r ;; alloc (select_rows mask df).

(** [df.query(expr)]: a new object, or the exception of the query
    engine. *)
Definition query (r : ref) (expr : string) : M ref :=
  df <- load r ;;
  mask <- lift QueryError (eval_query expr df) ;;
  alloc (select_rows mask df).

(** [df.nlargest(n, c)]: a new object; the column must be numeric. *)
Definition nlargest (n : nat) (c : string) (r : ref) : M ref :=
  df <- load r ;;
  s <- lift (KeyError c) (lookup c (columns df)) ;;
  xs <- lift TypeError (floats s) ;;
  alloc (take_rows (nlargest_positions n xs) df).

(** [df.drop(c, axis=1)]: a new object. *)
Definition drop (c : string) (r : ref) : M ref :=
  df <- load r ;;
  if has_column c df then alloc (drop_column c df)
  else raise (KeyError c).

(** [s.sum()] of a numeric column. *)
Definition sum (s : Series) : M F64.float :=
  xs <- lift TypeError (floats s) ;; ret (fsum xs).

(** [s > x] and [s < x] on a numeric column. *)
Definition gt (s : Series) (x : F64.float) : M (list bool) :=
  xs <- lift TypeError (floats s) ;; ret (map (fun v => F64.gtb v x) xs).

Definition lt (s : Series) (x : F64.float) : M (list bool) :=
  xs <- lift TypeError (floats s) ;; ret (map (fun v => F64.ltb v x) xs).

(** [s.str.replace('Kč', '').str.replace(',', '').str.strip()
      .astype(float)] *)
Definition to_numeric (s : Series) : M Series :=
  xs <- lift ValueError
          (astype_float
             (map (str_method Py.strip)
                (map (str_method (Py.replace "," ""))
                   (map (str_method (Py.replace "Kč" "")) s)))) ;;
  ret (map Num xs).

End Methods.

End Pd.


(* ================================================================== *)
(** ** The functions of [analysis.py] *)

Module Analysis.
Import Pd.
Local Open Scope pd_scope.

(** One keyword argument of [sum_values_by_criteria]: a list of accepted
    values, or a string (an exact value, or a comparison such as
    ['> 0']). *)
Inductive criterion : Type :=
| OneOf (values : list string)
| Text (value : string).

(** The keyword arguments: [VALUE_CONDITION], documented as a comparison
    string, and the other keywords in the order they were given. *)
Record kwargs : Type := mkKwargs {
  VALUE_CONDITION : option string;
  fields : list (string * criterion)
}.

(** A value of the dictionary [sum_expenses_by_category] returns. *)
Inductive number : Type :=
| PyInt (z : Z)
| PyFloat (x : F64.float).

(** The four lists [get_all_categories] fills. *)
Record buckets : Type := mkBuckets {
  income_categories : list cell;
  expense_categories : list cell;
  saving_categories : list cell;
  investing_categories : list cell
}.

Section Engine.
Context `{Runtime}.

(** How an f-string prints a value taken from a column. *)
Definition format (c : cell) : string :=
  match astype_str c with Str s => s | _ => "" end.

Definition comparison_operators : list string :=
  [">"; "<"; ">="; "<="; "=="; "!="].

(** The loop over the remaining criteria, lines 125-137. *)
Fixpoint apply_criteria (criteria : list (string * criterion))
         (filtered_df : ref) : M ref :=
  match criteria with
  | [] => ret filtered_df
  | (key, value) :: rest =>
      known <- in_columns key filtered_df ;;
      if negb known then apply_criteria rest filtered_df
      else
        filtered_df <-
          match value with
          | OneOf values =>
              s <- getitem filtered_df key ;;
              getrows filtered_df (map (isin values) s)
          | Text value =>
              if existsb (fun op => Py.contains op value)
                         comparison_operators
              then try_except
                     (query filtered_df (key ++ " " ++ value))
                     (fun _ => ret filtered_df)
              else
                s <- getitem filtered_df key ;;
                getrows filtered_df (map (eq_str value) s)
          end ;;
        apply_criteria rest filtered_df
  end.

Definition sum_values_by_criteria (transactions : ref)
           (value_column_header : string) (criteria : kwargs)
  : M F64.float :=
  is_empty <- empty transactions ;;
  if is_empty then ret F64.zero
  else
    filtered_df <- copy transactions ;;
    known <- in_columns value_column_header filtered_df ;;
    if negb known then ret F64.zero
    else
      s <- getitem filtered_df value_column_header ;;
      setitem filtered_df value_column_header (map astype_str s) ;;
      s <- getitem filtered_df value_column_header ;;
      v <- to_numeric s ;;
      setitem filtered_df value_column_header v ;;
      filtered_df <-
        match VALUE_CONDITION criteria with
        | Some value_condition =>
            try_except
              (query filtered_df
                     (value_column_header ++ " " ++ value_condition))
              (fun _ =>
                 if Py.contains ">" value_condition then
                   threshold <-
                     lift ValueError
                       (Py.float_of_string
                          (Py.strip (Py.replace ">" "" value_condition))) ;;
                   s <- getitem filtered_df value_column_header ;;
                   mask <- gt s threshold ;;
                   getrows filtered_df mask
                 else if Py.contains "<" value_condition then
                   threshold <-
                     lift ValueError
                       (Py.float_of_string
                          (Py.strip (Py.replace "<" "" value_condition))) ;;
                   s <- getitem filtered_df value_column_header ;;
                   mask <- lt s threshold ;;
                   getrows filtered_df mask
                 else ret filtered_df)
        | None => ret filtered_df
        end ;;
      filtered_df <- apply_criteria (fields criteria) filtered_df ;;
      s <- getitem filtered_df value_column_header ;;
      sum s.

Definition nonempty (s : string) : bool :=
  match s with EmptyString => false | _ => true end.

Definition top_5_highest_transactions (transactions : ref)
           (category month : string) : M ref :=
  filtered_df <- copy transactions ;;
  filtered_df <-
    (if nonempty category then
       s <- getitem filtered_df "CATEGORY" ;;
       getrows filtered_df (map (eq_str category) s)
     else ret filtered_df) ;;
  filtered_df <-
    (if nonempty month then
       s <- getitem filtered_df "MONTH" ;;
       getrows filtered_df (map (eq_str month) s)
     else ret filtered_df) ;;
  s <- getitem filtered_df "VALUE" ;;
  v <- to_numeric (map astype_str s) ;;
  setitem filtered_df "VALUE_NUMERIC" v ;;
  top_5_df <- nlargest 5 "VALUE_NUMERIC" filtered_df ;;
  top_5_df <- drop "VALUE_NUMERIC" top_5_df ;;
  ret top_5_df.

(** [month] defaults to [None]; [if month:] holds for a non-empty
    string. *)
Definition truthy (month : option string) : option string :=
  match month with
  | Some m => if nonempty m then Some m else None
  | None => None
  end.

Definition sum_expenses_by_category (df : ref) (expense_cats : list string)
           (month : option string) : M (list (cell * number)) :=
  df <- copy df ;;
  s <- getitem df "VALUE" ;;
  setitem df "VALUE" (map astype_str s) ;;
  s <- getitem df "VALUE" ;;
  v <- to_numeric s ;;
  setitem df "VALUE_NUMERIC" v ;;
  df <-
    match truthy month with
    | Some m =>
        s <- getitem df "MONTH" ;;
        getrows df (map (eq_str m) s)
    | None => ret df
    end ;;
  c <- getitem df "CATEGORY" ;;
  v <- getitem df "VALUE_NUMERIC" ;;
  negative <- lt v F64.zero ;;
  df <- getrows df (map (fun '(a, b) => a && b)
                        (combine (map (isin expense_cats) c) negative)) ;;
  keys <- getitem df "CATEGORY" ;;
  v <- getitem df "VALUE_NUMERIC" ;;
  xs <- lift TypeError (floats v) ;;
  let expenses :=
    map (fun '(k, x) => (k, F64.abs x)) (group_sums keys xs) in
  let expenses_dict :=
    filter (fun '(_, x) => F64.gtb x F64.zero) expenses in
  ret (match expenses_dict with
       | [] => [(Str "No Expenses", PyInt 0)]
       | _ => map (fun '(k, x) => (k, PyFloat x)) expenses_dict
       end).

Definition compute_cashflow (transactions : ref)
           (income_categories expense_categories saving_categories
            investing_categories : list string) (month : string)
  : M F64.float :=
  totals <-
    (if nonempty month then
       total_income <-
         sum_values_by_criteria transactions "VALUE"
           (mkKwargs None [("CATEGORY", OneOf income_categories);
                           ("MONTH", Text month)]) ;;
       total_expenses <-
         sum_values_by_criteria transactions "VALUE"
           (mkKwargs None
              [("CATEGORY", OneOf (expense_categories ++ saving_categories
                                     ++ investing_categories)%list);
               ("MONTH", Text month)]) ;;
       ret (total_income, total_expenses)
     else
       total_income <-
         sum_values_by_criteria transactions "VALUE"
           (mkKwargs None [("CATEGORY", OneOf income_categories)]) ;;
       total_expenses <-
         sum_values_by_criteria transactions "VALUE"
           (mkKwargs None
              [("CATEGORY", OneOf (expense_categories ++ saving_categories
                                     ++ investing_categories)%list)]) ;;
       ret (total_income, total_expenses)) ;;
  ret (F64.add (fst totals) (snd totals)).

Definition compute_profit (transactions : ref)
           (income_categories expense_categories : list string)
           (month : string) : M F64.float :=
  totals <-
    (if nonempty month then
       total_income <-
         sum_values_by_criteria transactions "VALUE"
           (mkKwargs None [("CATEGORY", OneOf income_categories);
                           ("MONTH", Text month)]) ;;
       total_expenses <-
         sum_values_by_criteria transactions "VALUE"
           (mkKwargs None [("CATEGORY", OneOf expense_categories);
                           ("MONTH", Text month)]) ;;
       ret (total_income, total_expenses)
     else
       total_income <-
         sum_values_by_criteria transactions "VALUE"
           (mkKwargs None [("CATEGORY", OneOf income_categories)]) ;;
       total_expenses <-
         sum_values_by_criteria transactions "VALUE"
           (mkKwargs None [("CATEGORY", OneOf expense_categories)]) ;;
       ret (total_income, total_expenses)) ;;
  ret (F64.add (fst totals) (snd totals)).

Definition calculate_expense_ratio (transactions : ref)
           (income_categories expense_categories : list string)
           (month : string) : M F64.float :=
  totals <-
    (if nonempty month then
       total_income <-
         sum_values_by_criteria transactions "VALUE"
           (mkKwargs None [("CATEGORY", OneOf income_categories);
                           ("MONTH", Text month)]) ;;
       total_expenses <-
         sum_values_by_criteria transactions "VALUE"
           (mkKwargs None [("CATEGORY", OneOf expense_categories);
                           ("MONTH", Text month)]) ;;
       ret (total_income, F64.abs total_expenses)
     else
       total_income <-
         sum_values_by_criteria transactions "VALUE"
           (mkKwargs None [("CATEGORY", OneOf income_categories)]) ;;
       total_expenses <-
         sum_values_by_criteria transactions "VALUE"
           (mkKwargs None [("CATEGORY", OneOf expense_categories)]) ;;
       ret (total_income, F64.abs total_expenses)) ;;
  let total_income := fst totals in
  let total_expenses := snd totals in
  if F64.eqb total_income F64.zero then ret F64.inf
  else ret (F64.div total_expenses total_income).

Definition sum_amount_in_each_account (transactions : ref) : M ref :=
  s <- getitem transactions "VALUE" ;;
  setitem transactions "VALUE" (map astype_str s) ;;
  s <- getitem transactions "VALUE" ;;
  v <- to_numeric s ;;
  setitem transactions "VALUE_NUMERIC" v ;;
  keys <- getitem transactions "ACCOUNT" ;;
  v <- getitem transactions "VALUE_NUMERIC" ;;
  xs <- lift TypeError (floats v) ;;
  let account_sums := group_sums keys xs in
  alloc (mkDF (seq 0 (List.length account_sums))
              [("ACCOUNT", map fst account_sums);
               ("VALUE_NUMERIC", map (fun p => Num (snd p)) account_sums)]).

(** The loop of lines 52-63: the type of the first row of each category
    decides its list. *)
Fixpoint classify (df : ref) (unique_categories : list cell)
         (acc : buckets) : M buckets :=
  match unique_categories with
  | [] => ret acc
  | category :: rest =>
      types <- getitem df "TYPE" ;;
      c <- getitem df "CATEGORY" ;;
      cat_type <-
        lift IndexError
             (hd_error (select (map (eq_cell category) c) types)) ;;
      acc <-
        (if eq_str "income" cat_type then
           ret (mkBuckets (income_categories acc ++ [category])
                          (expense_categories acc)
                          (saving_categories acc)
                          (investing_categories acc))
         else if eq_str "expense" cat_type then
           ret (mkBuckets (income_categories acc)
                          (expense_categories acc ++ [category])
                          (saving_categories acc)
                          (investing_categories acc))
         else if eq_str "saving" cat_type then
           ret (mkBuckets (income_categories acc)
                          (expense_categories acc)
                          (saving_categories acc ++ [category])
                          (investing_categories acc))
         else if eq_str "investment" cat_type then
           ret (mkBuckets (income_categories acc)
                          (expense_categories acc)
                          (saving_categories acc)
                          (investing_categories acc ++ [category]))
         else
           emit WARNING ("Unknown category type for " ++ format category
                           ++ ". Please check the data.") ;;
           ret acc)%list ;;
      classify df rest acc
  end.

Definition pad (max_len : nat) (lst : list cell) : list cell :=
  (lst ++ repeat Missing (max_len - List.length lst))%list.

Definition keep (r : ref) (test : cell -> bool) : M ref :=
  c <- getitem r "CATEGORY" ;; getrows r (map test c).

Definition get_all_categories (df : ref) : M ref :=
  df <- keep df (fun c => negb (eq_str "Exclude" c)) ;;
  df <- keep df (fun c => negb (eq_str "Starting Balance" c)) ;;
  df <- keep df (fun c => negb (eq_str "" c)) ;;
  df <- keep df notna ;;
  df <- keep df (fun c => negb (eq_str "None" c)) ;;
  c <- getitem df "CATEGORY" ;;
  let unique_categories := unique c in
  emit INFO ("Unique categories found: "
               ++ Py.str_of_nat (List.length unique_categories)) ;;
  b <- classify df unique_categories (mkBuckets [] [] [] []) ;;
  emit INFO ("Retrieved categories: "
               ++ Py.str_of_nat (List.length (income_categories b))
               ++ " income, "
               ++ Py.str_of_nat (List.length (expense_categories b))
               ++ " expense, "
               ++ Py.str_of_nat (List.length (saving_categories b))
               ++ " saving, "
               ++ Py.str_of_nat (List.length (investing_categories b))
               ++ " investment") ;;
  let max_len :=
    Nat.max (List.length (income_categories b))
      (Nat.max (List.length (expense_categories b))
         (Nat.max (List.length (saving_categories b))
                  (List.length (investing_categories b)))) in
  alloc (mkDF (seq 0 max_len)
              [("income", pad max_len (income_categories b));
               ("expense", pad max_len (expense_categories b));
               ("saving", pad max_len (saving_categories b));
               ("investment", pad max_len (investing_categories b))]).

End Engine.

End Analysis.

(* ================================================================== *)
(** ** A runtime to evaluate examples with

    The theorems below hold for every [Runtime].  To run the engine on an
    example a runtime is needed; this one covers the part of the library
    the examples touch. *)

Module Fragment.
Import Pd.

(** *** Printing a float

    The exact decimal value of the float.  Python prints the shortest
    decimal that reads back as the same float; the two agree on [nan],
    [inf], [-inf], and on the integral values below 1e16, such as
    [1000.0]. *)

Fixpoint digits_of (fuel : nat) (n : N) (acc : string) : string :=
  match fuel with
  | O => acc
  | S f =>
      let acc' := String (ascii_of_N (48 + N.modulo n 10)) acc in
      match N.div n 10 with
      | N0 => acc'
      | q => digits_of f q acc'
      end
  end.

Definition str_of_N (n : N) : string :=
  digits_of (S (N.to_nat (N.log2 n))) n EmptyString.

Fixpoint zeros (n : nat) : string :=
  match n with O => EmptyString | S k => String "0" (zeros k) end.

Fixpoint drop_leading_zeros (s : string) : string :=
  match s with
  | String "0" r => drop_leading_zeros r
  | _ => s
  end.

Definition fixed_point (m : positive) (e : Z) : string :=
  match e with
  | Zneg k =>
      let k := Pos.to_nat k in
      let ds := str_of_N (Npos m * 5 ^ N.of_nat k) in
      let ds := zeros (S k - String.length ds) ++ ds in
      let cut := String.length ds - k in
      let frac := Py.rev (drop_leading_zeros (Py.rev (Py.drop cut ds))) in
      String.substring 0 cut ds ++ "."
        ++ match frac with EmptyString => "0" | _ => frac end
  | _ => str_of_N (Npos m * 2 ^ Z.to_N e) ++ ".0"
  end.

Definition exact_repr (x : F64.float) : string :=
  match x with
  | S754_nan => "nan"
  | S754_infinity s => if s then "-inf" else "inf"
  | S754_zero s => if s then "-0.0" else "0.0"
  | S754_finite s m e => (if s then "-" else "") ++ fixed_point m e
  end.

(** *** Evaluating a query

    The expressions [<column> <op> <literal>], where the literal is a
    number or a quoted string and [<op>] one of the six comparison
    operators.  Every other expression is rejected. *)

Definition is_name_char (c : ascii) : bool :=
  let n := nat_of_ascii c in
  (Nat.leb 65 n && Nat.leb n 90) || (Nat.leb 97 n && Nat.leb n 122)
  || Py.is_digit c || Nat.eqb n 95.

Fixpoint span_name (s : string) : string * string :=
  match s with
  | String c r =>
      if is_name_char c
      then let '(n, rest) := span_name r in (String c n, rest)
      else (EmptyString, s)
  | EmptyString => (EmptyString, EmptyString)
  end.

Inductive op : Type := Gt | Lt | Ge | Le | Eq | Ne.

Definition read_op (s : string) : option (op * string) :=
  match s with
  | String ">" (String "=" r) => Some (Ge, r)
  | String "<" (String "=" r) => Some (Le, r)
  | String "=" (String "=" r) => Some (Eq, r)
  | String "!" (String "=" r) => Some (Ne, r)
  | String ">" r => Some (Gt, r)
  | String "<" r => Some (Lt, r)
  | _ => None
  end.

Inductive literal : Type :=
| LNum (x : F64.float)
| LStr (s : string).

Definition starts_number (s : string) : bool :=
  match snd (Py.split_sign s) with
  | String c _ => Py.is_digit c || Ascii.eqb c "."
  | EmptyString => false
  end.

Definition quote (c : ascii) : bool :=
  Ascii.eqb c "'" || Nat.eqb (nat_of_ascii c) 34.

Definition read_literal (s : string) : option literal :=
  if starts_number s then option_map LNum (Py.float_of_ascii s)
  else
    match s with
    | String q r =>
        match Py.rev r with
        | String q' body =>
            if quote q && Ascii.eqb q q'
               && negb (Py.contains (String q EmptyString) body)
               && negb (Py.contains "\" body)
            then Some (LStr (Py.rev body))
            else None
        | EmptyString => None
        end
    | EmptyString => None
    end.

Definition compare_floats (o : op) (x y : F64.float) : bool :=
  match o with
  | Gt => F64.gtb x y
  | Lt => F64.ltb x y
  | Ge => F64.geb x y
  | Le => F64.leb x y
  | Eq => F64.eqb x y
  | Ne => F64.neqb x y
  end.

Definition compare_strings (o : op) (x y : string) : bool :=
  match o with
  | Gt => String.ltb y x
  | Lt => String.ltb x y
  | Ge => String.leb y x
  | Le => String.leb x y
  | Eq => String.eqb x y
  | Ne => negb (String.eqb x y)
  end.

(** A column of floats against a number, a column of strings against a
    string.  Otherwise the two sides are of different kinds: they are
    never equal, and ordering them is an error. *)
Fixpoint strings (s : Series) : option (list string) :=
  match s with
  | [] => Some []
  | Str x :: r => option_map (cons x) (strings r)
  | _ :: _ => None
  end.

Definition compare_column (o : op) (s : Series) (l : literal)
  : option (list bool) :=
  match l, floats s, strings s with
  | LNum y, Some xs, _ => Some (map (fun x => compare_floats o x y) xs)
  | LStr y, _, Some xs => Some (map (fun x => compare_strings o x y) xs)
  | _, _, _ =>
      match o with
      | Eq => Some (map (fun _ => false) s)
      | Ne => Some (map (fun _ => true) s)
      | _ => None
      end
  end.

(** A column is named by a Python identifier that is not a keyword. *)
Definition keywords : list string :=
  ["False"; "None"; "True"; "and"; "as"; "assert"; "async"; "await";
   "break"; "class"; "continue"; "def"; "del"; "elif"; "else"; "except";
   "finally"; "for"; "from"; "global"; "if"; "import"; "in"; "is";
   "lambda"; "nonlocal"; "not"; "or"; "pass"; "raise"; "return"; "try";
   "while"; "with"; "yield"].

Definition is_identifier (name : string) : bool :=
  match name with
  | String c _ =>
      negb (Py.is_digit c) && negb (existsb (String.eqb name) keywords)
  | EmptyString => false
  end.

Definition parse (expr : string) : option (string * op * literal) :=
  let '(name, rest) := span_name (Py.strip expr) in
  if is_identifier name then
    match read_op (Py.lstrip rest) with
    | Some (o, rest) =>
        match read_literal (Py.strip rest) with
        | Some l => Some (name, o, l)
        | None => None
        end
    | None => None
    end
  else None.

Definition eval (expr : string) (df : DataFrame) : option (list bool) :=
  match parse expr with
  | Some (name, o, l) =>
      match lookup name (columns df) with
      | Some s => compare_column o s l
      | None => None
      end
  | None => None
  end.

(** *** The default sort

    Equal values come out in the reverse of their order in the array: one
    of the orders that a sort which is not stable may leave them in. *)
Definition reversed (a : list F64.float) (i : nat) : nat :=
  List.length a - i.

#[export] Instance runtime : Runtime :=
  {| float_repr := exact_repr; eval_query := eval;
     quicksort_rank := reversed |}.

End Fragment.

(* ================================================================== *)
(** ** What the functions are meant to compute

    The definitions of this module follow the wording of the specification,
    on the rows of the caller's table; the theorems compare them with the
    functions of [Analysis]. *)

Module Spec.
Import Pd.

(** Every column is as long as the index. *)
Definition well_formed (t : DataFrame) : Prop :=
  Forall (fun col => List.length (snd col) = nrows t) (columns t).

Definition column (c : string) (t : DataFrame) : option Series :=
  lookup c (columns t).

(** Value normalisation of one cell: the text of the cell without the
    currency marker and the thousands separators, stripped, read as a
    float.  [None] when it is not a number. *)
Definition normalize `{Runtime} (c : cell) : option F64.float :=
  cell_to_float
    (str_method Py.strip
       (str_method (Py.replace "," "")
          (str_method (Py.replace "Kč" "") (astype_str c)))).

Fixpoint all_some (A : Type) (l : list (option A)) : option (list A) :=
  match l with
  | [] => Some []
  | Some x :: r => option_map (cons x) (all_some r)
  | None :: _ => None
  end.

(** The numeric value of every row, when all of them are numbers. *)
Definition values `{Runtime} (t : DataFrame) : option (list F64.float) :=
  match column "VALUE" t with
  | Some vs => all_some (map normalize vs)
  | None => None
  end.

(** The table enriched in place with a numeric column: the values as
    text in [VALUE], and their numeric value in [VALUE_NUMERIC]. *)
Definition enriched `{Runtime} (t : DataFrame) (vs : Series)
           (xs : list F64.float) : DataFrame :=
  set_column "VALUE_NUMERIC" (map Num xs)
             (set_column "VALUE" (map astype_str vs) t).

(** *** Category classification *)

(** The categories that are left out: the two markers, the empty string,
    the text [None], and a missing value. *)
Definition excluded (c : cell) : bool :=
  eq_str "Exclude" c || eq_str "Starting Balance" c || eq_str "" c
  || eq_str "None" c || negb (notna c).

(** The distinct categories of the rows that remain, first seen first. *)
Definition remaining (cs : Series) : list cell :=
  unique (filter (fun c => negb (excluded c)) cs).

(** The type of the first row of the table whose category is [c]. *)
Definition first_type (cs ts : Series) (c : cell) : cell :=
  match find (fun row => eq_cell c (fst row)) (combine cs ts) with
  | Some row => snd row
  | None => Missing
  end.

(** The categories whose first row is of the given kind. *)
Definition bucket (kind : string) (cs ts : Series) : list cell :=
  filter (fun c => eq_str kind (first_type cs ts c)) (remaining cs).

Definition kinds : list string :=
  ["income"; "expense"; "saving"; "investment"].

(** The categories whose first row is of none of the four kinds. *)
Definition unrecognized (cs ts : Series) : list cell :=
  filter (fun c => negb (existsb (fun k => eq_str k (first_type cs ts c))
                                 kinds))
         (remaining cs).

(** Where the loop of [classify] puts one category. *)
Definition place (ty category : cell) (acc : Analysis.buckets)
  : Analysis.buckets :=
  let income := Analysis.income_categories acc in
  let expense := Analysis.expense_categories acc in
  let saving := Analysis.saving_categories acc in
  let investing := Analysis.investing_categories acc in
  if eq_str "income" ty then
    Analysis.mkBuckets (income ++ [category]) expense saving investing
  else if eq_str "expense" ty then
    Analysis.mkBuckets income (expense ++ [category]) saving investing
  else if eq_str "saving" ty then
    Analysis.mkBuckets income expense (saving ++ [category]) investing
  else if eq_str "investment" ty then
    Analysis.mkBuckets income expense saving (investing ++ [category])
  else acc.

Definition known (ty : cell) : bool :=
  existsb (fun k => eq_str k ty) kinds.

Definition warning `{Runtime} (category : cell) : level * string :=
  (WARNING, "Unknown category type for " ++ Analysis.format category
              ++ ". Please check the data.").

(** A table whose categories and types are those of [rows]. *)
Definition holds (rows : list (cell * cell)) (d : DataFrame) : Prop :=
  lookup "CATEGORY" (columns d) = Some (map fst rows)
  /\ lookup "TYPE" (columns d) = Some (map snd rows).

(** The rows that are left after the five filters of lines 37-41. *)
Definition left_rows (rows : list (cell * cell)) : list (cell * cell) :=
  filter (fun row => negb (eq_str "None" (fst row)))
    (filter (fun row => notna (fst row))
       (filter (fun row => negb (eq_str "" (fst row)))
          (filter (fun row => negb (eq_str "Starting Balance" (fst row)))
             (filter (fun row => negb (eq_str "Exclude" (fst row)))
                     rows)))).

(** The table [get_all_categories] returns: the four lists, each padded
    with missing values to the length of the longest. *)
Definition listing (n : nat) (income expense saving investment : list cell)
  : DataFrame :=
  mkDF (seq 0 n)
       [("income", Analysis.pad n income); ("expense", Analysis.pad n expense);
        ("saving", Analysis.pad n saving);
        ("investment", Analysis.pad n investment)].

Definition longest (a b c d : list cell) : nat :=
  Nat.max (List.length a)
          (Nat.max (List.length b)
                   (Nat.max (List.length c) (List.length d))).

Definition found (n : nat) : level * string :=
  (INFO, "Unique categories found: " ++ Py.str_of_nat n).

Definition retrieved (a b c d : list cell) : level * string :=
  (INFO, "Retrieved categories: "
           ++ Py.str_of_nat (List.length a) ++ " income, "
           ++ Py.str_of_nat (List.length b) ++ " expense, "
           ++ Py.str_of_nat (List.length c) ++ " saving, "
           ++ Py.str_of_nat (List.length d) ++ " investment").

(** *** Expenses by category *)

(** The optional month of [sum_expenses_by_category]: no month, or an empty
    one, means no filter. *)
Definition in_optional_month (month : option string) (m : cell) : bool :=
  match Analysis.truthy month with
  | Some mo => eq_str mo m
  | None => true
  end.

(** The outflows: the rows of the month whose category is one of the
    expense categories and whose value is below zero, as (category,
    value). *)
Definition outflows (expense_cats : list string) (month : option string)
           (cs ms : Series) (xs : list F64.float) : list (cell * F64.float) :=
  map (fun row => (fst row, snd (snd row)))
      (filter (fun row => in_optional_month month (fst (snd row))
                          && (isin expense_cats (fst row)
                              && F64.ltb (snd (snd row)) F64.zero))
              (combine cs (combine ms xs))).

(** What was spent in a category: the total of its outflows, which are
    all below zero, as an absolute value.  The total is the compensated sum
    that [groupby] computes. *)
Definition spent (k : string) (o : list (cell * F64.float)) : F64.float :=
  F64.abs (group_sum (map snd (filter (fun row => eq_str k (fst row)) o))).

(** The mapping of the categories to what was spent in each: one entry for
    each category that has outflows whose total is above zero, the
    categories in increasing order; and the single entry [No Expenses]
    when there is no such category. *)
Definition report (o : list (cell * F64.float))
           (result : list (cell * Analysis.number)) : Prop :=
  exists cats : list string,
    StronglySorted (fun a b => String.ltb a b = true) cats
    /\ (forall k, In k cats
                  <-> In (Str k) (map fst o)
                      /\ F64.gtb (spent k o) F64.zero = true)
    /\ result
       = match cats with
         | [] => [(Str "No Expenses", Analysis.PyInt 0)]
         | _ => map (fun k => (Str k, Analysis.PyFloat (spent k o))) cats
         end.

(** A table that carries the rows (category, (month, value)), the values in
    the numeric column. *)
Definition carries (rows : list (cell * (cell * F64.float))) (d : DataFrame)
  : Prop :=
  lookup "CATEGORY" (columns d) = Some (map fst rows)
  /\ lookup "MONTH" (columns d) = Some (map (fun r => fst (snd r)) rows)
  /\ lookup "VALUE_NUMERIC" (columns d)
     = Some (map Num (map (fun r => snd (snd r)) rows)).

(** *** The largest values *)

Definition value_at (xs : list F64.float) (p : nat) : F64.float :=
  nth p xs F64.nan.

(** Row [p] is ranked before row [q]: its value is not smaller (a NaN is
    smaller than everything), and if the two values are equal, [p] comes
    first in the table. *)
Definition outranks (xs : list F64.float) (p q : nat) : Prop :=
  before (value_at xs p) (value_at xs q) = true
  /\ (before (value_at xs q) (value_at xs p) = true -> p < q).

(** [ps] are the positions of the [n] largest values of [xs], from the
    largest to the smallest: as many as there are, at most [n]; each row
    once; in ranking order; and every row that is not taken is ranked after
    every row that is. *)
Definition is_top (n : nat) (xs : list F64.float) (ps : list nat) : Prop :=
  List.length ps = Nat.min n (List.length xs)
  /\ NoDup ps
  /\ (forall p, In p ps -> p < List.length xs)
  /\ StronglySorted (outranks xs) ps
  /\ (forall p q, In p ps -> q < List.length xs -> ~ In q ps ->
                  outranks xs p q).

(** [ps] are all the positions of [xs], each once, from the largest value
    to the smallest, NaN last; nothing is said of the order of equal
    values. *)
Definition all_ranked (xs : list F64.float) (ps : list nat) : Prop :=
  Permutation ps (seq 0 (List.length xs))
  /\ StronglySorted
       (fun p q => before (value_at xs p) (value_at xs q) = true) ps.

(** The same ranking on (position, value). *)
Definition ranks_before (a b : nat * F64.float) : Prop :=
  before (snd a) (snd b) = true
  /\ (before (snd b) (snd a) = true -> fst a < fst b).
(** An optional filter on a text column: the empty string means no
    filter. *)
Definition matches (wanted : string) (c : cell) : bool :=
  match wanted with
  | EmptyString => true
  | _ => eq_str wanted c
  end.

(** The rows [top_5_highest_transactions] ranks: those of the category and
    of the month. *)
Definition candidates (category month : string) (cs ms : Series)
  : list bool :=
  map (fun row => matches category (fst row) && matches month (snd row))
      (combine cs ms).

(** A month filter: the empty string means no filter. *)
Definition in_month (month : string) (m : cell) : bool :=
  match month with
  | EmptyString => true
  | _ => eq_str month m
  end.

(** The signed sum of the values of the rows whose category is one of
    [categories], within the month. *)
Definition signed_sum (categories : list string) (month : string)
           (cs ms : Series) (xs : list F64.float) : F64.float :=
  fsum (map (fun row => snd (snd row))
            (filter (fun row => isin categories (fst row)
                                && in_month month (fst (snd row)))
                    (combine cs (combine ms xs)))).

(** A text that the loop over the criteria reads as a comparison. *)
Definition comparison (value : string) : bool :=
  existsb (fun op => Py.contains op value) Analysis.comparison_operators.

(** The rows a month keeps among the rows [d] of the categories of a sum.
    No month keeps them all; a month that is read as a comparison keeps the
    rows the query engine selects for [MONTH <month>], and all of them when
    the engine rejects the expression; any other month keeps the rows of
    that month. *)
Definition month_mask `{Runtime} (month : string) (d : DataFrame)
  : list bool :=
  let every := map (fun _ => true) (index d) in
  if Analysis.nonempty month then
    match lookup "MONTH" (columns d) with
    | None => every
    | Some ms =>
        if comparison month then
          match eval_query ("MONTH" ++ " " ++ month) d with
          | Some mask => mask
          | None => every
          end
        else map (eq_str month) ms
    end
  else every.

(** The signed sum of the values of the rows whose category belongs to the
    sum and that the month keeps. *)
Definition monthly_sum `{Runtime} (belongs : cell -> bool) (month : string)
           (t : DataFrame) (cs : Series) (xs : list F64.float) : F64.float :=
  let of_categories := map belongs cs in
  let d := select_rows of_categories (set_column "VALUE" (map Num xs) t) in
  fsum (select (month_mask month d) (select of_categories xs)).

(** A category of one of several lists. *)
Definition in_union (lists : list (list string)) (c : cell) : bool :=
  existsb (fun l => isin l c) lists.

Definition signed_sum_union (lists : list (list string)) (month : string)
           (cs ms : Series) (xs : list F64.float) : F64.float :=
  fsum (map (fun row => snd (snd row))
            (filter (fun row => in_union lists (fst row)
                                && in_month month (fst (snd row)))
                    (combine cs (combine ms xs)))).

(** The expense ratio: the absolute value of the expense sum over the
    income sum, and [+infinity] when the income sum is zero. *)
Definition ratio (income expense : F64.float) : F64.float :=
  if F64.eqb income F64.zero then F64.inf
  else F64.div (F64.abs expense) income.

(** The keyword arguments of one sum of the metrics: the categories, and
    the month when one is given. *)
Definition by_category (categories : list string) (month : string)
  : Analysis.kwargs :=
  if Analysis.nonempty month
  then Analysis.mkKwargs None [("CATEGORY", Analysis.OneOf categories);
                               ("MONTH", Analysis.Text month)]
  else Analysis.mkKwargs None [("CATEGORY", Analysis.OneOf categories)].

(** A month that is read as an exact value, not as a comparison. *)
Definition plain (month : string) : Prop :=
  existsb (fun op => Py.contains op month) Analysis.comparison_operators
  = false.

(** *** The criteria-based sum *)

(** The table with the numeric values in the column [c]. *)
Definition normalized (c : string) (xs : list F64.float) (t : DataFrame)
  : DataFrame :=
  set_column c (map Num xs) t.

(** The rows of [d] that the criteria keep, one criterion after the other:
    a criterion on a column the table does not have keeps every row, and
    so does a comparison the query engine rejects. *)
Fixpoint kept `{Runtime} (criteria : list (string * Analysis.criterion))
         (d : DataFrame) : DataFrame :=
  match criteria with
  | [] => d
  | (key, value) :: rest =>
      match lookup key (columns d) with
      | None => kept rest d
      | Some s =>
          kept rest
            match value with
            | Analysis.OneOf values => select_rows (map (isin values) s) d
            | Analysis.Text v =>
                if comparison v then
                  match eval_query (key ++ " " ++ v) d with
                  | Some mask => select_rows mask d
                  | None => d
                  end
                else select_rows (map (eq_str v) s) d
            end
      end
  end.

(** The sum of the numeric column [c] of [d]. *)
Definition total (c : string) (d : DataFrame) : F64.float :=
  match lookup c (columns d) with
  | Some s =>
      match floats s with
      | Some xs => fsum xs
      | None => F64.zero
      end
  | None => F64.zero
  end.

End Spec.

(* ================================================================== *)
(** ** Fixtures *)

Module Fixture.
Import Pd.

Definition strings (l : list string) : Series := map Str l.

(** One income row of +1000, one expense row of -400, one saving row of
    -200. *)
Definition three_rows : DataFrame :=
  mkDF [0; 1; 2]
       [("DATE", strings ["2025-01-05"; "2025-01-07"; "2025-02-01"]);
        ("DESCRIPTION", strings ["pay"; "flat"; "deposit"]);
        ("CATEGORY", strings ["Salary"; "Rent"; "Savings"]);
        ("ACCOUNT", strings ["Main"; "Main"; "Reserve"]);
        ("TYPE", strings ["income"; "expense"; "saving"]);
        ("MONTH", strings ["January"; "January"; "February"]);
        ("VALUE", strings ["1000"; "-400"; "-200"])].

(** Income of 1000 and an expense of -700. *)
Definition two_rows : DataFrame :=
  mkDF [0; 1]
       [("DATE", strings ["2025-01-05"; "2025-01-07"]);
        ("DESCRIPTION", strings ["pay"; "flat"]);
        ("CATEGORY", strings ["Salary"; "Rent"]);
        ("ACCOUNT", strings ["Main"; "Main"]);
        ("TYPE", strings ["income"; "expense"]);
        ("MONTH", strings ["January"; "January"]);
        ("VALUE", strings ["1000"; "-700"])].

(** One row whose value is not a number. *)
Definition malformed_value : DataFrame :=
  mkDF [0]
       [("DATE", strings ["2025-01-05"]);
        ("DESCRIPTION", strings ["pay"]);
        ("CATEGORY", strings ["Salary"]);
        ("ACCOUNT", strings ["Main"]);
        ("TYPE", strings ["income"]);
        ("MONTH", strings ["January"]);
        ("VALUE", strings ["abc"])].

(** A starting balance, two ordinary categories, one of them on two rows,
    and a category of a type that is not one of the four kinds. *)
Definition with_starting_balance : DataFrame :=
  mkDF [0; 1; 2; 3; 4]
       [("DATE", strings ["2025-01-01"; "2025-01-05"; "2025-01-07";
                          "2025-01-09"; "2025-02-07"]);
        ("DESCRIPTION", strings ["opening"; "pay"; "flat"; "present";
                                 "flat"]);
        ("CATEGORY", strings ["Starting Balance"; "Salary"; "Rent"; "Gift";
                              "Rent"]);
        ("ACCOUNT", strings ["Main"; "Main"; "Main"; "Main"; "Main"]);
        ("TYPE", strings ["income"; "income"; "expense"; "bonus";
                          "saving"]);
        ("MONTH", strings ["January"; "January"; "January"; "January";
                           "February"]);
        ("VALUE", strings ["5000"; "1000"; "-400"; "50"; "-400"])].

(** The three rows as the ingestion delivers them, with the numeric
    column. *)
Definition ingested : DataFrame :=
  mkDF [0; 1; 2]
       (columns three_rows
          ++ [("VALUE_NUMERIC",
               [Num (F64.of_Z 1000); Num (F64.of_Z (-400));
                Num (F64.of_Z (-200))])])%list.

(** Four rows, two and two of equal value. *)
Definition four_rows : DataFrame :=
  mkDF [0; 1; 2; 3]
       [("DATE", strings ["d0"; "d1"; "d2"; "d3"]);
        ("DESCRIPTION", strings ["a"; "b"; "c"; "d"]);
        ("CATEGORY", strings ["Food"; "Food"; "Food"; "Food"]);
        ("ACCOUNT", strings ["Main"; "Main"; "Main"; "Main"]);
        ("TYPE", strings ["expense"; "expense"; "expense"; "expense"]);
        ("MONTH", strings ["May"; "May"; "May"; "May"]);
        ("VALUE", strings ["1"; "1"; "2"; "2"])].

(** Ten rows of two categories and two months, with equal values among
    them. *)
Definition two_categories : DataFrame :=
  mkDF [0; 1; 2; 3; 4; 5; 6; 7; 8; 9]
       [("DATE", strings ["d0"; "d1"; "d2"; "d3"; "d4"; "d5"; "d6"; "d7";
                          "d8"; "d9"]);
        ("DESCRIPTION", strings ["a"; "b"; "c"; "d"; "e"; "f"; "g"; "h";
                                 "i"; "j"]);
        ("CATEGORY", strings ["Food"; "Rent"; "Food"; "Food"; "Food";
                              "Food"; "Food"; "Food"; "Food"; "Food"]);
        ("ACCOUNT", strings ["Main"; "Main"; "Main"; "Main"; "Main";
                             "Main"; "Main"; "Main"; "Main"; "Main"]);
        ("TYPE", strings ["expense"; "expense"; "expense"; "expense";
                          "expense"; "expense"; "expense"; "expense";
                          "expense"; "expense"]);
        ("MONTH", strings ["May"; "May"; "May"; "May"; "April"; "May";
                           "May"; "May"; "May"; "May"]);
        ("VALUE", strings ["5"; "900"; "7"; "5"; "50"; "7"; "1"; "7"; "5";
                           "3"])].

(** The three rows with the values in a column whose name is not an
    identifier. *)
Definition amounts : DataFrame :=
  mkDF [0; 1; 2]
       [("DATE", strings ["2025-01-05"; "2025-01-07"; "2025-02-01"]);
        ("DESCRIPTION", strings ["pay"; "flat"; "deposit"]);
        ("CATEGORY", strings ["Salary"; "Rent"; "Savings"]);
        ("ACCOUNT", strings ["Main"; "Main"; "Reserve"]);
        ("TYPE", strings ["income"; "expense"; "saving"]);
        ("MONTH", strings ["January"; "January"; "February"]);
        ("AMOUNT CZK", strings ["1000"; "-400"; "-200"])].

(** A store that holds one table, and an empty log. *)
Definition store_of (t : DataFrame) : state := mkState [t] [].

End Fixture.

(* ================================================================== *)
(** ** Reading the criteria row by row *)

Module Rowwise.
Import Pd.

(** Whether row [i] of the columns [cols] passes one keyword criterion that
    is a list of values or an exact value.  A criterion on a column the
    table does not have passes every row. *)
Definition passes (cols : list (string * Series)) (i : nat)
           (kv : string * Analysis.criterion) : bool :=
  match lookup (fst kv) cols with
  | None => true
  | Some s =>
      match snd kv with
      | Analysis.OneOf values => isin values (nth i s Missing)
      | Analysis.Text value => eq_str value (nth i s Missing)
      end
  end.

(** The positions, among [ps], of the rows that pass every criterion. *)
Definition selected (cols : list (string * Series))
           (criteria : list (string * Analysis.criterion)) (ps : list nat)
  : list nat :=
  filter (fun i => forallb (passes cols i) criteria) ps.

(** The sum of the values at the given positions, in that order. *)
Definition total (xs : list F64.float) (ps : list nat) : F64.float :=
  fsum (map (fun i => nth i xs F64.nan) ps).

(** An exact value: a text that holds none of the comparison operators. *)
Definition exact (kv : string * Analysis.criterion) : Prop :=
  match snd kv with
  | Analysis.OneOf _ => True
  | Analysis.Text value =>
      existsb (fun op => Py.contains op value) Analysis.comparison_operators
      = false
  end.

(** Strictly before, in the order of the code points. *)
Definition precedes (a b : string) : Prop := String.ltb a b = true.

End Rowwise.

(* ================================================================== *)
(** ** Shapes of tables *)

Module Shape.
Import Pd.

(** The reference holds a table with the given column names. *)
Definition names_at (names : list string) (r : ref) (st : state) : Prop :=
  exists df, nth_error (heap st) r = Some df /\ column_names df = names.

(** A cell that holds a text. *)
Definition is_text (c : cell) : Prop := exists s, c = Str s.

(** A table with categories and without types. *)
Definition untyped (cs : Series) (d : DataFrame) : Prop :=
  lookup "CATEGORY" (columns d) = Some cs
  /\ lookup "TYPE" (columns d) = None.

End Shape.

(* ================================================================== *)
(** ** Totals by account *)

Module Accounts.
Import Pd.

(** The sum of the values of the rows of one account, in table order: the
    compensated sum that [groupby] computes. *)
Definition balance (account : string) (names : list string)
           (xs : list F64.float) : F64.float :=
  group_sum (map snd (filter (fun row => String.eqb account (fst row))
                             (combine names xs))).

(** The table of totals: one row per account. *)
Definition totals (accounts names : list string) (xs : list F64.float)
  : DataFrame :=
  mkDF (seq 0 (List.length accounts))
       [("ACCOUNT", map Str accounts);
        ("VALUE_NUMERIC",
         map (fun a => Num (balance a names xs)) accounts)].

End Accounts.

(* ================================================================== *)
(** ** More tables to run the functions on *)

Module Sample.
Import Pd.

(** Two rows that have a value and nothing else. *)
Definition values_only : DataFrame :=
  mkDF [0; 1] [("VALUE", Fixture.strings ["12 Kč"; "1,500"])].

(** The three rows without their types. *)
Definition untyped : DataFrame :=
  drop_column "TYPE" Fixture.three_rows.

(** A table on which only a starting balance is booked, without types. *)
Definition opening_only : DataFrame :=
  mkDF [0]
       [("CATEGORY", Fixture.strings ["Starting Balance"]);
        ("VALUE", Fixture.strings ["5000"])].

(** A worksheet of a header row and three rows, the last of them short,
    on an account that gives a client; numbers are read as [float]
    reads them. *)
Definition worksheet : list (list string) :=
  [["DATE"; "CATEGORY"; "TYPE"; "VALUE"];
   ["2025-01-05"; "Salary"; "income"; "1,000 Kč"];
   ["2025-01-07"; "Rent"; "expense"; "-400"];
   ["2025-02-01"; "Savings"]].

(** A worksheet of a header row and two rows of the same length. *)
Definition ledger : list (list string) :=
  [["DATE"; "CATEGORY"; "VALUE"];
   ["2025-01-05"; "Salary"; " 1,000 Kč"];
   ["2025-01-07"; "Rent"; "-400"]].

(** A worksheet with two columns of values. *)
Definition two_values : list (list string) :=
  [["VALUE"; "CATEGORY"; "VALUE"];
   ["1000"; "Salary"; "1000"]].

End Sample.

(* ================================================================== *)
(** ** The functions of [data_fetch.py]

    The module reads a worksheet through the Google Sheets client and
    shapes what it gets.  The client, the clock and the two renderings
    that are not code of this repository are gathered in [Sheets]; the
    functions run in a monad that threads the log of the module and
    propagates exceptions, each exception carrying the text that [str]
    gives for it. *)

Module DataFetch.
Import Pd.

Inductive level : Type := INFO | WARNING | ERROR.

Definition journal : Type := list (level * string).

Inductive result (A : Type) : Type :=
| Done (a : A)
| Failed (message : string).
Arguments Failed {A} message.

Definition IO (A : Type) : Type := journal -> result A * journal.

Definition ret {A : Type} (a : A) : IO A := fun j => (Done a, j).

Definition bind {A B : Type} (m : IO A) (k : A -> IO B) : IO B :=
  fun j =>
    match m j with
    | (Done a, j') => k a j'
    | (Failed e, j') => (Failed e, j')
    end.

Definition raise {A : Type} (e : string) : IO A := fun j => (Failed e, j).

(** [try: m  except Exception as e: handler e] *)
Definition try_except {A : Type} (m : IO A) (handler : string -> IO A)
  : IO A :=
  fun j =>
    match m j with
    | (Done a, j') => (Done a, j')
    | (Failed e, j') => handler e j'
    end.

Definition emit (l : level) (msg : string) : IO unit :=
  fun j => (Done tt, (j ++ [(l, msg)])%list).

Declare Scope io_scope.
Delimit Scope io_scope with io.
Notation "x <- m ;; k" := (bind m (fun x => k))
  (at level 61, m at next level, right associativity) : io_scope.
Notation "m ;; k" := (bind m (fun _ => k))
  (at level 61, right associativity) : io_scope.
Local Open Scope io_scope.

(** What the module gets from outside: whether the credentials give a
    client ([None]) or an exception; what [open], [worksheet] and
    [get_all_values] deliver for a spreadsheet and a worksheet, or their
    exception; the elapsed time as [{elapsed:.2f}] prints it; how an
    f-string prints a list of strings; and what
    [pd.to_numeric(errors='coerce')] makes of one cell, NaN when it is not
    a number. *)
Class Sheets : Type := {
  authorize : option string;
  get_all_values : string -> string -> result (list (list string));
  elapsed : string;
  repr_list : list string -> string;
  to_numeric_coerce : cell -> F64.float
}.

(** [str(n)] for an [int]. *)
Definition str_of_int (z : Z) : string :=
  if (z <? 0)%Z then "-" ++ Py.str_of_nat (Z.to_nat (- z))
  else Py.str_of_nat (Z.to_nat z).

(** *** Lists and dictionaries *)

(** [l[:n]]: a negative [n] counts from the end. *)
Definition slice_to (A : Type) (n : Z) (l : list A) : list A :=
  if (n <? 0)%Z then firstn (List.length l - Z.to_nat (- n)) l
  else firstn (Z.to_nat n) l.

(** [if num_columns != 0 and num_columns < len(l): l = l[:num_columns]] *)
Definition limit (A : Type) (num_columns : Z) (l : list A) : list A :=
  if negb (num_columns =? 0)%Z
     && (num_columns <? Z.of_nat (List.length l))%Z
  then slice_to num_columns l
  else l.

(** [while len(row_data) < width: row_data.append("")] *)
Definition fill (width : nat) (row_data : list string) : list string :=
  (row_data ++ repeat "" (width - List.length row_data))%list.

(** A Python [dict] with string keys: the keys in the order they were
    first set. *)
Definition dict : Type := list (string * string).

(** [d[k] = v] *)
Fixpoint dict_set (k v : string) (d : dict) : dict :=
  match d with
  | [] => [(k, v)]
  | (k', v') :: r =>
      if String.eqb k' k then (k', v) :: r else (k', v') :: dict_set k v r
  end.

(** [d[k]], where [k] is a key. *)
Fixpoint dict_get (k : string) (d : dict) : option string :=
  match d with
  | [] => None
  | (k', v) :: r => if String.eqb k' k then Some v else dict_get k r
  end.

(** The keys of [dict(zip(headers, ...))]: the headers, each once, in the
    order they are first seen. *)
Fixpoint keys_from (seen headers : list string) : list string :=
  match headers with
  | [] => []
  | h :: r =>
      if existsb (String.eqb h) seen then keys_from seen r
      else h :: keys_from (seen ++ [h]) r
  end.

Definition keys (headers : list string) : list string :=
  keys_from [] headers.

(** [dict(pairs)] *)
Definition dict_of (pairs : list (string * string)) : dict :=
  fold_left (fun d kv => dict_set (fst kv) (snd kv) d) pairs [].

(** *** DataFrames built from rows *)

Definition width (rows : list (list string)) : nat :=
  fold_right Nat.max 0 (map (@List.length string) rows).

(** Column [j] of the rows; a row that is too short has no value there. *)
Definition column_of (j : nat) (rows : list (list string)) : Series :=
  map (fun row => match nth_error row j with
                  | Some s => Str s
                  | None => Missing
                  end) rows.

(** [pd.DataFrame(data_rows, columns=headers)] for a list of rows that is
    not empty: the rows are laid out over as many columns as the longest
    of them has, and the number of names must be that number. *)
Definition frame_of_rows (data_rows : list (list string))
           (headers : list string) : IO DataFrame :=
  if Nat.eqb (List.length headers) (width data_rows)
  then ret (mkDF (seq 0 (List.length data_rows))
                 (map (fun j => (nth j headers "", column_of j data_rows))
                      (seq 0 (width data_rows))))
  else raise (Py.str_of_nat (List.length headers)
                ++ " columns passed, passed data had "
                ++ Py.str_of_nat (width data_rows) ++ " columns").

(** [df[c] = s]: every column of that name is replaced; a new name is
    added at the end. *)
Definition set_all (c : string) (s : Series) (df : DataFrame) : DataFrame :=
  if has_column c df
  then mkDF (index df)
            (map (fun col => if String.eqb (fst col) c then (fst col, s)
                             else col)
                 (columns df))
  else mkDF (index df) (columns df ++ [(c, s)])%list.

(** [df[c] = v] for a scalar [v]. *)
Definition set_scalar (c : string) (v : cell) (df : DataFrame) : DataFrame :=
  set_all c (repeat v (nrows df)) df.

(** [s.replace(old, new)] on a Series: the cells that are [old]. *)
Definition replace_value (old new : string) (c : cell) : cell :=
  match c with
  | Str s => if String.eqb s old then Str new else c
  | _ => c
  end.

Definition expected_fields : list string :=
  ["DATE"; "DESCRIPTION"; "CATEGORY"; "ACCOUNT"; "TYPE"; "MONTH"].

Section Fetch.
Context {runtime : Runtime} {sheets : Sheets}.

Definition get_gspread_client : IO unit :=
  try_except
    (match authorize with
     | None => ret tt
     | Some e => raise e
     end)
    (fun e =>
       emit ERROR ("Failed to get gspread client: " ++ e) ;;
       raise e).

(** [client.open(spreadsheet_name).worksheet(worksheet_name)
      .get_all_values()] *)
Definition worksheet_values (spreadsheet_name worksheet_name : string)
  : IO (list (list string)) :=
  match get_all_values spreadsheet_name worksheet_name with
  | Done all_values => ret all_values
  | Failed e => raise e
  end.

(** The clean-up of lines 70-78, cell by cell. *)
Definition clean (c : cell) : cell :=
  str_method (Py.replace " " "")
    (str_method (Py.replace "," "")
       (str_method (Py.replace "Kč" "")
          (replace_value "" "0"
             (str_method Py.strip (astype_str c))))).

(** [pd.to_numeric(s, errors='coerce').fillna(0.0)], cell by cell. *)
Definition numeric (c : cell) : cell :=
  let x := to_numeric_coerce c in
  Num (if F64.is_nan x then F64.zero else x).

(** [df['VALUE']] where [.str] is used on it: with two columns of that
    name the selection is a DataFrame, which has no [.str]. *)
Definition text_column (c : string) (df : DataFrame) : IO Series :=
  match filter (fun col => String.eqb (fst col) c) (columns df) with
  | [(_, s)] => ret s
  | _ => raise "'DataFrame' object has no attribute 'str'"
  end.

(** The loop of lines 85-87. *)
Fixpoint ensure (fields : list string) (df : DataFrame) : DataFrame :=
  match fields with
  | [] => df
  | field :: rest =>
      ensure rest (if negb (has_column field df)
                   then set_scalar field (Str "") df
                   else df)
  end.

Definition get_transactions (spreadsheet_name worksheet_name : string)
  : IO DataFrame :=
  emit INFO ("Starting fetch from " ++ spreadsheet_name ++ "/"
               ++ worksheet_name) ;;
  try_except
    (get_gspread_client ;;
     emit INFO "Successfully authenticated with Google Sheets API" ;;
     all_values <- worksheet_values spreadsheet_name worksheet_name ;;
     emit INFO ("Retrieved " ++ Py.str_of_nat (List.length all_values)
                  ++ " rows from worksheet") ;;
     match all_values with
     | [] | [_] =>
         emit WARNING "No data or only header row found in worksheet" ;;
         ret (mkDF [] [])
     | headers :: data_rows =>
         emit INFO ("Headers: " ++ Py.str_of_nat (List.length headers)
                      ++ ", : " ++ repr_list headers) ;;
         emit INFO ("Data rows: "
                      ++ Py.str_of_nat (List.length data_rows)) ;;
         df <- frame_of_rows data_rows headers ;;
         df <-
           (if has_column "VALUE" df then
              s <- text_column "VALUE" df ;;
              let df := set_all "VALUE" (map clean s) df in
              ret (set_all "VALUE_NUMERIC" (map numeric (map clean s)) df)
            else
              let df := set_scalar "VALUE" (Str "0") df in
              ret (set_scalar "VALUE_NUMERIC" (Num F64.zero) df)) ;;
         ret (ensure expected_fields df)
     end)
    (fun e =>
       emit ERROR ("Error fetching transactions after " ++ elapsed
                     ++ "s: " ++ e) ;;
       ret (mkDF [] [])).

(** One turn of the loop of lines 140-158: [None] for a row that is
    skipped. *)
Definition record (headers : list string) (col_idx : nat) (num_columns : Z)
           (data_row : list string) : option dict :=
  if Nat.leb (List.length data_row) col_idx then None
  else
    let row_data := limit num_columns (skipn col_idx data_row) in
    let row_data := fill (List.length headers) row_data in
    Some (dict_of (combine headers row_data)).

Fixpoint records (headers : list string) (col_idx : nat) (num_columns : Z)
         (data_rows : list (list string)) (result : list dict) : list dict :=
  match data_rows with
  | [] => result
  | data_row :: rest =>
      records headers col_idx num_columns rest
        match record headers col_idx num_columns data_row with
        | Some row_dict => (result ++ [row_dict])%list
        | None => result
        end
  end.

Definition get_worksheet (spreadsheet_name worksheet_name : string)
           (row_start column_start num_columns : Z) : IO (list dict) :=
  emit INFO ("Starting get_worksheet for " ++ spreadsheet_name ++ "/"
               ++ worksheet_name) ;;
  try_except
    (get_gspread_client ;;
     all_values <- worksheet_values spreadsheet_name worksheet_name ;;
     if match all_values with [] => true | _ => false end
        || (Z.of_nat (List.length all_values) <=? row_start)%Z
     then
       emit WARNING ("No data or row_start " ++ str_of_int row_start
                       ++ " beyond data length "
                       ++ Py.str_of_nat (List.length all_values)) ;;
       ret []
     else
       let row_start := if (row_start <? 1)%Z then 1%Z else row_start in
       let column_start :=
         if (column_start <? 1)%Z then 1%Z else column_start in
       let row_idx := Z.to_nat (row_start - 1) in
       let col_idx := Z.to_nat (column_start - 1) in
       match nth_error all_values row_idx with
       | None => raise "list index out of range"
       | Some header_row =>
           if Nat.leb (List.length header_row) col_idx then
             emit WARNING ("Column start " ++ str_of_int column_start
                             ++ " is beyond the width of row "
                             ++ str_of_int row_start) ;;
             ret []
           else
             let headers := limit num_columns (skipn col_idx header_row) in
             let result :=
               records headers col_idx num_columns
                       (skipn (row_idx + 1) all_values) [] in
             emit INFO ("Retrieved and processed "
                          ++ Py.str_of_nat (List.length result)
                          ++ " rows in " ++ elapsed ++ "s") ;;
             ret result
       end)
    (fun e =>
       emit ERROR ("Error in get_worksheet after " ++ elapsed ++ "s: "
                     ++ e) ;;
       ret []).

End Fetch.

(** A world to run the examples in: the client is granted and every
    worksheet holds the rows of [rows]. *)
Definition serving (rows : list (list string)) : Sheets :=
  {| authorize := None;
     get_all_values := fun _ _ => Done rows;
     elapsed := "0.00";
     repr_list := fun l => "[" ++ String.concat ", " l ++ "]";
     to_numeric_coerce :=
       fun c => match cell_to_float c with
                | Some x => x
                | None => F64.nan
                end |}.

(** A computation that writes nothing to the log. *)
Definition quiet (A : Type) (m : IO A) : Prop := forall j, snd (m j) = j.

(** A text without a comma and without a space. *)
Definition tidy (c : cell) : Prop :=
  exists s, c = Str s
            /\ Py.contains "," s = false /\ Py.contains " " s = false.

(** A table with at least one row, every column as long as the index,
    and a column for the value, for its number and for each expected
    field. *)
Definition complete (df : DataFrame) : Prop :=
  0 < nrows df
  /\ Spec.well_formed df
  /\ Forall (fun c => has_column c df = true)
            ("VALUE" :: "VALUE_NUMERIC" :: expected_fields).

(** The values of a table: tidy texts, and beside them numbers, none of
    them NaN. *)
Definition valued (df : DataFrame) : Prop :=
  exists vs xs,
    lookup "VALUE" (columns df) = Some vs
    /\ Forall tidy vs
    /\ lookup "VALUE_NUMERIC" (columns df) = Some (map Num xs)
    /\ Forall (fun x => F64.is_nan x = false) xs.

End DataFetch.

(* ================================================================== *)
(** ** Running the monad *)

Module Exec.
Import Pd.
Local Open Scope pd_scope.

(** [returns m st P]: from [st], [m] returns a value without raising, and
    the value and the final state satisfy [P]. *)
Definition returns {A : Type} (m : M A) (st : state)
           (P : A -> state -> Prop) : Prop :=
  exists a st', m st = (Ok a, st') /\ P a st'.

(** [raises m st e]: from [st], [m] raises [e]. *)
Definition raises {A : Type} (m : M A) (st : state) (e : exn) : Prop :=
  exists st', m st = (Raise e, st').

(** The objects of [h0] are still in the store, unchanged. *)
Definition extends (h0 : list DataFrame) (st : state) : Prop :=
  exists ext, heap st = (h0 ++ ext)%list.

(** A reference the store [h0] does not hold. *)
Definition fresh (h0 : list DataFrame) (r : ref) : Prop :=
  List.length h0 <= r.

(** [frame h0 m Q]: whatever the outcome, [m] leaves the objects of [h0]
    as they were; when it returns, its result satisfies [Q]. *)
Definition frame {A : Type} (h0 : list DataFrame) (m : M A)
           (Q : A -> Prop) : Prop :=
  forall st, extends h0 st ->
    extends h0 (snd (m st)) /\ (forall a, fst (m st) = Ok a -> Q a).

Definition any {A : Type} (_ : A) : Prop := True.

End Exec.

(* ================================================================== *)
(** ** Facts about lists, columns and the store *)

Section ListFacts.
Import Pd.

Lemma select_map (A B : Type) (f : A -> B) mask (xs : list A) :
  select mask (map f xs) = map f (select mask xs).
Proof.
  revert xs; induction mask as [|b m IH]; intros [|x r]; simpl; auto.
  destruct b; simpl; now rewrite IH.
Qed.

Lemma select_map_filter (A : Type) (p : A -> bool) (xs : list A) :
  select (map p xs) xs = filter p xs.
Proof.
  induction xs as [|x r IH]; simpl; auto.
  destruct (p x); now rewrite IH.
Qed.

Lemma floats_Num xs : floats (map Num xs) = Some xs.
Proof. induction xs as [|x r IH]; simpl; auto. now rewrite IH. Qed.

Lemma lookup_assign_same c s cols : lookup c (assign c s cols) = Some s.
Proof.
  induction cols as [|[n old] r IH]; simpl.
  - now rewrite String.eqb_refl.
  - destruct (String.eqb n c) eqn:E; simpl; now rewrite E.
Qed.

Lemma lookup_assign_other c c' s cols :
  c <> c' -> lookup c' (assign c s cols) = lookup c' cols.
Proof.
  intros D. induction cols as [|[n old] r IH]; simpl.
  - destruct (String.eqb c c') eqn:E; auto.
    apply String.eqb_eq in E; contradiction.
  - destruct (String.eqb n c) eqn:E; simpl.
    + apply String.eqb_eq in E; subst n.
      destruct (String.eqb c c') eqn:E'; auto.
      apply String.eqb_eq in E'; contradiction.
    + now rewrite IH.
Qed.

Lemma assign_same c s cols : lookup c cols = Some s -> assign c s cols = cols.
Proof.
  induction cols as [|[n old] r IH]; simpl; try discriminate.
  destruct (String.eqb n c); intros E.
  - now inversion E.
  - now rewrite IH.
Qed.

Lemma lookup_select c mask cols :
  lookup c (map (fun '(n, s) => (n, select mask s)) cols)
  = option_map (select mask) (lookup c cols).
Proof.
  induction cols as [|[n s] r IH]; simpl; auto.
  now destruct (String.eqb n c).
Qed.

Lemma lookup_has_column c df s :
  lookup c (columns df) = Some s -> has_column c df = true.
Proof.
  unfold has_column, column_names.
  induction (columns df) as [|[n x] r IH]; simpl; try discriminate.
  rewrite (String.eqb_sym c n).
  destruct (String.eqb n c); simpl; auto.
Qed.

Lemma nth_error_snoc (A : Type) (h : list A) x :
  nth_error (h ++ [x]) (List.length h) = Some x.
Proof. rewrite nth_error_app2, Nat.sub_diag; auto. Qed.

Lemma nth_error_extend (A : Type) (h ext : list A) r x :
  nth_error h r = Some x -> nth_error (h ++ ext) r = Some x.
Proof.
  intros E. rewrite nth_error_app1; auto.
  apply nth_error_Some. congruence.
Qed.

Lemma update_snoc (A : Type) (h : list A) x y :
  update (List.length h) y (h ++ [x]) = (h ++ [y])%list.
Proof. induction h as [|a r IH]; simpl; auto. now rewrite IH. Qed.

Lemma update_fresh (A : Type) (h ext : list A) r y :
  List.length h <= r ->
  update r y (h ++ ext) = (h ++ update (r - List.length h) y ext)%list.
Proof.
  revert r; induction h as [|a t IH]; simpl; intros r L.
  - now rewrite Nat.sub_0_r.
  - destruct r as [|r]; [lia|]. simpl. rewrite IH by lia. reflexivity.
Qed.

Lemma update_at (A : Type) (h : list A) r x y :
  nth_error h r = Some x -> nth_error (update r y h) r = Some y.
Proof.
  revert r; induction h as [|a t IH]; intros [|r]; simpl;
    try discriminate; auto.
Qed.

End ListFacts.

(* ================================================================== *)
(** ** The frame rules: which objects a computation can change *)

Section FrameRules.
Import Pd Exec.
Context `{Runtime}.
Variable h0 : list DataFrame.

Lemma frame_ret (A : Type) (a : A) (Q : A -> Prop) :
  Q a -> frame h0 (ret a) Q.
Proof. intros Qa st E; split; [exact E | now intros b [= <-]]. Qed.

Lemma frame_raise (A : Type) (e : exn) (Q : A -> Prop) :
  frame h0 (raise e) Q.
Proof. intros st E; split; [exact E | discriminate]. Qed.

Lemma frame_bind (A B : Type) (m : M A) (k : A -> M B) Q R :
  frame h0 m Q -> (forall a, Q a -> frame h0 (k a) R) ->
  frame h0 (bind m k) R.
Proof.
  intros Hm Hk st E. unfold bind.
  destruct (Hm st E) as [E1 Q1]. destruct (m st) as [[a|e] st1]; simpl in *.
  - apply Hk; auto.
  - split; [exact E1 | discriminate].
Qed.

Lemma frame_try (A : Type) (m : M A) (handler : exn -> M A) Q :
  frame h0 m Q -> (forall e, frame h0 (handler e) Q) ->
  frame h0 (try_except m handler) Q.
Proof.
  intros Hm Hh st E. unfold try_except.
  destruct (Hm st E) as [E1 Q1]. destruct (m st) as [[a|e] st1]; simpl in *.
  - split; auto.
  - apply Hh; auto.
Qed.

Lemma frame_weaken (A : Type) (m : M A) (Q R : A -> Prop) :
  frame h0 m Q -> (forall a, Q a -> R a) -> frame h0 m R.
Proof. intros Hm QR st E. destruct (Hm st E); split; auto. Qed.

Lemma frame_lift (A : Type) (e : exn) (o : option A) :
  frame h0 (lift e o) any.
Proof.
  destruct o; [apply frame_ret; exact I | apply frame_raise].
Qed.

Lemma frame_load r : frame h0 (load r) any.
Proof.
  intros st E. unfold load.
  destruct (nth_error (heap st) r); simpl; split; auto;
    intros; exact I.
Qed.

Lemma frame_alloc df : frame h0 (alloc df) (fresh h0).
Proof.
  intros st [ext E]; simpl; split.
  - exists (ext ++ [df])%list. rewrite E. now rewrite app_assoc.
  - intros a [= <-]. unfold fresh. rewrite E, length_app. lia.
Qed.

Lemma frame_store r df : fresh h0 r -> frame h0 (store r df) any.
Proof.
  intros F st [ext E]; simpl; split.
  - exists (update (r - List.length h0) df ext).
    rewrite E. now apply update_fresh.
  - intros; exact I.
Qed.

Lemma frame_emit l msg : frame h0 (emit l msg) any.
Proof. intros st E; simpl; split; [exact E | intros; exact I]. Qed.

(** The methods: all of them read, the ones that build a table return a
    fresh object, and [setitem] is the only one that writes. *)

Lemma frame_copy r : frame h0 (copy r) (fresh h0).
Proof.
  eapply frame_bind; [apply frame_load | intros; apply frame_alloc].
Qed.

Lemma frame_empty r : frame h0 (empty r) any.
Proof.
  eapply frame_bind; [apply frame_load | intros; now apply frame_ret].
Qed.

Lemma frame_in_columns c r : frame h0 (in_columns c r) any.
Proof.
  eapply frame_bind; [apply frame_load | intros; now apply frame_ret].
Qed.

Lemma frame_getitem r c : frame h0 (getitem r c) any.
Proof.
  eapply frame_bind; [apply frame_load | intros; apply frame_lift].
Qed.

Lemma frame_setitem r c s : fresh h0 r -> frame h0 (setitem r c s) any.
Proof.
  intros F.
  eapply frame_bind; [apply frame_load | intros; now apply frame_store].
Qed.

Lemma frame_getrows r mask : frame h0 (getrows r mask) (fresh h0).
Proof.
  eapply frame_bind; [apply frame_load | intros; apply frame_alloc].
Qed.

Lemma frame_query r expr : frame h0 (query r expr) (fresh h0).
Proof.
  eapply frame_bind; [apply frame_load | intros df _].
  eapply frame_bind; [apply frame_lift | intros; apply frame_alloc].
Qed.

Lemma frame_nlargest n c r : frame h0 (nlargest n c r) (fresh h0).
Proof.
  eapply frame_bind; [apply frame_load | intros df _].
  eapply frame_bind; [apply frame_lift | intros s _].
  eapply frame_bind; [apply frame_lift | intros; apply frame_alloc].
Qed.

Lemma frame_drop c r : frame h0 (drop c r) (fresh h0).
Proof.
  eapply frame_bind; [apply frame_load | intros df _].
  destruct (has_column c df); [apply frame_alloc | apply frame_raise].
Qed.

Lemma frame_sum s : frame h0 (sum s) any.
Proof.
  eapply frame_bind; [apply frame_lift | intros; now apply frame_ret].
Qed.

Lemma frame_gt s x : frame h0 (gt s x) any.
Proof.
  eapply frame_bind; [apply frame_lift | intros; now apply frame_ret].
Qed.

Lemma frame_lt s x : frame h0 (lt s x) any.
Proof.
  eapply frame_bind; [apply frame_lift | intros; now apply frame_ret].
Qed.

Lemma frame_to_numeric s : frame h0 (to_numeric s) any.
Proof.
  eapply frame_bind; [apply frame_lift | intros; now apply frame_ret].
Qed.

End FrameRules.

Create HintDb frame.
#[local] Hint Resolve frame_ret frame_raise frame_lift frame_load frame_alloc
  frame_store frame_emit frame_copy frame_empty frame_in_columns
  frame_getitem frame_setitem frame_getrows frame_query frame_nlargest
  frame_drop frame_sum frame_gt frame_lt frame_to_numeric : frame.

(** One step of a frame proof: split a [bind], or close a call. *)
Ltac frame_step :=
  match goal with
  | |- Exec.frame _ (Pd.bind _ _) _ => eapply frame_bind; [| intros ? ?]
  | |- Exec.frame _ (Pd.try_except _ _) _ => apply frame_try; [| intros ?]
  | |- Exec.frame _ (if ?b then _ else _) _ => destruct b
  | |- Exec.frame _ (match ?o with Some _ => _ | None => _ end) _ =>
      destruct o
  | |- Exec.frame _ _ Exec.any =>
      solve [eauto with frame
            | eapply frame_weaken; [eauto with frame | intros; exact I]]
  | |- Exec.frame _ _ _ => solve [eauto with frame]
  end.

Section FrameOfTheEngine.
Import Pd Exec Analysis.
Context `{Runtime}.
Variable h0 : list DataFrame.

Lemma frame_apply_criteria criteria :
  forall r, fresh h0 r -> frame h0 (apply_criteria criteria r) (fresh h0).
Proof.
  induction criteria as [|[key value] rest IH]; intros r F;
    cbn [apply_criteria].
  - now apply frame_ret.
  - eapply frame_bind; [apply frame_in_columns | intros known _].
    destruct known; cbn [negb]; [| now apply IH].
    eapply frame_bind with (Q := fresh h0); [| intros; now apply IH].
    destruct value as [values | value]; repeat frame_step.
Qed.

Lemma frame_sum_values_by_criteria r c criteria :
  frame h0 (sum_values_by_criteria r c criteria) any.
Proof.
  unfold sum_values_by_criteria.
  eapply frame_bind; [apply frame_empty | intros e _].
  destruct e; [now apply frame_ret |].
  eapply frame_bind; [apply frame_copy | intros filtered_df F].
  eapply frame_bind; [apply frame_in_columns | intros known _].
  destruct known; cbn [negb]; [| now apply frame_ret].
  do 5 frame_step; try solve [eauto with frame].
  eapply frame_bind with (Q := fresh h0).
  - destruct (VALUE_CONDITION criteria) as [vc|]; [| now apply frame_ret].
    apply frame_try; [apply frame_query | intros e].
    destruct (Py.contains ">" vc); [repeat frame_step |].
    destruct (Py.contains "<" vc); [repeat frame_step |].
    now apply frame_ret.
  - intros r1 F1.
    eapply frame_bind; [now apply frame_apply_criteria | intros r2 F2].
    repeat frame_step.
Qed.

Lemma frame_top_5_highest_transactions r category month :
  frame h0 (top_5_highest_transactions r category month) any.
Proof.
  unfold top_5_highest_transactions.
  eapply frame_bind; [apply frame_copy | intros r1 F1].
  eapply frame_bind with (Q := fresh h0);
    [destruct (nonempty category); repeat frame_step | intros r2 F2].
  eapply frame_bind with (Q := fresh h0);
    [destruct (nonempty month); repeat frame_step | intros r3 F3].
  do 3 frame_step; try solve [eauto with frame].
  eapply frame_bind; [apply frame_nlargest | intros r4 F4].
  eapply frame_bind; [apply frame_drop | intros r5 F5].
  now apply frame_ret.
Qed.

Lemma frame_sum_expenses_by_category r expense_cats month :
  frame h0 (sum_expenses_by_category r expense_cats month) any.
Proof.
  unfold sum_expenses_by_category.
  eapply frame_bind; [apply frame_copy | intros r1 F1].
  do 5 frame_step; try solve [eauto with frame].
  eapply frame_bind with (Q := fresh h0);
    [destruct (truthy month); repeat frame_step | intros r2 F2].
  do 3 frame_step; try solve [eauto with frame].
  eapply frame_bind; [apply frame_getrows | intros r3 F3].
  repeat frame_step.
Qed.

Lemma frame_compute_cashflow r inc exp sav inv month :
  frame h0 (compute_cashflow r inc exp sav inv month) any.
Proof.
  unfold compute_cashflow.
  eapply frame_bind with (Q := any); [| intros; now apply frame_ret].
  destruct (nonempty month);
    do 2 (eapply frame_bind;
          [apply frame_sum_values_by_criteria | intros ? _]);
    now apply frame_ret.
Qed.

Lemma frame_compute_profit r inc exp month :
  frame h0 (compute_profit r inc exp month) any.
Proof.
  unfold compute_profit.
  eapply frame_bind with (Q := any); [| intros; now apply frame_ret].
  destruct (nonempty month);
    do 2 (eapply frame_bind;
          [apply frame_sum_values_by_criteria | intros ? _]);
    now apply frame_ret.
Qed.

Lemma frame_calculate_expense_ratio r inc exp month :
  frame h0 (calculate_expense_ratio r inc exp month) any.
Proof.
  unfold calculate_expense_ratio.
  eapply frame_bind with (Q := any).
  - destruct (nonempty month);
      do 2 (eapply frame_bind;
            [apply frame_sum_values_by_criteria | intros ? _]);
      now apply frame_ret.
  - intros totals _. cbv zeta.
    destruct (F64.eqb _ _); now apply frame_ret.
Qed.

Lemma frame_classify r categories :
  forall acc, frame h0 (classify r categories acc) any.
Proof.
  induction categories as [|category rest IH]; intros acc;
    cbn [classify].
  - now apply frame_ret.
  - do 3 frame_step; try solve [eauto with frame].
    eapply frame_bind with (Q := any); [| intros; apply IH].
    repeat frame_step.
Qed.

Lemma frame_keep r test : frame h0 (keep r test) (fresh h0).
Proof. unfold keep. repeat frame_step. Qed.

Lemma frame_get_all_categories r :
  frame h0 (get_all_categories r) any.
Proof.
  unfold get_all_categories.
  do 5 (eapply frame_bind; [apply frame_keep | intros ? _]).
  do 2 frame_step; try solve [eauto with frame].
  eapply frame_bind; [apply frame_classify | intros b _].
  frame_step; try solve [eauto with frame].
  eapply frame_weaken; [apply frame_alloc | intros; exact I].
Qed.

(** What the frame rule gives for the caller's table. *)
Lemma frame_lookup (A : Type) (m : M A) (Q : A -> Prop) st r t :
  h0 = heap st -> frame h0 m Q ->
  nth_error (heap st) r = Some t ->
  nth_error (heap (snd (m st))) r = Some t.
Proof.
  intros -> F E.
  destruct (F st) as [[ext X] _]; [exists []; now rewrite app_nil_r |].
  rewrite X. now apply nth_error_extend.
Qed.

End FrameOfTheEngine.

(* ================================================================== *)
(** ** The rules to run a computation step by step *)

Section RunRules.
Import Pd Exec.
Context `{Runtime}.

Lemma returns_ret (A : Type) (a : A) st (P : A -> state -> Prop) :
  P a st -> returns (ret a) st P.
Proof. intros p; exists a, st; auto. Qed.

Lemma returns_bind (A B : Type) (m : M A) (k : A -> M B) st
      (P : B -> state -> Prop) :
  returns m st (fun a st1 => returns (k a) st1 P) ->
  returns (bind m k) st P.
Proof.
  intros (a & st1 & E & b & st2 & E2 & p).
  exists b, st2. unfold bind. rewrite E. auto.
Qed.

Lemma returns_lift (A : Type) e (o : option A) a st
      (P : A -> state -> Prop) :
  o = Some a -> P a st -> returns (lift e o) st P.
Proof. intros -> p; exists a, st; auto. Qed.

Lemma returns_except (A : Type) (m : M A) handler st e st1
      (P : A -> state -> Prop) :
  m st = (Raise e, st1) -> returns (handler e) st1 P ->
  returns (try_except m handler) st P.
Proof.
  intros E (a & st' & E' & p). exists a, st'.
  unfold try_except. rewrite E. auto.
Qed.

Lemma returns_emit l msg st (P : unit -> state -> Prop) :
  P tt (mkState (heap st) (log st ++ [(l, msg)])) ->
  returns (emit l msg) st P.
Proof. intros p; exists tt; eexists; split; [reflexivity | exact p]. Qed.

Lemma returns_alloc df st (P : ref -> state -> Prop) :
  P (List.length (heap st)) (mkState (heap st ++ [df]) (log st)) ->
  returns (alloc df) st P.
Proof. intros p; eexists; eexists; split; [reflexivity | exact p]. Qed.

Lemma load_at st r df :
  nth_error (heap st) r = Some df -> load r st = (Ok df, st).
Proof. intros E; unfold load; now rewrite E. Qed.

(** The methods, on an object that is known to be in the store. *)

Lemma returns_copy st r df (P : ref -> state -> Prop) :
  nth_error (heap st) r = Some df ->
  P (List.length (heap st)) (mkState (heap st ++ [df]) (log st)) ->
  returns (copy r) st P.
Proof.
  intros E p. unfold copy, returns, bind. rewrite (load_at _ _ E).
  now apply returns_alloc.
Qed.

Lemma returns_empty st r df (P : bool -> state -> Prop) :
  nth_error (heap st) r = Some df -> P (is_empty df) st ->
  returns (empty r) st P.
Proof.
  intros E p. unfold empty, returns, bind. rewrite (load_at _ _ E).
  now apply returns_ret.
Qed.

Lemma returns_in_columns st r df c (P : bool -> state -> Prop) :
  nth_error (heap st) r = Some df -> P (has_column c df) st ->
  returns (in_columns c r) st P.
Proof.
  intros E p. unfold in_columns, returns, bind. rewrite (load_at _ _ E).
  now apply returns_ret.
Qed.

Lemma returns_getitem st r df c s (P : Series -> state -> Prop) :
  nth_error (heap st) r = Some df -> lookup c (columns df) = Some s ->
  P s st -> returns (getitem r c) st P.
Proof.
  intros E L p. unfold getitem, returns, bind. rewrite (load_at _ _ E).
  now apply returns_lift with (a := s).
Qed.

Lemma returns_setitem st r df c s (P : unit -> state -> Prop) :
  nth_error (heap st) r = Some df ->
  P tt (mkState (update r (set_column c s df) (heap st)) (log st)) ->
  returns (setitem r c s) st P.
Proof.
  intros E p. unfold setitem, returns, bind. rewrite (load_at _ _ E).
  eexists; eexists; split; [reflexivity | exact p].
Qed.

Lemma returns_getrows st r df mask (P : ref -> state -> Prop) :
  nth_error (heap st) r = Some df ->
  P (List.length (heap st))
    (mkState (heap st ++ [select_rows mask df]) (log st)) ->
  returns (getrows r mask) st P.
Proof.
  intros E p. unfold getrows, returns, bind. rewrite (load_at _ _ E).
  now apply returns_alloc.
Qed.

Lemma returns_nlargest st r df n c s xs (P : ref -> state -> Prop) :
  nth_error (heap st) r = Some df -> lookup c (columns df) = Some s ->
  floats s = Some xs ->
  P (List.length (heap st))
    (mkState (heap st ++ [take_rows (nlargest_positions n xs) df])
             (log st)) ->
  returns (nlargest n c r) st P.
Proof.
  intros E L F p. unfold nlargest, returns, bind.
  rewrite (load_at _ _ E), L. cbn [lift ret]. rewrite F. cbn [lift ret].
  eexists; eexists; split; [reflexivity | exact p].
Qed.

Lemma returns_drop st r df c (P : ref -> state -> Prop) :
  nth_error (heap st) r = Some df -> has_column c df = true ->
  P (List.length (heap st))
    (mkState (heap st ++ [drop_column c df]) (log st)) ->
  returns (drop c r) st P.
Proof.
  intros E L p. unfold drop, returns, bind.
  rewrite (load_at _ _ E), L.
  eexists; eexists; split; [reflexivity | exact p].
Qed.

Lemma returns_sum st xs (P : F64.float -> state -> Prop) :
  P (fsum xs) st -> returns (sum (map Num xs)) st P.
Proof.
  intros p. unfold sum, returns, bind. rewrite floats_Num. simpl.
  eexists; eexists; split; [reflexivity | exact p].
Qed.

Lemma returns_lt st xs x (P : list bool -> state -> Prop) :
  P (map (fun v => F64.ltb v x) xs) st -> returns (lt (map Num xs) x) st P.
Proof.
  intros p. unfold lt, returns, bind. rewrite floats_Num. simpl.
  eexists; eexists; split; [reflexivity | exact p].
Qed.

Lemma returns_gt st xs x (P : list bool -> state -> Prop) :
  P (map (fun v => F64.gtb v x) xs) st -> returns (gt (map Num xs) x) st P.
Proof.
  intros p. unfold gt, returns, bind. rewrite floats_Num. simpl.
  eexists; eexists; split; [reflexivity | exact p].
Qed.

(** The clean-up of a column of values and the normalisation of each
    cell are the same thing. *)
Lemma astype_float_normalize (vs : Series) :
  astype_float
    (map (str_method Py.strip)
       (map (str_method (Py.replace "," ""))
          (map (str_method (Py.replace "Kč" "")) (map astype_str vs))))
  = Spec.all_some (map Spec.normalize vs).
Proof.
  induction vs as [|v r IH]; simpl; auto.
  rewrite IH. unfold Spec.normalize.
  destruct (cell_to_float _); simpl; auto.
Qed.

Lemma astype_str_idem (c : cell) : astype_str (astype_str c) = astype_str c.
Proof. now destruct c. Qed.

Lemma returns_to_numeric st vs xs (P : Series -> state -> Prop) :
  Spec.all_some (map Spec.normalize vs) = Some xs ->
  P (map Num xs) st -> returns (to_numeric (map astype_str vs)) st P.
Proof.
  intros E p. unfold to_numeric, returns, bind.
  rewrite astype_float_normalize, E. simpl.
  eexists; eexists; split; [reflexivity | exact p].
Qed.

Lemma to_numeric_raises st vs :
  Spec.all_some (map Spec.normalize vs) = None ->
  to_numeric (map astype_str vs) st = (Raise ValueError, st).
Proof.
  intros E. unfold to_numeric, bind.
  now rewrite astype_float_normalize, E.
Qed.

Lemma query_rejected st r df expr :
  nth_error (heap st) r = Some df -> eval_query expr df = None ->
  query r expr st = (Raise QueryError, st).
Proof.
  intros E Q. unfold query, bind. now rewrite (load_at _ _ E), Q.
Qed.

Lemma getitem_at st r df c s :
  nth_error (heap st) r = Some df -> lookup c (columns df) = Some s ->
  getitem r c st = (Ok s, st).
Proof.
  intros E L. unfold getitem, bind. now rewrite (load_at _ _ E), L.
Qed.

Lemma getitem_missing st r df c :
  nth_error (heap st) r = Some df -> lookup c (columns df) = None ->
  getitem r c st = (Raise (KeyError c), st).
Proof.
  intros E L. unfold getitem, bind. now rewrite (load_at _ _ E), L.
Qed.

Lemma setitem_at st r df c s :
  nth_error (heap st) r = Some df ->
  setitem r c s st
  = (Ok tt, mkState (update r (set_column c s df) (heap st)) (log st)).
Proof. intros E. unfold setitem, bind. now rewrite (load_at _ _ E). Qed.

Lemma to_numeric_at st vs xs :
  Spec.all_some (map Spec.normalize vs) = Some xs ->
  to_numeric (map astype_str vs) st = (Ok (map Num xs), st).
Proof.
  intros N. unfold to_numeric, bind.
  now rewrite astype_float_normalize, N.
Qed.

Lemma bind_raise (A B : Type) (m : M A) (k : A -> M B) st e st1 :
  m st = (Raise e, st1) -> bind m k st = (Raise e, st1).
Proof. intros E. unfold bind. now rewrite E. Qed.

End RunRules.

(* ================================================================== *)
(** ** Selections and rows *)

Section MoreListFacts.
Import Pd.

Lemma select_by_two_keys (K L A : Type) (p : K -> bool) (q : L -> bool)
      (ks : list K) (ls : list L) (xs : list A) :
  select (map q (select (map p ks) ls)) (select (map p ks) xs)
  = map (fun row => snd (snd row))
        (filter (fun row => p (fst row) && q (fst (snd row)))
                (combine ks (combine ls xs))).
Proof.
  revert ls xs; induction ks as [|k r IH]; intros [|l ls] [|x xs];
    simpl; auto.
  - destruct (p k); simpl; [now destruct (q l) |].
    now destruct (map q _).
  - destruct (p k); simpl; [destruct (q l); simpl |]; now rewrite IH.
Qed.

Lemma select_by_first_key (K L A : Type) (p : K -> bool)
      (ks : list K) (ls : list L) (xs : list A) :
  List.length ls = List.length xs ->
  select (map p ks) xs
  = map (fun row => snd (snd row))
        (filter (fun row => p (fst row) && true)
                (combine ks (combine ls xs))).
Proof.
  revert ls xs; induction ks as [|k r IH]; intros [|l ls] [|x xs] E;
    simpl in *; try discriminate; auto.
  destruct (p k); simpl; rewrite (IH ls xs); auto.
Qed.

Lemma all_some_length (A : Type) (l : list (option A)) xs :
  Spec.all_some l = Some xs -> List.length xs = List.length l.
Proof.
  revert xs; induction l as [|[a|] r IH]; simpl; intros xs E;
    try discriminate.
  - now inversion E.
  - destruct (Spec.all_some r); simpl in E; inversion E; subst.
    simpl. now rewrite (IH l eq_refl).
Qed.

Lemma lookup_In c cols s : lookup c cols = Some s -> In (c, s) cols.
Proof.
  induction cols as [|[n x] r IH]; simpl; try discriminate.
  destruct (String.eqb n c) eqn:E; intros X.
  - apply String.eqb_eq in E. inversion X; subst. now left.
  - right; auto.
Qed.

Lemma well_formed_length t c s :
  Spec.well_formed t -> Spec.column c t = Some s ->
  List.length s = nrows t.
Proof.
  intros WF L. apply lookup_In in L.
  unfold Spec.well_formed in WF. rewrite Forall_forall in WF.
  apply (WF _ L).
Qed.

Lemma is_empty_nrows t c s :
  Spec.column c t = Some s -> is_empty t = true -> nrows t = 0.
Proof.
  unfold Spec.column, is_empty, nrows. destruct t as [ix cols]; simpl.
  destruct ix; auto. destruct cols; simpl; discriminate.
Qed.

Lemma isin_app a b c : isin (a ++ b) c = isin a c || isin b c.
Proof. destruct c; simpl; auto. apply existsb_app. Qed.

Lemma assign_twice c s s' cols :
  assign c s' (assign c s cols) = assign c s' cols.
Proof.
  induction cols as [| [n old] l IH]; cbn.
  - now rewrite String.eqb_refl.
  - destruct (String.eqb n c) eqn:E; cbn; rewrite E; congruence.
Qed.

Lemma lookup_none_has_column c df :
  lookup c (columns df) = None -> has_column c df = false.
Proof.
  unfold has_column, column_names. induction (columns df) as [| [n s] l IH];
    cbn; [reflexivity |].
  rewrite (String.eqb_sym c n). destruct (String.eqb n c); [discriminate |].
  exact IH.
Qed.

Lemma has_column_lookup c df :
  has_column c df = true -> exists s, lookup c (columns df) = Some s.
Proof.
  unfold has_column, column_names. induction (columns df) as [| [n s] l IH];
    cbn; [discriminate |].
  rewrite (String.eqb_sym c n). destruct (String.eqb n c); eauto.
Qed.

Lemma select_nil (A : Type) (mask : list bool) : select mask (@nil A) = [].
Proof. now destruct mask as [|[] m]. Qed.

Lemma select_all (A B : Type) (rows : list B) (xs : list A) :
  List.length xs <= List.length rows ->
  select (map (fun _ => true) rows) xs = xs.
Proof.
  revert xs; induction rows as [|b r IH]; intros [|x xs] L; simpl in *;
    auto; try lia.
  rewrite IH; auto; lia.
Qed.

Lemma take_seq (A : Type) (d : A) (l : list A) :
  take d (seq 0 (List.length l)) l = l.
Proof.
  unfold take. induction l as [| a l IH]; [reflexivity |].
  cbn [List.length seq map nth]. f_equal.
  rewrite <- seq_shift, map_map. exact IH.
Qed.

End MoreListFacts.

(** The object a method is called on is the last one that was built, or a
    known one. *)
Ltac on_last := first [apply nth_error_snoc | eassumption].
(** One step of a run. *)
Ltac run_step :=
  lazymatch goal with
  | |- Exec.returns (Pd.bind _ _) _ _ => apply returns_bind
  | |- Exec.returns (Pd.ret _) _ _ => apply returns_ret; cbv beta
  | |- Exec.returns (Pd.copy _) _ _ =>
      eapply returns_copy; [on_last |]; cbn [Pd.heap Pd.log]
  | |- Exec.returns (Pd.empty _) _ _ =>
      eapply returns_empty; [on_last |]
  | |- Exec.returns (Pd.in_columns _ _) _ _ =>
      eapply returns_in_columns; [on_last |]
  | |- Exec.returns (Pd.setitem _ _ _) _ _ =>
      eapply returns_setitem; [on_last |]; cbn [Pd.heap Pd.log];
      try rewrite update_snoc
  | |- Exec.returns (Pd.getrows _ _) _ _ =>
      eapply returns_getrows; [on_last |]; cbn [Pd.heap Pd.log]
  end.


(* ================================================================== *)
(** ** The criteria-based sum, for a list of categories and a month *)

Section SumByCategory.
Import Pd Exec Analysis.
Context `{Runtime}.

Lemma returns_try (A : Type) (m : M A) handler st (P : A -> state -> Prop) :
  returns m st P -> returns (try_except m handler) st P.
Proof.
  intros (a & st' & E & p). exists a, st'. unfold try_except.
  now rewrite E.
Qed.

Lemma returns_query st r df expr mask (P : ref -> state -> Prop) :
  nth_error (heap st) r = Some df -> eval_query expr df = Some mask ->
  P (List.length (heap st))
    (mkState (heap st ++ [select_rows mask df]) (log st)) ->
  returns (query r expr) st P.
Proof.
  intros E Q p. unfold query, returns, bind.
  rewrite (load_at _ _ E), Q. cbn [lift ret].
  eexists; eexists; split; [reflexivity | exact p].
Qed.

Lemma select_length (A B : Type) (mask : list bool) :
  forall (xs : list A) (ys : list B),
    List.length xs = List.length ys ->
    List.length (select mask xs) = List.length (select mask ys).
Proof.
  induction mask as [|b m IH]; intros [|x xs] [|y ys] E; simpl in *;
    try discriminate; auto.
  destruct b; simpl; auto.
Qed.

Lemma set_column_twice c s s' d :
  set_column c s' (set_column c s d) = set_column c s' d.
Proof.
  unfold set_column; cbn [index columns]. now rewrite assign_twice.
Qed.

(** The loop over the criteria keeps the rows of [Spec.kept]. *)
Lemma apply_criteria_kept criteria :
  forall st r d (P : ref -> state -> Prop),
    nth_error (heap st) r = Some d ->
    (forall r' ext,
        nth_error (heap st ++ ext) r' = Some (Spec.kept criteria d) ->
        P r' (mkState (heap st ++ ext) (log st))) ->
    returns (apply_criteria criteria r) st P.
Proof.
  induction criteria as [|[key value] rest IH]; intros st r d P E p.
  - cbn [apply_criteria]. apply returns_ret.
    specialize (p r []). rewrite app_nil_r in p.
    destruct st as [h l]. apply p. exact E.
  - cbn [apply_criteria Spec.kept].
    apply returns_bind. eapply returns_in_columns; [exact E |].
    assert (Next : forall d1,
               returns (apply_criteria rest (List.length (heap st)))
                       (mkState (heap st ++ [d1]) (log st))
                       (fun a st1 =>
                          forall Q : ref -> state -> Prop,
                            (forall r' ext,
                                nth_error (heap st ++ ext) r'
                                = Some (Spec.kept rest d1) ->
                                Q r' (mkState (heap st ++ ext) (log st))) ->
                            Q a st1)).
    { intros d1. eapply IH; [apply nth_error_snoc |].
      intros r' ext E' Q q. cbn [heap log] in *.
      rewrite <- app_assoc. apply q. now rewrite app_assoc. }
    assert (Step : forall d1,
               (forall r' ext,
                   nth_error (heap st ++ ext) r' = Some (Spec.kept rest d1) ->
                   P r' (mkState (heap st ++ ext) (log st))) ->
               returns (apply_criteria rest (List.length (heap st)))
                       (mkState (heap st ++ [d1]) (log st)) P).
    { intros d1 q. destruct (Next d1) as (a & st1 & X & Y).
      exists a, st1. split; [exact X | now apply Y]. }
    cbn [Spec.kept] in p.
    destruct (lookup key (columns d)) as [s|] eqn:L.
    + rewrite (lookup_has_column _ _ L). cbn [negb].
      destruct value as [values | v].
      * apply returns_bind. apply returns_bind.
        eapply returns_getitem; [exact E | exact L |].
        eapply returns_getrows; [exact E |]. apply Step. exact p.
      * fold (Spec.comparison v). destruct (Spec.comparison v).
        -- destruct (eval_query (key ++ " " ++ v) d) as [mask|] eqn:Q.
           ++ apply returns_bind. apply returns_try.
              eapply returns_query; [exact E | exact Q |].
              apply Step. exact p.
           ++ apply returns_bind.
              eapply returns_except;
                [now apply query_rejected with (df := d) |].
              apply returns_ret. now apply IH with (d := d).
        -- apply returns_bind. apply returns_bind.
           eapply returns_getitem; [exact E | exact L |].
           eapply returns_getrows; [exact E |]. apply Step. exact p.
    + rewrite (lookup_none_has_column _ _ L). cbn [negb].
      now apply IH with (d := d).
Qed.

Lemma kept_numeric criteria c :
  forall d ys,
    lookup c (columns d) = Some (map Num ys) ->
    exists zs, lookup c (columns (Spec.kept criteria d)) = Some (map Num zs).
Proof.
  assert (S : forall mask d ys,
             lookup c (columns d) = Some (map Num ys) ->
             lookup c (columns (select_rows mask d))
             = Some (map Num (select mask ys))).
  { intros mask d ys L. cbn [columns select_rows].
    rewrite lookup_select, L. cbn [option_map]. now rewrite select_map. }
  induction criteria as [|[key value] rest IH]; intros d ys L;
    cbn [Spec.kept]; [now exists ys |].
  destruct (lookup key (columns d)) as [s|]; [| now apply IH with ys].
  destruct value as [values | v].
  - eapply IH. eapply S. exact L.
  - destruct (Spec.comparison v).
    + destruct (eval_query (key ++ " " ++ v) d) as [mask|].
      * eapply IH. eapply S. exact L.
      * now apply IH with ys.
    + eapply IH. eapply S. exact L.
Qed.

(** The end of [sum_values_by_criteria]: the loop over the criteria, and
    the sum of the column. *)
Lemma sum_of_kept criteria c st r d ys (P : F64.float -> state -> Prop) :
  nth_error (heap st) r = Some d ->
  lookup c (columns d) = Some (map Num ys) ->
  (forall ext,
      P (Spec.total c (Spec.kept criteria d))
        (mkState (heap st ++ ext) (log st))) ->
  returns (bind (apply_criteria criteria r)
                (fun filtered_df =>
                   bind (getitem filtered_df c) (fun s => sum s))) st P.
Proof.
  intros E L p. apply returns_bind.
  eapply apply_criteria_kept; [exact E |].
  intros r' ext E'.
  destruct (@kept_numeric criteria c d ys L) as [zs Z].
  apply returns_bind.
  eapply returns_getitem; [exact E' | exact Z |].
  apply returns_sum.
  replace (fsum zs) with (Spec.total c (Spec.kept criteria d));
    [apply p |].
  unfold Spec.total. now rewrite Z, floats_Num.
Qed.

(** The sum without [VALUE_CONDITION]. *)
Lemma sum_values_returns st r t c vs xs criteria
      (P : F64.float -> state -> Prop) :
  nth_error (heap st) r = Some t ->
  is_empty t = false ->
  Spec.column c t = Some vs ->
  Spec.all_some (map Spec.normalize vs) = Some xs ->
  (forall ext,
      P (Spec.total c (Spec.kept criteria (Spec.normalized c xs t)))
        (mkState (heap st ++ ext) (log st))) ->
  returns (sum_values_by_criteria r c (mkKwargs None criteria)) st P.
Proof.
  intros E Em Lv N p. unfold sum_values_by_criteria.
  do 2 run_step. rewrite Em. do 4 run_step.
  rewrite (lookup_has_column _ _ Lv). cbn [negb].
  run_step. eapply returns_getitem; [on_last | exact Lv |].
  do 3 run_step.
  eapply returns_getitem; [on_last | apply lookup_assign_same |].
  run_step. eapply returns_to_numeric; [exact N |].
  do 3 run_step. cbn [VALUE_CONDITION fields]. run_step.
  rewrite set_column_twice. fold (Spec.normalized c xs t).
  eapply sum_of_kept with (ys := xs);
    [apply nth_error_snoc | apply lookup_assign_same |].
  intros ext. cbn [heap log]. rewrite <- app_assoc. apply p.
Qed.

Lemma lookup_normalized c k xs t :
  k <> c ->
  lookup k (columns (Spec.normalized c xs t)) = lookup k (columns t).
Proof.
  intros D. unfold Spec.normalized; cbn [columns set_column].
  apply lookup_assign_other. congruence.
Qed.

Lemma total_select c mask d xs :
  lookup c (columns d) = Some (map Num xs) ->
  Spec.total c (select_rows mask d) = fsum (select mask xs).
Proof.
  intros L. unfold Spec.total. cbn [columns select_rows].
  rewrite lookup_select, L. cbn [option_map].
  now rewrite select_map, floats_Num.
Qed.

(** The two criteria of a metric keep the rows of the categories that the
    month keeps. *)
Lemma kept_by_category (belongs : cell -> bool) cats month t vs cs ms xs :
  Spec.well_formed t ->
  Spec.column "VALUE" t = Some vs ->
  Spec.column "CATEGORY" t = Some cs ->
  Spec.column "MONTH" t = Some ms ->
  List.length xs = List.length vs ->
  (forall c, isin cats c = belongs c) ->
  Spec.total "VALUE"
    (Spec.kept (fields (Spec.by_category cats month))
               (Spec.normalized "VALUE" xs t))
  = Spec.monthly_sum belongs month t cs xs.
Proof.
  intros WF Lv Lc Lm Nx B.
  pose proof (well_formed_length _ WF Lv) as Nv.
  set (d0 := Spec.normalized "VALUE" xs t).
  assert (L0v : lookup "VALUE" (columns d0) = Some (map Num xs))
    by apply lookup_assign_same.
  assert (L0c : lookup "CATEGORY" (columns d0) = Some cs)
    by (unfold d0; rewrite lookup_normalized by discriminate; exact Lc).
  assert (L0m : lookup "MONTH" (columns d0) = Some ms)
    by (unfold d0; rewrite lookup_normalized by discriminate; exact Lm).
  unfold Spec.monthly_sum. fold (Spec.normalized "VALUE" xs t). fold d0.
  rewrite <- (map_ext _ _ B).
  set (mask := map (isin cats) cs).
  set (d1 := select_rows mask d0).
  assert (L1v : lookup "VALUE" (columns d1) = Some (map Num (select mask xs))).
  { unfold d1; cbn [columns select_rows].
    rewrite lookup_select, L0v. cbn [option_map]. now rewrite select_map. }
  assert (L1m : lookup "MONTH" (columns d1) = Some (select mask ms)).
  { unfold d1; cbn [columns select_rows]. now rewrite lookup_select, L0m. }
  assert (Every : select (map (fun _ => true) (index d1)) (select mask xs)
                  = select mask xs).
  { apply select_all. unfold d1; cbn [index select_rows].
    rewrite (@select_length _ _ mask xs (index d0)); [lia |].
    unfold d0, Spec.normalized; cbn [index set_column].
    unfold nrows in Nv. congruence. }
  assert (Whole : Spec.total "VALUE" d1 = fsum (select mask xs)).
  { unfold Spec.total. now rewrite L1v, floats_Num. }
  unfold Spec.by_category, Spec.month_mask.
  destruct (nonempty month); cbn [fields Spec.kept].
  - rewrite L0c. fold mask. fold d1. rewrite L1m.
    destruct (Spec.comparison month).
    + destruct (eval_query ("MONTH" ++ " " ++ month) d1) as [m|].
      * now apply total_select.
      * now rewrite Every.
    + now apply total_select.
  - rewrite L0c. fold mask. fold d1. now rewrite Every.
Qed.

(** A month that is not a comparison keeps the rows of that month. *)
Lemma monthly_sum_plain (belongs : cell -> bool) month t cs ms xs :
  Spec.well_formed t ->
  Spec.column "CATEGORY" t = Some cs ->
  Spec.column "MONTH" t = Some ms ->
  List.length xs = nrows t ->
  Spec.plain month ->
  Spec.monthly_sum belongs month t cs xs
  = fsum (map (fun row => snd (snd row))
              (filter (fun row => belongs (fst row)
                                  && Spec.in_month month (fst (snd row)))
                      (combine cs (combine ms xs)))).
Proof.
  intros WF Lc Lm Nx Pl.
  pose proof (well_formed_length _ WF Lc) as Nc.
  pose proof (well_formed_length _ WF Lm) as Nm.
  unfold Spec.monthly_sum, Spec.month_mask.
  set (mask := map belongs cs).
  destruct month as [|ch month'] eqn:Mo; cbn [nonempty Spec.in_month].
  - rewrite select_all.
    + apply f_equal. apply select_by_first_key. congruence.
    + cbn [index select_rows set_column].
      rewrite (@select_length _ _ mask xs (index t)); [lia |].
      unfold nrows in Nx. exact Nx.
  - cbn [columns select_rows set_column].
    rewrite lookup_select, lookup_assign_other by discriminate.
    unfold Spec.column in Lm. rewrite Lm. cbn [option_map].
    unfold Spec.plain in Pl. unfold Spec.comparison. rewrite Pl.
    apply f_equal. apply select_by_two_keys.
Qed.

Lemma sum_by_category_returns st r t (belongs : cell -> bool) cats month
      vs cs ms xs (P : F64.float -> state -> Prop) :
  nth_error (heap st) r = Some t ->
  Spec.well_formed t ->
  Spec.column "VALUE" t = Some vs ->
  Spec.column "CATEGORY" t = Some cs ->
  Spec.column "MONTH" t = Some ms ->
  Spec.all_some (map Spec.normalize vs) = Some xs ->
  (forall c, isin cats c = belongs c) ->
  (forall ext,
      P (Spec.monthly_sum belongs month t cs xs)
        (mkState (heap st ++ ext) (log st))) ->
  returns (sum_values_by_criteria r "VALUE" (Spec.by_category cats month))
          st P.
Proof.
  intros E WF Lv Lc Lm N B p.
  pose proof (well_formed_length _ WF Lv) as Nv.
  pose proof (well_formed_length _ WF Lc) as Nc.
  pose proof (all_some_length _ N) as Nx. rewrite length_map in Nx.
  destruct (is_empty t) eqn:Em.
  - unfold sum_values_by_criteria. do 2 run_step. rewrite Em. run_step.
    rewrite (is_empty_nrows _ _ Lv Em) in *.
    destruct cs; [| discriminate]. destruct xs; [| simpl in *; lia].
    assert (Z : Spec.monthly_sum belongs month t [] [] = F64.zero).
    { unfold Spec.monthly_sum. cbn [map select]. now rewrite select_nil. }
    specialize (p []). rewrite app_nil_r, Z in p.
    destruct st as [h l]. exact p.
  - replace (Spec.by_category cats month)
      with (mkKwargs None (fields (Spec.by_category cats month)))
      by (unfold Spec.by_category; now destruct (nonempty month)).
    eapply sum_values_returns; eauto.
    intros ext.
    rewrite (@kept_by_category belongs cats month t vs cs ms xs);
      auto.
Qed.

End SumByCategory.

(* ================================================================== *)
(** ** Cashflow, profit and the expense ratio *)

Section Metrics.
Import Pd Exec Analysis.
Context `{Runtime}.

Lemma returns_value (A : Type) (m : M A) st v :
  returns m st (fun a _ => a = v) -> exists st', m st = (Ok v, st').
Proof. intros (a & st' & E & ->). now exists st'. Qed.

Lemma values_columns t xs :
  Spec.values t = Some xs ->
  exists vs, Spec.column "VALUE" t = Some vs
             /\ Spec.all_some (map Spec.normalize vs) = Some xs.
Proof.
  unfold Spec.values. destruct (Spec.column "VALUE" t) as [vs|];
    [| discriminate].
  intros E. now exists vs.
Qed.

Lemma isin_of_three exp sav inv c :
  isin (exp ++ sav ++ inv) c = Spec.in_union [exp; sav; inv] c.
Proof.
  unfold Spec.in_union; cbn [existsb].
  now rewrite !isin_app, orb_false_r.
Qed.

(** Two sums over the same table, one after the other, as the metrics
    compute them. *)
Lemma two_sums st r t (b1 b2 : cell -> bool) inc out month cs ms xs
      (A : Type) (g : F64.float -> F64.float -> A)
      (P : A -> state -> Prop) :
  nth_error (heap st) r = Some t ->
  Spec.well_formed t ->
  Spec.values t = Some xs ->
  Spec.column "CATEGORY" t = Some cs ->
  Spec.column "MONTH" t = Some ms ->
  (forall c, isin inc c = b1 c) ->
  (forall c, isin out c = b2 c) ->
  (forall st1,
      P (g (Spec.monthly_sum b1 month t cs xs)
           (Spec.monthly_sum b2 month t cs xs)) st1) ->
  returns
    (bind (sum_values_by_criteria r "VALUE" (Spec.by_category inc month))
          (fun total_income =>
             bind (sum_values_by_criteria r "VALUE"
                     (Spec.by_category out month))
                  (fun total_expenses =>
                     ret (g total_income total_expenses)))) st P.
Proof.
  intros E WF V Lc Lm B1 B2 p.
  destruct (values_columns _ V) as (vs & Lv & N).
  apply returns_bind.
  eapply sum_by_category_returns with (belongs := b1); eauto. intros ext.
  apply returns_bind.
  eapply sum_by_category_returns with (t := t) (belongs := b2); eauto.
  - cbn [heap]. now apply nth_error_extend.
  - intros ext'. apply returns_ret. apply p.
Qed.

(** The two sums of a metric, with or without a month. *)
Lemma metric_sums st r t (b1 b2 : cell -> bool) inc out month cs ms xs
      (A : Type) (g : F64.float -> F64.float -> A)
      (P : A -> state -> Prop) :
  nth_error (heap st) r = Some t ->
  Spec.well_formed t ->
  Spec.values t = Some xs ->
  Spec.column "CATEGORY" t = Some cs ->
  Spec.column "MONTH" t = Some ms ->
  (forall c, isin inc c = b1 c) ->
  (forall c, isin out c = b2 c) ->
  (forall st1,
      P (g (Spec.monthly_sum b1 month t cs xs)
           (Spec.monthly_sum b2 month t cs xs)) st1) ->
  returns
    (if nonempty month then
       bind (sum_values_by_criteria r "VALUE"
               (mkKwargs None [("CATEGORY", OneOf inc);
                               ("MONTH", Text month)]))
            (fun total_income =>
               bind (sum_values_by_criteria r "VALUE"
                       (mkKwargs None [("CATEGORY", OneOf out);
                                       ("MONTH", Text month)]))
                    (fun total_expenses =>
                       ret (g total_income total_expenses)))
     else
       bind (sum_values_by_criteria r "VALUE"
               (mkKwargs None [("CATEGORY", OneOf inc)]))
            (fun total_income =>
               bind (sum_values_by_criteria r "VALUE"
                       (mkKwargs None [("CATEGORY", OneOf out)]))
                    (fun total_expenses =>
                       ret (g total_income total_expenses)))) st P.
Proof.
  intros E WF V Lc Lm B1 B2 p.
  pose proof (@two_sums st r t b1 b2 inc out month cs ms xs A g P
                E WF V Lc Lm B1 B2 p) as G.
  unfold Spec.by_category in G. now destruct (nonempty month).
Qed.

(** The sums of a month that is not a comparison, row by row. *)
Lemma plain_sums t month cs ms xs :
  Spec.well_formed t ->
  Spec.values t = Some xs ->
  Spec.column "CATEGORY" t = Some cs ->
  Spec.column "MONTH" t = Some ms ->
  Spec.plain month ->
  (forall cats,
      Spec.monthly_sum (isin cats) month t cs xs
      = Spec.signed_sum cats month cs ms xs)
  /\ (forall lists,
         Spec.monthly_sum (Spec.in_union lists) month t cs xs
         = Spec.signed_sum_union lists month cs ms xs).
Proof.
  intros WF V Lc Lm Pl.
  destruct (values_columns _ V) as (vs & Lv & N).
  pose proof (well_formed_length _ WF Lv) as Nv.
  pose proof (all_some_length _ N) as Nx. rewrite length_map in Nx.
  split; intros; now apply monthly_sum_plain; try congruence.
Qed.

End Metrics.

(** C4 — [compute_cashflow] is the signed sum over the income categories
    plus the signed sum over the union of the expense, saving and investment
    categories; [compute_profit] is the signed income sum plus the signed
    sum over the expense categories only.  Whatever the month, it is
    applied in the same way to both sums: no month keeps every row, a month
    that holds a comparison operator is handed to the query engine (and
    keeps every row when the engine rejects it), and any other month keeps
    the rows of that month.  On the fixture of three rows (income +1000,
    expense -400, saving -200) the cashflow is 400 and the profit is 600. *)
Theorem cashflow_and_profit
        (R : Pd.Runtime) st r t inc exp sav inv month cs ms xs :
  nth_error (Pd.heap st) r = Some t ->
  Spec.well_formed t ->
  Spec.values t = Some xs ->
  Spec.column "CATEGORY" t = Some cs ->
  Spec.column "MONTH" t = Some ms ->
  (exists st',
      Analysis.compute_cashflow r inc exp sav inv month st
      = (Pd.Ok (F64.add
                  (Spec.monthly_sum (Pd.isin inc) month t cs xs)
                  (Spec.monthly_sum (Spec.in_union [exp; sav; inv]) month
                                    t cs xs)), st'))
  /\ (exists st',
         Analysis.compute_profit r inc exp month st
         = (Pd.Ok (F64.add
                     (Spec.monthly_sum (Pd.isin inc) month t cs xs)
                     (Spec.monthly_sum (Pd.isin exp) month t cs xs)), st'))
  /\ (Spec.plain month ->
      (exists st',
          Analysis.compute_cashflow r inc exp sav inv month st
          = (Pd.Ok (F64.add (Spec.signed_sum inc month cs ms xs)
                            (Spec.signed_sum_union [exp; sav; inv] month
                                                   cs ms xs)), st'))
      /\ (exists st',
             Analysis.compute_profit r inc exp month st
             = (Pd.Ok (F64.add (Spec.signed_sum inc month cs ms xs)
                               (Spec.signed_sum exp month cs ms xs)), st')))
  /\ fst (Analysis.compute_cashflow 0 ["Salary"] ["Rent"] ["Savings"] [] ""
            (Fixture.store_of Fixture.three_rows))
     = Pd.Ok (F64.of_Z 400)
  /\ fst (Analysis.compute_profit 0 ["Salary"] ["Rent"] ""
            (Fixture.store_of Fixture.three_rows))
     = Pd.Ok (F64.of_Z 600).
Proof.
  intros E WF V Lc Lm.
  assert (C : exists st',
             Analysis.compute_cashflow r inc exp sav inv month st
             = (Pd.Ok (F64.add
                         (Spec.monthly_sum (Pd.isin inc) month t cs xs)
                         (Spec.monthly_sum (Spec.in_union [exp; sav; inv])
                                           month t cs xs)), st')).
  { unfold Analysis.compute_cashflow.
    apply returns_value. apply returns_bind.
    eapply metric_sums
      with (t := t) (g := pair) (b1 := Pd.isin inc)
           (b2 := Spec.in_union [exp; sav; inv]); eauto.
    - intros c. apply isin_of_three.
    - intros st1. now apply returns_ret. }
  assert (P : exists st',
             Analysis.compute_profit r inc exp month st
             = (Pd.Ok (F64.add
                         (Spec.monthly_sum (Pd.isin inc) month t cs xs)
                         (Spec.monthly_sum (Pd.isin exp) month t cs xs)),
                st')).
  { unfold Analysis.compute_profit.
    apply returns_value. apply returns_bind.
    eapply metric_sums
      with (t := t) (g := pair) (b1 := Pd.isin inc) (b2 := Pd.isin exp);
      eauto.
    intros st1. now apply returns_ret. }
  split; [exact C | split; [exact P | split; [| split]]].
  - intros Pl.
    destruct (@plain_sums R t month cs ms xs WF V Lc Lm Pl) as [S U].
    rewrite <- !S, <- U. split; [exact C | exact P].
  - vm_compute. reflexivity.
  - vm_compute. reflexivity.
Qed.

Lemma cashflow_and_profit_witness :
  (exists st',
      Analysis.compute_cashflow (H := Fragment.runtime)
        0 ["Salary"] ["Rent"] ["Savings"] []
        "January" (Fixture.store_of Fixture.three_rows)
      = (Pd.Ok (F64.of_Z 600), st'))
  /\ (exists st',
         Analysis.compute_profit (H := Fragment.runtime)
           0 ["Salary"] ["Rent"] "January"
           (Fixture.store_of Fixture.three_rows)
         = (Pd.Ok (F64.of_Z 600), st')).
Proof.
  pose proof
    (@cashflow_and_profit Fragment.runtime
       (Fixture.store_of Fixture.three_rows) 0 Fixture.three_rows
       ["Salary"] ["Rent"] ["Savings"] [] "January"
       (Fixture.strings ["Salary"; "Rent"; "Savings"])
       (Fixture.strings ["January"; "January"; "February"])
       [F64.of_Z 1000; F64.of_Z (-400); F64.of_Z (-200)]
       eq_refl
       ltac:(repeat constructor)
       ltac:(vm_compute; reflexivity)
       eq_refl eq_refl) as (A & B & _).
  split; [exact A | exact B].
Defined.


(** C5 — [calculate_expense_ratio] returns the absolute value of the
    expense-category sum divided by the income-category sum, and returns
    [+infinity], without raising, whenever the income sum is exactly zero.
    With an income of 1000 and an expense of -700 the ratio is 0.7. *)
Theorem expense_ratio
        (R : Pd.Runtime) st r t inc exp month cs ms xs :
  nth_error (Pd.heap st) r = Some t ->
  Spec.well_formed t ->
  Spec.values t = Some xs ->
  Spec.column "CATEGORY" t = Some cs ->
  Spec.column "MONTH" t = Some ms ->
  let income := Spec.monthly_sum (Pd.isin inc) month t cs xs in
  let expense := Spec.monthly_sum (Pd.isin exp) month t cs xs in
  (exists st',
      Analysis.calculate_expense_ratio r inc exp month st
      = (Pd.Ok (Spec.ratio income expense), st'))
  /\ (F64.eqb income F64.zero = true ->
      exists st',
        Analysis.calculate_expense_ratio r inc exp month st
        = (Pd.Ok F64.inf, st'))
  /\ (F64.eqb income F64.zero = false ->
      exists st',
        Analysis.calculate_expense_ratio r inc exp month st
        = (Pd.Ok (F64.div (F64.abs expense) income), st'))
  /\ (Spec.plain month ->
      income = Spec.signed_sum inc month cs ms xs
      /\ expense = Spec.signed_sum exp month cs ms xs)
  /\ Some (fst (Analysis.calculate_expense_ratio 0 ["Salary"] ["Rent"] ""
                  (Fixture.store_of Fixture.two_rows)))
     = option_map (@Pd.Ok F64.float) (Py.float_of_string "0.7")
  /\ fst (Analysis.calculate_expense_ratio 0 [] ["Rent"] ""
            (Fixture.store_of Fixture.two_rows))
     = Pd.Ok F64.inf.
Proof.
  intros E WF V Lc Lm income expense.
  assert (G : exists st',
             Analysis.calculate_expense_ratio r inc exp month st
             = (Pd.Ok (Spec.ratio income expense), st')).
  { unfold Analysis.calculate_expense_ratio.
    apply returns_value. apply returns_bind.
    eapply metric_sums
      with (t := t) (g := fun a b => (a, F64.abs b))
           (b1 := Pd.isin inc) (b2 := Pd.isin exp); eauto.
    intros st1. cbn [fst snd]. fold income expense. unfold Spec.ratio.
    destruct (F64.eqb income F64.zero); now apply returns_ret. }
  split; [exact G | split; [| split; [| split; [| split]]]].
  - intros Z. unfold Spec.ratio in G. now rewrite Z in G.
  - intros Z. unfold Spec.ratio in G. now rewrite Z in G.
  - intros Pl.
    destruct (@plain_sums R t month cs ms xs WF V Lc Lm Pl) as [S _].
    unfold income, expense. now rewrite !S.
  - vm_compute. reflexivity.
  - vm_compute. reflexivity.
Qed.

Lemma expense_ratio_witness :
  exists st',
    Analysis.calculate_expense_ratio (H := Fragment.runtime)
      0 ["Salary"] ["Rent"] "January" (Fixture.store_of Fixture.two_rows)
    = (Pd.Ok (F64.of_decimal false 7 (-1)), st').
Proof.
  pose proof
    (@expense_ratio Fragment.runtime
       (Fixture.store_of Fixture.two_rows) 0 Fixture.two_rows
       ["Salary"] ["Rent"] "January"
       (Fixture.strings ["Salary"; "Rent"])
       (Fixture.strings ["January"; "January"])
       [F64.of_Z 1000; F64.of_Z (-700)]
       eq_refl
       ltac:(repeat constructor)
       ltac:(vm_compute; reflexivity)
       eq_refl eq_refl) as (A & _).
  exact A.
Defined.


(* ================================================================== *)
(** ** Where the engine raises *)

Section Raising.
Import Pd Exec Analysis.
Context `{Runtime}.

Lemma raises_bind (A B : Type) (m : M A) (k : A -> M B) st e :
  returns m st (fun a st1 => raises (k a) st1 e) ->
  raises (bind m k) st e.
Proof.
  intros (a & st1 & E & st2 & E2). exists st2.
  unfold bind. now rewrite E.
Qed.

Lemma raises_here (A B : Type) (m : M A) (k : A -> M B) st e :
  raises m st e -> raises (bind m k) st e.
Proof.
  intros (st1 & E). exists st1. unfold bind. now rewrite E.
Qed.

Lemma raises_lift (A : Type) e (o : option A) st :
  o = None -> raises (lift e o) st e.
Proof. intros ->. now exists st. Qed.

Lemma raises_except (A : Type) (m : M A) handler st e0 st1 e :
  m st = (Raise e0, st1) -> raises (handler e0) st1 e ->
  raises (try_except m handler) st e.
Proof.
  intros E (st2 & E2). exists st2. unfold try_except. now rewrite E.
Qed.

Lemma raises_to_numeric st vs :
  Spec.all_some (map Spec.normalize vs) = None ->
  raises (to_numeric (map astype_str vs)) st ValueError.
Proof. intros E. exists st. now apply to_numeric_raises. Qed.

End Raising.

(** When the table has rows and one cell of the value column is not a
    number, [sum_values_by_criteria] raises [ValueError], whatever the
    criteria. *)
Lemma raises_on_malformed_value
      (R : Pd.Runtime) st r t c vs criteria :
  nth_error (Pd.heap st) r = Some t ->
  Pd.is_empty t = false ->
  Spec.column c t = Some vs ->
  Spec.all_some (map Spec.normalize vs) = None ->
  Exec.raises (Analysis.sum_values_by_criteria r c criteria) st
              Pd.ValueError.
Proof.
  intros E Em Lv N. unfold Analysis.sum_values_by_criteria.
  apply raises_bind. run_step. rewrite Em.
  apply raises_bind. run_step.
  apply raises_bind. run_step.
  rewrite (lookup_has_column _ _ Lv). cbn [negb].
  apply raises_bind. eapply returns_getitem; [on_last | exact Lv |].
  apply raises_bind. run_step.
  apply raises_bind.
  eapply returns_getitem; [on_last | apply lookup_assign_same |].
  apply raises_here. now apply raises_to_numeric.
Qed.

(** When the query engine rejects the expression of [VALUE_CONDITION], the
    condition contains [>], and what is left of the condition without [>]
    is not a number, the [ValueError] of [float] leaves the handler and
    [sum_values_by_criteria] raises. *)
Lemma raises_on_unreadable_threshold
      (R : Pd.Runtime) st r t c vs xs value_condition others :
  nth_error (Pd.heap st) r = Some t ->
  Pd.is_empty t = false ->
  Spec.column c t = Some vs ->
  Spec.all_some (map Spec.normalize vs) = Some xs ->
  (forall df, Pd.eval_query (c ++ " " ++ value_condition) df = None) ->
  Py.contains ">" value_condition = true ->
  Py.float_of_string (Py.strip (Py.replace ">" "" value_condition)) = None ->
  Exec.raises
    (Analysis.sum_values_by_criteria r c
       (Analysis.mkKwargs (Some value_condition) others))
    st Pd.ValueError.
Proof.
  intros E Em Lv N Q G F. unfold Analysis.sum_values_by_criteria.
  apply raises_bind. run_step. rewrite Em.
  apply raises_bind. run_step.
  apply raises_bind. run_step.
  rewrite (lookup_has_column _ _ Lv). cbn [negb].
  apply raises_bind. eapply returns_getitem; [on_last | exact Lv |].
  apply raises_bind. run_step.
  apply raises_bind.
  eapply returns_getitem; [on_last | apply lookup_assign_same |].
  apply raises_bind. eapply returns_to_numeric; [exact N |].
  apply raises_bind. run_step.
  apply raises_here. cbn [Analysis.VALUE_CONDITION].
  eapply raises_except.
  - eapply query_rejected; [apply nth_error_snoc | apply Q].
  - rewrite G. apply raises_here. now apply raises_lift.
Qed.

Lemma fragment_rejects_free_name df :
  Fragment.eval ("VALUE" ++ " " ++ "> abc") df = None.
Proof.
  unfold Fragment.eval.
  replace (Fragment.parse ("VALUE" ++ " " ++ "> abc")) with
    (@None (string * Fragment.op * Fragment.literal))
    by (vm_compute; reflexivity).
  reflexivity.
Qed.

(** C3 — the claim is that no operation of the engine raises on a table of
    strings, a malformed value counting as 0.0 and a malformed criterion
    degrading gracefully.  The code does otherwise, in two places.  A cell
    of the value column that is not a number makes
    [sum_values_by_criteria] raise [ValueError] (the ingestion in
    [data_fetch.py] is the place that turns such a value into 0.0, in a
    separate column).  And a [VALUE_CONDITION] that the query engine
    rejects, that contains [>] and whose threshold is not a number makes it
    raise [ValueError] from inside the handler. *)
Theorem malformed_input_raises (R : Pd.Runtime) st r t c vs :
  nth_error (Pd.heap st) r = Some t ->
  Pd.is_empty t = false ->
  Spec.column c t = Some vs ->
  (Spec.all_some (map Spec.normalize vs) = None ->
   forall criteria,
     Exec.raises (Analysis.sum_values_by_criteria r c criteria) st
                 Pd.ValueError)
  /\ (forall xs value_condition others,
         Spec.all_some (map Spec.normalize vs) = Some xs ->
         (forall df,
             Pd.eval_query (c ++ " " ++ value_condition) df = None) ->
         Py.contains ">" value_condition = true ->
         Py.float_of_string
           (Py.strip (Py.replace ">" "" value_condition)) = None ->
         Exec.raises
           (Analysis.sum_values_by_criteria r c
              (Analysis.mkKwargs (Some value_condition) others))
           st Pd.ValueError).
Proof.
  intros E Em Lv. split.
  - intros N criteria. now apply raises_on_malformed_value with t vs.
  - intros xs value_condition others N Q G F.
    now apply raises_on_unreadable_threshold with t vs xs.
Qed.

Lemma malformed_input_raises_witness :
  Exec.raises
    (Analysis.sum_values_by_criteria (H := Fragment.runtime) 0 "VALUE"
       (Analysis.mkKwargs None []))
    (Fixture.store_of Fixture.malformed_value) Pd.ValueError
  /\ Exec.raises
       (Analysis.sum_values_by_criteria (H := Fragment.runtime) 0 "VALUE"
          (Analysis.mkKwargs (Some "> abc") []))
       (Fixture.store_of Fixture.three_rows) Pd.ValueError.
Proof.
  split.
  - apply (proj1 (@malformed_input_raises Fragment.runtime
                    (Fixture.store_of Fixture.malformed_value) 0
                    Fixture.malformed_value "VALUE"
                    (Fixture.strings ["abc"]) eq_refl eq_refl eq_refl)).
    vm_compute. reflexivity.
  - apply (proj2 (@malformed_input_raises Fragment.runtime
                    (Fixture.store_of Fixture.three_rows) 0
                    Fixture.three_rows "VALUE"
                    (Fixture.strings ["1000"; "-400"; "-200"])
                    eq_refl eq_refl eq_refl)
                 [F64.of_Z 1000; F64.of_Z (-400); F64.of_Z (-200)]).
    + vm_compute. reflexivity.
    + exact fragment_rejects_free_name.
    + vm_compute. reflexivity.
    + vm_compute. reflexivity.
Defined.

(* ================================================================== *)
(** ** The caller's table *)

Section CallerTable.
Import Pd Exec Analysis.
Context `{Runtime}.

Lemma update_update (A : Type) (h : list A) r x y :
  update r y (update r x h) = update r y h.
Proof.
  revert r; induction h as [|a t IH]; intros [|r]; simpl; auto.
  now rewrite IH.
Qed.

Lemma sum_amount_run st r t vs xs ks :
  nth_error (heap st) r = Some t ->
  Spec.column "VALUE" t = Some vs ->
  Spec.all_some (map Spec.normalize vs) = Some xs ->
  Spec.column "ACCOUNT" t = Some ks ->
  exists res st1,
    sum_amount_in_each_account r st = (Ok res, st1)
    /\ nth_error (heap st1) r = Some (Spec.enriched t vs xs).
Proof.
  intros E Lv N La.
  enough (G : returns (sum_amount_in_each_account r) st
                (fun _ st1 => nth_error (heap st1) r
                              = Some (Spec.enriched t vs xs))).
  { destruct G as (res & st1 & X & Y). now exists res, st1. }
  unfold sum_amount_in_each_account.
  apply returns_bind. eapply returns_getitem; [exact E | exact Lv |].
  apply returns_bind. eapply returns_setitem; [exact E |].
  apply returns_bind.
  eapply returns_getitem;
    [cbn [heap]; eapply update_at; exact E | apply lookup_assign_same |].
  apply returns_bind. eapply returns_to_numeric; [exact N |].
  apply returns_bind.
  eapply returns_setitem; [cbn [heap]; eapply update_at; exact E |].
  cbn [heap log]. rewrite update_update. fold (Spec.enriched t vs xs).
  assert (E' : nth_error (update r (Spec.enriched t vs xs) (heap st)) r
               = Some (Spec.enriched t vs xs)) by (eapply update_at; exact E).
  apply returns_bind. eapply returns_getitem; [exact E' | |].
  { unfold Spec.enriched; cbn [columns set_column].
    rewrite !lookup_assign_other by discriminate. exact La. }
  apply returns_bind. eapply returns_getitem; [exact E' | |].
  { unfold Spec.enriched; cbn [columns set_column]. apply lookup_assign_same. }
  apply returns_bind. eapply returns_lift; [apply floats_Num |].
  apply returns_alloc. cbn [heap]. now apply nth_error_extend.
Qed.

Lemma enriched_again t vs xs :
  Spec.column "VALUE" t = Some vs ->
  Spec.enriched (Spec.enriched t vs xs) (map astype_str vs) xs
  = Spec.enriched t vs xs.
Proof.
  intros Lv. unfold Spec.enriched at 1. unfold set_column; cbn [index columns].
  rewrite map_map.
  rewrite (map_ext _ _ astype_str_idem).
  assert (L1 : lookup "VALUE" (columns (Spec.enriched t vs xs))
               = Some (map astype_str vs)).
  { unfold Spec.enriched; cbn [columns set_column].
    rewrite lookup_assign_other by discriminate. apply lookup_assign_same. }
  rewrite (assign_same _ _ L1).
  assert (L2 : lookup "VALUE_NUMERIC" (columns (Spec.enriched t vs xs))
               = Some (map Num xs)).
  { unfold Spec.enriched; cbn [columns set_column]. apply lookup_assign_same. }
  rewrite (assign_same _ _ L2).
  now destruct (Spec.enriched t vs xs).
Qed.

Lemma normalize_astype_str (c : cell) :
  Spec.normalize (astype_str c) = Spec.normalize c.
Proof. unfold Spec.normalize. now rewrite astype_str_idem. Qed.

End CallerTable.

(** C2, as the code has it — whatever the outcome of the call,
    [sum_values_by_criteria], [top_5_highest_transactions],
    [sum_expenses_by_category], [compute_cashflow], [compute_profit],
    [calculate_expense_ratio] and [get_all_categories] leave the caller's
    table as it was.  [sum_amount_in_each_account] works on the caller's
    table itself: when it returns, the table holds its values as text and
    their numeric value in the column [VALUE_NUMERIC], and a second call
    leaves the table as the first call left it. *)
Theorem caller_table (R : Pd.Runtime) st r t :
  nth_error (Pd.heap st) r = Some t ->
  let after (A : Type) (m : Pd.M A) := nth_error (Pd.heap (snd (m st))) r in
  (forall c criteria,
      after _ (Analysis.sum_values_by_criteria r c criteria) = Some t)
  /\ (forall category month,
         after _ (Analysis.top_5_highest_transactions r category month)
         = Some t)
  /\ (forall expense_cats month,
         after _ (Analysis.sum_expenses_by_category r expense_cats month)
         = Some t)
  /\ (forall inc exp sav inv month,
         after _ (Analysis.compute_cashflow r inc exp sav inv month)
         = Some t)
  /\ (forall inc exp month,
         after _ (Analysis.compute_profit r inc exp month) = Some t)
  /\ (forall inc exp month,
         after _ (Analysis.calculate_expense_ratio r inc exp month)
         = Some t)
  /\ after _ (Analysis.get_all_categories r) = Some t
  /\ (forall vs xs ks,
         Spec.column "VALUE" t = Some vs ->
         Spec.all_some (map Spec.normalize vs) = Some xs ->
         Spec.column "ACCOUNT" t = Some ks ->
         exists res1 st1 res2 st2,
           Analysis.sum_amount_in_each_account r st = (Pd.Ok res1, st1)
           /\ nth_error (Pd.heap st1) r = Some (Spec.enriched t vs xs)
           /\ Analysis.sum_amount_in_each_account r st1 = (Pd.Ok res2, st2)
           /\ nth_error (Pd.heap st2) r = Some (Spec.enriched t vs xs)).
Proof.
  intros E after. unfold after.
  repeat match goal with |- _ /\ _ => split end.
  - intros. eapply frame_lookup; eauto using frame_sum_values_by_criteria.
  - intros.
    eapply frame_lookup; eauto using frame_top_5_highest_transactions.
  - intros.
    eapply frame_lookup; eauto using frame_sum_expenses_by_category.
  - intros. eapply frame_lookup; eauto using frame_compute_cashflow.
  - intros. eapply frame_lookup; eauto using frame_compute_profit.
  - intros. eapply frame_lookup; eauto using frame_calculate_expense_ratio.
  - eapply frame_lookup; eauto using frame_get_all_categories.
  - intros vs xs ks Lv N La.
    destruct (sum_amount_run st r E Lv N La) as (res1 & st1 & X1 & Y1).
    assert (L1 : Spec.column "VALUE" (Spec.enriched t vs xs)
                 = Some (map Pd.astype_str vs)).
    { unfold Spec.column, Spec.enriched; cbn [Pd.columns Pd.set_column].
      rewrite lookup_assign_other by discriminate.
      apply lookup_assign_same. }
    assert (N1 : Spec.all_some (map Spec.normalize (map Pd.astype_str vs))
                 = Some xs).
    { rewrite map_map. now rewrite (map_ext _ _ normalize_astype_str). }
    assert (A1 : Spec.column "ACCOUNT" (Spec.enriched t vs xs) = Some ks).
    { unfold Spec.column, Spec.enriched; cbn [Pd.columns Pd.set_column].
      now rewrite !lookup_assign_other by discriminate. }
    destruct (sum_amount_run st1 r Y1 L1 N1 A1) as (res2 & st2 & X2 & Y2).
    rewrite enriched_again in Y2 by assumption.
    now exists res1, st1, res2, st2.
Qed.

Lemma caller_table_witness :
  nth_error
    (Pd.heap (snd (Analysis.get_all_categories (H := Fragment.runtime) 0
                     (Fixture.store_of Fixture.three_rows)))) 0
  = Some Fixture.three_rows
  /\ nth_error
       (Pd.heap (snd (Analysis.sum_expenses_by_category
                        (H := Fragment.runtime) 0 ["Rent"] None
                        (Fixture.store_of Fixture.three_rows)))) 0
     = Some Fixture.three_rows.
Proof.
  pose proof (@caller_table Fragment.runtime
                (Fixture.store_of Fixture.three_rows) 0
                Fixture.three_rows eq_refl)
    as (_ & _ & A & _ & _ & _ & B & _).
  split; [exact B | exact (A ["Rent"] None)].
Defined.

(** C2, as stated, fails: [sum_amount_in_each_account] changes the table it
    is given.  On the fixture of three rows, which has no [VALUE_NUMERIC]
    column, the caller's table has one after the call. *)
Lemma sum_amount_changes_the_table :
  ~ (forall (R : Pd.Runtime) st r t,
        nth_error (Pd.heap st) r = Some t ->
        nth_error
          (Pd.heap (snd (Analysis.sum_amount_in_each_account r st))) r
        = Some t).
Proof.
  intros C.
  specialize (C Fragment.runtime (Fixture.store_of Fixture.three_rows) 0
                Fixture.three_rows eq_refl).
  vm_compute in C. congruence.
Qed.


(* ================================================================== *)
(** ** Category classification *)

Section Classification.
Import Pd Exec Analysis.
Context `{Runtime}.

Lemma hd_select_find (K A : Type) (p : K -> bool) (ks : list K) (xs : list A) :
  hd_error (select (map p ks) xs)
  = option_map snd (find (fun row => p (fst row)) (combine ks xs)).
Proof.
  revert xs; induction ks as [|k r IH]; intros [|x s]; simpl; auto.
  destruct (p k); simpl; auto.
Qed.

Lemma combine_fst_snd (A B : Type) (l : list (A * B)) :
  combine (map fst l) (map snd l) = l.
Proof. induction l as [|[a b] r IH]; simpl; congruence. Qed.

Lemma select_fst (A B : Type) (p : A -> bool) (rows : list (A * B)) :
  select (map p (map fst rows)) (map fst rows)
  = map fst (filter (fun row => p (fst row)) rows).
Proof.
  induction rows as [|[a b] r IH]; simpl; auto.
  destruct (p a); simpl; now rewrite IH.
Qed.

Lemma select_snd (A B : Type) (p : A -> bool) (rows : list (A * B)) :
  select (map p (map fst rows)) (map snd rows)
  = map snd (filter (fun row => p (fst row)) rows).
Proof.
  induction rows as [|[a b] r IH]; simpl; auto.
  destruct (p a); simpl; now rewrite IH.
Qed.

Lemma keep_returns st r d rows test (P : ref -> state -> Prop) :
  nth_error (heap st) r = Some d ->
  Spec.holds rows d ->
  (forall d', Spec.holds (filter (fun row => test (fst row)) rows) d' ->
              P (List.length (heap st))
                (mkState (heap st ++ [d']) (log st))) ->
  returns (keep r test) st P.
Proof.
  intros E [Lc Lt] p. unfold keep.
  apply returns_bind. eapply returns_getitem; [exact E | exact Lc |].
  eapply returns_getrows; [exact E |]. apply p.
  split; cbn [columns select_rows]; rewrite lookup_select.
  - rewrite Lc. cbn [option_map]. now rewrite select_fst.
  - rewrite Lt. cbn [option_map]. now rewrite select_snd.
Qed.

Lemma classify_returns df d rows (type_of : cell -> cell) :
  forall categories st acc (P : buckets -> state -> Prop),
    nth_error (heap st) df = Some d ->
    Spec.holds rows d ->
    (forall c, In c categories ->
               exists row, find (fun row => eq_cell c (fst row)) rows
                           = Some row /\ snd row = type_of c) ->
    P (fold_left (fun a c => Spec.place (type_of c) c a) categories acc)
      (mkState (heap st)
               (log st ++ map Spec.warning
                              (filter (fun c => negb (Spec.known (type_of c)))
                                      categories))) ->
    returns (classify df categories acc) st P.
Proof.
  induction categories as [|c rest IH]; intros st acc P E Hd Ty p;
    cbn [classify].
  - apply returns_ret. cbn in p. rewrite app_nil_r in p. now destruct st.
  - destruct Hd as [Lc Lt].
    assert (T : hd_error (select (map (eq_cell c) (map fst rows))
                                 (map snd rows)) = Some (type_of c)).
    { rewrite hd_select_find, combine_fst_snd.
      destruct (Ty c (or_introl eq_refl)) as (row & -> & <-).
      reflexivity. }
    apply returns_bind. eapply returns_getitem; [exact E | exact Lt |].
    apply returns_bind. eapply returns_getitem; [exact E | exact Lc |].
    apply returns_bind. eapply returns_lift; [exact T |].
    apply returns_bind.
    cbn [fold_left filter map] in p.
    unfold Spec.place at 2 in p. unfold Spec.known at 1 in p.
    unfold Spec.kinds in p. cbn [existsb] in p.
    destruct (eq_str "income" (type_of c));
      [| destruct (eq_str "expense" (type_of c));
         [| destruct (eq_str "saving" (type_of c));
            [| destruct (eq_str "investment" (type_of c))]]];
      cbn [orb negb map] in p.
    1-4: apply returns_ret;
         (apply IH; [exact E | now split | intros; apply Ty; now right |]);
         exact p.
    apply returns_bind. apply returns_emit. apply returns_ret.
    apply IH; [exact E | now split | intros; apply Ty; now right |].
    cbn [heap log]. rewrite <- app_assoc. exact p.
Qed.

Lemma place_income ty c acc :
  income_categories (Spec.place ty c acc)
  = (income_categories acc ++ if eq_str "income" ty then [c] else [])%list.
Proof.
  unfold Spec.place. destruct ty as [s| |]; simpl; try now rewrite app_nil_r.
  repeat (match goal with
          | |- context [String.eqb s ?k] =>
              destruct (String.eqb_spec s k) as [->|]
          end; simpl; try now rewrite ?app_nil_r).
Qed.

Lemma place_expense ty c acc :
  expense_categories (Spec.place ty c acc)
  = (expense_categories acc ++ if eq_str "expense" ty then [c] else [])%list.
Proof.
  unfold Spec.place. destruct ty as [s| |]; simpl; try now rewrite app_nil_r.
  repeat (match goal with
          | |- context [String.eqb s ?k] =>
              destruct (String.eqb_spec s k) as [->|]
          end; simpl; try now rewrite ?app_nil_r).
Qed.

Lemma place_saving ty c acc :
  saving_categories (Spec.place ty c acc)
  = (saving_categories acc ++ if eq_str "saving" ty then [c] else [])%list.
Proof.
  unfold Spec.place. destruct ty as [s| |]; simpl; try now rewrite app_nil_r.
  repeat (match goal with
          | |- context [String.eqb s ?k] =>
              destruct (String.eqb_spec s k) as [->|]
          end; simpl; try now rewrite ?app_nil_r).
Qed.

Lemma place_investing ty c acc :
  investing_categories (Spec.place ty c acc)
  = (investing_categories acc
       ++ if eq_str "investment" ty then [c] else [])%list.
Proof.
  unfold Spec.place. destruct ty as [s| |]; simpl; try now rewrite app_nil_r.
  repeat (match goal with
          | |- context [String.eqb s ?k] =>
              destruct (String.eqb_spec s k) as [->|]
          end; simpl; try now rewrite ?app_nil_r).
Qed.

Lemma placed (type_of : cell -> cell) categories :
  forall acc,
    let b := fold_left (fun a c => Spec.place (type_of c) c a) categories acc in
    income_categories b
    = (income_categories acc
         ++ filter (fun c => eq_str "income" (type_of c)) categories)%list
    /\ expense_categories b
       = (expense_categories acc
            ++ filter (fun c => eq_str "expense" (type_of c)) categories)%list
    /\ saving_categories b
       = (saving_categories acc
            ++ filter (fun c => eq_str "saving" (type_of c)) categories)%list
    /\ investing_categories b
       = (investing_categories acc
            ++ filter (fun c => eq_str "investment" (type_of c))
                      categories)%list.
Proof.
  induction categories as [|c rest IH]; intros acc; cbn [fold_left filter].
  - now rewrite !app_nil_r.
  - destruct (IH (Spec.place (type_of c) c acc)) as (A & B & C & D).
    cbv zeta. rewrite A, B, C, D.
    rewrite place_income, place_expense, place_saving, place_investing.
    rewrite <- !app_assoc.
    repeat split; f_equal;
      match goal with |- context [if ?b then _ else _] => now destruct b end.
Qed.

Lemma eqb_reflexive (x : F64.float) :
  F64.is_nan x = false -> F64.eqb x x = true.
Proof.
  destruct x as [s|s| |s m e]; simpl; try discriminate; auto.
  - now destruct s.
  - intros _. unfold F64.eqb, SFeqb, SFcompare.
    rewrite Z.compare_refl.
    change (Pos.compare_cont Eq m m) with (Pos.compare m m).
    rewrite Pos.compare_refl. now destruct s.
Qed.

Lemma eqb_not_nan (a b : F64.float) :
  F64.eqb a b = true -> F64.is_nan a = false /\ F64.is_nan b = false.
Proof. destruct a, b; simpl; try discriminate; auto. Qed.

Lemma eq_cell_excluded c x :
  eq_cell c x = true -> Spec.excluded x = Spec.excluded c.
Proof.
  destruct c as [a|a|], x as [b|b|]; simpl; try discriminate.
  - intros E. apply String.eqb_eq in E. now subst.
  - intros E. destruct (eqb_not_nan _ _ E) as [A B].
    unfold Spec.excluded; simpl. now rewrite A, B.
Qed.

Lemma eq_cell_reflexive c : notna c = true -> eq_cell c c = true.
Proof.
  destruct c as [a|a|]; simpl; try discriminate.
  - intros _. apply String.eqb_refl.
  - intros E. apply eqb_reflexive. now destruct (F64.is_nan a).
Qed.

Lemma excluded_notna c : Spec.excluded c = false -> notna c = true.
Proof.
  unfold Spec.excluded. destruct (notna c); auto.
  now rewrite !orb_true_r.
Qed.

Lemma unique_from_incl seen s c :
  In c (unique_from seen s) -> In c s.
Proof.
  revert seen; induction s as [|x r IH]; intros seen; simpl; auto.
  destruct (existsb _ seen); simpl.
  - intros I; right; eauto.
  - intros [->|I]; [now left | right; eauto].
Qed.

Lemma find_filter (A : Type) (p q : A -> bool) (l : list A) :
  (forall x, p x = true -> q x = true) ->
  find p (filter q l) = find p l.
Proof.
  intros PQ. induction l as [|x r IH]; simpl; auto.
  destruct (q x) eqn:Q; simpl; destruct (p x) eqn:P; auto.
  rewrite (PQ x P) in Q. discriminate.
Qed.

Lemma find_exists (A : Type) (p : A -> bool) (l : list A) x :
  In x l -> p x = true -> exists y, find p l = Some y.
Proof.
  intros I P. destruct (find p l) as [y|] eqn:F; [now exists y |].
  pose proof (find_none _ _ F _ I) as N. congruence.
Qed.

Lemma map_fst_filter (A B : Type) (p : A -> bool) (rows : list (A * B)) :
  map fst (filter (fun row => p (fst row)) rows) = filter p (map fst rows).
Proof.
  induction rows as [|[a b] r IH]; simpl; auto.
  destruct (p a); simpl; now rewrite IH.
Qed.

Lemma filter_twice (A : Type) (p q : A -> bool) (l : list A) :
  filter q (filter p l) = filter (fun x => p x && q x) l.
Proof.
  induction l as [|x r IH]; simpl; auto.
  destruct (p x); simpl; [destruct (q x) |]; now rewrite IH.
Qed.

Lemma map_fst_combine (A B : Type) (l : list A) (l' : list B) :
  List.length l = List.length l' -> map fst (combine l l') = l.
Proof.
  revert l'; induction l as [|a r IH]; intros [|b r'] E; simpl in *;
    try discriminate; auto.
  now rewrite IH by lia.
Qed.

Lemma map_snd_combine (A B : Type) (l : list A) (l' : list B) :
  List.length l = List.length l' -> map snd (combine l l') = l'.
Proof.
  revert l'; induction l as [|a r IH]; intros [|b r'] E; simpl in *;
    try discriminate; auto.
  now rewrite IH by lia.
Qed.

Lemma left_rows_categories cs ts :
  List.length cs = List.length ts ->
  unique (map fst (Spec.left_rows (combine cs ts))) = Spec.remaining cs.
Proof.
  intros E. unfold Spec.left_rows, Spec.remaining.
  rewrite (map_fst_filter (fun c => negb (eq_str "None" c))).
  rewrite (map_fst_filter notna).
  rewrite (map_fst_filter (fun c => negb (eq_str "" c))).
  rewrite (map_fst_filter (fun c => negb (eq_str "Starting Balance" c))).
  rewrite (map_fst_filter (fun c => negb (eq_str "Exclude" c))).
  rewrite map_fst_combine by exact E.
  rewrite !filter_twice. f_equal. apply filter_ext. intros c.
  unfold Spec.excluded.
  destruct (eq_str "Exclude" c), (eq_str "Starting Balance" c),
    (eq_str "" c), (notna c), (eq_str "None" c); reflexivity.
Qed.

Lemma left_rows_find c rows :
  Spec.excluded c = false ->
  find (fun row => eq_cell c (fst row)) (Spec.left_rows rows)
  = find (fun row => eq_cell c (fst row)) rows.
Proof.
  intros X. unfold Spec.left_rows.
  rewrite !find_filter; auto; intros row Q;
    apply eq_cell_excluded in Q; rewrite X in Q; unfold Spec.excluded in Q;
    destruct (eq_str "Exclude" (fst row)),
      (eq_str "Starting Balance" (fst row)), (eq_str "" (fst row)),
      (eq_str "None" (fst row)), (notna (fst row)); auto; discriminate.
Qed.

Lemma remaining_type cs ts c :
  List.length cs = List.length ts ->
  In c (Spec.remaining cs) ->
  exists row,
    find (fun row => eq_cell c (fst row)) (Spec.left_rows (combine cs ts))
    = Some row
    /\ snd row = Spec.first_type cs ts c.
Proof.
  intros E I. apply unique_from_incl in I. apply filter_In in I.
  destruct I as [I X]. apply negb_true_iff in X.
  rewrite left_rows_find by exact X. unfold Spec.first_type.
  assert (I' : exists t, In (c, t) (combine cs ts)).
  { clear X. revert ts E; induction cs as [|a r IH]; intros [|b ts] E;
      simpl in *; try discriminate; try contradiction.
    destruct I as [->|I]; [exists b; now left |].
    destruct (IH I ts) as [t T]; [lia | exists t; now right]. }
  destruct I' as [t T].
  destruct (find_exists (fun row => eq_cell c (fst row)) _ _ T) as [y Y].
  { apply eq_cell_reflexive. now apply excluded_notna. }
  rewrite Y. now exists y.
Qed.

Lemma get_all_categories_returns st r t cs ts :
  nth_error (heap st) r = Some t ->
  Spec.column "CATEGORY" t = Some cs ->
  Spec.column "TYPE" t = Some ts ->
  List.length cs = List.length ts ->
  let income := Spec.bucket "income" cs ts in
  let expense := Spec.bucket "expense" cs ts in
  let saving := Spec.bucket "saving" cs ts in
  let investment := Spec.bucket "investment" cs ts in
  returns (get_all_categories r) st
    (fun res st' =>
       nth_error (heap st') res
       = Some (Spec.listing (Spec.longest income expense saving investment)
                       income expense saving investment)
       /\ log st'
          = (log st
               ++ Spec.found (List.length (Spec.remaining cs))
               :: map Spec.warning (Spec.unrecognized cs ts)
               ++ [Spec.retrieved income expense saving investment])%list).
Proof.
  intros E Lc Lt Len income expense saving investment.
  assert (H0 : Spec.holds (combine cs ts) t).
  { split; [rewrite map_fst_combine | rewrite map_snd_combine]; auto. }
  unfold get_all_categories.
  apply returns_bind. eapply keep_returns; [exact E | exact H0 |].
  intros d1 H1. cbv beta.
  apply returns_bind.
  eapply keep_returns; [apply nth_error_snoc | exact H1 |].
  intros d2 H2. cbn [heap log].
  apply returns_bind.
  eapply keep_returns; [apply nth_error_snoc | exact H2 |].
  intros d3 H3. cbn [heap log].
  apply returns_bind.
  eapply keep_returns; [apply nth_error_snoc | exact H3 |].
  intros d4 H4. cbn [heap log].
  apply returns_bind.
  eapply keep_returns; [apply nth_error_snoc | exact H4 |].
  intros d5 H5. cbn [heap log].
  change (Spec.holds (Spec.left_rows (combine cs ts)) d5) in H5.
  apply returns_bind.
  eapply returns_getitem; [apply nth_error_snoc | apply H5 |].
  rewrite (left_rows_categories _ _ Len).
  apply returns_bind. apply returns_emit. cbn [heap log].
  apply returns_bind.
  eapply classify_returns with (type_of := Spec.first_type cs ts);
    [apply nth_error_snoc | exact H5
     | intros c I; now apply remaining_type |].
  destruct (placed (Spec.first_type cs ts) (Spec.remaining cs)
                   (mkBuckets [] [] [] [])) as (A & B & C & D).
  cbn [income_categories expense_categories saving_categories
       investing_categories app] in A, B, C, D.
  rewrite A, B, C, D.
  fold (Spec.bucket "income" cs ts) (Spec.bucket "expense" cs ts)
       (Spec.bucket "saving" cs ts) (Spec.bucket "investment" cs ts).
  fold income expense saving investment.
  apply returns_bind. apply returns_emit. cbn [heap log].
  apply returns_alloc. cbn [heap log]. split.
  - apply nth_error_snoc.
  - rewrite <- !app_assoc. reflexivity.
Qed.


End Classification.


(** C6 — [get_all_categories] leaves out every row whose category is the
    marker [Exclude], the marker [Starting Balance], the empty string, the
    text [None] or a missing value; each remaining distinct category goes,
    in order of first appearance, to the list of the type of its first row
    (income, expense, saving, investment); a category whose type is none of
    the four is in no list and is reported by a warning, and the call
    returns. *)
Theorem classify_categories (R : Pd.Runtime) st r t cs ts :
  nth_error (Pd.heap st) r = Some t ->
  Spec.well_formed t ->
  Spec.column "CATEGORY" t = Some cs ->
  Spec.column "TYPE" t = Some ts ->
  let income := Spec.bucket "income" cs ts in
  let expense := Spec.bucket "expense" cs ts in
  let saving := Spec.bucket "saving" cs ts in
  let investment := Spec.bucket "investment" cs ts in
  (exists res st',
      Analysis.get_all_categories r st = (Pd.Ok res, st')
      /\ nth_error (Pd.heap st') res
         = Some (Spec.listing (Spec.longest income expense saving investment)
                              income expense saving investment)
      /\ Pd.log st'
         = (Pd.log st
              ++ Spec.found (List.length (Spec.remaining cs))
              :: map Spec.warning (Spec.unrecognized cs ts)
              ++ [Spec.retrieved income expense saving investment])%list)
  /\ (forall kind c,
         In c (Spec.bucket kind cs ts) ->
         In c cs /\ Spec.excluded c = false
         /\ Pd.eq_str kind (Spec.first_type cs ts c) = true)
  /\ (forall c,
         In c (Spec.unrecognized cs ts) ->
         ~ In c income /\ ~ In c expense /\ ~ In c saving
         /\ ~ In c investment).
Proof.
  intros E WF Lc Lt income expense saving investment.
  assert (Len : List.length cs = List.length ts).
  { rewrite (well_formed_length _ WF Lc). symmetry.
    apply (well_formed_length _ WF Lt). }
  split; [| split].
  - destruct (get_all_categories_returns st r E Lc Lt Len)
      as (res & st' & X & Y & Z).
    now exists res, st'.
  - intros kind c I. unfold Spec.bucket in I. apply filter_In in I.
    destruct I as [I T]. apply unique_from_incl in I.
    apply filter_In in I. destruct I as [I X].
    apply negb_true_iff in X. auto.
  - intros c I. unfold Spec.unrecognized in I. apply filter_In in I.
    destruct I as [_ U]. apply negb_true_iff in U.
    unfold Spec.kinds in U. cbn [existsb] in U.
    repeat (apply orb_false_iff in U; destruct U as [? U]).
    unfold income, expense, saving, investment, Spec.bucket.
    repeat split; intros I; apply filter_In in I; destruct I as [_ I];
      congruence.
Qed.

Lemma classify_categories_witness :
  exists res st',
    Analysis.get_all_categories (H := Fragment.runtime) 0
      (Fixture.store_of Fixture.with_starting_balance)
    = (Pd.Ok res, st')
    /\ nth_error (Pd.heap st') res
       = Some (Pd.mkDF [0]
                 [("income", [Pd.Str "Salary"]);
                  ("expense", [Pd.Str "Rent"]);
                  ("saving", [Pd.Missing]);
                  ("investment", [Pd.Missing])])
    /\ Pd.log st'
       = [(Pd.INFO, "Unique categories found: 3");
          (Pd.WARNING,
           "Unknown category type for Gift. Please check the data.");
          (Pd.INFO,
           "Retrieved categories: 1 income, 1 expense, 0 saving, 0 investment")].
Proof.
  pose proof
    (@classify_categories Fragment.runtime
       (Fixture.store_of Fixture.with_starting_balance) 0
       Fixture.with_starting_balance
       (Fixture.strings ["Starting Balance"; "Salary"; "Rent"; "Gift";
                         "Rent"])
       (Fixture.strings ["income"; "income"; "expense"; "bonus"; "saving"])
       eq_refl ltac:(repeat constructor) eq_refl eq_refl) as (A & _).
  exact A.
Defined.


(* ================================================================== *)
(** ** Expenses by category *)

Section Expenses.
Import Pd Exec Analysis.
Context `{Runtime}.

Lemma select_rows_of (A B : Type) (f : A -> bool) (g : A -> B) (rows : list A) :
  select (map f rows) (map g rows) = map g (filter f rows).
Proof.
  induction rows as [|a r IH]; simpl; auto.
  destruct (f a); simpl; now rewrite IH.
Qed.

Lemma carries_getrows rows d (f : cell * (cell * F64.float) -> bool) :
  Spec.carries rows d ->
  Spec.carries (filter f rows) (select_rows (map f rows) d).
Proof.
  intros (A & B & C). unfold Spec.carries. cbn [columns select_rows].
  rewrite !lookup_select, A, B, C. cbn [option_map].
  rewrite <- !select_rows_of, !select_map. repeat split.
Qed.

Lemma both_mask (A : Type) (p q : A -> bool) (rows : list A) :
  map (fun '(a, b) => a && b) (combine (map p rows) (map q rows))
  = map (fun row => p row && q row) rows.
Proof. induction rows as [|a r IH]; simpl; congruence. Qed.

Lemma combine3_fst (A B C : Type) (l1 : list A) (l2 : list B) (l3 : list C) :
  List.length l1 = List.length l2 -> List.length l2 = List.length l3 ->
  map fst (combine l1 (combine l2 l3)) = l1
  /\ map (fun r => fst (snd r)) (combine l1 (combine l2 l3)) = l2
  /\ map (fun r => snd (snd r)) (combine l1 (combine l2 l3)) = l3.
Proof.
  revert l2 l3; induction l1 as [|a r IH]; intros [|b l2] [|c l3] E1 E2;
    simpl in *; try discriminate; auto.
  destruct (IH l2 l3) as (X & Y & Z); try lia.
  now rewrite X, Y, Z.
Qed.

Lemma outflows_rows expense_cats month cs ms xs :
  let rows :=
    filter (fun row => isin expense_cats (fst row)
                       && F64.ltb (snd (snd row)) F64.zero)
           (filter (fun row => Spec.in_optional_month month (fst (snd row)))
                   (combine cs (combine ms xs))) in
  let o := Spec.outflows expense_cats month cs ms xs in
  map fst rows = map fst o
  /\ map (fun r => snd (snd r)) rows = map snd o
  /\ Forall (fun r => F64.ltb (snd r) F64.zero = true) o.
Proof.
  intros rows o. unfold rows, o, Spec.outflows.
  rewrite filter_twice, !map_map. cbn [fst snd]. repeat split.
  apply Forall_forall. intros r I. apply in_map_iff in I.
  destruct I as (row & <- & I). apply filter_In in I. destruct I as [_ I].
  cbn [snd]. apply andb_true_iff in I. destruct I as [_ I].
  now apply andb_true_iff in I.
Qed.

Lemma sum_expenses_returns st r t expense_cats month vs cs ms xs :
  nth_error (heap st) r = Some t ->
  Spec.well_formed t ->
  Spec.column "VALUE" t = Some vs ->
  Spec.column "CATEGORY" t = Some cs ->
  Spec.column "MONTH" t = Some ms ->
  Spec.all_some (map Spec.normalize vs) = Some xs ->
  returns (sum_expenses_by_category r expense_cats month) st
    (fun a _ =>
       let o := Spec.outflows expense_cats month cs ms xs in
       let expenses :=
         map (fun '(k, x) => (k, F64.abs x))
             (group_sums (map fst o) (map snd o)) in
       let expenses_dict :=
         filter (fun '(_, x) => F64.gtb x F64.zero) expenses in
       a = match expenses_dict with
           | [] => [(Str "No Expenses", PyInt 0)]
           | _ => map (fun '(k, x) => (k, PyFloat x)) expenses_dict
           end).
Proof.
  intros E WF Lv Lc Lm N.
  pose proof (well_formed_length _ WF Lv) as Nv.
  pose proof (well_formed_length _ WF Lc) as Nc.
  pose proof (well_formed_length _ WF Lm) as Nm.
  pose proof (all_some_length _ N) as Nx. rewrite length_map in Nx.
  destruct (@combine3_fst _ _ _ cs ms xs) as (C1 & C2 & C3);
    try congruence.
  set (rows := combine cs (combine ms xs)) in *.
  unfold sum_expenses_by_category.
  do 2 run_step.
  run_step. eapply returns_getitem; [on_last | exact Lv |].
  do 2 run_step.
  run_step. eapply returns_getitem; [on_last | apply lookup_assign_same |].
  run_step. eapply returns_to_numeric; [exact N |].
  do 2 run_step.
  fold (Spec.enriched t vs xs).
  assert (K : Spec.carries rows (Spec.enriched t vs xs)).
  { unfold Spec.carries, Spec.enriched; cbn [columns set_column].
    rewrite C1, C2, C3. repeat split.
    - rewrite !lookup_assign_other by discriminate. exact Lc.
    - rewrite !lookup_assign_other by discriminate. exact Lm.
    - apply lookup_assign_same. }
  generalize dependent (Spec.enriched t vs xs). intros t1 K.
  set (rows1 := filter (fun row => Spec.in_optional_month month
                                     (fst (snd row))) rows).
  match goal with
  | |- returns (bind _ ?k) _ ?P =>
      assert (Tail : forall st1 r1 d,
                 nth_error (heap st1) r1 = Some d ->
                 Spec.carries rows1 d -> returns (k r1) st1 P)
  end.
  { intros st1 r1 d E1 (A & B & C). cbv beta.
    apply returns_bind. eapply returns_getitem; [exact E1 | exact A |].
    apply returns_bind. eapply returns_getitem; [exact E1 | exact C |].
    apply returns_bind. apply returns_lt.
    rewrite !map_map.
    rewrite (both_mask (fun row => isin expense_cats (fst row))
                       (fun row => F64.ltb (snd (snd row)) F64.zero)).
    apply returns_bind. eapply returns_getrows; [exact E1 |].
    cbn [heap log].
    pose proof (@carries_getrows rows1 d
                  (fun row => isin expense_cats (fst row)
                              && F64.ltb (snd (snd row)) F64.zero)
                  (conj A (conj B C))) as (A2 & B2 & C2').
    apply returns_bind.
    eapply returns_getitem; [apply nth_error_snoc | exact A2 |].
    apply returns_bind.
    eapply returns_getitem; [apply nth_error_snoc | exact C2' |].
    apply returns_bind. eapply returns_lift; [apply floats_Num |].
    apply returns_ret.
    destruct (outflows_rows expense_cats month cs ms xs) as (F1 & F2 & F3).
    fold rows in F1, F2. fold rows1 in F1, F2.
    now rewrite F1, F2. }
  unfold rows1 in Tail. unfold Spec.in_optional_month in Tail.
  run_step.
  destruct (truthy month) as [m|].
  - run_step. eapply returns_getitem; [on_last | apply K |].
    rewrite map_map. run_step.
    eapply Tail; [apply nth_error_snoc |].
    now apply carries_getrows.
  - run_step. eapply Tail; [apply nth_error_snoc |].
    replace (filter _ rows) with rows; [exact K |].
    clear. induction rows as [|a l IH]; simpl; congruence.
Qed.

Lemma insert_key_In k l x : In x (insert_key k l) -> x = k \/ In x l.
Proof.
  induction l as [|q r IH]; simpl.
  - intros [<-|[]]; now left.
  - destruct (key_leb k q); simpl.
    + intros [<-|I]; auto.
    + intros [<-|I]; auto. destruct (IH I); auto.
Qed.

Lemma sorted_keys_In s k : In k (sorted_keys s) -> In k s.
Proof.
  unfold sorted_keys, unique.
  assert (G : forall l, In k (fold_right insert_key [] l) -> In k l).
  { induction l as [|a r IH]; simpl; auto.
    intros I. destruct (insert_key_In _ _ _ I); auto. }
  intros I. apply G in I. apply unique_from_incl in I.
  now apply filter_In in I.
Qed.

End Expenses.

(* ================================================================== *)
(** ** The order of floats and the ranking of rows *)

Section FloatOrder.
Import Pd.
Context `{Runtime}.

Lemma compare_antisym (x y : F64.float) :
  SFcompare x y = option_map CompOpp (SFcompare y x).
Proof.
  destruct x as [s|s| |s m e], y as [s'|s'| |s' m' e']; simpl; auto;
    try (destruct s; reflexivity); try (destruct s'; reflexivity);
    try (destruct s, s'; reflexivity).
  rewrite (Z.compare_antisym e e').
  change (Pos.compare_cont Eq m m') with (Pos.compare m m').
  change (Pos.compare_cont Eq m' m) with (Pos.compare m' m).
  rewrite (Pos.compare_antisym m m').
  destruct s, s'; simpl; auto;
    destruct (Z.compare e e'); simpl; auto;
    destruct (Pos.compare m m'); reflexivity.
Qed.

Lemma leb_total (x y : F64.float) :
  F64.is_nan x = false -> F64.is_nan y = false ->
  F64.leb y x = false -> F64.leb x y = true.
Proof.
  unfold F64.leb, SFleb. rewrite (compare_antisym x y).
  destruct (SFcompare y x) as [[]|] eqn:C; simpl; try discriminate; auto.
  destruct x, y; simpl in *; discriminate.
Qed.

Lemma leb_not_nan (x y : F64.float) :
  F64.leb x y = true -> F64.is_nan x = false /\ F64.is_nan y = false.
Proof. destruct x, y; simpl; auto; discriminate. Qed.

Lemma leb_trans (x y z : F64.float) :
  F64.leb x y = true -> F64.leb y z = true -> F64.leb x z = true.
Proof.
  unfold F64.leb, SFleb.
  destruct x as [s1|s1| |s1 m1 e1], y as [s2|s2| |s2 m2 e2],
    z as [s3|s3| |s3 m3 e3]; simpl; try discriminate; auto;
    try (destruct s1; simpl; try discriminate; auto; fail);
    try (destruct s2; simpl; try discriminate; auto; fail);
    try (destruct s3; simpl; try discriminate; auto; fail);
    try (destruct s1, s2; simpl; try discriminate; auto; fail);
    try (destruct s1, s3; simpl; try discriminate; auto; fail);
    try (destruct s2, s3; simpl; try discriminate; auto; fail);
    try (destruct s1, s2, s3; simpl; try discriminate; auto; fail).
  change (Pos.compare_cont Eq m1 m2) with (Pos.compare m1 m2).
  change (Pos.compare_cont Eq m2 m3) with (Pos.compare m2 m3).
  change (Pos.compare_cont Eq m1 m3) with (Pos.compare m1 m3).
  destruct s1, s2, s3; simpl; try discriminate; auto;
    destruct (Z.compare_spec e1 e2), (Z.compare_spec e2 e3),
      (Z.compare_spec e1 e3); simpl; try discriminate; auto; try lia;
    subst;
    destruct (Pos.compare_spec m1 m2), (Pos.compare_spec m2 m3),
      (Pos.compare_spec m1 m3); simpl; try discriminate; auto; try lia.
Qed.

Lemma before_total x y : before x y = false -> before y x = true.
Proof.
  unfold before. intros B. apply orb_false_iff in B. destruct B as [Ny L].
  destruct (F64.is_nan x) eqn:Nx; simpl; auto.
  now apply leb_total.
Qed.

Lemma before_trans x y z :
  before x y = true -> before y z = true -> before x z = true.
Proof.
  unfold before. intros A B.
  destruct (F64.is_nan z) eqn:Nz; simpl in *; auto.
  destruct (leb_not_nan _ _ B) as [_ Ny]. rewrite Ny in A. simpl in A.
  now apply leb_trans with y.
Qed.

Lemma insert_ranked_perm p l : Permutation (insert_ranked p l) (p :: l).
Proof.
  induction l as [|q r IH]; simpl; auto.
  destruct (before (snd p) (snd q)); auto.
  eapply perm_trans; [apply perm_skip, IH | apply perm_swap].
Qed.

Lemma ranked_perm l : Permutation (ranked l) l.
Proof.
  induction l as [|p r IH]; simpl; auto.
  eapply perm_trans; [apply insert_ranked_perm | now apply perm_skip].
Qed.

Lemma insert_ranked_sorted p l :
  StronglySorted Spec.ranks_before l ->
  Forall (fun q => fst p < fst q) l ->
  StronglySorted Spec.ranks_before (insert_ranked p l).
Proof.
  intros S. induction S as [|q r S IH F]; intros L; simpl.
  - repeat constructor.
  - inversion L as [|? ? Lq Lr]; subst.
    destruct (before (snd p) (snd q)) eqn:B.
    + constructor; [now constructor |].
      constructor; [split; auto |].
      rewrite Forall_forall in *. intros x I. split; [| intros _; auto].
      apply before_trans with (snd q); auto. now apply F.
    + constructor; [now apply IH |].
      eapply Permutation_Forall;
        [apply Permutation_sym, insert_ranked_perm |].
      constructor; auto. split; [now apply before_total |].
      intros X. congruence.
Qed.

Lemma ranked_sorted l :
  StronglySorted Nat.lt (map fst l) ->
  StronglySorted Spec.ranks_before (ranked l).
Proof.
  induction l as [|p r IH]; simpl; intros S; [constructor |].
  inversion S as [|? ? Sr F]; subst.
  apply insert_ranked_sorted; auto.
  eapply Permutation_Forall; [apply Permutation_sym, ranked_perm |].
  rewrite Forall_forall in *. intros q I. apply F. now apply in_map.
Qed.

Lemma seq_sorted n : forall a, StronglySorted Nat.lt (seq a n).
Proof.
  induction n as [|n IH]; intros a; simpl; constructor; auto.
  apply Forall_forall. intros x I. apply in_seq in I. lia.
Qed.

Lemma in_numbered (xs : list F64.float) :
  forall a i v,
    In (i, v) (combine (seq a (List.length xs)) xs) ->
    a <= i /\ nth_error xs (i - a) = Some v.
Proof.
  induction xs as [|x r IH]; simpl; intros a i v I; [contradiction |].
  destruct I as [[= <- <-]|I].
  - now rewrite Nat.sub_diag.
  - destruct (IH _ _ _ I) as [L E]. split; [lia |].
    replace (i - a) with (S (i - S a)) by lia. exact E.
Qed.

Lemma sorted_positions xs l :
  StronglySorted Spec.ranks_before l ->
  (forall a, In a l -> snd a = Spec.value_at xs (fst a)) ->
  StronglySorted (Spec.outranks xs) (map fst l).
Proof.
  intros S. induction S as [|a r S IH F]; intros V; simpl; constructor.
  - apply IH. intros b I. apply V. now right.
  - rewrite Forall_forall in *. intros q I. apply in_map_iff in I.
    destruct I as (b & <- & I). unfold Spec.outranks.
    rewrite <- (V a (or_introl eq_refl)), <- (V b (or_intror I)).
    now apply F.
Qed.

Lemma in_firstn (A : Type) n (l : list A) x : In x (firstn n l) -> In x l.
Proof.
  intros I. rewrite <- (firstn_skipn n l). apply in_or_app. now left.
Qed.

Lemma sorted_firstn (A : Type) (R : A -> A -> Prop) n :
  forall l, StronglySorted R l ->
            StronglySorted R (firstn n l)
            /\ (forall a b, In a (firstn n l) -> In b (skipn n l) -> R a b).
Proof.
  induction n as [|n IH]; intros l S; simpl.
  - split; [constructor | contradiction].
  - destruct l as [|x r]; [split; [constructor | contradiction] |].
    inversion S as [|? ? Sr F]; subst.
    destruct (IH r Sr) as [S1 C]. split.
    + constructor; auto. rewrite Forall_forall in *.
      intros y I. apply F. eapply in_firstn; eauto.
    + intros a b [<-|I] J; auto.
      rewrite Forall_forall in F. apply F.
      rewrite <- (firstn_skipn n r). apply in_or_app. now right.
Qed.

Lemma compare_defined (x y : F64.float) :
  F64.is_nan x = false -> F64.is_nan y = false -> SFcompare x y <> None.
Proof.
  destruct x as [s|s| |s m e], y as [s'|s'| |s' m' e']; simpl;
    try discriminate; intros _ _;
    try (destruct s; discriminate); try (destruct s, s'; discriminate).
Qed.

(** What the default sort puts first is not larger; of two values that
    are not NaN, one is put first. *)
Lemma sorts_before_leb a (p q : nat * F64.float) :
  sorts_before a p q = true -> F64.leb (snd p) (snd q) = true.
Proof.
  unfold sorts_before, F64.ltb, F64.eqb, F64.leb, SFltb, SFeqb, SFleb.
  destruct (SFcompare (snd p) (snd q)) as [[]|]; simpl; auto;
    discriminate.
Qed.

Lemma sorts_before_total a (p q : nat * F64.float) :
  F64.is_nan (snd p) = false -> F64.is_nan (snd q) = false ->
  sorts_before a p q = false -> F64.leb (snd q) (snd p) = true.
Proof.
  intros Np Nq. pose proof (compare_defined _ _ Np Nq) as D.
  unfold sorts_before, F64.ltb, F64.eqb, F64.leb, SFltb, SFeqb, SFleb.
  rewrite (compare_antisym (snd q) (snd p)).
  destruct (SFcompare (snd p) (snd q)) as [[]|]; simpl; auto;
    try discriminate; congruence.
Qed.

Lemma insert_by_perm (A : Type) (le : A -> A -> bool) p l :
  Permutation (insert_by le p l) (p :: l).
Proof.
  induction l as [|q r IH]; simpl; auto.
  destruct (le p q); auto.
  eapply perm_trans; [apply perm_skip, IH | apply perm_swap].
Qed.

Lemma sort_by_perm (A : Type) (le : A -> A -> bool) l :
  Permutation (fold_right (insert_by le) [] l) l.
Proof.
  induction l as [|p r IH]; simpl; auto.
  eapply perm_trans; [apply insert_by_perm | now apply perm_skip].
Qed.

Lemma insert_by_sorted a p l :
  F64.is_nan (snd p) = false ->
  Forall (fun q => F64.is_nan (snd q) = false) l ->
  StronglySorted (fun x y => F64.leb (snd x) (snd y) = true) l ->
  StronglySorted (fun x y => F64.leb (snd x) (snd y) = true)
                 (insert_by (sorts_before a) p l).
Proof.
  intros Np Nl S. induction S as [|q r S IH F]; simpl.
  - repeat constructor.
  - inversion Nl as [|? ? Nq Nr]; subst.
    destruct (sorts_before a p q) eqn:B.
    + constructor; [now constructor |].
      constructor; [now apply sorts_before_leb with a |].
      rewrite Forall_forall in *. intros x I.
      apply leb_trans with (snd q); [now apply sorts_before_leb with a |].
      now apply F.
    + constructor; [now apply IH |].
      eapply Permutation_Forall;
        [apply Permutation_sym, insert_by_perm |].
      constructor; auto. now apply sorts_before_total with a.
Qed.

Lemma sort_by_sorted a l :
  Forall (fun q => F64.is_nan (snd q) = false) l ->
  StronglySorted (fun x y => F64.leb (snd x) (snd y) = true)
                 (fold_right (insert_by (sorts_before a)) [] l).
Proof.
  induction 1 as [|p r Np Nr IH]; simpl; [constructor |].
  apply insert_by_sorted; auto.
  eapply Permutation_Forall; [apply Permutation_sym, sort_by_perm |].
  exact Nr.
Qed.

(** The default sort returns every position once, the values from the
    smallest to the largest. *)
Lemma argsort_sorts a :
  Forall (fun x => F64.is_nan x = false) a ->
  Permutation (argsort a) (seq 0 (List.length a))
  /\ StronglySorted
       (fun i j => F64.leb (nth i a F64.nan) (nth j a F64.nan) = true)
       (argsort a).
Proof.
  intros N. unfold argsort.
  set (rows := combine (seq 0 (List.length a)) a).
  set (sorted := fold_right (insert_by (sorts_before a)) [] rows).
  assert (Q : Permutation sorted rows) by apply sort_by_perm.
  assert (V : forall p, In p rows -> snd p = nth (fst p) a F64.nan).
  { intros [i v] I. apply in_numbered in I. destruct I as [_ E].
    rewrite Nat.sub_0_r in E. cbn [fst snd]. symmetry.
    now apply nth_error_nth. }
  split.
  - eapply perm_trans; [apply Permutation_map, Q |].
    unfold rows. rewrite map_fst_combine; auto. apply length_seq.
  - assert (S : StronglySorted
                  (fun x y => F64.leb (snd x) (snd y) = true) sorted).
    { apply sort_by_sorted. apply Forall_forall. intros [i v] I.
      cbn [snd]. apply in_numbered in I. destruct I as [_ E].
      apply nth_error_In in E. rewrite Forall_forall in N.
      now apply N. }
    assert (W : forall p, In p sorted -> snd p = nth (fst p) a F64.nan).
    { intros p I. apply V. now apply (Permutation_in _ Q). }
    clear - S W. induction S as [|p r S IH F]; simpl; constructor.
    + apply IH. intros q I. apply W. now right.
    + rewrite Forall_forall in *. intros j I. apply in_map_iff in I.
      destruct I as (q & <- & I).
      rewrite <- (W p (or_introl eq_refl)), <- (W q (or_intror I)).
      now apply F.
Qed.

Lemma sorted_app (A : Type) (R : A -> A -> Prop) l1 l2 :
  StronglySorted R l1 -> StronglySorted R l2 ->
  (forall a b, In a l1 -> In b l2 -> R a b) ->
  StronglySorted R (l1 ++ l2).
Proof.
  intros S1 S2 C. induction S1 as [|a r S IH F]; simpl; auto.
  constructor.
  - apply IH. intros x y X Y. apply C; auto. now right.
  - apply Forall_app. split; [exact F |].
    apply Forall_forall. intros b B. apply C; auto. now left.
Qed.

Lemma sorted_rev (A : Type) (R : A -> A -> Prop) l :
  StronglySorted R l -> StronglySorted (fun a b => R b a) (rev l).
Proof.
  induction 1 as [|a r S IH F]; simpl; [constructor |].
  apply sorted_app; auto.
  - repeat constructor.
  - intros x y X [<-|[]]. rewrite Forall_forall in F.
    apply F. now apply in_rev.
Qed.

Lemma sorted_weaken (A : Type) (R R' : A -> A -> Prop) l :
  (forall a b, In a l -> In b l -> R a b -> R' a b) ->
  StronglySorted R l -> StronglySorted R' l.
Proof.
  intros W S. induction S as [|a r S IH F]; constructor.
  - apply IH. intros x y X Y. apply W; now right.
  - rewrite Forall_forall in *. intros b B.
    apply W; [now left | now right | now apply F].
Qed.

Lemma sorted_any (A : Type) (R : A -> A -> Prop) l :
  (forall a b, In b l -> R a b) -> StronglySorted R l.
Proof.
  induction l as [|a r IH]; intros W; constructor.
  - apply IH. intros x y Y. apply W. now right.
  - apply Forall_forall. intros b B. apply W. now right.
Qed.

(** The rows of a mask and the others are all the rows. *)
Lemma select_split (A : Type) (mask : list bool) :
  forall l : list A,
    List.length mask = List.length l ->
    Permutation (select (map negb mask) l ++ select mask l) l.
Proof.
  induction mask as [|b m IH]; intros [|x l] E; simpl in *;
    try discriminate; auto.
  destruct b; simpl.
  - eapply perm_trans; [apply Permutation_sym, Permutation_middle |].
    apply perm_skip, IH. lia.
  - apply perm_skip, IH. lia.
Qed.

Lemma take_perm (A : Type) (d : A) ps (l : list A) :
  Permutation ps (seq 0 (List.length l)) -> Permutation (take d ps l) l.
Proof.
  intros Q. rewrite <- (take_seq d l) at 2. unfold take.
  now apply Permutation_map.
Qed.

(** The values that are selected, with their positions. *)
Lemma select_numbered (mask : list bool) :
  forall (xs : list F64.float) a i,
    i < List.length (select mask xs) ->
    nth i (select mask xs) F64.nan
    = nth (nth i (select mask (seq a (List.length xs))) 0 - a) xs F64.nan
    /\ a <= nth i (select mask (seq a (List.length xs))) 0.
Proof.
  induction mask as [|b m IH]; intros [|x xs] a i L; simpl in *;
    try lia.
  destruct b; simpl in *.
  - destruct i as [|i].
    + rewrite Nat.sub_diag. split; [reflexivity | lia].
    + destruct (IH xs (S a) i) as [E B]; [lia |].
      rewrite E. split; [| lia].
      replace (nth i (select m (seq (S a) (List.length xs))) 0 - a)
        with (S (nth i (select m (seq (S a) (List.length xs))) 0 - S a))
        by lia.
      reflexivity.
  - destruct (IH xs (S a) i) as [E B]; [lia |].
    rewrite E. split; [| lia].
    replace (nth i (select m (seq (S a) (List.length xs))) 0 - a)
      with (S (nth i (select m (seq (S a) (List.length xs))) 0 - S a))
      by lia.
    reflexivity.
Qed.

Lemma select_not_nan xs :
  Forall (fun x => F64.is_nan x = false)
         (select (map negb (map F64.is_nan xs)) xs).
Proof.
  induction xs as [|x r IH]; simpl; [constructor |].
  destruct (F64.is_nan x) eqn:N; simpl; auto.
Qed.

Lemma select_nan xs :
  forall a p,
    In p (select (map F64.is_nan xs) (seq a (List.length xs))) ->
    F64.is_nan (nth (p - a) xs F64.nan) = true.
Proof.
  induction xs as [|x r IH]; intros a p I; simpl in *; [contradiction |].
  destruct (F64.is_nan x) eqn:N; simpl in I.
  - destruct I as [<-|I]; [now rewrite Nat.sub_diag |].
    assert (S a <= p).
    { clear - I. revert I. generalize (map F64.is_nan r).
      generalize (List.length r). intros n m I.
      assert (G : forall l b, In p (select l (seq b n)) -> b <= p).
      { clear. revert p. induction n as [|n IH]; intros p l b I.
        - rewrite select_nil in I. contradiction.
        - destruct l as [|[] l]; simpl in I; try contradiction.
          + destruct I as [<-|I]; [lia |]. apply IH in I. lia.
          + apply IH in I. lia. }
      now apply G with m. }
    replace (p - a) with (S (p - S a)) by lia. now apply IH.
  - assert (S a <= p).
    { clear - I. revert I. generalize (map F64.is_nan r).
      generalize (List.length r). intros n m I.
      assert (G : forall l b, In p (select l (seq b n)) -> b <= p).
      { clear. revert p. induction n as [|n IH]; intros p l b I.
        - rewrite select_nil in I. contradiction.
        - destruct l as [|[] l]; simpl in I; try contradiction.
          + destruct I as [<-|I]; [lia |]. apply IH in I. lia.
          + apply IH in I. lia. }
      now apply G with m. }
    replace (p - a) with (S (p - S a)) by lia. now apply IH.
Qed.

Lemma nth_rev (A : Type) (d : A) (l : list A) i :
  i < List.length l -> nth i (rev l) d = nth (List.length l - S i) l d.
Proof. intros L. now apply rev_nth. Qed.

(** [sort_values(ascending=False)] returns every row once, the values from
    the largest to the smallest and the NaN last. *)
Lemma sort_descending_ranked xs : Spec.all_ranked xs (sort_descending xs).
Proof.
  unfold sort_descending, Spec.all_ranked.
  set (n := List.length xs).
  set (keep := map negb (map F64.is_nan xs)).
  set (vals := select keep xs).
  set (idxs := select keep (seq 0 n)).
  set (nans := select (map F64.is_nan xs) (seq 0 n)).
  assert (Len : List.length vals = List.length idxs).
  { apply select_length. now rewrite length_seq. }
  assert (Nv : Forall (fun x => F64.is_nan x = false) (rev vals)).
  { apply Forall_rev. apply select_not_nan. }
  destruct (argsort_sorts Nv) as [Q Asc].
  set (A := argsort (rev vals)) in *.
  rewrite length_rev in Q.
  assert (Pair : forall i, i < List.length vals ->
                           nth i (rev vals) F64.nan
                           = Spec.value_at xs (nth i (rev idxs) 0)).
  { intros i L. rewrite !nth_rev by lia. rewrite <- Len.
    destruct (@select_numbered keep xs 0 (List.length vals - S i))
      as [E _]; [fold vals; lia |].
    fold vals in E. fold n in E. fold idxs in E.
    rewrite E, Nat.sub_0_r. reflexivity. }
  assert (In_A : forall i, In i A -> i < List.length vals).
  { intros i I. apply (Permutation_in _ Q) in I. apply in_seq in I. lia. }
  split.
  - eapply perm_trans; [| apply (@select_split _ (map F64.is_nan xs));
                           now rewrite length_map, length_seq].
    apply Permutation_app_tail. fold keep. fold n. fold idxs.
    eapply perm_trans; [apply Permutation_sym, Permutation_rev |].
    eapply perm_trans; [apply take_perm |
                         apply Permutation_sym, Permutation_rev].
    now rewrite length_rev, <- Len.
  - apply sorted_app.
    + apply (@sorted_weaken _
               (fun p q => F64.leb (Spec.value_at xs q)
                                   (Spec.value_at xs p) = true)).
      { intros p q _ _ L. unfold before. rewrite L. apply orb_true_r. }
      apply (@sorted_rev _
               (fun p q => F64.leb (Spec.value_at xs p)
                                   (Spec.value_at xs q) = true)).
      unfold take. clear Q. revert In_A Asc.
      induction A as [|i r IH]; intros In_A Asc; simpl; [constructor |].
      inversion Asc as [|? ? Sr F]; subst. constructor.
      * apply IH; auto. intros j J. apply In_A. now right.
      * rewrite Forall_forall in *. intros q I. apply in_map_iff in I.
        destruct I as (j & <- & J).
        rewrite <- !Pair by (apply In_A; simpl; auto).
        now apply F.
    + apply sorted_any. intros p q I. unfold before.
      apply select_nan in I. rewrite Nat.sub_0_r in I.
      unfold Spec.value_at. now rewrite I.
    + intros p q _ I. unfold before.
      apply select_nan in I. rewrite Nat.sub_0_r in I.
      unfold Spec.value_at. now rewrite I.
Qed.

Lemma all_ranked_length xs ps :
  Spec.all_ranked xs ps -> List.length ps = List.length xs.
Proof.
  intros [Q _]. rewrite (Permutation_length Q). apply length_seq.
Qed.

(** On [n] rows or fewer, every row is returned. *)
Lemma nlargest_of_few n xs :
  List.length xs <= n -> Spec.all_ranked xs (nlargest_positions n xs).
Proof.
  intros L. unfold nlargest_positions.
  apply Nat.leb_le in L. rewrite L. apply Nat.leb_le in L.
  pose proof (sort_descending_ranked xs) as R.
  rewrite firstn_all2; [exact R |].
  rewrite (all_ranked_length R). exact L.
Qed.

(** On more than [n] rows, the [n] first of the ranking are returned. *)
Lemma nlargest_is_top n xs :
  n < List.length xs -> Spec.is_top n xs (nlargest_positions n xs).
Proof.
  intros More. unfold nlargest_positions.
  replace (Nat.leb (List.length xs) n) with false
    by (symmetry; apply Nat.leb_gt; exact More).
  set (rows := combine (seq 0 (List.length xs)) xs).
  assert (Q : Permutation (map fst (ranked rows)) (seq 0 (List.length xs))).
  { eapply perm_trans; [apply Permutation_map, ranked_perm |].
    unfold rows. rewrite map_fst_combine; auto. apply length_seq. }
  assert (V : forall a, In a (ranked rows) ->
                        snd a = Spec.value_at xs (fst a)).
  { intros [i v] I.
    apply (Permutation_in _ (ranked_perm rows)) in I.
    apply in_numbered in I. destruct I as [_ E].
    rewrite Nat.sub_0_r in E. cbn [fst snd]. unfold Spec.value_at.
    symmetry. now apply nth_error_nth. }
  assert (S : StronglySorted (Spec.outranks xs) (map fst (ranked rows))).
  { apply sorted_positions; auto. apply ranked_sorted.
    unfold rows. rewrite map_fst_combine by apply length_seq.
    apply seq_sorted. }
  rewrite <- firstn_map.
  destruct (sorted_firstn n S) as [S1 C].
  assert (ND : NoDup (map fst (ranked rows))).
  { eapply Permutation_NoDup; [apply Permutation_sym, Q | apply seq_NoDup]. }
  repeat split.
  - rewrite length_firstn, (Permutation_length Q), length_seq. reflexivity.
  - rewrite <- (firstn_skipn n) in ND. now apply NoDup_app_remove_r in ND.
  - intros p I. apply in_firstn in I.
    apply (Permutation_in _ Q) in I. apply in_seq in I. lia.
  - exact S1.
  - apply C; auto.
    assert (I : In q (map fst (ranked rows))).
    { apply (Permutation_in _ (Permutation_sym Q)). apply in_seq. lia. }
    rewrite <- (firstn_skipn n) in I. apply in_app_or in I. tauto.
  - apply C; auto.
    assert (I : In q (map fst (ranked rows))).
    { apply (Permutation_in _ (Permutation_sym Q)). apply in_seq. lia. }
    rewrite <- (firstn_skipn n) in I. apply in_app_or in I. tauto.
Qed.

End FloatOrder.


(* ================================================================== *)
(** ** The five highest transactions *)

Section TopFive.
Import Pd Exec Analysis.
Context `{Runtime}.

Lemma select_both (K L A : Type) (p : K -> bool) (q : L -> bool)
      (ks : list K) (ls : list L) (xs : list A) :
  List.length ks = List.length ls ->
  select (map q (select (map p ks) ls)) (select (map p ks) xs)
  = select (map (fun row => p (fst row) && q (snd row)) (combine ks ls)) xs.
Proof.
  revert ls xs; induction ks as [|k r IH]; intros [|l ls] xs E;
    simpl in *; try discriminate; auto.
  destruct xs as [|x xs].
  - rewrite !select_nil. now destruct (p k && q l).
  - destruct (p k); simpl; [destruct (q l) |]; rewrite IH; auto.
Qed.

Lemma map_on_fst (A B C : Type) (f : A -> C) (l : list A) (l' : list B) :
  List.length l = List.length l' ->
  map (fun row => f (fst row)) (combine l l') = map f l.
Proof. intros E. now rewrite <- (map_map fst f), map_fst_combine. Qed.

Lemma map_on_snd (A B C : Type) (f : B -> C) (l : list A) (l' : list B) :
  List.length l = List.length l' ->
  map (fun row => f (snd row)) (combine l l') = map f l'.
Proof. intros E. now rewrite <- (map_map snd f), map_snd_combine. Qed.

Lemma select_rows_twice m1 m2 m t :
  (forall (A : Type) (xs : list A),
      select m2 (select m1 xs) = select m xs) ->
  select_rows m2 (select_rows m1 t) = select_rows m t.
Proof.
  intros S. unfold select_rows; cbn [index columns]. rewrite S. f_equal.
  rewrite map_map. apply map_ext. intros [n s]. now rewrite S.
Qed.

Lemma select_rows_all (B : Type) (rows : list B) t :
  Spec.well_formed t -> nrows t = List.length rows ->
  select_rows (map (fun _ => true) rows) t = t.
Proof.
  intros WF N. destruct t as [ix cols]. unfold select_rows, nrows in *.
  cbn [index columns] in *. rewrite select_all by lia. f_equal.
  unfold Spec.well_formed, nrows in WF. cbn [index columns] in WF.
  induction WF as [|[n s] r E F IH]; simpl; auto.
  cbn [snd] in E. rewrite select_all by lia. now rewrite IH.
Qed.

Lemma drop_assign c s cols :
  filter (fun '(n, _) => negb (String.eqb n c)) (assign c s cols)
  = filter (fun '(n, _) => negb (String.eqb n c)) cols.
Proof.
  induction cols as [|[n old] r IH]; simpl.
  - now rewrite String.eqb_refl.
  - destruct (String.eqb n c) eqn:E; simpl; rewrite E; simpl; auto.
    now rewrite IH.
Qed.

Lemma drop_take_set c ps s d :
  drop_column c (take_rows ps (set_column c s d))
  = take_rows ps (drop_column c d).
Proof.
  unfold drop_column, take_rows, set_column; cbn [index columns]. f_equal.
  rewrite <- (drop_assign c s (columns d)).
  induction (assign c s (columns d)) as [|[n x] r IH]; simpl; auto.
  destruct (String.eqb n c); simpl; now rewrite IH.
Qed.

Lemma drop_column_has c d : has_column c (drop_column c d) = false.
Proof.
  unfold has_column, column_names, drop_column; cbn [columns].
  induction (columns d) as [|[n x] r IH]; simpl; auto.
  destruct (String.eqb n c) eqn:E; simpl; auto.
  rewrite String.eqb_sym, E. exact IH.
Qed.

Lemma take_rows_has c ps d : has_column c (take_rows ps d) = has_column c d.
Proof.
  unfold has_column, column_names, take_rows; cbn [columns].
  rewrite map_map. f_equal. apply map_ext. now intros [n s].
Qed.

Lemma top_5_returns st r t category month vs cs ms xs :
  nth_error (heap st) r = Some t ->
  Spec.well_formed t ->
  Spec.column "VALUE" t = Some vs ->
  Spec.column "CATEGORY" t = Some cs ->
  Spec.column "MONTH" t = Some ms ->
  Spec.all_some
    (map Spec.normalize (select (Spec.candidates category month cs ms) vs))
  = Some xs ->
  returns (top_5_highest_transactions r category month) st
    (fun res st' =>
       nth_error (heap st') res
       = Some (take_rows (nlargest_positions 5 xs)
                 (drop_column "VALUE_NUMERIC"
                    (select_rows (Spec.candidates category month cs ms)
                                 t)))).
Proof.
  intros E WF Lv Lc Lm N.
  pose proof (well_formed_length _ WF Lc) as Nc.
  pose proof (well_formed_length _ WF Lm) as Nm.
  assert (Len : List.length cs = List.length ms) by congruence.
  set (mask := Spec.candidates category month cs ms) in *.
  unfold top_5_highest_transactions.
  do 2 run_step.
  match goal with
  | |- returns (bind _ (fun a => bind _ ?k)) _ ?P =>
      assert (Tail : forall st1 r1,
                 nth_error (heap st1) r1 = Some (select_rows mask t) ->
                 returns (k r1) st1 P)
  end.
  { intros st1 r1 E1. cbv beta.
    apply returns_bind. eapply returns_getitem; [exact E1 | |].
    { cbn [columns select_rows]. rewrite lookup_select.
      unfold Spec.column in Lv. now rewrite Lv. }
    apply returns_bind. eapply returns_to_numeric; [exact N |].
    apply returns_bind. eapply returns_setitem; [exact E1 |].
    cbn [heap log].
    apply returns_bind.
    eapply returns_nlargest;
      [cbn [heap]; eapply update_at; exact E1
      | cbn [columns set_column]; apply lookup_assign_same
      | apply floats_Num |].
    cbn [heap log].
    apply returns_bind.
    eapply returns_drop; [apply nth_error_snoc | |].
    { rewrite take_rows_has. eapply lookup_has_column.
      cbn [columns set_column]. apply lookup_assign_same. }
    cbn [heap log]. apply returns_ret. cbn [heap].
    rewrite nth_error_snoc. now rewrite drop_take_set. }
  unfold mask, Spec.candidates in Tail.
  destruct category as [|a category], month as [|b month];
    cbn [nonempty Spec.matches] in *.
  - do 4 run_step. apply Tail.
    rewrite select_rows_all; [apply nth_error_snoc | exact WF |].
    rewrite length_combine. lia.
  - do 4 run_step.
    eapply returns_getitem; [on_last | exact Lm |].
    run_step. apply Tail.
    rewrite (map_on_snd (fun m => true && eq_str (String b month) m))
      by exact Len.
    cbn [andb]. apply nth_error_snoc.
  - do 2 run_step.
    eapply returns_getitem; [on_last | exact Lc |].
    do 3 run_step. apply Tail.
    rewrite (map_ext _ (fun row => eq_str (String a category) (fst row)))
      by (intros; apply andb_true_r).
    rewrite (map_on_fst (eq_str (String a category))) by exact Len.
    apply nth_error_snoc.
  - do 2 run_step.
    eapply returns_getitem; [on_last | exact Lc |].
    do 3 run_step.
    eapply returns_getitem; [on_last | |].
    { cbn [columns select_rows]. rewrite lookup_select.
      unfold Spec.column in Lm. rewrite Lm. reflexivity. }
    run_step. apply Tail.
    rewrite (select_rows_twice _ _
               (map (fun row => eq_str (String a category) (fst row)
                                && eq_str (String b month) (snd row))
                    (combine cs ms)));
      [apply nth_error_snoc |].
    intros A xs'. now apply select_both.
Qed.

Lemma bind_inv (A B : Type) (m : M A) (k : A -> M B) st b st' :
  bind m k st = (Ok b, st') ->
  exists a st1, m st = (Ok a, st1) /\ k a st1 = (Ok b, st').
Proof.
  unfold bind. destruct (m st) as [[a|e] st1]; [| discriminate].
  intros E. now exists a, st1.
Qed.

Lemma drop_inv c r st res st' :
  drop c r st = (Ok res, st') ->
  exists df, st' = mkState (heap st ++ [drop_column c df]) (log st)
             /\ res = List.length (heap st).
Proof.
  unfold drop, bind, load.
  destruct (nth_error (heap st) r) as [df|]; [| discriminate].
  destruct (has_column c df); [| discriminate].
  unfold alloc. intros [= <- <-]. now exists df.
Qed.

Lemma top_5_schema st r category month res st' :
  top_5_highest_transactions r category month st = (Ok res, st') ->
  exists d, nth_error (heap st') res = Some d
            /\ has_column "VALUE_NUMERIC" d = false.
Proof.
  unfold top_5_highest_transactions. intros E.
  do 7 (apply bind_inv in E; destruct E as (? & ? & _ & E)).
  apply bind_inv in E. destruct E as (a & st1 & D & E).
  unfold ret in E. injection E as <- <-.
  apply drop_inv in D. destruct D as (df & -> & ->).
  exists (drop_column "VALUE_NUMERIC" df). cbn [heap].
  split; [apply nth_error_snoc | apply drop_column_has].
Qed.

End TopFive.

(** C8, as the code has it — [top_5_highest_transactions] keeps the rows of
    the given category and of the given month (an empty argument filters
    nothing) and returns the rows with the largest numeric values, at most
    five (the code fixes n at 5), from the largest to the smallest.  Of
    more than five rows it returns five, and rows of equal value stay in
    the order of the table, the earlier ones being the ones kept.  Of five
    rows or fewer it returns all, sorted by value; in which order it leaves
    rows of equal value is then up to the default sort of the library. *)
Theorem top_transactions
        (R : Pd.Runtime) st r t category month vs cs ms xs :
  nth_error (Pd.heap st) r = Some t ->
  Spec.well_formed t ->
  Spec.column "VALUE" t = Some vs ->
  Spec.column "CATEGORY" t = Some cs ->
  Spec.column "MONTH" t = Some ms ->
  let mask := Spec.candidates category month cs ms in
  Spec.all_some (map Spec.normalize (Pd.select mask vs)) = Some xs ->
  let ps := Pd.nlargest_positions 5 xs in
  (exists res st',
      Analysis.top_5_highest_transactions r category month st
      = (Pd.Ok res, st')
      /\ nth_error (Pd.heap st') res
         = Some (Pd.take_rows ps
                   (Pd.drop_column "VALUE_NUMERIC"
                                   (Pd.select_rows mask t))))
  /\ (5 < List.length xs -> Spec.is_top 5 xs ps)
  /\ (List.length xs <= 5 -> Spec.all_ranked xs ps)
  /\ match Analysis.top_5_highest_transactions 0 "" ""
             (Fixture.store_of Fixture.three_rows) with
     | (Pd.Ok res, st') =>
         option_map Pd.index (nth_error (Pd.heap st') res)
         = Some [0; 2; 1]
     | _ => False
     end.
Proof.
  intros E WF Lv Lc Lm mask N ps.
  split; [| split; [| split]].
  - destruct (top_5_returns st r category month E WF Lv Lc Lm N)
      as (res & st' & X & Y).
    now exists res, st'.
  - intros L. now apply nlargest_is_top.
  - intros L. now apply nlargest_of_few.
  - vm_compute. reflexivity.
Qed.

Lemma top_transactions_witness :
  exists res st',
    Analysis.top_5_highest_transactions (H := Fragment.runtime) 0
      "Food" "May" (Fixture.store_of Fixture.two_categories)
    = (Pd.Ok res, st')
    /\ option_map Pd.index (nth_error (Pd.heap st') res)
       = Some [2; 5; 7; 0; 3].
Proof.
  pose proof
    (@top_transactions Fragment.runtime
       (Fixture.store_of Fixture.two_categories) 0 Fixture.two_categories
       "Food" "May"
       (Fixture.strings ["5"; "900"; "7"; "5"; "50"; "7"; "1"; "7"; "5";
                         "3"])
       (Fixture.strings ["Food"; "Rent"; "Food"; "Food"; "Food"; "Food";
                         "Food"; "Food"; "Food"; "Food"])
       (Fixture.strings ["May"; "May"; "May"; "May"; "April"; "May"; "May";
                         "May"; "May"; "May"])
       (map F64.of_Z [5; 7; 5; 7; 1; 7; 5; 3]%Z)
       eq_refl ltac:(repeat constructor) eq_refl eq_refl eq_refl
       ltac:(vm_compute; reflexivity)) as ((res & st' & X & Y) & _).
  exists res, st'. split; [exact X |].
  rewrite Y. vm_compute. reflexivity.
Defined.

(** C8, as stated, fails on five rows or fewer.  Of the four rows of
    values 1, 1, 2, 2 the order of the table among equal values is 2, 3, 0,
    1; with a default sort that leaves equal values in the reverse of
    their order the function returns the rows 3, 2, 1, 0, which is not that
    order. *)
Lemma ties_of_few_rows :
  Spec.is_top 5 (map F64.of_Z [1; 1; 2; 2]%Z) [2; 3; 0; 1]
  /\ match Analysis.top_5_highest_transactions (H := Fragment.runtime)
             0 "" "" (Fixture.store_of Fixture.four_rows) with
     | (Pd.Ok res, st') =>
         option_map Pd.index (nth_error (Pd.heap st') res)
         = Some [3; 2; 1; 0]
     | _ => False
     end
  /\ ~ Spec.is_top 5 (map F64.of_Z [1; 1; 2; 2]%Z) [3; 2; 1; 0].
Proof.
  split; [| split].
  - unfold Spec.is_top. split; [reflexivity |].
    split; [repeat constructor; simpl; intuition discriminate |].
    split; [simpl; intros p I; intuition lia |].
    split.
    + repeat match goal with
             | |- StronglySorted _ [] => apply SSorted_nil
             | |- StronglySorted _ (_ :: _) => apply SSorted_cons
             | |- Forall _ [] => apply Forall_nil
             | |- Forall _ (_ :: _) => apply Forall_cons
             | |- Spec.outranks _ _ _ =>
                 split; [vm_compute; reflexivity
                        | intros X;
                          first [lia | vm_compute in X; discriminate]]
             end.
    + intros p q I L J. exfalso. apply J. simpl in *. lia.
  - vm_compute. reflexivity.
  - intros (_ & _ & _ & S & _).
    inversion S as [|? ? _ F]; subst.
    inversion F as [|? ? [_ O] _]; subst.
    assert (X : 3 < 2) by (apply O; vm_compute; reflexivity).
    lia.
Qed.

(** C10 — the table [top_5_highest_transactions] returns never has a
    [VALUE_NUMERIC] column: the column is computed for the ranking and
    dropped before returning, also when the input table had one, in which
    case the columns of the result are not those of the input. *)
Theorem no_numeric_column_in_top (R : Pd.Runtime) :
  (forall st r category month res st',
      Analysis.top_5_highest_transactions r category month st
      = (Pd.Ok res, st') ->
      exists d, nth_error (Pd.heap st') res = Some d
                /\ Pd.has_column "VALUE_NUMERIC" d = false)
  /\ Pd.has_column "VALUE_NUMERIC" Fixture.ingested = true
  /\ match Analysis.top_5_highest_transactions 0 "" ""
             (Fixture.store_of Fixture.ingested) with
     | (Pd.Ok res, st') =>
         option_map Pd.column_names (nth_error (Pd.heap st') res)
         = Some ["DATE"; "DESCRIPTION"; "CATEGORY"; "ACCOUNT"; "TYPE";
                 "MONTH"; "VALUE"]
     | _ => False
     end.
Proof.
  split; [| split].
  - intros st r category month res st' E.
    now apply top_5_schema with (1 := E).
  - reflexivity.
  - vm_compute. reflexivity.
Qed.

Lemma no_numeric_column_in_top_witness :
  exists d,
    nth_error
      (Pd.heap (snd (Analysis.top_5_highest_transactions
                       (H := Fragment.runtime) 0 "" ""
                       (Fixture.store_of Fixture.ingested)))) 3
    = Some d
    /\ Pd.has_column "VALUE_NUMERIC" d = false.
Proof.
  apply (proj1 (no_numeric_column_in_top Fragment.runtime)
               (Fixture.store_of Fixture.ingested) 0 "" "").
  vm_compute. reflexivity.
Defined.


(* ================================================================== *)
(** ** Equal computations *)

Section Equations.
Import Pd.

Lemma bind_ext (A B : Type) (m : M A) (k k' : A -> M B) st :
  (forall a st1, k a st1 = k' a st1) -> bind m k st = bind m k' st.
Proof. intros E. unfold bind. destruct (m st) as [[a|e] st1]; auto. Qed.

Lemma bind_first (A B : Type) (m m' : M A) (k : A -> M B) st :
  m st = m' st -> bind m k st = bind m' k st.
Proof. intros E. unfold bind. now rewrite E. Qed.

End Equations.

(* ================================================================== *)
(** ** What a call leaves behind, whatever its outcome *)

Section Outcomes.
Import Pd Exec Analysis Shape.
Context `{Runtime}.

(** Two continuations that agree on what [m] returns give the same
    computation. *)
Lemma bind_ext_on (A B : Type) (m : M A) (k k' : A -> M B) st :
  (forall a st1, m st = (Ok a, st1) -> k a st1 = k' a st1) ->
  bind m k st = bind m k' st.
Proof.
  intros E. unfold bind. destruct (m st) as [[a | e] st1]; auto.
Qed.

Lemma bind_at (A B : Type) (m : M A) (k : A -> M B) st a st1 :
  m st = (Ok a, st1) -> bind m k st = k a st1.
Proof. intros E. unfold bind. now rewrite E. Qed.

Lemma lift_inv (A : Type) e (o : option A) st a st' :
  lift e o st = (Ok a, st') -> o = Some a /\ st' = st.
Proof. destruct o; cbn; intros [= <- <-]; auto. Qed.

Lemma load_inv r st df st' :
  load r st = (Ok df, st') -> nth_error (heap st) r = Some df /\ st' = st.
Proof.
  unfold load. destruct (nth_error (heap st) r); intros [= <- <-]; auto.
Qed.

Lemma getitem_inv r c st s st' :
  getitem r c st = (Ok s, st') ->
  st' = st
  /\ exists df, nth_error (heap st) r = Some df
                /\ lookup c (columns df) = Some s.
Proof.
  unfold getitem. intros E. apply bind_inv in E.
  destruct E as (df & st1 & E1 & E2).
  apply load_inv in E1. destruct E1 as [E1 ->].
  apply lift_inv in E2. destruct E2 as [E2 ->]. eauto.
Qed.

Lemma getrows_inv r mask st r' st' :
  getrows r mask st = (Ok r', st') ->
  exists df, nth_error (heap st) r = Some df
             /\ r' = List.length (heap st)
             /\ st' = mkState (heap st ++ [select_rows mask df]) (log st).
Proof.
  unfold getrows. intros E. apply bind_inv in E.
  destruct E as (df & st1 & E1 & E2).
  apply load_inv in E1. destruct E1 as [E1 ->].
  unfold alloc in E2. injection E2 as <- <-. eauto.
Qed.

Lemma floats_only_inv (A : Type) (f : list F64.float -> A) s st a st' :
  bind (lift TypeError (floats s)) (fun xs => ret (f xs)) st = (Ok a, st') ->
  st' = st.
Proof.
  intros E. apply bind_inv in E. destruct E as (xs & st1 & E1 & E2).
  apply lift_inv in E1. destruct E1 as [_ ->]. now injection E2.
Qed.

(** [query] either raises and leaves the store as it was, or adds the
    selected rows as a new object. *)
Lemma query_outcome r expr st df :
  nth_error (heap st) r = Some df ->
  query r expr st = (Raise QueryError, st)
  \/ exists mask,
      query r expr st
      = (Ok (List.length (heap st)),
         mkState (heap st ++ [select_rows mask df]) (log st)).
Proof.
  intros E. unfold query, bind. rewrite (load_at _ _ E).
  destruct (eval_query expr df) as [mask |]; cbn [lift ret raise].
  - right. now exists mask.
  - now left.
Qed.

Lemma column_names_select_rows mask df :
  column_names (select_rows mask df) = column_names df.
Proof.
  unfold column_names, select_rows. cbn [columns]. rewrite map_map.
  apply map_ext. now intros [n s].
Qed.

Lemma has_column_names c d d' :
  column_names d' = column_names d -> has_column c d' = has_column c d.
Proof. unfold has_column. now intros ->. Qed.

Lemma column_names_assign c s cols :
  map fst (assign c s cols)
  = if existsb (String.eqb c) (map fst cols) then map fst cols
    else (map fst cols ++ [c])%list.
Proof.
  induction cols as [| [n old] l IH]; cbn; [reflexivity |].
  rewrite (String.eqb_sym c n). destruct (String.eqb n c); cbn;
    [reflexivity |].
  rewrite IH. now destruct (existsb (String.eqb c) (map fst l)).
Qed.

Lemma column_names_set_known c s df :
  has_column c df = true -> column_names (set_column c s df) = column_names df.
Proof.
  unfold has_column, column_names, set_column. cbn [columns]. intros E.
  now rewrite column_names_assign, E.
Qed.

Lemma names_at_snoc names st df' l :
  column_names df' = names ->
  names_at names (List.length (heap st)) (mkState (heap st ++ [df']) l).
Proof. intros E. exists df'. cbn [heap]. now rewrite nth_error_snoc. Qed.

(** One step of the loop over the criteria keeps the column names. *)
Lemma criterion_step_names names value key r st r' st' :
  names_at names r st ->
  match value with
  | OneOf values =>
      bind (getitem r key) (fun s => getrows r (map (isin values) s))
  | Text value =>
      if existsb (fun op => Py.contains op value) comparison_operators
      then try_except (query r (key ++ " " ++ value)) (fun _ => ret r)
      else bind (getitem r key) (fun s => getrows r (map (eq_str value) s))
  end st = (Ok r', st') ->
  names_at names r' st'.
Proof.
  intros (df & E & N) R.
  assert (G : forall f,
             bind (getitem r key) (fun s => getrows r (map f s)) st
             = (Ok r', st') -> names_at names r' st').
  { intros f R1. apply bind_inv in R1. destruct R1 as (s & st1 & R1 & R2).
    apply getitem_inv in R1. destruct R1 as [-> _].
    apply getrows_inv in R2. destruct R2 as (df' & E' & -> & ->).
    apply names_at_snoc. rewrite column_names_select_rows. congruence. }
  destruct value as [values | value]; [now apply (G (isin values)) |].
  destruct (existsb _ comparison_operators); [| now apply (G (eq_str value))].
  unfold try_except in R.
  destruct (query_outcome r (key ++ " " ++ value) _ E) as [Q | [mask Q]];
    rewrite Q in R; injection R as <- <-.
  - now exists df.
  - apply names_at_snoc. now rewrite column_names_select_rows.
Qed.

Lemma in_columns_at names c r st :
  names_at names r st ->
  in_columns c r st = (Ok (existsb (String.eqb c) names), st).
Proof.
  intros (df & E & <-). unfold in_columns, bind. now rewrite (load_at _ _ E).
Qed.

(** A criterion on a column the table does not have changes nothing,
    wherever it stands among the criteria. *)
Lemma apply_criteria_skip names key value post :
  existsb (String.eqb key) names = false ->
  forall pre r st,
    names_at names r st ->
    apply_criteria (pre ++ (key, value) :: post) r st
    = apply_criteria (pre ++ post) r st.
Proof.
  intros U. induction pre as [| [k v] pre IH]; intros r st N.
  - cbn [app apply_criteria].
    rewrite (@bind_at _ _ _ _ _ _ _ (in_columns_at key N)).
    now rewrite U.
  - cbn [app apply_criteria].
    rewrite !(@bind_at _ _ _ _ _ _ _ (in_columns_at k N)).
    destruct (existsb (String.eqb k) names); cbn [negb]; [| now apply IH].
    apply bind_ext_on. intros r' st' R. apply IH.
    eapply criterion_step_names; eauto.
Qed.

(** The rows the value condition leaves, in a table of the same columns. *)
Lemma value_condition_names names c vc r st r' st' :
  names_at names r st ->
  match vc with
  | Some value_condition =>
      try_except
        (query r (c ++ " " ++ value_condition))
        (fun _ =>
           if Py.contains ">" value_condition then
             bind (lift ValueError
                     (Py.float_of_string
                        (Py.strip (Py.replace ">" "" value_condition))))
                  (fun threshold =>
                     bind (getitem r c)
                          (fun s => bind (gt s threshold) (getrows r)))
           else if Py.contains "<" value_condition then
             bind (lift ValueError
                     (Py.float_of_string
                        (Py.strip (Py.replace "<" "" value_condition))))
                  (fun threshold =>
                     bind (getitem r c)
                          (fun s => bind (lt s threshold) (getrows r)))
           else ret r)
  | None => ret r
  end st = (Ok r', st') ->
  names_at names r' st'.
Proof.
  intros (df & E & N) R.
  destruct vc as [value_condition |];
    [| injection R as <- <-; now exists df].
  unfold try_except in R.
  destruct (query_outcome r (c ++ " " ++ value_condition) _ E)
    as [Q | [mask Q]]; rewrite Q in R.
  - assert (G : forall (cmp : Series -> F64.float -> M (list bool)) o,
               (forall s x m st1 st2, cmp s x st1 = (Ok m, st2) -> st2 = st1) ->
               bind (lift ValueError o)
                    (fun threshold =>
                       bind (getitem r c)
                            (fun s => bind (cmp s threshold) (getrows r))) st
               = (Ok r', st') -> names_at names r' st').
    { intros cmp o Pure R1.
      apply bind_inv in R1. destruct R1 as (th & st1 & R1 & R2).
      apply lift_inv in R1. destruct R1 as [_ ->].
      apply bind_inv in R2. destruct R2 as (s & st1 & R2 & R3).
      apply getitem_inv in R2. destruct R2 as [-> _].
      apply bind_inv in R3. destruct R3 as (m & st1 & R3 & R4).
      apply Pure in R3. subst st1.
      apply getrows_inv in R4. destruct R4 as (df' & E' & -> & ->).
      apply names_at_snoc. rewrite column_names_select_rows. congruence. }
    destruct (Py.contains ">" value_condition).
    + eapply (G gt); [| exact R]. intros. eapply floats_only_inv; eauto.
    + destruct (Py.contains "<" value_condition).
      * eapply (G lt); [| exact R]. intros. eapply floats_only_inv; eauto.
      * injection R as <- <-. now exists df.
  - injection R as <- <-. apply names_at_snoc.
    now rewrite column_names_select_rows.
Qed.

Lemma copy_inv r st r' st' :
  copy r st = (Ok r', st') ->
  exists df, nth_error (heap st) r = Some df
             /\ r' = List.length (heap st)
             /\ st' = mkState (heap st ++ [df]) (log st).
Proof.
  unfold copy. intros E. apply bind_inv in E.
  destruct E as (df & st1 & E1 & E2).
  apply load_inv in E1. destruct E1 as [E1 ->].
  unfold alloc in E2. injection E2 as <- <-. eauto.
Qed.

Lemma setitem_inv r c s st u st' :
  setitem r c s st = (Ok u, st') ->
  exists df, nth_error (heap st) r = Some df
             /\ st' = mkState (update r (set_column c s df) (heap st))
                              (log st).
Proof.
  unfold setitem. intros E. apply bind_inv in E.
  destruct E as (df & st1 & E1 & E2).
  apply load_inv in E1. destruct E1 as [E1 ->].
  unfold store in E2. injection E2 as <-. eauto.
Qed.

Lemma to_numeric_inv s st v st' :
  to_numeric s st = (Ok v, st') -> st' = st.
Proof.
  unfold to_numeric. intros E. apply bind_inv in E.
  destruct E as (xs & st1 & E1 & E2).
  apply lift_inv in E1. destruct E1 as [_ ->]. now injection E2.
Qed.

Lemma in_columns_inv c r st b st' :
  in_columns c r st = (Ok b, st') ->
  st' = st
  /\ exists df, nth_error (heap st) r = Some df /\ b = has_column c df.
Proof.
  unfold in_columns. intros E. apply bind_inv in E.
  destruct E as (df & st1 & E1 & E2).
  apply load_inv in E1. destruct E1 as [E1 ->].
  injection E2 as <- <-. eauto.
Qed.

Lemma empty_inv r st b st' :
  empty r st = (Ok b, st') -> st' = st.
Proof.
  unfold empty. intros E. apply bind_inv in E.
  destruct E as (df & st1 & E1 & E2).
  apply load_inv in E1. destruct E1 as [E1 ->]. now injection E2.
Qed.

Lemma names_at_update names r st df c s :
  nth_error (heap st) r = Some df ->
  has_column c df = true ->
  column_names df = names ->
  names_at names r (mkState (update r (set_column c s df) (heap st)) (log st)).
Proof.
  intros E K N. exists (set_column c s df). cbn [heap]. split.
  - eapply update_at; eauto.
  - now rewrite column_names_set_known.
Qed.

Lemma unknown_criterion r c vc pre key value post st t :
  nth_error (heap st) r = Some t ->
  has_column key t = false ->
  sum_values_by_criteria r c (mkKwargs vc (pre ++ (key, value) :: post)) st
  = sum_values_by_criteria r c (mkKwargs vc (pre ++ post)) st.
Proof.
  intros E U. unfold sum_values_by_criteria. cbn [VALUE_CONDITION fields].
  apply bind_ext_on. intros b st1 R1. apply empty_inv in R1. subst st1.
  destruct b; [reflexivity |].
  apply bind_ext_on. intros f st1 R2. apply copy_inv in R2.
  destruct R2 as (df & E' & -> & ->).
  assert (df = t) by congruence. subst df.
  apply bind_ext_on. intros known st1 R3. apply in_columns_inv in R3.
  destruct R3 as (-> & df & E3 & ->).
  cbn [heap] in E3. rewrite nth_error_snoc in E3. injection E3 as <-.
  destruct (has_column c t) eqn:K; cbn [negb]; [| reflexivity].
  apply bind_ext_on. intros s st1 R4. apply getitem_inv in R4.
  destruct R4 as (-> & _).
  apply bind_ext_on. intros u st1 R5. apply setitem_inv in R5.
  destruct R5 as (df & E5 & ->).
  cbn [heap] in E5. rewrite nth_error_snoc in E5. injection E5 as <-.
  cbn [heap log]. rewrite update_snoc.
  apply bind_ext_on. intros s' st1 R6. apply getitem_inv in R6.
  destruct R6 as (-> & _).
  apply bind_ext_on. intros v st1 R7. apply to_numeric_inv in R7. subst st1.
  apply bind_ext_on. intros u' st1 R8. apply setitem_inv in R8.
  destruct R8 as (df & E8 & ->).
  cbn [heap] in E8. rewrite nth_error_snoc in E8. injection E8 as <-.
  cbn [heap log]. rewrite update_snoc.
  apply bind_ext_on. intros r' st1 R9.
  apply bind_first. apply apply_criteria_skip with (names := column_names t).
  - exact U.
  - eapply value_condition_names; [| exact R9].
    apply names_at_snoc.
    rewrite !column_names_set_known; auto.
    unfold has_column. now rewrite column_names_set_known.
Qed.

End Outcomes.

(** X3 — a keyword criterion that names a column the table does not
    have is passed over, whatever its value and wherever it stands among
    the criteria: the call behaves as if the criterion had not been
    given. *)
Theorem criterion_on_unknown_column
        (R : Pd.Runtime) st r t c vc pre key value post :
  nth_error (Pd.heap st) r = Some t ->
  Pd.has_column key t = false ->
  Analysis.sum_values_by_criteria r c
    (Analysis.mkKwargs vc (pre ++ (key, value) :: post)) st
  = Analysis.sum_values_by_criteria r c
      (Analysis.mkKwargs vc (pre ++ post)) st.
Proof. intros E U. now apply unknown_criterion with (t := t). Qed.

Lemma criterion_on_unknown_column_witness :
  Analysis.sum_values_by_criteria (H := Fragment.runtime) 0 "VALUE"
    (Analysis.mkKwargs None
       ([("MONTH", Analysis.Text "January")]
          ++ ("CATEGORIES", Analysis.OneOf ["Rent"]) :: []))
    (Fixture.store_of Fixture.three_rows)
  = Analysis.sum_values_by_criteria (H := Fragment.runtime) 0 "VALUE"
      (Analysis.mkKwargs None ([("MONTH", Analysis.Text "January")] ++ []))
      (Fixture.store_of Fixture.three_rows).
Proof.
  apply (@criterion_on_unknown_column Fragment.runtime
           (Fixture.store_of Fixture.three_rows) 0 Fixture.three_rows
           "VALUE" None [("MONTH", Analysis.Text "January")]
           "CATEGORIES" (Analysis.OneOf ["Rent"]) [] eq_refl eq_refl).
Defined.

(* ================================================================== *)
(** ** Comparisons the query engine rejects *)

Section Fallback.
Import Pd Exec Analysis.
Context `{Runtime}.

Lemma try_raised (A : Type) (m : M A) handler st e st1 :
  m st = (Raise e, st1) -> try_except m handler st = handler e st1.
Proof. intros E. unfold try_except. now rewrite E. Qed.

Lemma bind_ret (A B : Type) (a : A) (k : A -> M B) st :
  bind (ret a) k st = k a st.
Proof. reflexivity. Qed.

(** A rejected comparison on a field is skipped, at any point of the
    loop. *)
Lemma skipped_field key value rest r st df :
  nth_error (heap st) r = Some df ->
  Spec.comparison value = true ->
  eval_query (key ++ " " ++ value) df = None ->
  apply_criteria ((key, Text value) :: rest) r st
  = apply_criteria rest r st.
Proof.
  intros E O Q. cbn [apply_criteria]. unfold bind at 1, in_columns, bind.
  rewrite (load_at _ _ E). cbn [ret].
  destruct (has_column key df); cbn [negb]; auto.
  fold (Spec.comparison value). rewrite O.
  now rewrite (@try_raised _ _ _ _ _ _ (@query_rejected _ _ _ _ _ E Q)).
Qed.

(** Two calls on the same table run the same steps up to the
    [VALUE_CONDITION]; from there on, the normalised copy of the table is
    the last object of the store. *)
Ltac next_step R :=
  let a := fresh "a" in
  let st1 := fresh "st" in
  apply bind_ext_on; intros a st1 R.

Ltac at_last X :=
  cbn [heap] in X; rewrite nth_error_snoc in X; injection X as <-.

Ltac to_value_condition t c xs Lv N :=
  let R := fresh "R" in
  let df := fresh "df" in
  let X := fresh "X" in
  let Y := fresh "Y" in
  unfold sum_values_by_criteria; cbn [VALUE_CONDITION fields];
  next_step R; apply empty_inv in R; subst;
  match goal with
  | |- (if ?b then _ else _) _ = _ => destruct b; [reflexivity |]
  end;
  next_step R; apply copy_inv in R; destruct R as (df & X & -> & ->);
  assert (df = t) by congruence; subst df; clear X;
  next_step R; apply in_columns_inv in R; destruct R as (-> & df & X & ->);
  at_last X;
  rewrite (lookup_has_column _ _ Lv); cbn [negb];
  next_step R; apply getitem_inv in R; destruct R as (-> & df & X & Y);
  at_last X;
  unfold Spec.column in Lv; rewrite Lv in Y; injection Y as <-;
  next_step R; apply setitem_inv in R; destruct R as (df & X & ->);
  at_last X;
  cbn [heap log]; rewrite update_snoc;
  next_step R; apply getitem_inv in R; destruct R as (-> & df & X & Y);
  at_last X;
  cbn [columns set_column] in Y; rewrite lookup_assign_same in Y;
  injection Y as <-;
  next_step R; rewrite (@to_numeric_at _ _ _ _ N) in R;
  injection R as <- <-;
  next_step R; apply setitem_inv in R; destruct R as (df & X & ->);
  at_last X;
  cbn [heap log]; rewrite update_snoc, set_column_twice;
  fold (Spec.normalized c xs t).

(** A rejected [VALUE_CONDITION] with neither [>] nor [<] is skipped. *)
Lemma skipped_value_condition st r t c vs xs value_condition others :
  nth_error (heap st) r = Some t ->
  Spec.column c t = Some vs ->
  Spec.all_some (map Spec.normalize vs) = Some xs ->
  eval_query (c ++ " " ++ value_condition) (Spec.normalized c xs t) = None ->
  Py.contains ">" value_condition = false ->
  Py.contains "<" value_condition = false ->
  sum_values_by_criteria r c (mkKwargs (Some value_condition) others) st
  = sum_values_by_criteria r c (mkKwargs None others) st.
Proof.
  intros E Lv N Q G L. to_value_condition t c xs Lv N.
  apply bind_first.
  erewrite try_raised;
    [| apply query_rejected with (df := Spec.normalized c xs t);
       [apply nth_error_snoc | exact Q]].
  now rewrite G, L.
Qed.

(** A rejected comparison on a field, given first, is skipped. *)
Lemma skipped_first_field st r t c vs xs key value rest :
  nth_error (heap st) r = Some t ->
  Spec.column c t = Some vs ->
  Spec.all_some (map Spec.normalize vs) = Some xs ->
  Spec.comparison value = true ->
  eval_query (key ++ " " ++ value) (Spec.normalized c xs t) = None ->
  sum_values_by_criteria r c (mkKwargs None ((key, Text value) :: rest)) st
  = sum_values_by_criteria r c (mkKwargs None rest) st.
Proof.
  intros E Lv N O Q. to_value_condition t c xs Lv N.
  rewrite !bind_ret. apply bind_first.
  now apply skipped_field with (df := Spec.normalized c xs t);
    [apply nth_error_snoc | |].
Qed.

Lemma fallback_above st r t c vs xs value_condition others th :
  nth_error (heap st) r = Some t ->
  is_empty t = false ->
  Spec.column c t = Some vs ->
  Spec.all_some (map Spec.normalize vs) = Some xs ->
  eval_query (c ++ " " ++ value_condition) (Spec.normalized c xs t) = None ->
  Py.contains ">" value_condition = true ->
  Py.float_of_string (Py.strip (Py.replace ">" "" value_condition))
  = Some th ->
  returns (sum_values_by_criteria r c
             (mkKwargs (Some value_condition) others))
          st (fun a _ =>
                a = Spec.total c
                      (Spec.kept others
                         (select_rows (map (fun x => F64.gtb x th) xs)
                                      (Spec.normalized c xs t)))).
Proof.
  intros E Em Lv N Q G F. unfold sum_values_by_criteria.
  do 2 run_step. rewrite Em. do 4 run_step.
  rewrite (lookup_has_column _ _ Lv). cbn [negb].
  run_step. eapply returns_getitem; [on_last | exact Lv |].
  do 3 run_step.
  eapply returns_getitem; [on_last | apply lookup_assign_same |].
  run_step. eapply returns_to_numeric; [exact N |].
  do 2 run_step. cbn [VALUE_CONDITION fields].
  rewrite set_column_twice. fold (Spec.normalized c xs t).
  match goal with
  | |- returns (bind _ ?k) _ ?P =>
      assert (Tail : forall st1 r1 d1 ys,
                 nth_error (heap st1) r1 = Some d1 ->
                 lookup c (columns d1) = Some (map Num ys) ->
                 returns (k r1) st1 (fun a _ => a = Spec.total c
                                                      (Spec.kept others d1)))
  end.
  { intros st1 r1 d1 ys E1 L1. cbv beta.
    eapply sum_of_kept with (ys := ys); eauto. }
  apply returns_bind.
  eapply returns_except;
    [now apply query_rejected
       with (df := Spec.normalized c xs t); [apply nth_error_snoc |] |].
  rewrite G.
  run_step. eapply returns_lift; [exact F |].
  run_step. eapply returns_getitem; [on_last | apply lookup_assign_same |].
  run_step. apply returns_gt. run_step.
  eapply Tail with (ys := select (map (fun v => F64.gtb v th) xs) xs);
    [apply nth_error_snoc |].
  cbn [columns select_rows]. rewrite lookup_select.
  unfold Spec.normalized; cbn [set_column columns].
  rewrite lookup_assign_same. cbn [option_map]. now rewrite select_map.
Qed.

Lemma fallback_below st r t c vs xs value_condition others th :
  nth_error (heap st) r = Some t ->
  is_empty t = false ->
  Spec.column c t = Some vs ->
  Spec.all_some (map Spec.normalize vs) = Some xs ->
  eval_query (c ++ " " ++ value_condition) (Spec.normalized c xs t) = None ->
  Py.contains ">" value_condition = false ->
  Py.contains "<" value_condition = true ->
  Py.float_of_string (Py.strip (Py.replace "<" "" value_condition))
  = Some th ->
  returns (sum_values_by_criteria r c
             (mkKwargs (Some value_condition) others))
          st (fun a _ =>
                a = Spec.total c
                      (Spec.kept others
                         (select_rows (map (fun x => F64.ltb x th) xs)
                                      (Spec.normalized c xs t)))).
Proof.
  intros E Em Lv N Q G L F. unfold sum_values_by_criteria.
  do 2 run_step. rewrite Em. do 4 run_step.
  rewrite (lookup_has_column _ _ Lv). cbn [negb].
  run_step. eapply returns_getitem; [on_last | exact Lv |].
  do 3 run_step.
  eapply returns_getitem; [on_last | apply lookup_assign_same |].
  run_step. eapply returns_to_numeric; [exact N |].
  do 2 run_step. cbn [VALUE_CONDITION fields].
  rewrite set_column_twice. fold (Spec.normalized c xs t).
  match goal with
  | |- returns (bind _ ?k) _ ?P =>
      assert (Tail : forall st1 r1 d1 ys,
                 nth_error (heap st1) r1 = Some d1 ->
                 lookup c (columns d1) = Some (map Num ys) ->
                 returns (k r1) st1 (fun a _ => a = Spec.total c
                                                      (Spec.kept others d1)))
  end.
  { intros st1 r1 d1 ys E1 L1. cbv beta.
    eapply sum_of_kept with (ys := ys); eauto. }
  apply returns_bind.
  eapply returns_except;
    [now apply query_rejected
       with (df := Spec.normalized c xs t); [apply nth_error_snoc |] |].
  rewrite G, L.
  run_step. eapply returns_lift; [exact F |].
  run_step. eapply returns_getitem; [on_last | apply lookup_assign_same |].
  run_step. apply returns_lt. run_step.
  eapply Tail with (ys := select (map (fun v => F64.ltb v th) xs) xs);
    [apply nth_error_snoc |].
  cbn [columns select_rows]. rewrite lookup_select.
  unfold Spec.normalized; cbn [set_column columns].
  rewrite lookup_assign_same. cbn [option_map]. now rewrite select_map.
Qed.

End Fallback.

(** C1, as the code has it — when the query engine rejects the expression
    of [VALUE_CONDITION] on the table of the call, the condition is parsed
    by hand for [>] and, if it has no [>], for [<]: with a threshold that
    is a number, the rows strictly above, or strictly below, the threshold
    are kept, and the remaining criteria are applied to them.  A rejected
    [VALUE_CONDITION] with neither [>] nor [<] is skipped: the call goes on
    as if it had not been given.  A comparison on another field that the
    engine rejects on the table reached so far is skipped too, also when
    it has [>] or [<]: it is not parsed by hand, and the remaining criteria
    are applied. *)
Theorem lenient_comparison_fallback
        (R : Pd.Runtime) st r t c vs xs value_condition others :
  nth_error (Pd.heap st) r = Some t ->
  Pd.is_empty t = false ->
  Spec.column c t = Some vs ->
  Spec.all_some (map Spec.normalize vs) = Some xs ->
  let d := Spec.normalized c xs t in
  (Pd.eval_query (c ++ " " ++ value_condition) d = None ->
   (forall th,
       Py.contains ">" value_condition = true ->
       Py.float_of_string (Py.strip (Py.replace ">" "" value_condition))
       = Some th ->
       exists st',
         Analysis.sum_values_by_criteria r c
           (Analysis.mkKwargs (Some value_condition) others) st
         = (Pd.Ok (Spec.total c
                     (Spec.kept others
                        (Pd.select_rows (map (fun x => F64.gtb x th) xs)
                                        d))), st'))
   /\ (forall th,
          Py.contains ">" value_condition = false ->
          Py.contains "<" value_condition = true ->
          Py.float_of_string (Py.strip (Py.replace "<" "" value_condition))
          = Some th ->
          exists st',
            Analysis.sum_values_by_criteria r c
              (Analysis.mkKwargs (Some value_condition) others) st
            = (Pd.Ok (Spec.total c
                        (Spec.kept others
                           (Pd.select_rows (map (fun x => F64.ltb x th) xs)
                                           d))), st'))
   /\ (Py.contains ">" value_condition = false ->
       Py.contains "<" value_condition = false ->
       Analysis.sum_values_by_criteria r c
         (Analysis.mkKwargs (Some value_condition) others) st
       = Analysis.sum_values_by_criteria r c
           (Analysis.mkKwargs None others) st))
  /\ (forall key value rest,
         Spec.comparison value = true ->
         Pd.eval_query (key ++ " " ++ value) d = None ->
         Analysis.sum_values_by_criteria r c
           (Analysis.mkKwargs None ((key, Analysis.Text value) :: rest)) st
         = Analysis.sum_values_by_criteria r c
             (Analysis.mkKwargs None rest) st)
  /\ (forall key value rest r' st' d',
         nth_error (Pd.heap st') r' = Some d' ->
         Spec.comparison value = true ->
         Pd.eval_query (key ++ " " ++ value) d' = None ->
         Analysis.apply_criteria ((key, Analysis.Text value) :: rest) r' st'
         = Analysis.apply_criteria rest r' st').
Proof.
  intros E Em Lv N d. split; [| split].
  - intros Q. split; [| split].
    + intros th G F. apply returns_value.
      now apply fallback_above with vs.
    + intros th G L F. apply returns_value.
      now apply fallback_below with vs.
    + intros G L. now apply skipped_value_condition with t vs xs.
  - intros key value rest O Q.
    now apply skipped_first_field with t vs xs.
  - intros key value rest r' st' d' E' O Q.
    now apply skipped_field with d'.
Qed.

Lemma fragment_rejects_two_names df :
  Fragment.eval ("AMOUNT CZK" ++ " " ++ "> 100") df = None.
Proof.
  unfold Fragment.eval.
  replace (Fragment.parse ("AMOUNT CZK" ++ " " ++ "> 100")) with
    (@None (string * Fragment.op * Fragment.literal))
    by (vm_compute; reflexivity).
  reflexivity.
Qed.

Lemma lenient_comparison_fallback_witness :
  (exists st',
      Analysis.sum_values_by_criteria (H := Fragment.runtime) 0 "AMOUNT CZK"
        (Analysis.mkKwargs (Some "> -300")
           [("CATEGORY", Analysis.OneOf ["Rent"; "Savings"])])
        (Fixture.store_of Fixture.amounts)
      = (Pd.Ok (F64.of_Z (-200)), st'))
  /\ Analysis.sum_values_by_criteria (H := Fragment.runtime) 0 "AMOUNT CZK"
       (Analysis.mkKwargs None [("MONTH", Analysis.Text "> 5")])
       (Fixture.store_of Fixture.amounts)
     = Analysis.sum_values_by_criteria (H := Fragment.runtime) 0
         "AMOUNT CZK" (Analysis.mkKwargs None [])
         (Fixture.store_of Fixture.amounts).
Proof.
  destruct (@lenient_comparison_fallback Fragment.runtime
              (Fixture.store_of Fixture.amounts) 0 Fixture.amounts
              "AMOUNT CZK" (Fixture.strings ["1000"; "-400"; "-200"])
              [F64.of_Z 1000; F64.of_Z (-400); F64.of_Z (-200)]
              "> -300" [("CATEGORY", Analysis.OneOf ["Rent"; "Savings"])]
              eq_refl eq_refl eq_refl
              ltac:(vm_compute; reflexivity)) as (A & B & _).
  split.
  - destruct (proj1 (A ltac:(vm_compute; reflexivity)) (F64.of_Z (-300))
                    ltac:(vm_compute; reflexivity)
                    ltac:(vm_compute; reflexivity)) as [st' Run].
    exists st'. rewrite Run. vm_compute. reflexivity.
  - apply (B "MONTH" "> 5" []); vm_compute; reflexivity.
Defined.

(** C1, as stated, fails: a rejected comparison is parsed by hand only when
    it is the [VALUE_CONDITION].  The query engine rejects
    [AMOUNT CZK > 100] (two names in a row); given as [VALUE_CONDITION] the
    condition keeps the row above 100 and the sum is 1000, but given as a
    criterion on the field [AMOUNT CZK] it is skipped and the sum is that
    of all the rows, 400. *)
Lemma field_comparison_is_not_parsed_by_hand :
  (forall df,
      Pd.eval_query (Runtime := Fragment.runtime)
                    ("AMOUNT CZK" ++ " " ++ "> 100") df = None)
  /\ Py.float_of_string (Py.strip (Py.replace ">" "" "> 100"))
     = Some (F64.of_Z 100)
  /\ fst (Analysis.sum_values_by_criteria (H := Fragment.runtime)
            0 "AMOUNT CZK"
            (Analysis.mkKwargs None
               [("AMOUNT CZK", Analysis.Text "> 100")])
            (Fixture.store_of Fixture.amounts))
     = Pd.Ok (F64.of_Z 400)
  /\ fst (Analysis.sum_values_by_criteria (H := Fragment.runtime)
            0 "AMOUNT CZK"
            (Analysis.mkKwargs None
               [("AMOUNT CZK", Analysis.Text "> 100")])
            (Fixture.store_of Fixture.amounts))
     <> Pd.Ok (Pd.fsum
                 (filter (fun x => F64.gtb x (F64.of_Z 100))
                         [F64.of_Z 1000; F64.of_Z (-400); F64.of_Z (-200)])).
Proof.
  split; [exact fragment_rejects_two_names | split; [| split]].
  - vm_compute. reflexivity.
  - vm_compute. reflexivity.
  - vm_compute. discriminate.
Qed.

(* ================================================================== *)
(** ** Tables with nothing to sum *)

Section NothingToSum.
Import Pd Exec Analysis.
Context `{Runtime}.

Lemma sum_of_nothing st r t c criteria :
  nth_error (heap st) r = Some t ->
  is_empty t = true \/ has_column c t = false ->
  exists ext,
    sum_values_by_criteria r c criteria st
    = (Ok F64.zero, mkState (heap st ++ ext) (log st)).
Proof.
  intros E D.
  assert (G : returns (sum_values_by_criteria r c criteria) st
                (fun a st' => a = F64.zero
                              /\ exists ext,
                                  st' = mkState (heap st ++ ext) (log st))).
  { unfold sum_values_by_criteria. do 2 run_step.
    destruct (is_empty t) eqn:Em.
    - run_step. split; [reflexivity |]. exists [].
      rewrite app_nil_r. now destruct st.
    - destruct D as [D | D]; [discriminate |].
      do 4 run_step. rewrite D. cbn [negb]. run_step.
      split; [reflexivity |]. now exists [t]. }
  destruct G as (a & st' & E1 & -> & ext & ->). now exists ext.
Qed.

(** The two sums of a metric, over a table with nothing to sum. *)
Lemma two_sums_of_nothing st r t k1 k2 (A : Type)
      (g : F64.float -> F64.float -> A) :
  nth_error (heap st) r = Some t ->
  is_empty t = true \/ has_column "VALUE" t = false ->
  exists st',
    bind (sum_values_by_criteria r "VALUE" k1)
         (fun total_income =>
            bind (sum_values_by_criteria r "VALUE" k2)
                 (fun total_expenses => ret (g total_income total_expenses)))
         st
    = (Ok (g F64.zero F64.zero), st').
Proof.
  intros E D.
  destruct (@sum_of_nothing _ _ _ "VALUE" k1 E D) as [ext E1].
  rewrite (@bind_at _ _ _ _ _ _ _ E1).
  assert (E' : nth_error (heap (mkState (heap st ++ ext) (log st))) r
               = Some t) by now apply nth_error_extend.
  destruct (@sum_of_nothing _ _ _ "VALUE" k2 E' D) as [ext' E2].
  rewrite (@bind_at _ _ _ _ _ _ _ E2). eexists. reflexivity.
Qed.

Lemma metric_of_nothing st r t k1 k2 k3 k4 (b : bool) (A B : Type)
      (g : F64.float -> F64.float -> A) (f : A -> M B) :
  nth_error (heap st) r = Some t ->
  is_empty t = true \/ has_column "VALUE" t = false ->
  exists st',
    bind (if b then
            bind (sum_values_by_criteria r "VALUE" k1)
                 (fun total_income =>
                    bind (sum_values_by_criteria r "VALUE" k2)
                         (fun total_expenses =>
                            ret (g total_income total_expenses)))
          else
            bind (sum_values_by_criteria r "VALUE" k3)
                 (fun total_income =>
                    bind (sum_values_by_criteria r "VALUE" k4)
                         (fun total_expenses =>
                            ret (g total_income total_expenses))))
         f st
    = f (g F64.zero F64.zero) st'.
Proof.
  intros E D. destruct b.
  - destruct (@two_sums_of_nothing _ _ _ k1 k2 _ g E D) as [st' E1].
    rewrite (@bind_at _ _ _ _ _ _ _ E1). now exists st'.
  - destruct (@two_sums_of_nothing _ _ _ k3 k4 _ g E D) as [st' E1].
    rewrite (@bind_at _ _ _ _ _ _ _ E1). now exists st'.
Qed.

End NothingToSum.

(** X4 — on a table that has no rows or no columns, and on a table
    that lacks the value column, [sum_values_by_criteria] returns [0.0]
    whatever the criteria are, also with a value condition nothing can read;
    it logs nothing. *)
Theorem nothing_to_sum (R : Pd.Runtime) st r t c criteria :
  nth_error (Pd.heap st) r = Some t ->
  Pd.is_empty t = true \/ Pd.has_column c t = false ->
  exists st',
    Analysis.sum_values_by_criteria r c criteria st = (Pd.Ok F64.zero, st')
    /\ Pd.log st' = Pd.log st.
Proof.
  intros E D. destruct (@sum_of_nothing _ _ _ _ c criteria E D) as [ext E1].
  eexists. split; [exact E1 | reflexivity].
Qed.

Lemma nothing_to_sum_witness :
  exists st',
    Analysis.sum_values_by_criteria (H := Fragment.runtime) 0 "AMOUNT"
      (Analysis.mkKwargs (Some "> abc") [("MONTH", Analysis.Text "!= ")])
      (Fixture.store_of Fixture.three_rows)
    = (Pd.Ok F64.zero, st')
    /\ Pd.log st' = [].
Proof.
  apply (@nothing_to_sum Fragment.runtime
           (Fixture.store_of Fixture.three_rows) 0 Fixture.three_rows
           "AMOUNT" _ eq_refl).
  right. reflexivity.
Defined.

(** X5 — on a table that has no rows or no columns, or no
    [VALUE] column, the cashflow and the profit are [0.0] and the expense
    ratio is [+infinity], for every choice of categories and month. *)
Theorem metrics_of_nothing (R : Pd.Runtime) st r t :
  nth_error (Pd.heap st) r = Some t ->
  Pd.is_empty t = true \/ Pd.has_column "VALUE" t = false ->
  (forall inc exp sav inv month,
      exists st',
        Analysis.compute_cashflow r inc exp sav inv month st
        = (Pd.Ok F64.zero, st'))
  /\ (forall inc exp month,
         exists st',
           Analysis.compute_profit r inc exp month st
           = (Pd.Ok F64.zero, st'))
  /\ (forall inc exp month,
         exists st',
           Analysis.calculate_expense_ratio r inc exp month st
           = (Pd.Ok F64.inf, st')).
Proof.
  intros E D. split; [| split]; intros.
  - unfold Analysis.compute_cashflow.
    edestruct metric_of_nothing as [st' E1]; [exact E | exact D |].
    rewrite E1. now exists st'.
  - unfold Analysis.compute_profit.
    edestruct metric_of_nothing as [st' E1]; [exact E | exact D |].
    rewrite E1. now exists st'.
  - unfold Analysis.calculate_expense_ratio.
    edestruct metric_of_nothing as [st' E1]; [exact E | exact D |].
    rewrite E1. now exists st'.
Qed.

Lemma metrics_of_nothing_witness :
  (exists st',
      Analysis.compute_cashflow (H := Fragment.runtime) 0
        ["Salary"] ["Rent"] ["Savings"] [] "January"
        (Fixture.store_of (Pd.mkDF [] (Pd.columns Fixture.three_rows)))
      = (Pd.Ok F64.zero, st'))
  /\ (exists st',
         Analysis.calculate_expense_ratio (H := Fragment.runtime) 0
           ["Salary"] ["Rent"] ""
           (Fixture.store_of (Pd.mkDF [] (Pd.columns Fixture.three_rows)))
         = (Pd.Ok F64.inf, st')).
Proof.
  pose proof
    (@metrics_of_nothing Fragment.runtime
       (Fixture.store_of (Pd.mkDF [] (Pd.columns Fixture.three_rows))) 0
       (Pd.mkDF [] (Pd.columns Fixture.three_rows)) eq_refl
       (or_introl eq_refl)) as (A & _ & C).
  split; [apply A | apply C].
Defined.

(* ================================================================== *)
(** ** The criteria, row by row *)

Section Conjunction.
Import Pd Exec Analysis.
Context `{Runtime}.

Lemma take_rows_all t :
  Spec.well_formed t -> take_rows (seq 0 (nrows t)) t = t.
Proof.
  intros WF. destruct t as [idx cols]. unfold take_rows, nrows in *.
  cbn [index columns] in *. f_equal; [apply take_seq |].
  unfold Spec.well_formed, nrows in WF. cbn [index columns] in WF.
  induction WF as [| [n s] l E _ IH]; [reflexivity |].
  cbn [map snd] in *. rewrite IH. now rewrite <- E, take_seq.
Qed.

Lemma lookup_take c ps cols :
  lookup c (map (fun '(n, s) => (n, take Missing ps s)) cols)
  = option_map (take Missing ps) (lookup c cols).
Proof.
  induction cols as [| [n s] l IH]; [reflexivity |].
  cbn [map lookup]. now destruct (String.eqb n c).
Qed.

Lemma select_take (A : Type) (d : A) (f : nat -> bool) ps (xs : list A) :
  select (map f ps) (take d ps xs) = take d (filter f ps) xs.
Proof. unfold take. apply select_rows_of. Qed.

Lemma select_rows_take (f : nat -> bool) ps t :
  select_rows (map f ps) (take_rows ps t) = take_rows (filter f ps) t.
Proof.
  unfold select_rows, take_rows. cbn [index columns]. f_equal.
  - apply select_take.
  - rewrite map_map. apply map_ext. intros [n s]. now rewrite select_take.
Qed.

Lemma take_numbers ps xs :
  Forall (fun i => i < List.length xs) ps ->
  take Missing ps (map Num xs) = map Num (map (fun i => nth i xs F64.nan) ps).
Proof.
  intros B. unfold take. rewrite map_map. apply map_ext_in. intros i I.
  rewrite Forall_forall in B. specialize (B i I).
  rewrite (nth_indep _ Missing (Num F64.nan)) by now rewrite length_map.
  apply map_nth.
Qed.

Lemma selected_cons cols kv rest ps :
  Rowwise.selected cols (kv :: rest) ps
  = Rowwise.selected cols rest
      (filter (fun i => Rowwise.passes cols i kv) ps).
Proof.
  unfold Rowwise.selected. cbn [forallb]. symmetry. apply filter_twice.
Qed.

Lemma selected_unknown cols key value rest ps :
  lookup key cols = None ->
  Rowwise.selected cols ((key, value) :: rest) ps
  = Rowwise.selected cols rest ps.
Proof.
  intros U. unfold Rowwise.selected. apply filter_ext. intros i.
  cbn [forallb]. unfold Rowwise.passes at 1. cbn [fst]. now rewrite U.
Qed.

Lemma selected_in_range cols criteria ps n :
  Forall (fun i => i < n) ps ->
  Forall (fun i => i < n) (Rowwise.selected cols criteria ps).
Proof.
  rewrite !Forall_forall. intros B i I. apply B.
  unfold Rowwise.selected in I. now apply filter_In in I.
Qed.

(** The loop over the criteria, when each of them is a list of values or
    an exact value: the rows that pass all of them are left. *)
Lemma apply_criteria_selected t criteria :
  Forall Rowwise.exact criteria ->
  forall ps r st (P : ref -> state -> Prop),
    nth_error (heap st) r = Some (take_rows ps t) ->
    (forall r' ext,
        nth_error (heap st ++ ext) r'
        = Some (take_rows (Rowwise.selected (columns t) criteria ps) t) ->
        P r' (mkState (heap st ++ ext) (log st))) ->
    returns (apply_criteria criteria r) st P.
Proof.
  induction 1 as [| [key value] rest X _ IH]; intros ps r st P E p.
  - cbn [apply_criteria]. run_step. specialize (p r []).
    rewrite app_nil_r in p. destruct st. apply p. unfold Rowwise.selected.
    cbn [forallb heap] in *.
    replace (filter (fun _ => true) ps) with ps; [exact E |].
    clear. induction ps; cbn; congruence.
  - cbn [apply_criteria]. do 2 run_step.
    rewrite take_rows_has.
    destruct (lookup key (columns t)) as [s |] eqn:L.
    + rewrite (lookup_has_column _ _ L). cbn [negb].
      assert (L' : lookup key (columns (take_rows ps t))
                   = Some (take Missing ps s)).
      { unfold take_rows. cbn [columns]. now rewrite lookup_take, L. }
      assert (G : forall f : cell -> bool,
                 (forall i, Rowwise.passes (columns t) i (key, value)
                            = f (nth i s Missing)) ->
                 returns
                   (bind (bind (getitem r key)
                               (fun s => getrows r (map f s)))
                         (fun filtered_df => apply_criteria rest filtered_df))
                   st P).
      { intros f F. do 2 run_step.
        eapply returns_getitem; [exact E | exact L' |].
        run_step. unfold take at 1. rewrite map_map.
        rewrite select_rows_take.
        eapply IH; [apply nth_error_snoc |].
        intros r' ext E'. cbn [heap log] in *. rewrite <- app_assoc.
        apply p. rewrite <- app_assoc in E'. rewrite E'.
        rewrite selected_cons.
        now rewrite (filter_ext
                       (fun i => Rowwise.passes (columns t) i (key, value))
                       (fun i => f (nth i s Missing)) F). }
      destruct value as [values | value].
      * apply G. intros i. unfold Rowwise.passes. cbn [fst snd].
        now rewrite L.
      * unfold Rowwise.exact in X. cbn [snd] in X. rewrite X.
        apply G. intros i. unfold Rowwise.passes. cbn [fst snd].
        now rewrite L.
    + rewrite (lookup_none_has_column _ _ L). cbn [negb].
      eapply IH; [exact E |]. intros r' ext E'. apply p.
      now rewrite selected_unknown.
Qed.

Lemma length_assign_known c s (n : nat) cols :
  Forall (fun col => List.length (snd col) = n) cols ->
  List.length s = n ->
  Forall (fun col => List.length (snd col) = n) (assign c s cols).
Proof.
  intros F E. induction F as [| [k old] l X F' IH]; cbn [assign].
  - constructor; [exact E | constructor].
  - destruct (String.eqb k c); constructor; auto.
Qed.

(** The sum over the rows that pass every criterion. *)
Lemma sum_row_by_row st r t c vs xs criteria :
  nth_error (heap st) r = Some t ->
  is_empty t = false ->
  Spec.well_formed t ->
  Spec.column c t = Some vs ->
  Spec.all_some (map Spec.normalize vs) = Some xs ->
  Forall Rowwise.exact criteria ->
  returns (sum_values_by_criteria r c (mkKwargs None criteria)) st
    (fun a _ =>
       a = Rowwise.total xs
             (Rowwise.selected (columns (set_column c (map Num xs) t))
                               criteria (seq 0 (List.length xs)))).
Proof.
  intros E Em WF Lv N X.
  pose proof (well_formed_length _ WF Lv) as Nv.
  pose proof (all_some_length _ N) as Nx. rewrite length_map in Nx.
  unfold sum_values_by_criteria. do 2 run_step. rewrite Em.
  do 4 run_step. rewrite (lookup_has_column _ _ Lv). cbn [negb].
  run_step. eapply returns_getitem; [on_last | exact Lv |].
  do 2 run_step.
  run_step. eapply returns_getitem; [on_last | apply lookup_assign_same |].
  run_step. eapply returns_to_numeric; [exact N |].
  do 2 run_step. cbn [VALUE_CONDITION fields]. do 3 run_step.
  set (t1 := set_column c (map Num xs) (set_column c _ t)).
  assert (T1 : t1 = set_column c (map Num xs) t).
  { unfold t1, set_column. cbn [index columns]. now rewrite assign_twice. }
  assert (WF1 : Spec.well_formed t1).
  { rewrite T1. unfold Spec.well_formed, set_column, nrows.
    cbn [index columns]. apply length_assign_known; [exact WF |].
    rewrite length_map. unfold nrows in Nv. congruence. }
  assert (N1 : nrows t1 = List.length xs).
  { rewrite T1. unfold nrows, set_column in *. cbn [index]. congruence. }
  clearbody t1.
  eapply apply_criteria_selected with (t := t1) (ps := seq 0 (List.length xs));
    [exact X | |].
  { cbn [heap]. rewrite <- N1, take_rows_all by exact WF1.
    apply nth_error_snoc. }
  intros r' ext E'. cbn [heap log] in *.
  run_step. eapply returns_getitem; [exact E' | |].
  { unfold take_rows. cbn [columns]. rewrite lookup_take, T1.
    unfold set_column. cbn [columns]. rewrite lookup_assign_same.
    cbn [option_map]. rewrite take_numbers; [reflexivity |].
    apply selected_in_range. apply Forall_forall. intros i I.
    apply in_seq in I. lia. }
  apply returns_sum. reflexivity.
Qed.

Lemma forallb_permutation (A : Type) (f : A -> bool) l l' :
  Permutation l l' -> forallb f l = forallb f l'.
Proof.
  induction 1; cbn; try congruence.
  now rewrite !andb_assoc, (andb_comm (f y)).
Qed.

Lemma selected_permutation cols criteria criteria' ps :
  Permutation criteria criteria' ->
  Rowwise.selected cols criteria ps = Rowwise.selected cols criteria' ps.
Proof.
  intros Q. unfold Rowwise.selected. apply filter_ext. intros i.
  now apply forallb_permutation.
Qed.

End Conjunction.

(** X1 — with no value condition and criteria that are lists of
    values or exact values, [sum_values_by_criteria] returns the sum, in
    table order, of the values of the rows that pass every criterion; a row
    passes a list when its cell is one of the values, and an exact value
    when its cell is that text. *)
Theorem criteria_row_by_row (R : Pd.Runtime) st r t c vs xs criteria :
  nth_error (Pd.heap st) r = Some t ->
  Pd.is_empty t = false ->
  Spec.well_formed t ->
  Spec.column c t = Some vs ->
  Spec.all_some (map Spec.normalize vs) = Some xs ->
  Forall Rowwise.exact criteria ->
  let cols := Pd.columns (Pd.set_column c (map Pd.Num xs) t) in
  exists st',
    Analysis.sum_values_by_criteria r c (Analysis.mkKwargs None criteria) st
    = (Pd.Ok (Rowwise.total xs
                (Rowwise.selected cols criteria (seq 0 (List.length xs)))),
       st').
Proof.
  intros E Em WF Lv N X cols. apply returns_value.
  now apply sum_row_by_row with (t := t) (vs := vs).
Qed.

Lemma criteria_row_by_row_witness :
  exists st',
    Analysis.sum_values_by_criteria (H := Fragment.runtime) 0 "VALUE"
      (Analysis.mkKwargs None
         [("MONTH", Analysis.Text "January");
          ("CATEGORY", Analysis.OneOf ["Rent"; "Savings"])])
      (Fixture.store_of Fixture.three_rows)
    = (Pd.Ok (F64.of_Z (-400)), st').
Proof.
  apply (@criteria_row_by_row Fragment.runtime
           (Fixture.store_of Fixture.three_rows) 0 Fixture.three_rows
           "VALUE" (Fixture.strings ["1000"; "-400"; "-200"])
           [F64.of_Z 1000; F64.of_Z (-400); F64.of_Z (-200)]
           [("MONTH", Analysis.Text "January");
            ("CATEGORY", Analysis.OneOf ["Rent"; "Savings"])]
           eq_refl eq_refl
           ltac:(repeat constructor)
           eq_refl
           ltac:(vm_compute; reflexivity)
           ltac:(repeat constructor)).
Defined.

(** X2 — with no value condition and criteria that are lists of values
    or exact values, the order in which the criteria are given does not
    change the sum. *)
Theorem criteria_in_any_order
        (R : Pd.Runtime) st r t c vs xs criteria criteria' :
  nth_error (Pd.heap st) r = Some t ->
  Pd.is_empty t = false ->
  Spec.well_formed t ->
  Spec.column c t = Some vs ->
  Spec.all_some (map Spec.normalize vs) = Some xs ->
  Forall Rowwise.exact criteria ->
  Permutation criteria criteria' ->
  exists v st1 st2,
    Analysis.sum_values_by_criteria r c (Analysis.mkKwargs None criteria) st
    = (Pd.Ok v, st1)
    /\ Analysis.sum_values_by_criteria r c
         (Analysis.mkKwargs None criteria') st
       = (Pd.Ok v, st2).
Proof.
  intros E Em WF Lv N X Q.
  assert (X' : Forall Rowwise.exact criteria')
    by (eapply Permutation_Forall; eauto).
  destruct (returns_value
              (@sum_row_by_row R st r t c vs xs criteria E Em WF Lv N X))
    as [st1 E1].
  destruct (returns_value
              (@sum_row_by_row R st r t c vs xs criteria' E Em WF Lv N X'))
    as [st2 E2].
  rewrite <- (selected_permutation _ _ Q) in E2. eauto.
Qed.

Lemma criteria_in_any_order_witness :
  exists v st1 st2,
    Analysis.sum_values_by_criteria (H := Fragment.runtime) 0 "VALUE"
      (Analysis.mkKwargs None
         [("MONTH", Analysis.Text "January");
          ("CATEGORY", Analysis.OneOf ["Rent"; "Savings"])])
      (Fixture.store_of Fixture.three_rows)
    = (Pd.Ok v, st1)
    /\ Analysis.sum_values_by_criteria (H := Fragment.runtime) 0 "VALUE"
         (Analysis.mkKwargs None
            [("CATEGORY", Analysis.OneOf ["Rent"; "Savings"]);
             ("MONTH", Analysis.Text "January")])
         (Fixture.store_of Fixture.three_rows)
       = (Pd.Ok v, st2).
Proof.
  apply (@criteria_in_any_order Fragment.runtime
           (Fixture.store_of Fixture.three_rows) 0 Fixture.three_rows
           "VALUE" (Fixture.strings ["1000"; "-400"; "-200"])
           [F64.of_Z 1000; F64.of_Z (-400); F64.of_Z (-200)]
           [("MONTH", Analysis.Text "January");
            ("CATEGORY", Analysis.OneOf ["Rent"; "Savings"])]
           [("CATEGORY", Analysis.OneOf ["Rent"; "Savings"]);
            ("MONTH", Analysis.Text "January")]
           eq_refl eq_refl
           ltac:(repeat constructor)
           eq_refl
           ltac:(vm_compute; reflexivity)
           ltac:(repeat constructor)
           ltac:(apply perm_swap)).
Defined.

(* ================================================================== *)
(** ** The order of the group keys *)

Section TextOrder.
Import Pd Shape.

Lemma compare_not_gt_trans (a : string) :
  forall b c,
    String.compare a b <> Gt -> String.compare b c <> Gt ->
    String.compare a c <> Gt.
Proof.
  induction a as [| x a IH]; intros [| y b] [| z c]; cbn; try congruence.
  unfold Ascii.compare.
  destruct (N.compare_spec (N_of_ascii x) (N_of_ascii y)) as [E1 | L1 | G1];
    destruct (N.compare_spec (N_of_ascii y) (N_of_ascii z))
      as [E2 | L2 | G2];
    destruct (N.compare_spec (N_of_ascii x) (N_of_ascii z))
      as [E3 | L3 | G3];
    try congruence; try lia; intros; eauto.
Qed.

Lemma string_leb_trans (a b c : string) :
  String.leb a b = true -> String.leb b c = true -> String.leb a c = true.
Proof.
  unfold String.leb. intros A B.
  pose proof (@compare_not_gt_trans a b c) as T.
  destruct (String.compare a b), (String.compare b c),
    (String.compare a c); try reflexivity; try discriminate;
    exfalso; apply T; congruence.
Qed.

Lemma string_ltb_leb (a b : string) :
  String.leb a b = true -> a <> b -> String.ltb a b = true.
Proof.
  unfold String.leb, String.ltb. intros L N.
  destruct (String.compare a b) eqn:C; try reflexivity; try discriminate.
  now apply String.compare_eq_iff in C.
Qed.

Lemma key_leb_total a b :
  is_text a -> is_text b -> key_leb a b = false -> key_leb b a = true.
Proof.
  intros [x ->] [y ->]. cbn. intros F.
  destruct (String.leb_total x y); congruence.
Qed.

Lemma key_leb_trans a b c :
  is_text a -> is_text b -> is_text c ->
  key_leb a b = true -> key_leb b c = true -> key_leb a c = true.
Proof. intros [x ->] [y ->] [z ->]. cbn. apply string_leb_trans. Qed.

Lemma insert_key_perm k l : Permutation (insert_key k l) (k :: l).
Proof.
  induction l as [| q r IH]; cbn; [reflexivity |].
  destruct (key_leb k q); [reflexivity |].
  rewrite IH. apply perm_swap.
Qed.

Lemma sort_keys_perm l : Permutation (fold_right insert_key [] l) l.
Proof.
  induction l as [| k l IH]; cbn; [reflexivity |].
  rewrite insert_key_perm. now constructor.
Qed.

Lemma insert_key_sorted k l :
  is_text k -> Forall is_text l ->
  StronglySorted (fun a b => key_leb a b = true) l ->
  StronglySorted (fun a b => key_leb a b = true) (insert_key k l).
Proof.
  intros Tk Tl S. induction S as [| q r S IH F]; cbn.
  - repeat constructor.
  - inversion Tl as [| ? ? Tq Tr]; subst.
    destruct (key_leb k q) eqn:C.
    + constructor; [now constructor |]. constructor; [exact C |].
      rewrite Forall_forall in *. intros x I.
      eapply key_leb_trans; eauto.
    + constructor; [now apply IH |].
      rewrite Forall_forall in *. intros x I.
      apply (Permutation_in _ (insert_key_perm k r)) in I.
      destruct I as [<- | I]; [now apply key_leb_total | now apply F].
Qed.

Lemma sort_keys_sorted l :
  Forall is_text l ->
  StronglySorted (fun a b => key_leb a b = true) (fold_right insert_key [] l).
Proof.
  induction 1 as [| k l Tk Tl IH]; cbn; [constructor |].
  apply insert_key_sorted; auto.
  rewrite Forall_forall in *. intros x I. apply Tl.
  now apply (Permutation_in _ (sort_keys_perm l)).
Qed.

Lemma same_cell_reflexive c : same_cell c c = true.
Proof.
  destruct c as [s | x |]; cbn; [apply String.eqb_refl | | reflexivity].
  destruct (F64.is_nan x) eqn:N; [now rewrite orb_true_r |].
  now rewrite eqb_reflexive.
Qed.

Lemma same_text a c : same_cell (Str a) c = true -> c = Str a.
Proof.
  destruct c; cbn; try discriminate. intros E.
  apply String.eqb_eq in E. congruence.
Qed.

Lemma cell_text_dec (c : cell) (a : string) : c = Str a \/ c <> Str a.
Proof.
  destruct c as [s | x |]; try (right; discriminate).
  destruct (string_dec s a) as [-> | D]; [now left | right; congruence].
Qed.

Lemma unique_from_spec s :
  forall seen,
    NoDup (unique_from seen s)
    /\ (forall c, In c (unique_from seen s) ->
                  In c s /\ existsb (same_cell c) seen = false)
    /\ (forall a, In (Str a) s -> ~ In (Str a) seen ->
                  In (Str a) (unique_from seen s)).
Proof.
  induction s as [| c s IH]; intros seen; cbn [unique_from].
  - split; [constructor | split; [intros c [] | intros a []]].
  - destruct (existsb (same_cell c) seen) eqn:Seen.
    + destruct (IH seen) as (N & I & J). split; [exact N |]. split.
      * intros x X. destruct (I x X). split; [now right | assumption].
      * intros a [-> | A] Fresh; [| now apply J].
        exfalso. apply existsb_exists in Seen.
        destruct Seen as (y & Y & S). apply same_text in S. now subst y.
    + destruct (IH (c :: seen)) as (N & I & J). split; [| split].
      * constructor; [| exact N]. intros X. apply I in X.
        destruct X as [_ X]. cbn in X. now rewrite same_cell_reflexive in X.
      * intros x [<- | X]; [split; [now left | exact Seen] |].
        destruct (I x X) as [X1 X2]. split; [now right |].
        cbn in X2. now apply orb_false_elim in X2.
      * intros a A Fresh. destruct (cell_text_dec c a) as [-> | D];
          [now left |].
        right. apply J.
        -- destruct A as [A | A]; [congruence | exact A].
        -- intros [X | X]; [congruence | now apply Fresh].
Qed.

End TextOrder.

(* ================================================================== *)
(** ** Totals by account *)

Section AccountTotals.
Import Pd Exec Analysis Shape.
Context `{Runtime}.

Lemma texts_of l :
  Forall is_text l -> exists names, l = map Str names.
Proof.
  induction 1 as [| c l [s ->] _ [names ->]]; [now exists [] |].
  now exists (s :: names).
Qed.

Lemma strictly_sorted accounts :
  StronglySorted (fun a b => key_leb a b = true) (map Str accounts) ->
  NoDup (map Str accounts) ->
  StronglySorted Rowwise.precedes accounts.
Proof.
  induction accounts as [| a l IH]; cbn [map]; intros S N; [constructor |].
  inversion S as [| ? ? S' F]; subst. inversion N as [| ? ? N1 N2]; subst.
  constructor; [now apply IH |].
  rewrite Forall_forall in *. intros b B.
  apply string_ltb_leb.
  - apply (F (Str b)). now apply in_map.
  - intros ->. apply N1. now apply in_map.
Qed.

Lemma filter_notna_texts names :
  filter notna (map Str names) = map Str names.
Proof. induction names; cbn; congruence. Qed.

(** The groups of a text column: its distinct values, in increasing
    order. *)
Lemma sorted_keys_texts names :
  exists accounts,
    sorted_keys (map Str names) = map Str accounts
    /\ (forall a, In a accounts <-> In a names)
    /\ StronglySorted Rowwise.precedes accounts.
Proof.
  unfold sorted_keys. rewrite filter_notna_texts. unfold unique.
  destruct (unique_from_spec (map Str names) []) as (N & I & J).
  set (u := unique_from [] (map Str names)) in *.
  pose proof (sort_keys_perm u) as Q.
  assert (T : Forall is_text (fold_right insert_key [] u)).
  { apply Forall_forall. intros c C.
    apply (Permutation_in _ Q) in C. apply I in C. destruct C as [C _].
    apply in_map_iff in C. destruct C as (a & <- & _). now exists a. }
  destruct (texts_of T) as [accounts E]. exists accounts.
  split; [exact E | split].
  - intros a. split; intros A.
    + apply (in_map Str) in A. rewrite <- E in A.
      apply (Permutation_in _ Q) in A. apply I in A. destruct A as [A _].
      apply in_map_iff in A. destruct A as (b & [= ->] & B). exact B.
    + apply (in_map Str) in A. apply J in A; [| intros []].
      apply (Permutation_in _ (Permutation_sym Q)) in A.
      rewrite E in A. apply in_map_iff in A.
      destruct A as (b & [= ->] & B). exact B.
  - apply strictly_sorted.
    + rewrite <- E. apply sort_keys_sorted.
      apply Forall_forall. intros c C. apply I in C. destruct C as [C _].
      apply in_map_iff in C. destruct C as (a & <- & _). now exists a.
    + rewrite <- E. apply (Permutation_NoDup (Permutation_sym Q)). exact N.
Qed.

Lemma select_balance a names xs :
  group_sum (select (map (eq_cell (Str a)) (map Str names)) xs)
  = Accounts.balance a names xs.
Proof.
  unfold Accounts.balance. f_equal. revert xs.
  induction names as [| b names IH]; intros [| x xs]; cbn; try reflexivity.
  destruct (String.eqb a b); cbn; now rewrite IH.
Qed.

Lemma group_sums_texts names xs accounts :
  sorted_keys (map Str names) = map Str accounts ->
  group_sums (map Str names) xs
  = map (fun a => (Str a, Accounts.balance a names xs)) accounts.
Proof.
  intros E. unfold group_sums. rewrite E, map_map.
  apply map_ext. intros a. now rewrite select_balance.
Qed.

Lemma length_update (A : Type) r (x : A) h :
  List.length (update r x h) = List.length h.
Proof.
  revert r. induction h as [| a l IH]; intros [| r]; cbn; auto.
Qed.

(** The call, step by step, up to the grouping. *)
Lemma sum_amount_steps st r t vs (P : outcome ref * state -> Prop) :
  nth_error (heap st) r = Some t ->
  Spec.column "VALUE" t = Some vs ->
  let st1 :=
    mkState (update r (set_column "VALUE" (map astype_str vs) t) (heap st))
            (log st) in
  match Spec.all_some (map Spec.normalize vs) with
  | None => P (Raise ValueError, st1)
  | Some xs =>
      let st2 :=
        mkState (update r (Spec.enriched t vs xs) (heap st)) (log st) in
      match Spec.column "ACCOUNT" t with
      | None => P (Raise (KeyError "ACCOUNT"), st2)
      | Some ks =>
          P (Ok (List.length (heap st)),
             mkState
               (heap st2
                  ++ [mkDF (seq 0 (List.length (group_sums ks xs)))
                        [("ACCOUNT", map fst (group_sums ks xs));
                         ("VALUE_NUMERIC",
                          map (fun p => Num (snd p)) (group_sums ks xs))]])
               (log st))
      end
  end ->
  P (sum_amount_in_each_account r st).
Proof.
  intros E Lv st1 p. unfold sum_amount_in_each_account.
  rewrite (@bind_at _ _ _ _ _ _ _ (@getitem_at _ _ _ _ _ E Lv)).
  rewrite (@bind_at _ _ _ _ _ _ _ (@setitem_at _ _ _ "VALUE" _ E)).
  fold st1.
  assert (E1 : nth_error (heap st1) r
               = Some (set_column "VALUE" (map astype_str vs) t))
    by (cbn [heap st1]; eapply update_at; exact E).
  assert (L1 : lookup "VALUE"
                 (columns (set_column "VALUE" (map astype_str vs) t))
               = Some (map astype_str vs)) by apply lookup_assign_same.
  rewrite (@bind_at _ _ _ _ _ _ _ (@getitem_at _ _ _ _ _ E1 L1)).
  destruct (Spec.all_some (map Spec.normalize vs)) as [xs |] eqn:N.
  - rewrite (@bind_at _ _ _ _ _ _ _ (@to_numeric_at _ _ _ _ N)).
    rewrite (@bind_at _ _ _ _ _ _ _ (@setitem_at _ _ _ "VALUE_NUMERIC" _ E1)).
    cbn [heap log st1]. rewrite update_update.
    fold (Spec.enriched t vs xs).
    set (st2 := mkState (update r (Spec.enriched t vs xs) (heap st))
                        (log st)) in *.
    assert (E2 : nth_error (heap st2) r = Some (Spec.enriched t vs xs))
      by (cbn [heap st2]; eapply update_at; exact E).
    assert (La : lookup "ACCOUNT" (columns (Spec.enriched t vs xs))
                 = Spec.column "ACCOUNT" t).
    { unfold Spec.enriched; cbn [columns set_column].
      now rewrite !lookup_assign_other by discriminate. }
    destruct (Spec.column "ACCOUNT" t) as [ks |] eqn:A.
    + rewrite (@bind_at _ _ _ _ _ _ _ (@getitem_at _ _ _ _ _ E2 La)).
      assert (Ln : lookup "VALUE_NUMERIC" (columns (Spec.enriched t vs xs))
                   = Some (map Num xs)).
      { unfold Spec.enriched; cbn [columns set_column].
        apply lookup_assign_same. }
      rewrite (@bind_at _ _ _ _ _ _ _ (@getitem_at _ _ _ _ _ E2 Ln)).
      unfold bind at 1. rewrite floats_Num. cbn [lift ret].
      unfold alloc. cbn [heap log st2] in *.
      now rewrite length_update.
    + erewrite bind_raise; [exact p |].
      now apply getitem_missing with (df := Spec.enriched t vs xs).
  - erewrite bind_raise; [exact p |]. now apply to_numeric_raises.
Qed.

End AccountTotals.

(** X8 — when the values are numbers and the accounts are texts,
    [sum_amount_in_each_account] returns a new table with one row for each
    account of the table, the accounts in strictly increasing order, each
    with the sum of the values of its rows in the column
    [VALUE_NUMERIC]. *)
Theorem account_totals (R : Pd.Runtime) st r t vs xs names :
  nth_error (Pd.heap st) r = Some t ->
  Spec.column "VALUE" t = Some vs ->
  Spec.all_some (map Spec.normalize vs) = Some xs ->
  Spec.column "ACCOUNT" t = Some (map Pd.Str names) ->
  exists res st' accounts,
    Analysis.sum_amount_in_each_account r st = (Pd.Ok res, st')
    /\ res <> r
    /\ nth_error (Pd.heap st') res = Some (Accounts.totals accounts names xs)
    /\ (forall a, In a accounts <-> In a names)
    /\ StronglySorted Rowwise.precedes accounts.
Proof.
  intros E Lv N La.
  destruct (sorted_keys_texts names) as (accounts & K & I & S).
  apply sum_amount_steps with (t := t) (vs := vs); [exact E | exact Lv |].
  cbv zeta. rewrite N, La. rewrite (@group_sums_texts names xs accounts K).
  eexists _, _, accounts. split; [reflexivity |].
  split; [| split; [| split; [exact I | exact S]]].
  - assert (r < List.length (Pd.heap st))
      by (apply nth_error_Some; congruence).
    lia.
  - cbn [Pd.heap]. rewrite <- (length_update r (Spec.enriched t vs xs)).
    rewrite nth_error_snoc. unfold Accounts.totals.
    now rewrite length_map, !map_map.
Qed.

Lemma account_totals_witness :
  exists res st' accounts,
    Analysis.sum_amount_in_each_account (H := Fragment.runtime) 0
      (Fixture.store_of Fixture.three_rows)
    = (Pd.Ok res, st')
    /\ res <> 0
    /\ nth_error (Pd.heap st') res
       = Some (Accounts.totals accounts ["Main"; "Main"; "Reserve"]
                 [F64.of_Z 1000; F64.of_Z (-400); F64.of_Z (-200)])
    /\ (forall a, In a accounts <-> In a ["Main"; "Main"; "Reserve"])
    /\ StronglySorted Rowwise.precedes accounts.
Proof.
  apply (@account_totals Fragment.runtime
           (Fixture.store_of Fixture.three_rows) 0 Fixture.three_rows
           (Fixture.strings ["1000"; "-400"; "-200"])
           [F64.of_Z 1000; F64.of_Z (-400); F64.of_Z (-200)]
           ["Main"; "Main"; "Reserve"]
           eq_refl eq_refl ltac:(vm_compute; reflexivity) eq_refl).
Defined.

(** X9 — what [sum_amount_in_each_account] leaves behind when
    it raises.  Without a [VALUE] column it raises [KeyError] and the
    caller's table is as it was.  With a value that is not a number it
    raises [ValueError] after it has replaced the [VALUE] column of the
    caller's table by its text.  Without an [ACCOUNT] column it raises
    [KeyError] after it has added the column [VALUE_NUMERIC] to the
    caller's table. *)
Theorem account_totals_on_error (R : Pd.Runtime) st r t :
  nth_error (Pd.heap st) r = Some t ->
  (Spec.column "VALUE" t = None ->
   Analysis.sum_amount_in_each_account r st
   = (Pd.Raise (Pd.KeyError "VALUE"), st))
  /\ (forall vs,
         Spec.column "VALUE" t = Some vs ->
         Spec.all_some (map Spec.normalize vs) = None ->
         exists st',
           Analysis.sum_amount_in_each_account r st
           = (Pd.Raise Pd.ValueError, st')
           /\ nth_error (Pd.heap st') r
              = Some (Pd.set_column "VALUE" (map Pd.astype_str vs) t))
  /\ (forall vs xs,
         Spec.column "VALUE" t = Some vs ->
         Spec.all_some (map Spec.normalize vs) = Some xs ->
         Spec.column "ACCOUNT" t = None ->
         exists st',
           Analysis.sum_amount_in_each_account r st
           = (Pd.Raise (Pd.KeyError "ACCOUNT"), st')
           /\ nth_error (Pd.heap st') r = Some (Spec.enriched t vs xs)).
Proof.
  intros E. split; [| split].
  - intros Lv. unfold Analysis.sum_amount_in_each_account.
    apply bind_raise. now apply getitem_missing with (df := t).
  - intros vs Lv N.
    apply sum_amount_steps with (t := t) (vs := vs); [exact E | exact Lv |].
    cbv zeta. rewrite N. eexists. split; [reflexivity |].
    cbn [Pd.heap]. eapply update_at; exact E.
  - intros vs xs Lv N La.
    apply sum_amount_steps with (t := t) (vs := vs); [exact E | exact Lv |].
    cbv zeta. rewrite N, La. eexists. split; [reflexivity |].
    cbn [Pd.heap]. eapply update_at; exact E.
Qed.

Lemma account_totals_on_error_witness :
  exists st',
    Analysis.sum_amount_in_each_account (H := Fragment.runtime) 0
      (Fixture.store_of Sample.values_only)
    = (Pd.Raise (Pd.KeyError "ACCOUNT"), st')
    /\ nth_error (Pd.heap st') 0
       = Some (Pd.mkDF [0; 1]
                 [("VALUE", Fixture.strings ["12 Kč"; "1,500"]);
                  ("VALUE_NUMERIC",
                   [Pd.Num (F64.of_Z 12); Pd.Num (F64.of_Z 1500)])]).
Proof.
  apply (proj2 (proj2 (@account_totals_on_error Fragment.runtime
                         (Fixture.store_of Sample.values_only) 0
                         Sample.values_only eq_refl))
               (Fixture.strings ["12 Kč"; "1,500"])
               [F64.of_Z 12; F64.of_Z 1500]
               eq_refl ltac:(vm_compute; reflexivity) eq_refl).
Defined.

(* ================================================================== *)
(** ** Columns that are not there *)

Section MissingColumns.
Import Pd Exec Analysis.
Context `{Runtime}.

Lemma raises_getitem st r df c :
  nth_error (heap st) r = Some df -> lookup c (columns df) = None ->
  raises (getitem r c) st (KeyError c).
Proof. intros E L. exists st. now apply getitem_missing with (df := df). Qed.

(** An optional filter of [top_5_highest_transactions] on a column that is
    there. *)
Lemma optional_filter_returns st r df wanted c (P : ref -> state -> Prop) :
  nth_error (heap st) r = Some df ->
  wanted = "" \/ has_column c df = true ->
  (forall r' st',
      (exists mask,
          nth_error (heap st') r' = Some (select_rows mask df))
      \/ (r' = r /\ st' = st) ->
      P r' st') ->
  returns (if nonempty wanted then
             bind (getitem r c)
                  (fun s => getrows r (map (eq_str wanted) s))
           else ret r) st P.
Proof.
  intros E [-> | K] p.
  - cbn [nonempty]. run_step. apply p. now right.
  - destruct (nonempty wanted).
    + destruct (has_column_lookup _ _ K) as [s L].
      run_step. eapply returns_getitem; [exact E | exact L |].
      run_step. apply p. left. exists (map (eq_str wanted) s).
      apply nth_error_snoc.
    + run_step. apply p. now right.
Qed.

Lemma lookup_select_none c mask df :
  lookup c (columns df) = None ->
  lookup c (columns (select_rows mask df)) = None.
Proof.
  intros L. unfold select_rows. cbn [columns]. now rewrite lookup_select, L.
Qed.

Lemma top_5_needs_category st r t category month :
  nth_error (heap st) r = Some t ->
  category <> "" ->
  lookup "CATEGORY" (columns t) = None ->
  raises (top_5_highest_transactions r category month) st
         (KeyError "CATEGORY").
Proof.
  intros E C L. unfold top_5_highest_transactions.
  apply raises_bind. run_step. apply raises_here.
  destruct category as [| ch category]; [congruence |]. cbn [nonempty].
  apply raises_here. eapply raises_getitem; [apply nth_error_snoc | exact L].
Qed.

Lemma top_5_needs_month st r t category month :
  nth_error (heap st) r = Some t ->
  category = "" \/ has_column "CATEGORY" t = true ->
  month <> "" ->
  lookup "MONTH" (columns t) = None ->
  raises (top_5_highest_transactions r category month) st
         (KeyError "MONTH").
Proof.
  intros E C Mo L. unfold top_5_highest_transactions.
  apply raises_bind. run_step. apply raises_bind.
  eapply optional_filter_returns; [apply nth_error_snoc | exact C |].
  intros r' st' D. apply raises_here.
  destruct month as [| ch month]; [congruence |]. cbn [nonempty].
  apply raises_here. destruct D as [[mask D] | [-> ->]].
  - eapply raises_getitem; [exact D | now apply lookup_select_none].
  - eapply raises_getitem; [apply nth_error_snoc | exact L].
Qed.

Lemma top_5_needs_value st r t category month :
  nth_error (heap st) r = Some t ->
  category = "" \/ has_column "CATEGORY" t = true ->
  month = "" \/ has_column "MONTH" t = true ->
  lookup "VALUE" (columns t) = None ->
  raises (top_5_highest_transactions r category month) st
         (KeyError "VALUE").
Proof.
  intros E C Mo L. unfold top_5_highest_transactions.
  apply raises_bind. run_step. apply raises_bind.
  eapply optional_filter_returns; [apply nth_error_snoc | exact C |].
  intros r1 st1 D1.
  assert (X : exists d, nth_error (heap st1) r1 = Some d
                        /\ column_names d = column_names t).
  { destruct D1 as [[mask D] | [-> ->]].
    - eexists. split; [exact D | apply column_names_select_rows].
    - exists t. split; [apply nth_error_snoc | reflexivity]. }
  destruct X as (d & E1 & N1).
  apply raises_bind.
  eapply optional_filter_returns; [exact E1 | |].
  { destruct Mo as [-> | K]; [now left | right].
    now rewrite (@has_column_names "MONTH" t d N1). }
  intros r2 st2 D2. apply raises_here.
  assert (L1 : lookup "VALUE" (columns d) = None).
  { destruct (lookup "VALUE" (columns d)) as [s |] eqn:X; [| reflexivity].
    apply lookup_has_column in X.
    rewrite (@has_column_names "VALUE" t d N1) in X.
    now rewrite (lookup_none_has_column _ _ L) in X. }
  destruct D2 as [[mask D] | [-> ->]].
  - eapply raises_getitem; [exact D | now apply lookup_select_none].
  - eapply raises_getitem; [exact E1 | exact L1].
Qed.

End MissingColumns.

(** X7 — [top_5_highest_transactions] raises [KeyError] for the
    first column it reads and the table does not have: [CATEGORY] when a
    category is given, then [MONTH] when a month is given, then [VALUE].
    With no category and no month, only [VALUE] is read. *)
Theorem top_transactions_missing_column
        (R : Pd.Runtime) st r t category month :
  nth_error (Pd.heap st) r = Some t ->
  (category <> "" -> Spec.column "CATEGORY" t = None ->
   Exec.raises (Analysis.top_5_highest_transactions r category month) st
               (Pd.KeyError "CATEGORY"))
  /\ (category = "" \/ Pd.has_column "CATEGORY" t = true ->
      month <> "" -> Spec.column "MONTH" t = None ->
      Exec.raises (Analysis.top_5_highest_transactions r category month) st
                  (Pd.KeyError "MONTH"))
  /\ (category = "" \/ Pd.has_column "CATEGORY" t = true ->
      month = "" \/ Pd.has_column "MONTH" t = true ->
      Spec.column "VALUE" t = None ->
      Exec.raises (Analysis.top_5_highest_transactions r category month) st
                  (Pd.KeyError "VALUE")).
Proof.
  intros E. split; [| split]; intros.
  - now apply top_5_needs_category with (t := t).
  - now apply top_5_needs_month with (t := t).
  - now apply top_5_needs_value with (t := t).
Qed.

Lemma top_transactions_missing_column_witness :
  Exec.raises
    (Analysis.top_5_highest_transactions (H := Fragment.runtime) 0
       "Rent" "January")
    (Fixture.store_of Sample.values_only) (Pd.KeyError "CATEGORY").
Proof.
  apply (proj1 (@top_transactions_missing_column Fragment.runtime
                  (Fixture.store_of Sample.values_only) 0
                  Sample.values_only "Rent" "January" eq_refl)).
  - discriminate.
  - reflexivity.
Defined.

(* ================================================================== *)
(** ** Every category once *)

Section Partition.
Import Pd Exec Analysis Shape.
Context `{Runtime}.





(** The five filters of lines 37-41, on the categories alone. *)
Lemma kept_categories cs :
  unique
    (filter (fun c => negb (eq_str "None" c))
       (filter notna
          (filter (fun c => negb (eq_str "" c))
             (filter (fun c => negb (eq_str "Starting Balance" c))
                (filter (fun c => negb (eq_str "Exclude" c)) cs)))))
  = Spec.remaining cs.
Proof.
  unfold Spec.remaining. rewrite !filter_twice. f_equal.
  apply filter_ext. intros c. unfold Spec.excluded.
  destruct (eq_str "Exclude" c), (eq_str "Starting Balance" c),
    (eq_str "" c), (notna c), (eq_str "None" c); reflexivity.
Qed.

Lemma keep_untyped st r d cs test (P : ref -> state -> Prop) :
  nth_error (heap st) r = Some d ->
  untyped cs d ->
  (forall d', untyped (filter test cs) d' ->
              P (List.length (heap st))
                (mkState (heap st ++ [d']) (log st))) ->
  returns (keep r test) st P.
Proof.
  intros E [Lc Lt] p. unfold keep.
  apply returns_bind. eapply returns_getitem; [exact E | exact Lc |].
  eapply returns_getrows; [exact E |]. apply p.
  split; cbn [columns select_rows]; rewrite lookup_select.
  - rewrite Lc. cbn [option_map]. now rewrite select_map_filter.
  - now rewrite Lt.
Qed.

(** [get_all_categories] on a table without types: the loop reads the
    types only when a category is left. *)
Lemma get_all_categories_untyped st r t cs :
  nth_error (heap st) r = Some t ->
  untyped cs t ->
  match Spec.remaining cs with
  | [] =>
      returns (get_all_categories r) st
        (fun res st' =>
           nth_error (heap st') res = Some (Spec.listing 0 [] [] [] [])
           /\ log st'
              = (log st ++ [Spec.found 0; Spec.retrieved [] [] [] []])%list)
  | _ :: _ => raises (get_all_categories r) st (KeyError "TYPE")
  end.
Proof.
  intros E U. unfold get_all_categories.
  destruct (Spec.remaining cs) as [| c rest] eqn:R.
  - apply returns_bind. eapply keep_untyped; [exact E | exact U |].
    intros d1 U1. cbv beta.
    apply returns_bind.
    eapply keep_untyped; [apply nth_error_snoc | exact U1 |].
    intros d2 U2. cbn [heap log].
    apply returns_bind.
    eapply keep_untyped; [apply nth_error_snoc | exact U2 |].
    intros d3 U3. cbn [heap log].
    apply returns_bind.
    eapply keep_untyped; [apply nth_error_snoc | exact U3 |].
    intros d4 U4. cbn [heap log].
    apply returns_bind.
    eapply keep_untyped; [apply nth_error_snoc | exact U4 |].
    intros d5 U5. cbn [heap log].
    apply returns_bind.
    eapply returns_getitem; [apply nth_error_snoc | apply U5 |].
    rewrite kept_categories, R. cbn [List.length classify].
    apply returns_bind. apply returns_emit. cbn [heap log].
    apply returns_bind. apply returns_ret.
    apply returns_bind. apply returns_emit. cbn [heap log].
    apply returns_alloc. cbn [heap log]. split.
    + apply nth_error_snoc.
    + now rewrite <- !app_assoc.
  - apply raises_bind. eapply keep_untyped; [exact E | exact U |].
    intros d1 U1. cbv beta.
    apply raises_bind.
    eapply keep_untyped; [apply nth_error_snoc | exact U1 |].
    intros d2 U2. cbn [heap log].
    apply raises_bind.
    eapply keep_untyped; [apply nth_error_snoc | exact U2 |].
    intros d3 U3. cbn [heap log].
    apply raises_bind.
    eapply keep_untyped; [apply nth_error_snoc | exact U3 |].
    intros d4 U4. cbn [heap log].
    apply raises_bind.
    eapply keep_untyped; [apply nth_error_snoc | exact U4 |].
    intros d5 U5. cbn [heap log].
    apply raises_bind.
    eapply returns_getitem; [apply nth_error_snoc | apply U5 |].
    rewrite kept_categories, R.
    apply raises_bind. apply returns_emit. cbn [heap log].
    apply raises_here. cbn [classify]. apply raises_here.
    eapply raises_getitem; [apply nth_error_snoc | apply U5].
Qed.

Lemma get_all_categories_needs_category st r t :
  nth_error (heap st) r = Some t ->
  lookup "CATEGORY" (columns t) = None ->
  get_all_categories r st = (Raise (KeyError "CATEGORY"), st).
Proof.
  intros E L. unfold get_all_categories, keep.
  apply bind_raise. apply bind_raise.
  now apply getitem_missing with (df := t).
Qed.

End Partition.



(** X11 — the columns [get_all_categories] needs.  Without
    a [CATEGORY] column it raises [KeyError] at once.  The [TYPE] column is
    read only inside the loop over the categories that are left: without
    it, the call raises [KeyError] when a category is left, and returns
    four empty columns when none is. *)
Theorem categories_missing_column (R : Pd.Runtime) st r t :
  nth_error (Pd.heap st) r = Some t ->
  (Spec.column "CATEGORY" t = None ->
   Analysis.get_all_categories r st
   = (Pd.Raise (Pd.KeyError "CATEGORY"), st))
  /\ (forall cs,
         Spec.column "CATEGORY" t = Some cs ->
         Spec.column "TYPE" t = None ->
         (Spec.remaining cs <> [] ->
          Exec.raises (Analysis.get_all_categories r) st
                      (Pd.KeyError "TYPE"))
         /\ (Spec.remaining cs = [] ->
             exists res st',
               Analysis.get_all_categories r st = (Pd.Ok res, st')
               /\ nth_error (Pd.heap st') res
                  = Some (Spec.listing 0 [] [] [] []))).
Proof.
  intros E. split.
  - intros L. now apply get_all_categories_needs_category with (t := t).
  - intros cs Lc Lt.
    pose proof (@get_all_categories_untyped R st r t cs E (conj Lc Lt)) as G.
    split; intros X.
    + destruct (Spec.remaining cs); [congruence | exact G].
    + rewrite X in G. destruct G as (res & st' & Run & Res & _).
      now exists res, st'.
Qed.

Lemma categories_missing_column_witness :
  Exec.raises (Analysis.get_all_categories (H := Fragment.runtime) 0)
              (Fixture.store_of Sample.untyped) (Pd.KeyError "TYPE")
  /\ exists res st',
      Analysis.get_all_categories (H := Fragment.runtime) 0
        (Fixture.store_of Sample.opening_only)
      = (Pd.Ok res, st')
      /\ nth_error (Pd.heap st') res = Some (Spec.listing 0 [] [] [] []).
Proof.
  split.
  - apply (proj1 (proj2 (@categories_missing_column Fragment.runtime
                           (Fixture.store_of Sample.untyped) 0
                           Sample.untyped eq_refl)
                        (Fixture.strings ["Salary"; "Rent"; "Savings"])
                        eq_refl eq_refl)).
    discriminate.
  - apply (proj2 (proj2 (@categories_missing_column Fragment.runtime
                           (Fixture.store_of Sample.opening_only) 0
                           Sample.opening_only eq_refl)
                        (Fixture.strings ["Starting Balance"])
                        eq_refl eq_refl)).
    reflexivity.
Defined.

(* ================================================================== *)
(** ** Compensated sums and their mirror image *)

Section Compensated.
Import Pd.

Lemma binary_round_opp s m e :
  binary_round F64.prec F64.emax (negb s) m e
  = F64.opp (binary_round F64.prec F64.emax s m e).
Proof.
  unfold binary_round.
  destruct (shl_align _ _ _) as [mz ez].
  unfold binary_round_aux.
  destruct (shr_fexp _ _ _ _ _) as [mrs e'].
  destruct (shr_fexp _ _ _ _ _) as [mrs' e''].
  destruct (shr_m mrs') as [|p|p]; simpl; auto.
  destruct (Z.leb _ _); simpl; auto.
Qed.

Lemma binary_normalize_opp m e :
  F64.mirror (binary_normalize F64.prec F64.emax m e false)
         (binary_normalize F64.prec F64.emax (- m) e false).
Proof.
  unfold binary_normalize. destruct m as [|p|p]; cbn [Z.opp].
  - right. now exists false, false.
  - left. apply (binary_round_opp false).
  - left. apply (binary_round_opp true).
Qed.

Lemma sub_add_opp (x y : F64.float) : F64.sub x y = F64.add x (F64.opp y).
Proof.
  destruct x as [s|s| |s m e], y as [s'|s'| |s' m' e']; simpl; auto;
    try (destruct s, s'; reflexivity).
Qed.

Lemma mirror_opp x y :
  F64.mirror x y -> F64.mirror (F64.opp x) (F64.opp y).
Proof.
  intros [-> | (s & s' & -> & ->)]; [now left |].
  right. now exists (negb s), (negb s').
Qed.

Lemma mirror_add a a' b b' :
  F64.mirror a a' -> F64.mirror b b' ->
  F64.mirror (F64.add a b) (F64.add a' b').
Proof.
  intros [-> | (s & s' & -> & ->)] [-> | (u & u' & -> & ->)].
  - destruct a as [s|s| |s m e], b as [u|u| |u m' e']; simpl;
      try (left; reflexivity);
      try (destruct s, u; simpl; (left; reflexivity)
                                 || (right; eexists; eexists; split;
                                     reflexivity)).
    unfold F64.add, SFadd. cbv zeta.
    replace (cond_Zopp (negb s) (Z.pos (fst (shl_align m e (Z.min e e'))))
             + cond_Zopp (negb u)
                 (Z.pos (fst (shl_align m' e' (Z.min e e')))))%Z
      with (- (cond_Zopp s (Z.pos (fst (shl_align m e (Z.min e e'))))
               + cond_Zopp u
                   (Z.pos (fst (shl_align m' e' (Z.min e e'))))))%Z
      by (destruct s, u; cbn [negb cond_Zopp]; lia).
    apply binary_normalize_opp.
  - destruct a as [s|s| |s m e]; simpl;
      try (left; reflexivity);
      destruct s, u, u'; simpl; (left; reflexivity)
                                || (right; eexists; eexists; split;
                                    reflexivity).
  - destruct b as [u|u| |u m e]; simpl;
      try (left; reflexivity);
      destruct s, s', u; simpl; (left; reflexivity)
                                || (right; eexists; eexists; split;
                                    reflexivity).
  - right. destruct s, s', u, u'; simpl; eexists; eexists; split;
      reflexivity.
Qed.

Lemma mirror_sub a a' b b' :
  F64.mirror a a' -> F64.mirror b b' ->
  F64.mirror (F64.sub a b) (F64.sub a' b').
Proof.
  intros A B. rewrite !sub_add_opp. apply mirror_add; auto.
  now apply mirror_opp.
Qed.

Lemma mirror_nan x y : F64.mirror x y -> F64.is_nan y = F64.is_nan x.
Proof.
  intros [-> | (s & s' & -> & ->)]; [now destruct x | reflexivity].
Qed.

Lemma mirror_abs x y : F64.mirror x y -> F64.abs y = F64.abs x.
Proof.
  intros [-> | (s & s' & -> & ->)]; [now destruct x | reflexivity].
Qed.

Lemma kahan_mirror xs :
  forall s c s' c',
    F64.mirror s s' -> F64.mirror c c' ->
    F64.mirror (fst (fold_left kahan_step xs (s, c)))
           (fst (fold_left kahan_step (map F64.opp xs) (s', c'))).
Proof.
  induction xs as [|x r IH]; intros s c s' c' S C; [exact S |].
  cbn [map fold_left kahan_step].
  replace (F64.is_nan (F64.opp x)) with (F64.is_nan x) by now destruct x.
  destruct (F64.is_nan x); [now apply IH |].
  assert (Y : F64.mirror (F64.sub x c) (F64.sub (F64.opp x) c'))
    by (apply mirror_sub; [now left | exact C]).
  assert (T : F64.mirror (F64.add s (F64.sub x c))
                     (F64.add s' (F64.sub (F64.opp x) c')))
    by now apply mirror_add.
  assert (K : F64.mirror (F64.sub (F64.sub (F64.add s (F64.sub x c)) s)
                              (F64.sub x c))
                     (F64.sub (F64.sub (F64.add s' (F64.sub (F64.opp x) c'))
                                       s')
                              (F64.sub (F64.opp x) c')))
    by (apply mirror_sub; [apply mirror_sub |]; assumption).
  apply IH; [exact T |].
  rewrite (mirror_nan K).
  destruct (F64.is_nan _); [| exact K].
  right. now exists false, false.
Qed.

Lemma abs_below_zero l :
  Forall (fun x => F64.ltb x F64.zero = true) l ->
  map F64.abs l = map F64.opp l.
Proof.
  induction 1 as [|x r X _ IH]; simpl; [reflexivity |].
  rewrite IH. f_equal.
  destruct x as [s|s| |s m e]; try destruct s; simpl in *;
    auto; discriminate.
Qed.

(** The absolute value of the compensated sum of values below zero is
    that of the compensated sum of their absolute values. *)
Lemma abs_group_sum l :
  Forall (fun x => F64.ltb x F64.zero = true) l ->
  F64.abs (group_sum l) = F64.abs (group_sum (map F64.abs l)).
Proof.
  intros N. rewrite (abs_below_zero N). unfold group_sum.
  symmetry. apply mirror_abs. apply kahan_mirror.
  - right. now exists false, false.
  - right. now exists false, false.
Qed.

End Compensated.

(* ================================================================== *)
(** ** The mapping of the expense categories *)

Section ExpenseKeys.
Import Pd Exec Analysis.
Context `{Runtime}.

Lemma outflows_texts expense_cats month cs ms xs :
  exists names,
    map fst (Spec.outflows expense_cats month cs ms xs) = map Str names
    /\ Forall (fun c => In c expense_cats) names.
Proof.
  unfold Spec.outflows. rewrite map_map. cbn [fst].
  induction (combine cs (combine ms xs)) as [| row l (names & E & F)];
    [now exists [] |].
  cbn [filter].
  destruct (Spec.in_optional_month month (fst (snd row))); cbn [andb];
    [| now exists names].
  destruct (isin expense_cats (fst row)) eqn:I; cbn [andb];
    [| now exists names].
  destruct (F64.ltb (snd (snd row)) F64.zero); [| now exists names].
  destruct (fst row) as [s | |] eqn:K; cbn in I; try discriminate.
  exists (s :: names). cbn [map]. rewrite K, E. split; [reflexivity |].
  constructor; [| exact F].
  apply existsb_exists in I. destruct I as (v & V & Q).
  apply String.eqb_eq in Q. now subst.
Qed.

Lemma outflows_below_zero expense_cats month cs ms xs row :
  In row (Spec.outflows expense_cats month cs ms xs) ->
  isin expense_cats (fst row) = true
  /\ F64.ltb (snd row) F64.zero = true.
Proof.
  intros I. unfold Spec.outflows in I. apply in_map_iff in I.
  destruct I as (x & <- & I). apply filter_In in I. destruct I as [_ I].
  cbn [fst snd]. apply andb_true_iff in I. destruct I as [_ I].
  now apply andb_true_iff in I.
Qed.

Lemma sorted_filter (A : Type) (R : A -> A -> Prop) (f : A -> bool) l :
  StronglySorted R l -> StronglySorted R (filter f l).
Proof.
  induction 1 as [| a l S IH F]; cbn; [constructor |].
  destruct (f a); [| exact IH]. constructor; [exact IH |].
  rewrite Forall_forall in *. intros x X. apply filter_In in X.
  now apply F.
Qed.

(** The sum of a group is the sum of the rows of its key. *)
Lemma group_of_key k (o : list (cell * F64.float)) :
  F64.abs (group_sum (select (map (eq_cell (Str k)) (map fst o))
                             (map snd o)))
  = Spec.spent k o.
Proof.
  unfold Spec.spent. rewrite map_map.
  rewrite (select_rows_of (fun row => eq_cell (Str k) (fst row)) snd o).
  do 3 f_equal. apply filter_ext. intros [c x]. cbn [fst].
  destruct c; cbn; auto. apply String.eqb_sym.
Qed.

(** What the grouping makes of the outflows is the mapping of
    [Spec.report]. *)
Lemma report_of_outflows expense_cats month cs ms xs :
  let o := Spec.outflows expense_cats month cs ms xs in
  let expenses :=
    map (fun '(k, x) => (k, F64.abs x))
        (group_sums (map fst o) (map snd o)) in
  let expenses_dict :=
    filter (fun '(_, x) => F64.gtb x F64.zero) expenses in
  Spec.report o
    match expenses_dict with
    | [] => [(Str "No Expenses", PyInt 0)]
    | _ => map (fun '(k, x) => (k, PyFloat x)) expenses_dict
    end.
Proof.
  intros o. cbv zeta.
  destruct (outflows_texts expense_cats month cs ms xs) as (names & E & _).
  fold o in E.
  destruct (sorted_keys_texts names) as (every & K & I & S).
  assert (K' : sorted_keys (map fst o) = map Str every)
    by (rewrite E; exact K).
  unfold group_sums. rewrite K', !map_map.
  set (cats := filter (fun k => F64.gtb (Spec.spent k o) F64.zero) every).
  assert (D : filter (fun '(_, x) => F64.gtb x F64.zero)
                (map (fun a : string =>
                        (Str a,
                         F64.abs (group_sum
                                    (select (map (eq_cell (Str a))
                                                 (map fst o))
                                            (map snd o))))) every)
              = map (fun k => (Str k, Spec.spent k o)) cats).
  { unfold cats. clear. induction every as [| a l IH]; [reflexivity |].
    cbn [map filter]. rewrite group_of_key, IH.
    now destruct (F64.gtb (Spec.spent a o) F64.zero). }
  rewrite D. exists cats. split; [| split].
  - now apply sorted_filter.
  - intros k. unfold cats. rewrite filter_In, I, E.
    split; intros [A B]; (split; [| exact B]).
    + now apply in_map.
    + apply in_map_iff in A. destruct A as (b & [= ->] & A). exact A.
  - destruct cats as [| a l]; [reflexivity |].
    cbn [map]. now rewrite map_map.
Qed.

End ExpenseKeys.

(** C7 — [sum_expenses_by_category] keeps the rows whose category is one of
    the expense categories and whose numeric value is strictly below zero
    (a row of an expense category with a positive value is left out), and
    groups them by category: the mapping it returns has one entry for each
    category that has such rows and whose total is above zero, the
    categories in increasing order, each once.  The total of a category is
    the absolute value of the sum of its values, which is also the
    absolute value of the sum of their absolute values.  When no category
    is left, the mapping has the single entry ['No Expenses': 0]. *)
Theorem expense_totals_by_category
        (R : Pd.Runtime) st r t expense_cats month cs ms xs :
  nth_error (Pd.heap st) r = Some t ->
  Spec.well_formed t ->
  Spec.values t = Some xs ->
  Spec.column "CATEGORY" t = Some cs ->
  Spec.column "MONTH" t = Some ms ->
  let o := Spec.outflows expense_cats month cs ms xs in
  (exists result st',
      Analysis.sum_expenses_by_category r expense_cats month st
      = (Pd.Ok result, st')
      /\ Spec.report o result)
  /\ (forall row,
         In row o ->
         Pd.isin expense_cats (fst row) = true
         /\ F64.ltb (snd row) F64.zero = true)
  /\ (forall k,
         Spec.spent k o
         = F64.abs
             (Pd.group_sum
                (map F64.abs
                     (map snd
                          (filter (fun row => Pd.eq_str k (fst row)) o)))))
  /\ fst (Analysis.sum_expenses_by_category 0 ["Salary"] None
            (Fixture.store_of Fixture.three_rows))
     = Pd.Ok [(Pd.Str "No Expenses", Analysis.PyInt 0)].
Proof.
  intros E WF V Lc Lm o.
  destruct (values_columns _ V) as (vs & Lv & N).
  split; [| split; [| split]].
  - destruct (@sum_expenses_returns R st r t expense_cats month vs cs ms xs
                E WF Lv Lc Lm N) as (result & st' & Run & ->).
    eexists. exists st'. split; [exact Run |].
    apply report_of_outflows.
  - intros row I. now apply outflows_below_zero with month cs ms xs.
  - intros k. unfold Spec.spent. apply abs_group_sum.
    apply Forall_forall. intros x X. apply in_map_iff in X.
    destruct X as (row & <- & X). apply filter_In in X.
    destruct X as [X _].
    now apply (@outflows_below_zero expense_cats month cs ms xs row).
  - vm_compute. reflexivity.
Qed.

Lemma expense_totals_by_category_witness :
  exists st',
    Analysis.sum_expenses_by_category (H := Fragment.runtime) 0
      ["Rent"; "Gift"] None (Fixture.store_of Fixture.with_starting_balance)
    = (Pd.Ok [(Pd.Str "Rent", Analysis.PyFloat (F64.of_Z 800))], st').
Proof.
  destruct
    (@expense_totals_by_category Fragment.runtime
       (Fixture.store_of Fixture.with_starting_balance) 0
       Fixture.with_starting_balance
       ["Rent"; "Gift"] None
       (Fixture.strings ["Starting Balance"; "Salary"; "Rent"; "Gift";
                         "Rent"])
       (Fixture.strings ["January"; "January"; "January"; "January";
                         "February"])
       (map F64.of_Z [5000; 1000; -400; 50; -400]%Z)
       eq_refl ltac:(repeat constructor) ltac:(vm_compute; reflexivity)
       eq_refl eq_refl) as ((result & st' & Run & _) & _).
  exists st'. rewrite Run. f_equal. f_equal.
  assert (C : fst (Analysis.sum_expenses_by_category
                     (H := Fragment.runtime) 0 ["Rent"; "Gift"] None
                     (Fixture.store_of Fixture.with_starting_balance))
              = Pd.Ok [(Pd.Str "Rent", Analysis.PyFloat (F64.of_Z 800))])
    by (vm_compute; reflexivity).
  rewrite Run in C. cbn [fst] in C. now injection C.
Defined.

(* ================================================================== *)
(** ** Records of a worksheet *)

Section Records.
Import DataFetch.




Lemma keys_from_spec hs :
  forall seen,
    NoDup (keys_from seen hs)
    /\ (forall k, In k (keys_from seen hs) <-> In k hs /\ ~ In k seen).
Proof.
  induction hs as [| h hs IH]; intros seen; cbn [keys_from].
  - split; [constructor | intros k; cbn; tauto].
  - destruct (existsb (String.eqb h) seen) eqn:S.
    + destruct (IH seen) as [N I]. split; [exact N |].
      intros k. rewrite I. cbn. split; [tauto |].
      intros [[<- | K] F]; [| tauto]. exfalso. apply F.
      apply existsb_exists in S. destruct S as (x & X & E).
      apply String.eqb_eq in E. now subst.
    + destruct (IH (seen ++ [h])%list) as [N I]. split.
      * constructor; [| exact N]. rewrite I. intros [_ F]. apply F.
        apply in_or_app. right. now left.
      * intros k. cbn [In]. rewrite I, in_app_iff. cbn [In].
        assert (F : ~ In h seen).
        { intros X. apply Bool.not_true_iff_false in S. apply S.
          apply existsb_exists. exists h. split; [exact X |].
          apply String.eqb_refl. }
        destruct (string_dec h k) as [-> | D]; [tauto |]. tauto.
Qed.


Lemma keys_all hs k : In k (keys hs) <-> In k hs.
Proof.
  unfold keys. destruct (keys_from_spec hs []) as [_ I]. rewrite I.
  cbn. tauto.
Qed.

Lemma length_fill n l : n <= List.length (fill n l).
Proof. unfold fill. rewrite length_app, repeat_length. lia. Qed.




Lemma dict_get_set k k' v d :
  dict_get k (dict_set k' v d)
  = if String.eqb k' k then Some v else dict_get k d.
Proof.
  induction d as [| [k0 v0] d IH]; cbn.
  - reflexivity.
  - destruct (String.eqb k0 k') eqn:E; cbn.
    + apply String.eqb_eq in E. subst k0.
      now destruct (String.eqb k' k).
    + destruct (String.eqb k0 k) eqn:E'; [| exact IH].
      apply String.eqb_eq in E'. subst k0. now rewrite String.eqb_sym, E.
Qed.

Lemma dict_get_fold_other k pairs :
  ~ In k (map fst pairs) ->
  forall d,
    dict_get k (fold_left (fun d kv => dict_set (fst kv) (snd kv) d) pairs d)
    = dict_get k d.
Proof.
  induction pairs as [| [k' v'] pairs IH]; intros F d; cbn [fold_left];
    [reflexivity |].
  cbn [map fst In] in F. rewrite IH by tauto. cbn [fst snd].
  rewrite dict_get_set.
  destruct (String.eqb_spec k' k); [tauto | reflexivity].
Qed.

Lemma in_fst_combine (A B : Type) (x : A) (l : list A) (l' : list B) :
  In x (map fst (combine l l')) -> In x l.
Proof.
  revert l'. induction l as [| a l IH]; intros [| b l']; cbn; try tauto.
  intros [-> | I]; [now left | right; eauto].
Qed.

(** The value under a header: the one of the last column of that
    name. *)
Lemma dict_get_zip hs :
  forall vs d i,
    i < List.length hs -> List.length hs <= List.length vs ->
    (forall k, i < k < List.length hs -> nth k hs "" <> nth i hs "") ->
    dict_get (nth i hs "")
             (fold_left (fun d kv => dict_set (fst kv) (snd kv) d)
                        (combine hs vs) d)
    = Some (nth i vs "").
Proof.
  induction hs as [| h hs IH]; intros [| v vs] d i I L Last; cbn in I, L;
    try lia.
  cbn [combine fold_left fst snd]. destruct i as [| i]; cbn [nth].
  - rewrite dict_get_fold_other.
    + rewrite dict_get_set. now rewrite String.eqb_refl.
    + intros X. apply in_fst_combine in X.
      destruct (In_nth _ _ "" X) as (k & K & E).
      apply (Last (S k)); [cbn; lia | exact E].
  - apply IH; [lia | lia |]. intros k K. apply (Last (S k)). cbn. lia.
Qed.

Lemma nth_fill n l i : nth i (fill n l) "" = nth i l "".
Proof.
  unfold fill. destruct (Nat.lt_ge_cases i (List.length l)) as [I | I].
  - now rewrite app_nth1.
  - rewrite app_nth2 by exact I. rewrite (nth_overflow l) by exact I.
    destruct (Nat.lt_ge_cases (i - List.length l)
                              (n - List.length l)) as [J | J].
    + now rewrite nth_repeat_lt.
    + apply nth_overflow. now rewrite repeat_length.
Qed.

Lemma nth_skipn_plus (A : Type) (d : A) n :
  forall l i, nth i (skipn n l) d = nth (n + i) l d.
Proof.
  induction n as [| n IH]; intros [| a l] i; cbn; auto.
  now destruct i.
Qed.

Lemma nth_firstn_below (A : Type) (d : A) m :
  forall l i, i < m -> nth i (firstn m l) d = nth i l d.
Proof.
  induction m as [| m IH]; intros [| a l] [| i] I; cbn; auto; try lia.
  apply IH. lia.
Qed.

Lemma length_limit (A : Type) (n : Z) (l : list A) :
  (0 < n)%Z -> List.length (limit n l) <= Z.to_nat n.
Proof.
  intros P. unfold limit, slice_to.
  destruct (Z.eqb_spec n 0); [lia |]. cbn [negb andb].
  destruct (Z.ltb_spec n (Z.of_nat (List.length l))).
  - destruct (Z.ltb_spec n 0); [lia |]. rewrite length_firstn. lia.
  - lia.
Qed.

Lemma nth_limit (A : Type) (d : A) (n : Z) (l : list A) i :
  (0 <= n)%Z -> (n = 0%Z \/ i < Z.to_nat n) ->
  nth i (limit n l) d = nth i l d.
Proof.
  intros P B. unfold limit, slice_to.
  destruct (Z.eqb_spec n 0); [reflexivity |]. cbn [negb andb].
  destruct (Z.ltb_spec n (Z.of_nat (List.length l))); [| reflexivity].
  destruct (Z.ltb_spec n 0); [lia |].
  apply nth_firstn_below. lia.
Qed.

(** The record of one row: under the header of column [i], when no
    column further right has the same name, the cell of the row in that
    column, or the empty text when the row is too short. *)
Lemma record_cells header_row col n row d :
  (0 <= n)%Z ->
  record (limit n (skipn col header_row)) col n row = Some d ->
  forall i,
    i < List.length (limit n (skipn col header_row)) ->
    (forall k,
        i < k < List.length (limit n (skipn col header_row)) ->
        nth k (limit n (skipn col header_row)) ""
        <> nth i (limit n (skipn col header_row)) "") ->
    dict_get (nth i (limit n (skipn col header_row)) "") d
    = Some (nth (col + i) row "").
Proof.
  intros P R i I Last. unfold record in R.
  destruct (Nat.leb (List.length row) col); [discriminate |].
  injection R as <-. unfold dict_of.
  rewrite dict_get_zip; [| exact I | apply length_fill | exact Last].
  f_equal. rewrite nth_fill, nth_limit, nth_skipn_plus; auto.
  destruct (Z.eqb_spec n 0); [now left | right].
  pose proof (@length_limit string n (skipn col header_row)). lia.
Qed.

Lemma records_rows hs col n rows :
  forall result,
    records hs col n rows result
    = (result
         ++ flat_map (fun row => match record hs col n row with
                                 | Some d => [d]
                                 | None => []
                                 end) rows)%list.
Proof.
  induction rows as [| row rows IH]; intros result; cbn [records flat_map].
  - now rewrite app_nil_r.
  - rewrite IH. destruct (record hs col n row); [| reflexivity].
    now rewrite <- app_assoc.
Qed.

Lemma records_cells header_row col n rows :
  (0 <= n)%Z ->
  Forall2
    (fun row d =>
       forall i,
         i < List.length (limit n (skipn col header_row)) ->
         (forall k,
             i < k < List.length (limit n (skipn col header_row)) ->
             nth k (limit n (skipn col header_row)) ""
             <> nth i (limit n (skipn col header_row)) "") ->
         dict_get (nth i (limit n (skipn col header_row)) "") d
         = Some (nth (col + i) row ""))
    (filter (fun row => Nat.ltb col (List.length row)) rows)
    (records (limit n (skipn col header_row)) col n rows []).
Proof.
  intros P. rewrite records_rows. cbn [app].
  induction rows as [| row rows IH]; cbn [filter flat_map]; [constructor |].
  destruct (record _ col n row) as [d |] eqn:R.
  - assert (L : Nat.ltb col (List.length row) = true).
    { unfold record in R. apply Nat.ltb_lt.
      destruct (Nat.leb_spec (List.length row) col); [discriminate | lia]. }
    rewrite L. cbn [app]. constructor; [| exact IH].
    now apply record_cells.
  - assert (L : Nat.ltb col (List.length row) = false).
    { unfold record in R. apply Nat.ltb_ge.
      destruct (Nat.leb_spec (List.length row) col); [lia | discriminate]. }
    rewrite L. exact IH.
Qed.

End Records.

Section Worksheet.
Import DataFetch.
Context `{Sheets}.


Lemma clamp_again (z : Z) :
  (if (Z.max 1 z <? 1)%Z then 1%Z else Z.max 1 z)
  = (if (z <? 1)%Z then 1%Z else z).
Proof.
  destruct (Z.ltb_spec z 1), (Z.ltb_spec (Z.max 1 z) 1); lia.
Qed.

Lemma get_worksheet_clamped spreadsheet_name worksheet_name
      row_start column_start num_columns j :
  fst (get_worksheet spreadsheet_name worksheet_name row_start column_start
                     num_columns j)
  = fst (get_worksheet spreadsheet_name worksheet_name
                       (Z.max 1 row_start) (Z.max 1 column_start)
                       num_columns j).
Proof.
  unfold get_worksheet, get_gspread_client, worksheet_values.
  unfold bind, try_except, emit, raise, ret.
  destruct authorize as [e |]; [reflexivity |].
  destruct (get_all_values spreadsheet_name worksheet_name)
    as [all_values | e]; [| reflexivity].
  rewrite !clamp_again.
  destruct all_values as [| first rest]; [reflexivity |].
  cbn [orb List.length].
  destruct (Z.leb_spec (Z.of_nat (S (List.length rest))) row_start) as [A | A].
  - destruct (Z.leb_spec (Z.of_nat (S (List.length rest)))
                         (Z.max 1 row_start)); [reflexivity | lia].
  - destruct (Z.leb_spec (Z.of_nat (S (List.length rest)))
                         (Z.max 1 row_start)) as [B | B]; [| reflexivity].
    assert (R : rest = []) by (destruct rest; [reflexivity | cbn in *; lia]).
    subst rest.
    assert (Z1 : (row_start <? 1)%Z = true) by (apply Z.ltb_lt; cbn in *; lia).
    rewrite Z1. cbn [Z.sub Z.to_nat Z.add Z.opp Z.pos_sub nth_error].
    change (Z.to_nat (1 - 1)) with 0. cbn [nth_error Nat.add skipn records].
    now destruct (Nat.leb (List.length first) _).
Qed.

Lemma get_worksheet_cells spreadsheet_name worksheet_name
      row_start column_start num_columns all_values header_row j :
  authorize = None ->
  get_all_values spreadsheet_name worksheet_name = Done all_values ->
  (1 <= row_start < Z.of_nat (List.length all_values))%Z ->
  (1 <= column_start)%Z ->
  (0 <= num_columns)%Z ->
  nth_error all_values (Z.to_nat (row_start - 1)) = Some header_row ->
  Z.to_nat (column_start - 1) < List.length header_row ->
  exists result entries,
    get_worksheet spreadsheet_name worksheet_name row_start column_start
                  num_columns j
    = (Done result, (j ++ entries)%list)
    /\ Forall2
         (fun row d =>
            forall i,
              i < List.length
                    (limit num_columns
                       (skipn (Z.to_nat (column_start - 1)) header_row)) ->
              (forall k,
                  i < k < List.length
                            (limit num_columns
                               (skipn (Z.to_nat (column_start - 1))
                                      header_row)) ->
                  nth k (limit num_columns
                           (skipn (Z.to_nat (column_start - 1)) header_row))
                      ""
                  <> nth i (limit num_columns
                              (skipn (Z.to_nat (column_start - 1))
                                     header_row)) "") ->
              dict_get
                (nth i (limit num_columns
                          (skipn (Z.to_nat (column_start - 1)) header_row))
                     "") d
              = Some (nth (Z.to_nat (column_start - 1) + i) row ""))
         (filter (fun row => Nat.ltb (Z.to_nat (column_start - 1))
                                     (List.length row))
                 (skipn (Z.to_nat (row_start - 1) + 1) all_values))
         result.
Proof.
  intros A V Rs Cs Nc Hd W.
  unfold get_worksheet, get_gspread_client, worksheet_values.
  unfold bind, try_except, emit, raise, ret. rewrite A, V.
  assert (C : (match all_values with [] => true | _ :: _ => false end
               || (Z.of_nat (List.length all_values) <=? row_start)%Z)
              = false).
  { destruct all_values; [cbn in Rs; lia |]. cbn [orb].
    apply Z.leb_gt. lia. }
  rewrite C.
  assert (R1 : (row_start <? 1)%Z = false) by (apply Z.ltb_ge; lia).
  assert (C1 : (column_start <? 1)%Z = false) by (apply Z.ltb_ge; lia).
  rewrite R1, C1, Hd.
  assert (W' : Nat.leb (List.length header_row)
                       (Z.to_nat (column_start - 1)) = false)
    by (apply Nat.leb_gt; exact W).
  rewrite W'. rewrite <- !app_assoc.
  eexists. eexists. split; [reflexivity |].
  now apply records_cells.
Qed.

End Worksheet.


(** X18 — with a number of columns that is not negative,
    [get_worksheet] returns one record for each row below the header row
    that reaches the first selected column, in the order of the rows.
    Under each selected header the record holds the cell of the row in
    that column, and the empty text where the row is too short; when
    several selected columns have the same name, it is the last of them
    whose cell is kept. *)
Theorem worksheet_cells
        (G : DataFetch.Sheets) spreadsheet_name worksheet_name
        row_start column_start num_columns all_values header_row j :
  DataFetch.authorize = None ->
  DataFetch.get_all_values spreadsheet_name worksheet_name
  = DataFetch.Done all_values ->
  (1 <= row_start < Z.of_nat (List.length all_values))%Z ->
  (1 <= column_start)%Z ->
  (0 <= num_columns)%Z ->
  let row_idx := Z.to_nat (row_start - 1) in
  let col_idx := Z.to_nat (column_start - 1) in
  nth_error all_values row_idx = Some header_row ->
  col_idx < List.length header_row ->
  let headers :=
    DataFetch.limit num_columns (skipn col_idx header_row) in
  exists result entries,
    DataFetch.get_worksheet spreadsheet_name worksheet_name
                            row_start column_start num_columns j
    = (DataFetch.Done result, (j ++ entries)%list)
    /\ Forall2
         (fun row d =>
            forall i,
              i < List.length headers ->
              (forall k, i < k < List.length headers ->
                         nth k headers "" <> nth i headers "") ->
              DataFetch.dict_get (nth i headers "") d
              = Some (nth (col_idx + i) row ""))
         (filter (fun row => Nat.ltb col_idx (List.length row))
                 (skipn (row_idx + 1) all_values))
         result.
Proof.
  intros A V Rs Cs Nc row_idx col_idx Hd W headers.
  now apply get_worksheet_cells.
Qed.

Lemma worksheet_cells_witness :
  exists result entries,
    DataFetch.get_worksheet (sheets := DataFetch.serving Sample.worksheet)
      "Budget" "2025" 1 2 2 []
    = (DataFetch.Done result, ([] ++ entries)%list)
    /\ Forall2
         (fun row d =>
            forall i,
              i < 2 ->
              (forall k, i < k < 2 ->
                         nth k ["CATEGORY"; "TYPE"] ""
                         <> nth i ["CATEGORY"; "TYPE"] "") ->
              DataFetch.dict_get (nth i ["CATEGORY"; "TYPE"] "") d
              = Some (nth (1 + i) row ""))
         [["2025-01-05"; "Salary"; "income"; "1,000 Kč"];
          ["2025-01-07"; "Rent"; "expense"; "-400"];
          ["2025-02-01"; "Savings"]]
         result.
Proof.
  apply (@worksheet_cells (DataFetch.serving Sample.worksheet)
           "Budget" "2025" 1 2 2 Sample.worksheet
           ["DATE"; "CATEGORY"; "TYPE"; "VALUE"] []
           eq_refl eq_refl ltac:(cbn; lia) ltac:(lia) ltac:(lia)
           eq_refl ltac:(cbn; lia)).
Defined.

(** X19 — a [row_start] or a [column_start] below one is
    read as one: the records are those of the call with the start at
    one. *)
Theorem worksheet_start_below_one
        (G : DataFetch.Sheets) spreadsheet_name worksheet_name
        row_start column_start num_columns j :
  fst (DataFetch.get_worksheet spreadsheet_name worksheet_name
                               row_start column_start num_columns j)
  = fst (DataFetch.get_worksheet spreadsheet_name worksheet_name
                                 (Z.max 1 row_start) (Z.max 1 column_start)
                                 num_columns j).
Proof. apply get_worksheet_clamped. Qed.

(* ================================================================== *)
(** ** The table of a worksheet *)

Section Ingestion.
Import Pd DataFetch.
Context {runtime : Runtime} {sheets : Sheets}.

Lemma bind_done (A B : Type) (m : IO A) (k : A -> IO B) j b j' :
  bind m k j = (Done b, j') ->
  exists a j1, m j = (Done a, j1) /\ k a j1 = (Done b, j').
Proof.
  unfold bind. destruct (m j) as [[a | e] j1]; [eauto | discriminate].
Qed.

Lemma ret_done (A : Type) (a b : A) j j' :
  ret a j = (Done b, j') -> b = a /\ j' = j.
Proof. unfold ret. intros E. injection E as <- <-. auto. Qed.

Lemma length_column_of j rows :
  List.length (column_of j rows) = List.length rows.
Proof. unfold column_of. apply length_map. Qed.

Lemma well_formed_built data_rows (headers : list string) :
  Spec.well_formed
    (mkDF (seq 0 (List.length data_rows))
          (map (fun j => (nth j headers "", column_of j data_rows))
               (seq 0 (width data_rows)))).
Proof.
  unfold Spec.well_formed, nrows. cbn [index columns].
  apply Forall_forall. intros col I. apply in_map_iff in I.
  destruct I as (j & <- & _). cbn [snd].
  now rewrite length_column_of, length_seq.
Qed.

Lemma names_built data_rows (headers : list string) :
  List.length headers = width data_rows ->
  column_names
    (mkDF (seq 0 (List.length data_rows))
          (map (fun j => (nth j headers "", column_of j data_rows))
               (seq 0 (width data_rows))))
  = headers.
Proof.
  intros <-. unfold column_names. cbn [columns]. rewrite map_map. cbn [fst].
  apply take_seq.
Qed.

Lemma nrows_set_all c s df : nrows (set_all c s df) = nrows df.
Proof. unfold set_all, nrows. now destruct (has_column c df). Qed.

Lemma well_formed_set_all c s df :
  Spec.well_formed df -> List.length s = nrows df ->
  Spec.well_formed (set_all c s df).
Proof.
  intros WF L. unfold Spec.well_formed. rewrite nrows_set_all.
  unfold Spec.well_formed in WF. unfold set_all.
  destruct (has_column c df); cbn [columns].
  - apply Forall_forall. intros col I. apply in_map_iff in I.
    destruct I as (col' & <- & I').
    rewrite Forall_forall in WF.
    destruct (String.eqb (fst col') c); [exact L | now apply WF].
  - apply Forall_app. split; [exact WF |]. now repeat constructor.
Qed.

Lemma names_set_all c s df :
  column_names (set_all c s df)
  = if has_column c df then column_names df
    else (column_names df ++ [c])%list.
Proof.
  unfold set_all, column_names. destruct (has_column c df); cbn [columns].
  - rewrite map_map. apply map_ext. intros col.
    now destruct (String.eqb (fst col) c).
  - now rewrite map_app.
Qed.

Lemma has_column_set_all c' c s df :
  has_column c' (set_all c s df)
  = has_column c' df || String.eqb c' c.
Proof.
  unfold has_column at 1. rewrite names_set_all.
  destruct (has_column c df) eqn:K.
  - fold (has_column c' df).
    destruct (String.eqb_spec c' c) as [-> | D];
      [now rewrite K | now rewrite orb_false_r].
  - rewrite existsb_app. cbn [existsb]. now rewrite orb_false_r.
Qed.

Lemma lookup_map_other c' c s cols :
  c' <> c ->
  lookup c' (map (fun col : string * Series =>
                    if String.eqb (fst col) c then (fst col, s) else col)
                 cols)
  = lookup c' cols.
Proof.
  intros D. induction cols as [| [n old] l IH]; [reflexivity |].
  cbn [map fst lookup]. destruct (String.eqb_spec n c) as [-> | E];
    cbn [lookup].
  - destruct (String.eqb_spec c c'); [congruence | exact IH].
  - now rewrite IH.
Qed.

Lemma lookup_app_known c cols extra s :
  lookup c cols = Some s -> lookup c (cols ++ extra) = Some s.
Proof.
  induction cols as [| [n old] l IH]; cbn; [discriminate |].
  now destruct (String.eqb n c).
Qed.

Lemma lookup_app_new c cols s :
  lookup c cols = None -> lookup c (cols ++ [(c, s)]) = Some s.
Proof.
  induction cols as [| [n old] l IH]; cbn.
  - now rewrite String.eqb_refl.
  - now destruct (String.eqb n c).
Qed.

Lemma lookup_known c df :
  has_column c df = false -> lookup c (columns df) = None.
Proof.
  intros K. destruct (lookup c (columns df)) eqn:L; [| reflexivity].
  apply lookup_has_column in L. congruence.
Qed.

Lemma lookup_set_all_same c s df :
  lookup c (columns (set_all c s df)) = Some s.
Proof.
  unfold set_all. destruct (has_column c df) eqn:K; cbn [columns].
  - unfold has_column, column_names in K.
    induction (columns df) as [| [n old] l IH]; [discriminate |].
    cbn [map fst existsb] in K. cbn [map fst lookup].
    rewrite (String.eqb_sym c n) in K.
    destruct (String.eqb n c) eqn:E; cbn [lookup].
    + now rewrite E.
    + rewrite E. now apply IH.
  - apply lookup_app_new. now apply lookup_known.
Qed.

Lemma lookup_set_all_other c' c s df :
  c' <> c -> lookup c' (columns (set_all c s df)) = lookup c' (columns df).
Proof.
  intros D. unfold set_all. destruct (has_column c df); cbn [columns].
  - now apply lookup_map_other.
  - destruct (lookup c' (columns df)) eqn:L.
    + now apply lookup_app_known.
    + induction (columns df) as [| [n old] l IH]; cbn in *.
      * destruct (String.eqb_spec c c'); congruence.
      * destruct (String.eqb n c'); [discriminate | now apply IH].
Qed.

(** What the loop over the expected fields keeps. *)
Lemma ensure_spec fields :
  forall df,
    Spec.well_formed df ->
    Spec.well_formed (ensure fields df)
    /\ nrows (ensure fields df) = nrows df
    /\ (forall c, has_column c (ensure fields df)
                  = has_column c df || existsb (String.eqb c) fields)
    /\ (forall c, has_column c df = true ->
                  lookup c (columns (ensure fields df))
                  = lookup c (columns df)).
Proof.
  induction fields as [| f fields IH]; intros df WF; cbn [ensure existsb].
  - repeat split; auto. intros c. now rewrite orb_false_r.
  - destruct (has_column f df) eqn:K; cbn [negb].
    + destruct (IH df WF) as (A & B & C & D). repeat split; auto.
      intros c. rewrite C.
      destruct (String.eqb_spec c f) as [-> | N];
        [now rewrite K | reflexivity].
    + assert (WF' : Spec.well_formed (set_scalar f (Str "") df)).
      { apply well_formed_set_all; [exact WF | apply repeat_length]. }
      destruct (IH _ WF') as (A & B & C & D).
      unfold set_scalar in *. rewrite nrows_set_all in B.
      repeat split; auto.
      * intros c. rewrite C, has_column_set_all. now rewrite orb_assoc.
      * intros c Kc. rewrite D.
        -- apply lookup_set_all_other. intros ->. congruence.
        -- rewrite has_column_set_all, Kc. reflexivity.
Qed.

Lemma text_column_inv c df s j j' :
  text_column c df j = (Done s, j') ->
  j' = j /\ lookup c (columns df) = Some s.
Proof.
  unfold text_column.
  assert (G : forall cols,
             match filter (fun col : string * Series => String.eqb (fst col) c)
                          cols with
             | [(_, s0)] => Some s0
             | _ => None
             end = Some s -> lookup c cols = Some s).
  { induction cols as [| [n old] l IH]; cbn; [discriminate |].
    destruct (String.eqb n c); [| exact IH].
    destruct (filter _ l); [congruence | discriminate]. }
  specialize (G (columns df)).
  destruct (filter _ (columns df)) as [| [n s0] [| x l]];
    cbn [raise ret]; intros [= <- <-] || intros [=].
  split; [reflexivity | now apply G].
Qed.

Lemma prefix_char c x r :
  String.prefix (String c "") (String x r) = Ascii.eqb c x.
Proof.
  cbn. destruct (ascii_dec c x) as [-> | D].
  - rewrite Ascii.eqb_refl. now destruct r.
  - symmetry. now apply Ascii.eqb_neq.
Qed.

Lemma replace_char c s :
  Py.replace (String c "") "" s
  = match s with
    | EmptyString => EmptyString
    | String x r =>
        if Ascii.eqb c x then Py.replace (String c "") "" r
        else String x (Py.replace (String c "") "" r)
    end.
Proof.
  destruct s as [| x r]; [reflexivity |].
  unfold Py.replace. cbn [Py.replace_from]. rewrite prefix_char.
  now destruct (Ascii.eqb c x).
Qed.

Lemma contains_char c s :
  Py.contains (String c "") s
  = match s with
    | EmptyString => false
    | String x r => Ascii.eqb c x || Py.contains (String c "") r
    end.
Proof.
  destruct s as [| x r]; [reflexivity |].
  cbn [Py.contains]. now rewrite prefix_char.
Qed.

(** Taking a character out of a text leaves none of it. *)
Lemma replace_char_absent c s :
  Py.contains (String c "") (Py.replace (String c "") "" s) = false.
Proof.
  induction s as [| x r IH]; [reflexivity |].
  rewrite replace_char. destruct (Ascii.eqb c x) eqn:E; [exact IH |].
  rewrite contains_char, E. exact IH.
Qed.

(** Taking a character out of a text brings no other character in. *)
Lemma replace_char_keeps c c' s :
  Py.contains (String c "") s = false ->
  Py.contains (String c "") (Py.replace (String c' "") "" s) = false.
Proof.
  induction s as [| x r IH]; [reflexivity |].
  rewrite contains_char. intros A. apply orb_false_elim in A.
  destruct A as [A B]. rewrite replace_char.
  destruct (Ascii.eqb c' x); [now apply IH |].
  rewrite contains_char, A. now apply IH.
Qed.

Lemma tidy_clean c : tidy (clean c).
Proof.
  unfold clean.
  assert (T : exists s, replace_value "" "0" (str_method Py.strip
                                                (astype_str c)) = Str s).
  { destruct c; cbn; try (destruct (String.eqb _ ""); eauto); eauto. }
  destruct T as [s ->]. cbn [str_method]. eexists. split; [reflexivity |].
  split.
  - apply replace_char_keeps, replace_char_absent.
  - apply replace_char_absent.
Qed.

Lemma numeric_not_nan c :
  exists x, numeric c = Num x /\ F64.is_nan x = false.
Proof.
  unfold numeric. destruct (F64.is_nan (to_numeric_coerce c)) eqn:N; eauto.
Qed.

Lemma numerics cs :
  exists xs, map numeric cs = map Num xs
             /\ Forall (fun x => F64.is_nan x = false) xs.
Proof.
  induction cs as [| c cs (xs & E & F)]; [now exists [] |].
  destruct (numeric_not_nan c) as (x & X & N).
  exists (x :: xs). cbn [map]. rewrite X, E. split; [reflexivity |].
  now constructor.
Qed.

Lemma shaped_complete headers row data_rows df j j' :
  bind (frame_of_rows (row :: data_rows) headers)
       (fun df =>
          bind (if has_column "VALUE" df then
                  bind (text_column "VALUE" df)
                       (fun s =>
                          ret (set_all "VALUE_NUMERIC"
                                       (map numeric (map clean s))
                                       (set_all "VALUE" (map clean s) df)))
                else
                  ret (set_scalar "VALUE_NUMERIC" (Num F64.zero)
                                  (set_scalar "VALUE" (Str "0") df)))
               (fun df => ret (ensure expected_fields df))) j
  = (Done df, j') ->
  j' = j /\ complete df /\ valued df.
Proof.
  unfold frame_of_rows.
  destruct (Nat.eqb (List.length headers) (width (row :: data_rows)));
    [| discriminate].
  set (df0 := mkDF _ _).
  assert (WF0 : Spec.well_formed df0) by apply well_formed_built.
  assert (N0 : nrows df0 = S (List.length data_rows))
    by (unfold nrows, df0; cbn [index]; apply length_seq).
  clearbody df0. unfold bind at 1. cbn [ret].
  assert (G : forall df1 vs xs,
             Spec.well_formed df1 -> nrows df1 = nrows df0 ->
             lookup "VALUE" (columns df1) = Some vs ->
             Forall tidy vs ->
             lookup "VALUE_NUMERIC" (columns df1) = Some (map Num xs) ->
             Forall (fun x => F64.is_nan x = false) xs ->
             complete (ensure expected_fields df1)
             /\ valued (ensure expected_fields df1)).
  { intros df1 vs xs WF1 N1 Lv T Ln NaN.
    destruct (ensure_spec expected_fields WF1) as (A & B & C & D).
    assert (V1 : has_column "VALUE" df1 = true)
      by (eapply lookup_has_column; eauto).
    assert (Vn : has_column "VALUE_NUMERIC" df1 = true)
      by (eapply lookup_has_column; eauto).
    split.
    - split; [lia | split; [exact A |]].
      repeat constructor; rewrite C; try (now rewrite V1);
        try (now rewrite Vn); cbn; now rewrite ?orb_true_r.
    - exists vs, xs. rewrite !D by assumption. auto. }
  destruct (has_column "VALUE" df0) eqn:V.
  - intros Run. apply bind_done in Run.
    destruct Run as (df1 & j1 & Run1 & Run2).
    apply bind_done in Run1. destruct Run1 as (s & j2 & Run1 & Run3).
    apply text_column_inv in Run1. destruct Run1 as [-> L].
    apply ret_done in Run3. destruct Run3 as [-> ->].
    apply ret_done in Run2. destruct Run2 as [-> ->].
    split; [reflexivity |].
    assert (Ls : List.length s = nrows df0).
    { apply (well_formed_length _ WF0 L). }
    destruct (numerics (map clean s)) as (xs & X & NaN).
    apply G with (vs := map clean s) (xs := xs).
    + apply well_formed_set_all; [apply well_formed_set_all |]; auto.
      * now rewrite length_map.
      * now rewrite nrows_set_all, !length_map.
    + now rewrite !nrows_set_all.
    + rewrite lookup_set_all_other by discriminate.
      apply lookup_set_all_same.
    + apply Forall_forall. intros c C. apply in_map_iff in C.
      destruct C as (c0 & <- & _). apply tidy_clean.
    + rewrite <- X. apply lookup_set_all_same.
    + exact NaN.
  - intros Run. apply bind_done in Run.
    destruct Run as (df1 & j1 & Run1 & Run2).
    apply ret_done in Run1. destruct Run1 as [-> ->].
    apply ret_done in Run2. destruct Run2 as [-> ->].
    split; [reflexivity |]. unfold set_scalar.
    eapply G with (xs := repeat F64.zero _).
    + apply well_formed_set_all; [apply well_formed_set_all |]; auto.
      * apply repeat_length.
      * now rewrite repeat_length, !nrows_set_all.
    + now rewrite !nrows_set_all.
    + rewrite lookup_set_all_other by discriminate.
      apply lookup_set_all_same.
    + apply Forall_forall. intros c C. apply repeat_spec in C. subst c.
      exists "0". repeat split; reflexivity.
    + rewrite map_repeat. apply lookup_set_all_same.
    + apply Forall_forall. intros x X. apply repeat_spec in X. now subst.
Qed.

Lemma quiet_ret (A : Type) (a : A) : quiet (ret a).
Proof. now intros j. Qed.

Lemma quiet_raise (A : Type) e : quiet (@raise A e).
Proof. now intros j. Qed.

Lemma quiet_bind (A B : Type) (m : IO A) (k : A -> IO B) :
  quiet m -> (forall a, quiet (k a)) -> quiet (bind m k).
Proof.
  intros Qm Qk j. unfold bind. specialize (Qm j).
  destruct (m j) as [[a | e] j1]; cbn [snd] in *; subst; [apply Qk | easy].
Qed.

Lemma quiet_text_column c df : quiet (text_column c df).
Proof.
  unfold text_column.
  destruct (filter _ (columns df)) as [| [n s0] [| x l]];
    auto using quiet_ret, quiet_raise.
Qed.

Lemma quiet_frame_of_rows data_rows headers :
  quiet (frame_of_rows data_rows headers).
Proof.
  unfold frame_of_rows. destruct (Nat.eqb _ _);
    auto using quiet_ret, quiet_raise.
Qed.

(** The table is built and complete, or an exception is raised; nothing
    is logged meanwhile. *)
Lemma shaped_outcome headers row data_rows j :
  let build :=
    bind (frame_of_rows (row :: data_rows) headers)
         (fun df =>
            bind (if has_column "VALUE" df then
                    bind (text_column "VALUE" df)
                         (fun s =>
                            ret (set_all "VALUE_NUMERIC"
                                         (map numeric (map clean s))
                                         (set_all "VALUE" (map clean s) df)))
                  else
                    ret (set_scalar "VALUE_NUMERIC" (Num F64.zero)
                                    (set_scalar "VALUE" (Str "0") df)))
                 (fun df => ret (ensure expected_fields df))) in
  (exists df, build j = (Done df, j) /\ complete df /\ valued df)
  \/ (exists e, build j = (Failed e, j)).
Proof.
  intros build.
  assert (Q : quiet build).
  { apply quiet_bind; [apply quiet_frame_of_rows |]. intros df.
    apply quiet_bind; [| intros; apply quiet_ret].
    destruct (has_column "VALUE" df); [| apply quiet_ret].
    apply quiet_bind; [apply quiet_text_column | intros; apply quiet_ret]. }
  specialize (Q j). destruct (build j) as [[df | e] j'] eqn:Run;
    cbn [snd] in Q; subst j'.
  - left. exists df. split; [reflexivity |].
    now apply (shaped_complete _ _ _ _ Run).
  - right. now exists e.
Qed.

Lemma map_seq_combine (A B : Type) (g : nat -> A) (f : nat -> B) n :
  map (fun j => (g j, f j)) (seq 0 n)
  = combine (map g (seq 0 n)) (map f (seq 0 n)).
Proof. induction (seq 0 n) as [| a l IH]; cbn; congruence. Qed.

Lemma built_columns (headers : list string) (f : nat -> Series) :
  map (fun j => (nth j headers "", f j)) (seq 0 (List.length headers))
  = combine headers (map f (seq 0 (List.length headers))).
Proof. rewrite map_seq_combine. f_equal. apply take_seq. Qed.

Lemma lookup_combine names :
  NoDup names ->
  forall (vs : list Series) i h,
    nth_error names i = Some h -> List.length names <= List.length vs ->
    lookup h (combine names vs) = Some (nth i vs []).
Proof.
  induction 1 as [| n names F N IH]; intros [| v vs] [| i] h E L;
    cbn in E, L; try discriminate; try lia.
  - injection E as <-. cbn. now rewrite String.eqb_refl.
  - cbn [combine lookup nth].
    destruct (String.eqb_spec n h) as [-> | D].
    + exfalso. apply F. eapply nth_error_In; eauto.
    + apply IH; [exact E | lia].
Qed.

Lemma filter_combine names :
  NoDup names ->
  forall (vs : list Series) i h,
    nth_error names i = Some h -> List.length names <= List.length vs ->
    filter (fun col : string * Series => String.eqb (fst col) h)
           (combine names vs)
    = [(h, nth i vs [])].
Proof.
  assert (Z : forall l (vs : list Series) h,
             ~ In h l ->
             filter (fun col : string * Series => String.eqb (fst col) h)
                    (combine l vs) = []).
  { intros l. induction l as [| n l IH]; intros [| v vs] h F; cbn;
      try reflexivity.
    destruct (String.eqb_spec n h) as [-> | D];
      [exfalso; apply F; now left |].
    apply IH. intros X. apply F. now right. }
  induction 1 as [| n names F N IH]; intros [| v vs] [| i] h E L;
    cbn in E, L; try discriminate; try lia.
  - injection E as <-. cbn. rewrite String.eqb_refl. f_equal.
    now apply Z.
  - cbn [combine filter fst nth].
    destruct (String.eqb_spec n h) as [-> | D].
    + exfalso. apply F. eapply nth_error_In; eauto.
    + apply IH; [exact E | lia].
Qed.

Lemma width_even (rows : list (list string)) n :
  rows <> [] -> Forall (fun r => List.length r = n) rows -> width rows = n.
Proof.
  unfold width. intros NE F.
  induction F as [| r rows E F IH]; [congruence |].
  cbn [map fold_right]. destruct rows as [| r' rows'].
  - cbn. lia.
  - rewrite IH by discriminate. lia.
Qed.

Lemma column_of_full i (rows : list (list string)) :
  Forall (fun r => i < List.length r) rows ->
  column_of i rows = map (fun r => Str (nth i r "")) rows.
Proof.
  intros F. unfold column_of. apply map_ext_in. intros r I.
  rewrite Forall_forall in F. specialize (F r I).
  destruct (nth_error r i) eqn:E.
  - now rewrite (nth_error_nth _ _ _ E).
  - apply nth_error_None in E. lia.
Qed.

Lemma nth_map_seq (A : Type) (f : nat -> A) (d : A) n i :
  i < n -> nth i (map f (seq 0 n)) d = f i.
Proof.
  intros I.
  rewrite (nth_indep _ d (f 0)) by now rewrite length_map, length_seq.
  rewrite map_nth. now rewrite seq_nth.
Qed.

Lemma has_column_In c df : has_column c df = true <-> In c (column_names df).
Proof.
  unfold has_column. rewrite existsb_exists. split.
  - intros (x & X & E). apply String.eqb_eq in E. now subst.
  - intros I. exists c. split; [exact I | apply String.eqb_refl].
Qed.

(** A field the loop adds. *)
Lemma ensure_adds f fields :
  In f fields ->
  forall df,
    Spec.well_formed df -> has_column f df = false ->
    lookup f (columns (ensure fields df))
    = Some (repeat (Str "") (nrows df)).
Proof.
  induction fields as [| g fields IH]; intros I df WF K; [destruct I |].
  cbn [ensure]. destruct (String.eqb_spec f g) as [<- | D].
  - rewrite K. cbn [negb].
    assert (WF' : Spec.well_formed (set_scalar f (Str "") df)).
    { apply well_formed_set_all; [exact WF | apply repeat_length]. }
    destruct (ensure_spec fields WF') as (_ & _ & _ & Keep).
    rewrite Keep.
    + apply lookup_set_all_same.
    + unfold set_scalar. rewrite has_column_set_all, String.eqb_refl.
      apply orb_true_r.
  - destruct I as [-> | I]; [congruence |].
    destruct (has_column g df) eqn:Kg; cbn [negb]; [now apply IH |].
    rewrite IH; auto.
    + unfold set_scalar. now rewrite nrows_set_all.
    + apply well_formed_set_all; [exact WF | apply repeat_length].
    + unfold set_scalar. rewrite has_column_set_all, K.
      now apply String.eqb_neq.
Qed.

(** The table of a worksheet whose rows are all as long as its header
    row and whose names are all different. *)
Lemma built_table headers row data_rows j :
  NoDup headers ->
  Forall (fun r => List.length r = List.length headers) (row :: data_rows) ->
  exists df,
    bind (frame_of_rows (row :: data_rows) headers)
         (fun df =>
            bind (if has_column "VALUE" df then
                    bind (text_column "VALUE" df)
                         (fun s =>
                            ret (set_all "VALUE_NUMERIC"
                                         (map numeric (map clean s))
                                         (set_all "VALUE" (map clean s) df)))
                  else
                    ret (set_scalar "VALUE_NUMERIC" (Num F64.zero)
                                    (set_scalar "VALUE" (Str "0") df)))
                 (fun df => ret (ensure expected_fields df))) j
    = (Done df, j)
    /\ nrows df = S (List.length data_rows)
    /\ (forall i h,
           nth_error headers i = Some h ->
           h <> "VALUE" -> h <> "VALUE_NUMERIC" ->
           lookup h (columns df)
           = Some (map (fun r => Str (nth i r "")) (row :: data_rows)))
    /\ (forall i,
           nth_error headers i = Some "VALUE" ->
           lookup "VALUE" (columns df)
           = Some (map (fun r => clean (Str (nth i r "")))
                       (row :: data_rows))
           /\ lookup "VALUE_NUMERIC" (columns df)
              = Some (map (fun r => numeric (clean (Str (nth i r ""))))
                          (row :: data_rows)))
    /\ (~ In "VALUE" headers ->
        lookup "VALUE" (columns df)
        = Some (repeat (Str "0") (S (List.length data_rows)))
        /\ lookup "VALUE_NUMERIC" (columns df)
           = Some (repeat (Num F64.zero) (S (List.length data_rows))))
    /\ (forall f,
           In f expected_fields -> ~ In f headers ->
           lookup f (columns df)
           = Some (repeat (Str "") (S (List.length data_rows)))).
Proof.
  intros N Even.
  assert (W : width (row :: data_rows) = List.length headers)
    by (apply width_even; [discriminate | exact Even]).
  unfold frame_of_rows. rewrite W, Nat.eqb_refl.
  rewrite (built_columns headers (fun j => column_of j (row :: data_rows))).
  set (rows := row :: data_rows) in *.
  set (cols := map (fun j => column_of j rows)
                   (seq 0 (List.length headers))).
  set (df0 := mkDF (seq 0 (List.length rows)) (combine headers cols)).
  assert (Lc' : List.length headers = List.length cols)
    by (unfold cols; now rewrite length_map, length_seq).
  assert (Lc : List.length headers <= List.length cols) by lia.
  assert (WF0 : Spec.well_formed df0).
  { unfold Spec.well_formed, nrows, df0. cbn [index columns].
    apply Forall_forall. intros [n s] I. apply in_combine_r in I.
    unfold cols in I. apply in_map_iff in I. destruct I as (k & <- & _).
    cbn [snd]. now rewrite length_column_of, length_seq. }
  assert (N0 : nrows df0 = S (List.length data_rows))
    by (unfold nrows, df0; cbn [index]; apply length_seq).
  assert (Names : column_names df0 = headers).
  { unfold column_names, df0. cbn [columns].
    now apply map_fst_combine. }
  assert (Column : forall i,
             i < List.length headers ->
             nth i cols [] = map (fun r => Str (nth i r "")) rows).
  { intros i I. unfold cols. rewrite nth_map_seq by exact I.
    apply column_of_full.
    eapply Forall_impl; [| exact Even]. cbn. intros r ->. exact I. }
  assert (Cell : forall i h,
             nth_error headers i = Some h ->
             lookup h (columns df0)
             = Some (map (fun r => Str (nth i r "")) rows)).
  { intros i h E. unfold df0. cbn [columns].
    rewrite (lookup_combine N _ _ E Lc). f_equal. apply Column.
    apply nth_error_Some. congruence. }
  assert (Single : forall i h,
             nth_error headers i = Some h ->
             filter (fun col : string * Series => String.eqb (fst col) h)
                    (columns df0)
             = [(h, map (fun r => Str (nth i r "")) rows)]).
  { intros i h E. unfold df0. cbn [columns].
    rewrite (filter_combine N _ _ E Lc). do 2 f_equal. apply Column.
    apply nth_error_Some. congruence. }
  assert (Absent : forall c, ~ In c headers -> has_column c df0 = false).
  { intros c F. apply Bool.not_true_iff_false. intros K.
    apply has_column_In in K. now rewrite Names in K. }
  assert (Present : forall c, In c headers -> has_column c df0 = true).
  { intros c F. apply has_column_In. now rewrite Names. }
  clearbody df0. unfold bind at 1. cbn [ret].
  destruct (in_dec string_dec "VALUE" headers) as [V | V].
  - destruct (In_nth_error _ _ V) as [iv Ev].
    rewrite (Present _ V).
    set (vs := map clean (map (fun r => Str (nth iv r "")) rows)).
    set (df2 := set_all "VALUE_NUMERIC" (map numeric vs)
                        (set_all "VALUE" vs df0)).
    assert (WF2 : Spec.well_formed df2).
    { unfold df2, vs.
      apply well_formed_set_all; [apply well_formed_set_all |]; auto.
      - rewrite !length_map. now rewrite N0.
      - rewrite nrows_set_all, !length_map. now rewrite N0. }
    assert (N2 : nrows df2 = S (List.length data_rows))
      by (unfold df2; now rewrite !nrows_set_all).
    destruct (ensure_spec expected_fields WF2) as (_ & Rows & Has & Keep).
    exists (ensure expected_fields df2).
    split; [| split; [| split; [| split; [| split]]]].
    + unfold bind, text_column. rewrite (Single _ _ Ev). reflexivity.
    + now rewrite Rows.
    + intros i h E D1 D2. rewrite Keep.
      * unfold df2. rewrite !lookup_set_all_other by congruence.
        now apply Cell.
      * unfold df2. rewrite !has_column_set_all.
        rewrite (Present h) by (eapply nth_error_In; eauto). reflexivity.
    + intros i E.
      assert (i = iv).
      { eapply (proj1 (NoDup_nth_error headers) N); [| congruence].
        apply nth_error_Some. congruence. }
      subst i. rewrite !Keep.
      * unfold df2. rewrite lookup_set_all_same.
        rewrite lookup_set_all_other by discriminate.
        rewrite lookup_set_all_same. unfold vs. rewrite !map_map.
        split; reflexivity.
      * unfold df2. rewrite !has_column_set_all.
        cbn [String.eqb Ascii.eqb Bool.eqb]. rewrite ?orb_true_r.
        reflexivity.
      * unfold df2. rewrite !has_column_set_all.
        cbn [String.eqb Ascii.eqb Bool.eqb]. rewrite ?orb_true_r.
        reflexivity.
    + intros F. contradiction.
    + intros f I F. rewrite ensure_adds; auto; [now rewrite N2 |].
      unfold df2. rewrite !has_column_set_all, (Absent _ F).
      unfold expected_fields in I. cbn in I.
      repeat (destruct I as [<- | I]; [reflexivity |]). destruct I.
  - rewrite (Absent _ V). unfold set_scalar.
    set (df2 := set_all "VALUE_NUMERIC" _ (set_all "VALUE" _ df0)).
    assert (WF2 : Spec.well_formed df2).
    { unfold df2.
      apply well_formed_set_all; [apply well_formed_set_all |]; auto.
      - apply repeat_length.
      - now rewrite repeat_length, !nrows_set_all. }
    assert (N2 : nrows df2 = S (List.length data_rows))
      by (unfold df2; now rewrite !nrows_set_all).
    destruct (ensure_spec expected_fields WF2) as (_ & Rows & Has & Keep).
    exists (ensure expected_fields df2).
    split; [| split; [| split; [| split; [| split]]]].
    + reflexivity.
    + now rewrite Rows.
    + intros i h E D1 D2. rewrite Keep.
      * unfold df2. rewrite !lookup_set_all_other by congruence.
        now apply Cell.
      * unfold df2. rewrite !has_column_set_all.
        rewrite (Present h) by (eapply nth_error_In; eauto). reflexivity.
    + intros i E. exfalso. apply V. eapply nth_error_In; eauto.
    + intros _. rewrite !Keep.
      * unfold df2. rewrite lookup_set_all_same.
        rewrite lookup_set_all_other by discriminate.
        rewrite lookup_set_all_same. rewrite nrows_set_all, N0.
        split; reflexivity.
      * unfold df2. rewrite !has_column_set_all.
        cbn [String.eqb Ascii.eqb Bool.eqb]. rewrite ?orb_true_r.
        reflexivity.
      * unfold df2. rewrite !has_column_set_all.
        cbn [String.eqb Ascii.eqb Bool.eqb]. rewrite ?orb_true_r.
        reflexivity.
    + intros f I F. rewrite ensure_adds; auto; [now rewrite N2 |].
      unfold df2. rewrite !has_column_set_all, (Absent _ F).
      unfold expected_fields in I. cbn in I.
      repeat (destruct I as [<- | I]; [reflexivity |]). destruct I.
Qed.

Lemma bind_def (A B : Type) (m : IO A) (k : A -> IO B) j :
  bind m k j
  = match m j with
    | (Done a, j') => k a j'
    | (Failed e, j') => (Failed e, j')
    end.
Proof. reflexivity. Qed.

Lemma bind_emit (B : Type) l msg (k : unit -> IO B) j :
  bind (emit l msg) k j = k tt (j ++ [(l, msg)])%list.
Proof. reflexivity. Qed.

Lemma client_outcome j :
  get_gspread_client j
  = match authorize with
    | None => (Done tt, j)
    | Some e =>
        (Failed e,
         (j ++ [(ERROR,
                 ("Failed to get gspread client: " ++ e)%string)])%list)
    end.
Proof. unfold get_gspread_client. now destruct authorize. Qed.

Lemma values_outcome spreadsheet_name worksheet_name j :
  worksheet_values spreadsheet_name worksheet_name j
  = (get_all_values spreadsheet_name worksheet_name, j).
Proof.
  unfold worksheet_values.
  now destruct (get_all_values spreadsheet_name worksheet_name).
Qed.

(** [get_transactions] always returns.  It returns the empty table and
    logs a warning or an error, or it returns a complete table and logs
    information only. *)
Lemma get_transactions_outcome spreadsheet_name worksheet_name j :
  exists df entries,
    get_transactions spreadsheet_name worksheet_name j
    = (Done df, (j ++ entries)%list)
    /\ ((df = mkDF [] []
         /\ exists l msg, In (l, msg) entries /\ l <> INFO)
        \/ (complete df /\ valued df
            /\ Forall (fun e => fst e = INFO) entries)).
Proof.
  assert (Failure : forall (entries : journal) l msg,
             In (l, msg) entries -> l <> INFO ->
             exists df entries',
               (@Done DataFrame (mkDF [] []), (j ++ entries)%list)
               = (Done df, (j ++ entries')%list)
               /\ ((df = mkDF [] []
                    /\ exists l msg, In (l, msg) entries' /\ l <> INFO)
                   \/ (complete df /\ valued df
                       /\ Forall (fun e => fst e = INFO) entries'))).
  { intros entries l msg I N. exists (mkDF [] []), entries.
    split; [reflexivity | left]. split; [reflexivity |]. eauto. }
  unfold get_transactions. rewrite bind_emit. unfold try_except.
  rewrite bind_def, client_outcome.
  destruct authorize as [e |].
  - rewrite bind_emit. cbn [ret]. rewrite <- !app_assoc.
    eapply Failure with (l := ERROR); [| discriminate].
    apply in_or_app. right. cbn. right. left. reflexivity.
  - rewrite bind_emit, bind_def, values_outcome.
    destruct (get_all_values spreadsheet_name worksheet_name)
      as [all_values | e].
    + rewrite bind_emit.
      destruct all_values as [| headers [| row data_rows]].
      * rewrite !bind_emit. cbn [ret]. rewrite <- !app_assoc.
        eapply Failure with (l := WARNING); [| discriminate].
        cbn. do 3 right. left. reflexivity.
      * rewrite !bind_emit. cbn [ret]. rewrite <- !app_assoc.
        eapply Failure with (l := WARNING); [| discriminate].
        cbn. do 3 right. left. reflexivity.
      * rewrite !bind_emit.
        match goal with
        | |- context [bind (frame_of_rows _ _) ?k ?j1] =>
            destruct (shaped_outcome headers row data_rows j1)
              as [(df & Run & C & V) | (e & Run)]; rewrite Run
        end.
        -- exists df. eexists. rewrite <- !app_assoc.
           split; [reflexivity | right].
           split; [exact C | split; [exact V |]].
           repeat constructor.
        -- rewrite bind_emit. cbn [ret]. rewrite <- !app_assoc.
           eapply Failure with (l := ERROR); [| discriminate].
           cbn. do 5 right. left. reflexivity.
    + rewrite bind_emit. cbn [ret]. rewrite <- !app_assoc.
      eapply Failure with (l := ERROR); [| discriminate].
      cbn. do 2 right. left. reflexivity.
Qed.

Lemma count_filter_combine c (names : list string) :
  forall vs : list Series,
    List.length names <= List.length vs ->
    List.length
      (filter (fun col : string * Series => String.eqb (fst col) c)
              (combine names vs))
    = count_occ string_dec names c.
Proof.
  induction names as [| n names IH]; intros [| v vs] L; cbn in *;
    try reflexivity; try lia.
  destruct (String.eqb_spec n c) as [-> | D].
  - destruct (string_dec c c); [| congruence]. cbn. rewrite IH; lia.
  - destruct (string_dec n c); [congruence |]. apply IH. lia.
Qed.

(** The ways [get_transactions] comes back with nothing. *)
Lemma get_transactions_fails spreadsheet_name worksheet_name j :
  (forall e, authorize = Some e ->
             fst (get_transactions spreadsheet_name worksheet_name j)
             = Done (mkDF [] []))
  /\ (forall e,
         get_all_values spreadsheet_name worksheet_name = Failed e ->
         fst (get_transactions spreadsheet_name worksheet_name j)
         = Done (mkDF [] []))
  /\ (forall all_values,
         get_all_values spreadsheet_name worksheet_name = Done all_values ->
         List.length all_values <= 1 ->
         fst (get_transactions spreadsheet_name worksheet_name j)
         = Done (mkDF [] []))
  /\ (forall headers row data_rows,
         get_all_values spreadsheet_name worksheet_name
         = Done (headers :: row :: data_rows) ->
         List.length headers <> width (row :: data_rows) ->
         fst (get_transactions spreadsheet_name worksheet_name j)
         = Done (mkDF [] []))
  /\ (forall headers row data_rows,
         get_all_values spreadsheet_name worksheet_name
         = Done (headers :: row :: data_rows) ->
         1 < count_occ string_dec headers "VALUE" ->
         fst (get_transactions spreadsheet_name worksheet_name j)
         = Done (mkDF [] [])).
Proof.
  unfold get_transactions. rewrite bind_emit. unfold try_except.
  rewrite bind_def, client_outcome.
  split; [| split; [| split; [| split]]].
  - intros e ->. reflexivity.
  - intros e V. destruct authorize; [reflexivity |].
    rewrite bind_emit, bind_def, values_outcome, V. reflexivity.
  - intros all_values V L. destruct authorize; [reflexivity |].
    rewrite bind_emit, bind_def, values_outcome, V.
    destruct all_values as [| headers [| row data_rows]];
      [reflexivity | reflexivity | cbn in L; lia].
  - intros headers row data_rows V L. destruct authorize; [reflexivity |].
    rewrite bind_emit, bind_def, values_outcome, V. rewrite !bind_emit.
    rewrite bind_def. unfold frame_of_rows at 1.
    apply Nat.eqb_neq in L. rewrite L. reflexivity.
  - intros headers row data_rows V L. destruct authorize; [reflexivity |].
    rewrite bind_emit, bind_def, values_outcome, V. rewrite !bind_emit.
    rewrite bind_def. unfold frame_of_rows at 1.
    destruct (Nat.eqb_spec (List.length headers) (width (row :: data_rows)))
      as [W | W]; [| reflexivity].
    cbn [ret]. rewrite <- W.
    rewrite (built_columns headers
               (fun j => column_of j (row :: data_rows))).
    set (cols := map _ (seq 0 (List.length headers))).
    assert (Lc : List.length headers = List.length cols)
      by (unfold cols; now rewrite length_map, length_seq).
    set (df0 := mkDF _ (combine headers cols)).
    assert (K : has_column "VALUE" df0 = true).
    { apply has_column_In. unfold column_names, df0. cbn [columns].
      rewrite map_fst_combine by exact Lc.
      apply (count_occ_In string_dec). lia. }
    assert (T : exists e, text_column "VALUE" df0
                          = raise e).
    { unfold text_column, df0. cbn [columns].
      pose proof (@count_filter_combine "VALUE" headers cols) as C.
      rewrite <- C in L by lia.
      destruct (filter _ (combine headers cols)) as [| [n s] [| x l]];
        cbn [List.length] in L; try lia; eauto. }
    destruct T as [e T].
    rewrite bind_def, K, bind_def, T. reflexivity.
Qed.

(** [get_transactions] on a worksheet whose rows are all as long as its
    header row and whose names are all different. *)
Lemma get_transactions_cells spreadsheet_name worksheet_name
      headers row data_rows j :
  authorize = None ->
  get_all_values spreadsheet_name worksheet_name
  = Done (headers :: row :: data_rows) ->
  NoDup headers ->
  Forall (fun r => List.length r = List.length headers) (row :: data_rows) ->
  exists df entries,
    get_transactions spreadsheet_name worksheet_name j
    = (Done df, (j ++ entries)%list)
    /\ nrows df = S (List.length data_rows)
    /\ (forall i h,
           nth_error headers i = Some h ->
           h <> "VALUE" -> h <> "VALUE_NUMERIC" ->
           lookup h (columns df)
           = Some (map (fun r => Str (nth i r "")) (row :: data_rows)))
    /\ (forall i,
           nth_error headers i = Some "VALUE" ->
           lookup "VALUE" (columns df)
           = Some (map (fun r => clean (Str (nth i r "")))
                       (row :: data_rows))
           /\ lookup "VALUE_NUMERIC" (columns df)
              = Some (map (fun r => numeric (clean (Str (nth i r ""))))
                          (row :: data_rows)))
    /\ (~ In "VALUE" headers ->
        lookup "VALUE" (columns df)
        = Some (repeat (Str "0") (S (List.length data_rows)))
        /\ lookup "VALUE_NUMERIC" (columns df)
           = Some (repeat (Num F64.zero) (S (List.length data_rows))))
    /\ (forall f,
           In f expected_fields -> ~ In f headers ->
           lookup f (columns df)
           = Some (repeat (Str "") (S (List.length data_rows)))).
Proof.
  intros A V N Even.
  unfold get_transactions. rewrite bind_emit. unfold try_except.
  rewrite bind_def, client_outcome, A.
  rewrite bind_emit, bind_def, values_outcome, V. rewrite !bind_emit.
  match goal with
  | |- context [bind (frame_of_rows _ _) ?k ?j1] =>
      destruct (@built_table headers row data_rows j1 N Even)
        as (df & Run & Rest); rewrite Run
  end.
  exists df. eexists. rewrite <- !app_assoc. split; [reflexivity |].
  exact Rest.
Qed.

End Ingestion.

(** X12 — [get_transactions] never raises.  Either it returns
    the empty table and has logged a warning or an error, or it has logged
    information only and returns a table with at least one row, every
    column as long as the index, and the columns [VALUE], [VALUE_NUMERIC],
    [DATE], [DESCRIPTION], [CATEGORY], [ACCOUNT], [TYPE] and [MONTH]. *)
Theorem fetched_table_or_nothing
        (R : Pd.Runtime) (G : DataFetch.Sheets)
        spreadsheet_name worksheet_name j :
  exists df entries,
    DataFetch.get_transactions spreadsheet_name worksheet_name j
    = (DataFetch.Done df, (j ++ entries)%list)
    /\ ((df = Pd.mkDF [] []
         /\ exists l msg, In (l, msg) entries /\ l <> DataFetch.INFO)
        \/ (DataFetch.complete df
            /\ Forall (fun e => fst e = DataFetch.INFO) entries)).
Proof.
  destruct (get_transactions_outcome spreadsheet_name worksheet_name j)
    as (df & entries & Run & [F | (C & _ & I)]);
    exists df, entries; (split; [exact Run |]); [left | right]; auto.
Qed.

(** X14 — in the table [get_transactions] returns, when it is
    not the empty one, the column [VALUE] holds texts without a comma and
    without a space, and the column [VALUE_NUMERIC] holds numbers, none of
    them NaN. *)
Theorem fetched_values
        (R : Pd.Runtime) (G : DataFetch.Sheets)
        spreadsheet_name worksheet_name j :
  exists df,
    fst (DataFetch.get_transactions spreadsheet_name worksheet_name j)
    = DataFetch.Done df
    /\ (df = Pd.mkDF [] [] \/ DataFetch.valued df).
Proof.
  destruct (get_transactions_outcome spreadsheet_name worksheet_name j)
    as (df & entries & Run & [[F _] | (_ & V & _)]);
    exists df; rewrite Run; (split; [reflexivity |]); [left | right]; auto.
Qed.

(** X13 — for a worksheet with a client, a header row of
    different names and at least one row below it, all rows as long as
    the header row, [get_transactions] returns a table with one row for
    each data row.  Under each name other than [VALUE] and
    [VALUE_NUMERIC] it holds the cells of that column as they are; under
    [VALUE] the cleaned cells of that column and under [VALUE_NUMERIC]
    their numbers, or ['0'] and [0.0] when no column is named [VALUE];
    and under each expected field that is no name of the worksheet, the
    empty text. *)
Theorem fetched_cells
        (R : Pd.Runtime) (G : DataFetch.Sheets)
        spreadsheet_name worksheet_name headers row data_rows j :
  DataFetch.authorize = None ->
  DataFetch.get_all_values spreadsheet_name worksheet_name
  = DataFetch.Done (headers :: row :: data_rows) ->
  NoDup headers ->
  Forall (fun r => List.length r = List.length headers) (row :: data_rows) ->
  exists df entries,
    DataFetch.get_transactions spreadsheet_name worksheet_name j
    = (DataFetch.Done df, (j ++ entries)%list)
    /\ Pd.nrows df = S (List.length data_rows)
    /\ (forall i h,
           nth_error headers i = Some h ->
           h <> "VALUE" -> h <> "VALUE_NUMERIC" ->
           Pd.lookup h (Pd.columns df)
           = Some (map (fun r => Pd.Str (nth i r "")) (row :: data_rows)))
    /\ (forall i,
           nth_error headers i = Some "VALUE" ->
           Pd.lookup "VALUE" (Pd.columns df)
           = Some (map (fun r => DataFetch.clean (Pd.Str (nth i r "")))
                       (row :: data_rows))
           /\ Pd.lookup "VALUE_NUMERIC" (Pd.columns df)
              = Some (map (fun r =>
                             DataFetch.numeric
                               (DataFetch.clean (Pd.Str (nth i r ""))))
                          (row :: data_rows)))
    /\ (~ In "VALUE" headers ->
        Pd.lookup "VALUE" (Pd.columns df)
        = Some (repeat (Pd.Str "0") (S (List.length data_rows)))
        /\ Pd.lookup "VALUE_NUMERIC" (Pd.columns df)
           = Some (repeat (Pd.Num F64.zero) (S (List.length data_rows))))
    /\ (forall f,
           In f DataFetch.expected_fields -> ~ In f headers ->
           Pd.lookup f (Pd.columns df)
           = Some (repeat (Pd.Str "") (S (List.length data_rows)))).
Proof. intros A V N Even. now apply get_transactions_cells. Qed.

Lemma fetched_cells_witness :
  exists df entries,
    DataFetch.get_transactions
      (runtime := Fragment.runtime)
      (sheets := DataFetch.serving Sample.ledger) "Budget" "2025" []
    = (DataFetch.Done df, ([] ++ entries)%list)
    /\ Pd.nrows df = 2
    /\ Pd.lookup "CATEGORY" (Pd.columns df)
       = Some [Pd.Str "Salary"; Pd.Str "Rent"]
    /\ Pd.lookup "VALUE" (Pd.columns df)
       = Some [Pd.Str "1000"; Pd.Str "-400"]
    /\ Pd.lookup "VALUE_NUMERIC" (Pd.columns df)
       = Some [Pd.Num (F64.of_Z 1000); Pd.Num (F64.of_Z (-400))]
    /\ Pd.lookup "TYPE" (Pd.columns df) = Some [Pd.Str ""; Pd.Str ""].
Proof.
  destruct (@fetched_cells Fragment.runtime (DataFetch.serving Sample.ledger)
              "Budget" "2025" ["DATE"; "CATEGORY"; "VALUE"]
              ["2025-01-05"; "Salary"; " 1,000 Kč"]
              [["2025-01-07"; "Rent"; "-400"]] []
              eq_refl eq_refl
              ltac:(repeat constructor; cbn; intuition discriminate)
              ltac:(repeat constructor))
    as (df & entries & Run & Rows & Cells & Values & _ & Fields).
  exists df, entries. split; [exact Run |]. split; [exact Rows |].
  split; [| split; [| split]].
  - apply (Cells 1 "CATEGORY" eq_refl); discriminate.
  - apply (proj1 (Values 2 eq_refl)).
  - apply (proj2 (Values 2 eq_refl)).
  - apply (Fields "TYPE").
    + cbn. tauto.
    + cbn. intuition discriminate.
Defined.

(** X15 — [get_transactions] returns the empty table, without
    rows and without columns, when the client is refused, when the
    worksheet cannot be read, when the worksheet has no row below its
    first, when the number of names in the first row is not the length of
    the longest row below it, and when two columns are named [VALUE]. *)
Theorem fetch_failures
        (R : Pd.Runtime) (G : DataFetch.Sheets)
        spreadsheet_name worksheet_name j :
  (forall e, DataFetch.authorize = Some e ->
             fst (DataFetch.get_transactions spreadsheet_name worksheet_name
                                             j)
             = DataFetch.Done (Pd.mkDF [] []))
  /\ (forall e,
         DataFetch.get_all_values spreadsheet_name worksheet_name
         = DataFetch.Failed e ->
         fst (DataFetch.get_transactions spreadsheet_name worksheet_name j)
         = DataFetch.Done (Pd.mkDF [] []))
  /\ (forall all_values,
         DataFetch.get_all_values spreadsheet_name worksheet_name
         = DataFetch.Done all_values ->
         List.length all_values <= 1 ->
         fst (DataFetch.get_transactions spreadsheet_name worksheet_name j)
         = DataFetch.Done (Pd.mkDF [] []))
  /\ (forall headers row data_rows,
         DataFetch.get_all_values spreadsheet_name worksheet_name
         = DataFetch.Done (headers :: row :: data_rows) ->
         List.length headers <> DataFetch.width (row :: data_rows) ->
         fst (DataFetch.get_transactions spreadsheet_name worksheet_name j)
         = DataFetch.Done (Pd.mkDF [] []))
  /\ (forall headers row data_rows,
         DataFetch.get_all_values spreadsheet_name worksheet_name
         = DataFetch.Done (headers :: row :: data_rows) ->
         1 < count_occ string_dec headers "VALUE" ->
         fst (DataFetch.get_transactions spreadsheet_name worksheet_name j)
         = DataFetch.Done (Pd.mkDF [] [])).
Proof. apply get_transactions_fails. Qed.

Lemma fetch_failures_witness :
  fst (DataFetch.get_transactions
         (runtime := Fragment.runtime)
         (sheets := DataFetch.serving Sample.two_values) "Budget" "2025" [])
  = DataFetch.Done (Pd.mkDF [] []).
Proof.
  apply (proj2 (proj2 (proj2 (proj2
           (@fetch_failures Fragment.runtime
              (DataFetch.serving Sample.two_values) "Budget" "2025" []))))
           ["VALUE"; "CATEGORY"; "VALUE"] ["1000"; "Salary"; "1000"] []
           eq_refl).
  cbn. lia.
Defined.

(* ================================================================== *)
(** ** From the worksheet to the engine *)


(* ================================================================== *)
(** ** One unreadable value *)

Section Unreadable.
Import Pd Exec Analysis.
Context `{Runtime}.

Lemma sum_expenses_raises st r t vs expense_cats month :
  nth_error (heap st) r = Some t ->
  Spec.column "VALUE" t = Some vs ->
  Spec.all_some (map Spec.normalize vs) = None ->
  raises (sum_expenses_by_category r expense_cats month) st ValueError.
Proof.
  intros E Lv N. unfold sum_expenses_by_category.
  apply raises_bind. run_step.
  apply raises_bind. eapply returns_getitem; [on_last | exact Lv |].
  apply raises_bind. run_step.
  apply raises_bind.
  eapply returns_getitem; [on_last | apply lookup_assign_same |].
  apply raises_here. now apply raises_to_numeric.
Qed.

Lemma metric_raises st r t vs k1 k2 k3 k4 (b : bool) (A B : Type)
      (g : F64.float -> F64.float -> A) (f : A -> M B) :
  nth_error (heap st) r = Some t ->
  is_empty t = false ->
  Spec.column "VALUE" t = Some vs ->
  Spec.all_some (map Spec.normalize vs) = None ->
  raises
    (bind (if b then
             bind (sum_values_by_criteria r "VALUE" k1)
                  (fun total_income =>
                     bind (sum_values_by_criteria r "VALUE" k2)
                          (fun total_expenses =>
                             ret (g total_income total_expenses)))
           else
             bind (sum_values_by_criteria r "VALUE" k3)
                  (fun total_income =>
                     bind (sum_values_by_criteria r "VALUE" k4)
                          (fun total_expenses =>
                             ret (g total_income total_expenses))))
          f)
    st ValueError.
Proof.
  intros E Em Lv N. apply raises_here.
  destruct b; apply raises_here;
    eapply raises_on_malformed_value; eauto.
Qed.

End Unreadable.

(** X6 — one value of the table that is not a number, in any
    row, makes [compute_cashflow], [compute_profit],
    [calculate_expense_ratio] and [sum_expenses_by_category] raise
    [ValueError], whatever the categories and the month: the values of all
    rows are read before any row is left out. *)
Theorem one_unreadable_value (R : Pd.Runtime) st r t vs :
  nth_error (Pd.heap st) r = Some t ->
  Pd.is_empty t = false ->
  Spec.column "VALUE" t = Some vs ->
  Spec.all_some (map Spec.normalize vs) = None ->
  (forall inc exp sav inv month,
      Exec.raises (Analysis.compute_cashflow r inc exp sav inv month) st
                  Pd.ValueError)
  /\ (forall inc exp month,
         Exec.raises (Analysis.compute_profit r inc exp month) st
                     Pd.ValueError)
  /\ (forall inc exp month,
         Exec.raises (Analysis.calculate_expense_ratio r inc exp month) st
                     Pd.ValueError)
  /\ (forall expense_cats month,
         Exec.raises
           (Analysis.sum_expenses_by_category r expense_cats month) st
           Pd.ValueError).
Proof.
  intros E Em Lv N. split; [| split; [| split]]; intros.
  - unfold Analysis.compute_cashflow.
    eapply metric_raises; eauto.
  - unfold Analysis.compute_profit.
    eapply metric_raises; eauto.
  - unfold Analysis.calculate_expense_ratio.
    eapply metric_raises; eauto.
  - eapply sum_expenses_raises; eauto.
Qed.

Lemma one_unreadable_value_witness :
  Exec.raises
    (Analysis.compute_profit (H := Fragment.runtime) 0 ["Rent"] ["Food"]
                             "March")
    (Fixture.store_of Fixture.malformed_value) Pd.ValueError.
Proof.
  apply (proj1 (proj2 (@one_unreadable_value Fragment.runtime
                         (Fixture.store_of Fixture.malformed_value) 0
                         Fixture.malformed_value (Fixture.strings ["abc"])
                         eq_refl eq_refl eq_refl
                         ltac:(vm_compute; reflexivity)))).
Defined.
